(** * Digital Reference Material Document generator

    A shallow embedding of the unit converter, the extraction normalizer,
    the XML codec and the export validator, with the properties of the
    specification stated over it.

    Conventions of the embedding.
    - A JavaScript string is the list of its UTF-16 code units
      ([jsstring]); string literals of the sources are written [js "..."],
      which decodes the UTF-8 text of the literal.
    - A JavaScript number used as a measurement value is an IEEE-754
      binary64 value ([SpecFloat.spec_float] at precision 53); a number
      used as a count (years, months) is an integer, on which the
      arithmetic rounds as binary64 does ([JsCount]) and which is written
      as [toString] writes the Number ([XmlGenerator.Z_text]).
    - [undefined]/[null] is [None]; [x || d] on strings is [or_str].
    - An object used as a dictionary is an association list in insertion
      order that holds its own entries; the lookup of a name that every
      object inherits from [Object.prototype] ([Js.inherited]) is outside
      the model, and what is stated about lookups excludes those names.
    - The XML text is kept as markup ([Markup.t]): elements, and
      character data as written.  The XML reader ([DOMParser]) reads
      character data as XML 1.0 has it, and says nothing of a text it
      does not follow. *)

From Stdlib Require Import String Ascii List ZArith NArith Bool Lia.
From Stdlib Require Import SpecFloat DecimalN Permutation.
Import ListNotations.

(* ================================================================== *)
(** * JavaScript strings *)
(* ================================================================== *)

Module Js.

Local Open Scope N_scope.

Definition jsstring := list N.

(** UTF-8 text of a literal to UTF-16 code units. *)
Fixpoint utf16_of_bytes (bs : list N) : jsstring :=
  match bs with
  | [] => []
  | b0 :: r0 =>
    if b0 <? 128 then b0 :: utf16_of_bytes r0
    else match r0 with
    | [] => [b0]
    | b1 :: r1 =>
      if b0 <? 224 then ((b0 - 192) * 64 + (b1 - 128)) :: utf16_of_bytes r1
      else match r1 with
      | [] => [b0; b1]
      | b2 :: r2 =>
        if b0 <? 240
        then ((b0 - 224) * 4096 + (b1 - 128) * 64 + (b2 - 128)) :: utf16_of_bytes r2
        else match r2 with
        | [] => [b0; b1; b2]
        | b3 :: r3 =>
          let cp := (b0 - 240) * 262144 + (b1 - 128) * 4096
                    + (b2 - 128) * 64 + (b3 - 128) in
          (55296 + (cp - 65536) / 1024) :: (56320 + (cp - 65536) mod 1024)
            :: utf16_of_bytes r3
        end
      end
    end
  end.

Definition js (s : string) : jsstring :=
  utf16_of_bytes (map N_of_ascii (list_ascii_of_string s)).

Fixpoint eqb (a b : jsstring) : bool :=
  match a, b with
  | [], [] => true
  | x :: a', y :: b' => (x =? y) && eqb a' b'
  | _, _ => false
  end.

(** [s.length] *)
Definition length (s : jsstring) : nat := List.length s.

(** Truthiness of a string: non-empty. *)
Definition truthy (s : jsstring) : bool :=
  match s with [] => false | _ => true end.

(** [x || d] where [x] is a possibly absent string. *)
Definition or_str (x : option jsstring) (d : jsstring) : jsstring :=
  match x with
  | Some s => if truthy s then s else d
  | None => d
  end.

(** ** Character classes *)

(** [\s]: WhiteSpace and LineTerminator of ECMAScript. *)
Definition is_ws (c : N) : bool :=
  ((9 <=? c) && (c <=? 13)) || (c =? 32) || (c =? 160) || (c =? 5760)
  || ((8192 <=? c) && (c <=? 8202)) || (c =? 8232) || (c =? 8233)
  || (c =? 8239) || (c =? 8287) || (c =? 12288) || (c =? 65279).

(** Line terminators, the characters [.] does not match. *)
Definition is_line_term (c : N) : bool :=
  (c =? 10) || (c =? 13) || (c =? 8232) || (c =? 8233).

(** [\d] *)
Definition is_digit (c : N) : bool := (48 <=? c) && (c <=? 57).

Definition is_lower_az (c : N) : bool := (97 <=? c) && (c <=? 122).

(** ** Trimming and case *)

Fixpoint trimStart (s : jsstring) : jsstring :=
  match s with
  | c :: r => if is_ws c then trimStart r else s
  | [] => []
  end.

Definition trimEnd (s : jsstring) : jsstring := rev (trimStart (rev s)).

Definition trim (s : jsstring) : jsstring := trimEnd (trimStart s).

(** Lower-case mapping of one code unit: the Basic Latin, Latin-1 and
    Greek capitals and the letter-like unit signs (ohm, kelvin,
    angstrom); every other code unit is left as it is. *)
Definition lower_unit (c : N) : N :=
  if (65 <=? c) && (c <=? 90) then c + 32
  else if (192 <=? c) && (c <=? 222) && negb (c =? 215) then c + 32
  else if (913 <=? c) && (c <=? 939) && negb (c =? 930) then c + 32
  else if c =? 8486 then 969
  else if c =? 8490 then 107
  else if c =? 8491 then 229
  else c.

(** The capital I with a dot above becomes [i] and the combining dot. *)
Definition lower_units (c : N) : jsstring :=
  if c =? 304 then [105; 775] else [lower_unit c].

Definition toLowerCase (s : jsstring) : jsstring := flat_map lower_units s.

(** ** Searching *)

Fixpoint startsWith (s p : jsstring) : bool :=
  match p, s with
  | [], _ => true
  | x :: p', y :: s' => (x =? y) && startsWith s' p'
  | _ :: _, [] => false
  end.

Fixpoint includes (s p : jsstring) : bool :=
  startsWith s p ||
  match s with
  | [] => false
  | _ :: s' => includes s' p
  end.

(** [s.replace(/[^...]/g, '')]: keep the code units of a class. *)
Definition keep (cls : N -> bool) (s : jsstring) : jsstring := filter cls s.

(** [s.replace(/\s+/g, '')] *)
Definition remove_ws (s : jsstring) : jsstring := filter (fun c => negb (is_ws c)) s.

(** [s.replace(/c/g, r)] for a single code unit [c]. *)
Definition replace_unit (c : N) (r : jsstring) (s : jsstring) : jsstring :=
  flat_map (fun x => if x =? c then r else [x]) s.

(** [s.replace(/ab/g, r)] for a two-unit pattern [a b]. *)
Fixpoint replace_pair (a b : N) (r : jsstring) (s : jsstring) : jsstring :=
  match s with
  | [] => []
  | x :: s1 =>
    match s1 with
    | y :: s2 =>
      if (x =? a) && (y =? b) then r ++ replace_pair a b r s2
      else x :: replace_pair a b r s1
    | [] => [x]
    end
  end.

(** ** Object literals used as tables

    An object literal answers also to the names of the members every
    object inherits from [Object.prototype].  The tables of the model
    hold their own entries only: a lookup of one of these names is
    outside of it. *)
Definition inherited (k : jsstring) : bool :=
  existsb (eqb k)
    (map js [ "constructor"; "__defineGetter__"; "__defineSetter__";
              "hasOwnProperty"; "__lookupGetter__"; "__lookupSetter__";
              "isPrototypeOf"; "propertyIsEnumerable"; "toString"; "valueOf";
              "__proto__"; "toLocaleString" ]%string).

End Js.

Abbreviation jsstring := Js.jsstring.
Abbreviation js := Js.js.

(* ================================================================== *)
(** * JavaScript numbers *)
(* ================================================================== *)

Module JsNumber.

Import Js.
Local Open Scope Z_scope.

(** A Number is a binary64 value. *)
Definition number := spec_float.
Definition prec : Z := 53.
Definition emax : Z := 1024.

Definition NaN : number := S754_nan.
Definition mul : number -> number -> number := SFmul prec emax.
Definition isNaN (x : number) : bool :=
  match x with S754_nan => true | _ => false end.

(** [x === y] on numbers. *)
Definition strict_eqb (x y : number) : bool := SFeqb x y.

(** Same binary64 datum. *)
Definition same (x y : number) : bool :=
  match x, y with
  | S754_nan, S754_nan => true
  | S754_zero a, S754_zero b => Bool.eqb a b
  | S754_infinity a, S754_infinity b => Bool.eqb a b
  | S754_finite a m e, S754_finite b m' e' =>
    Bool.eqb a b && Pos.eqb m m' && (e =? e')
  | _, _ => false
  end.

(** ** Decimal digits *)

Fixpoint digits_of_uint (u : Decimal.uint) : jsstring :=
  match u with
  | Decimal.Nil => []
  | Decimal.D0 u => 48%N :: digits_of_uint u
  | Decimal.D1 u => 49%N :: digits_of_uint u
  | Decimal.D2 u => 50%N :: digits_of_uint u
  | Decimal.D3 u => 51%N :: digits_of_uint u
  | Decimal.D4 u => 52%N :: digits_of_uint u
  | Decimal.D5 u => 53%N :: digits_of_uint u
  | Decimal.D6 u => 54%N :: digits_of_uint u
  | Decimal.D7 u => 55%N :: digits_of_uint u
  | Decimal.D8 u => 56%N :: digits_of_uint u
  | Decimal.D9 u => 57%N :: digits_of_uint u
  end.

Fixpoint uint_of_digits (s : jsstring) : Decimal.uint :=
  match s with
  | [] => Decimal.Nil
  | c :: r =>
    let u := uint_of_digits r in
    if (c =? 48)%N then Decimal.D0 u else if (c =? 49)%N then Decimal.D1 u
    else if (c =? 50)%N then Decimal.D2 u else if (c =? 51)%N then Decimal.D3 u
    else if (c =? 52)%N then Decimal.D4 u else if (c =? 53)%N then Decimal.D5 u
    else if (c =? 54)%N then Decimal.D6 u else if (c =? 55)%N then Decimal.D7 u
    else if (c =? 56)%N then Decimal.D8 u else if (c =? 57)%N then Decimal.D9 u
    else Decimal.Nil
  end.

(** Decimal text of a non-negative integer, [String(n)]. *)
Definition digits_of_N (n : N) : jsstring := digits_of_uint (N.to_uint n).

(** Value of a run of decimal digits. *)
Definition N_of_digits (s : jsstring) : N := N.of_uint (uint_of_digits s).

Definition zeros (n : Z) : jsstring := repeat 48%N (Z.to_nat n).

(** The longest leading run of decimal digits and what follows it. *)
Fixpoint span_digits (s : jsstring) : jsstring * jsstring :=
  match s with
  | c :: r =>
    if is_digit c then let (d, t) := span_digits r in (c :: d, t) else ([], s)
  | [] => ([], [])
  end.

(** ** Reading decimal literals *)

Definition cond_Zopp (b : bool) (z : Z) : Z := if b then - z else z.

(** The Number value of [(-1)^neg * m * 10^e], correctly rounded. *)
Definition of_decimal (neg : bool) (m : N) (e : Z) : number :=
  match m with
  | N0 => S754_zero neg
  | Npos p =>
    let nd := Z.of_nat (List.length (digits_of_N m)) in
    if 400 <? e + nd then S754_infinity neg
    else if e + nd <? -400 then S754_zero neg
    else if 0 <=? e
    then binary_normalize prec emax (cond_Zopp neg (Zpos p * 10 ^ e)) 0 neg
    else SFdiv prec emax (S754_finite neg p 0)
                         (S754_finite false (Z.to_pos (10 ^ (- e))) 0)
  end.

Inductive scanned :=
| ScanNone
| ScanInfinity (neg : bool) (rest : jsstring)
| ScanDecimal (neg : bool) (mant : N) (exp : Z) (rest : jsstring).

(** ExponentPart, when present and complete. *)
Definition scan_exponent (s : jsstring) : Z * jsstring :=
  match s with
  | c :: r =>
    if ((c =? 101) || (c =? 69))%N then
      let '(neg, r1) :=
        match r with
        | c1 :: r' =>
          if (c1 =? 43)%N then (false, r')
          else if (c1 =? 45)%N then (true, r') else (false, r)
        | [] => (false, r)
        end in
      let (d, t) := span_digits r1 in
      match d with
      | [] => (0, s)
      | _ => (cond_Zopp neg (Z.of_N (N_of_digits d)), t)
      end
    else (0, s)
  | [] => (0, s)
  end.

(** The longest prefix that is a StrDecimalLiteral. *)
Definition scan_number (s : jsstring) : scanned :=
  let '(neg, s1) :=
    match s with
    | c :: r =>
      if (c =? 43)%N then (false, r)
      else if (c =? 45)%N then (true, r) else (false, s)
    | [] => (false, s)
    end in
  if startsWith s1 (js "Infinity") then ScanInfinity neg (skipn 8 s1)
  else
    let (ip, s2) := span_digits s1 in
    let '(fp, s3) :=
      match s2 with
      | c :: r => if (c =? 46)%N then span_digits r else ([], s2)
      | [] => ([], s2)
      end in
    match ip ++ fp with
    | [] => ScanNone
    | ds =>
      let (e, s4) := scan_exponent s3 in
      ScanDecimal neg (N_of_digits ds) (e - Z.of_nat (List.length fp)) s4
    end.

(** [parseFloat(s)] *)
Definition parseFloat (s : jsstring) : number :=
  match scan_number (trimStart s) with
  | ScanNone => NaN
  | ScanInfinity neg _ => S754_infinity neg
  | ScanDecimal neg m e _ => of_decimal neg m e
  end.

(** [Number(s)] on decimal text (the radix-prefixed forms are not read). *)
Definition Number (s : jsstring) : number :=
  match trim s with
  | [] => S754_zero false
  | t =>
    match scan_number t with
    | ScanInfinity neg [] => S754_infinity neg
    | ScanDecimal neg m e [] => of_decimal neg m e
    | _ => NaN
    end
  end.

(** ** Writing numbers *)

(** Exact value [num/den] of the finite positive datum [m * 2^e]. *)
Definition frac_of (m : positive) (e : Z) : Z * Z :=
  if 0 <=? e then (Zpos m * 2 ^ e, 1) else (Zpos m, 2 ^ (- e)).

Definition ndigits (z : Z) : Z :=
  Z.of_nat (List.length (digits_of_N (Z.to_N z))).

(** The [e] with [10^e <= num/den < 10^(e+1)]. *)
Definition decimal_exponent (num den : Z) : Z :=
  if den <=? num then ndigits (num / den) - 1
  else
    let d := ndigits (den / num) in
    if num * 10 ^ (d - 1) =? den then - (d - 1) else - d.

(** [(a, b)] with [a/b = num/den * 10^k]. *)
Definition scaled (num den k : Z) : Z * Z :=
  if 0 <=? k then (num * 10 ^ k, den) else (num, den * 10 ^ (- k)).

Definition sign_text (s : bool) : jsstring := if s then js "-" else [].

Definition exponent_text (e : Z) : jsstring :=
  js "e" ++ (if 0 <=? e then js "+" else js "-") ++ digits_of_N (Z.abs_N e).

(** [x.toPrecision(p)] *)
Definition toPrecision (x : number) (p : Z) : jsstring :=
  match x with
  | S754_nan => js "NaN"
  | S754_infinity s => sign_text s ++ js "Infinity"
  | S754_zero _ => js "0" ++ (if 1 <? p then js "." ++ zeros (p - 1) else [])
  | S754_finite s m e =>
    let '(num, den) := frac_of m e in
    let e0 := decimal_exponent num den in
    let '(a, b) := scaled num den (p - 1 - e0) in
    let n0 := (2 * a + b) / (2 * b) in
    let '(n, e10) := if 10 ^ p <=? n0 then (n0 / 10, e0 + 1) else (n0, e0) in
    let ds := digits_of_N (Z.to_N n) in
    sign_text s ++
    (if (e10 <? -6) || (p <=? e10) then
       match ds with
       | d :: r => (if 1 <? p then d :: 46%N :: r else [d]) ++ exponent_text e10
       | [] => []
       end
     else if e10 =? p - 1 then ds
     else if 0 <=? e10
     then firstn (Z.to_nat (e10 + 1)) ds ++ js "." ++ skipn (Z.to_nat (e10 + 1)) ds
     else js "0." ++ zeros (- (e10 + 1)) ++ ds)
  end.

(** The shortest digit string [s] of [k] digits, [k] from the given one
    upwards, with [s * 10^(n-k)] reading back as [x]; [n] is adjusted
    when the digits are those of a power of ten. *)
Fixpoint shortest (fuel : nat) (k : Z) (x : number) (num den n : Z)
  : jsstring * Z :=
  match fuel with
  | O => ([], n)
  | S fuel' =>
    let '(a, b) := scaled num den (k - n) in
    let lo := a / b in
    let hi := lo + 1 in
    let ok_lo := same (of_decimal false (Z.to_N lo) (n - k)) x in
    let ok_hi := same (of_decimal false (Z.to_N hi) (n - k)) x in
    let take_lo := (digits_of_N (Z.to_N lo), n) in
    let take_hi :=
      if hi =? 10 ^ k then (js "1", n + 1) else (digits_of_N (Z.to_N hi), n) in
    if ok_lo && ok_hi then
      match 2 * (a - lo * b) ?= b with
      | Lt => take_lo
      | Gt => take_hi
      | Eq => if Z.even lo then take_lo else take_hi
      end
    else if ok_lo then take_lo
    else if ok_hi then take_hi
    else shortest fuel' (k + 1) x num den n
  end.

(** The Number nearest to an integer. *)
Definition of_Z (z : Z) : number := binary_normalize prec emax z 0 false.

(** [x.toString()], also [String(x)]. *)
Definition toString (x : number) : jsstring :=
  match x with
  | S754_nan => js "NaN"
  | S754_zero _ => js "0"
  | S754_infinity s => sign_text s ++ js "Infinity"
  | S754_finite s m e =>
    let '(num, den) := frac_of m e in
    let n0 := decimal_exponent num den + 1 in
    let '(ds, n) := shortest 17 1 (S754_finite false m e) num den n0 in
    let k := Z.of_nat (List.length ds) in
    sign_text s ++
    (if (k <=? n) && (n <=? 21) then ds ++ zeros (n - k)
     else if (0 <? n) && (n <=? 21)
     then firstn (Z.to_nat n) ds ++ js "." ++ skipn (Z.to_nat n) ds
     else if (-6 <? n) && (n <=? 0) then js "0." ++ zeros (- n) ++ ds
     else
       match ds with
       | [d] => [d] ++ exponent_text (n - 1)
       | d :: r => d :: 46%N :: r ++ exponent_text (n - 1)
       | [] => []
       end)
  end.

End JsNumber.

(** ** Counts

    A count (years, months) is an integer held in a Number.  Every
    integer of magnitude below [2^53] is a Number, and a sum or a
    product that stays in that range is exact; a larger result is the
    nearest Number, with the even significand on a tie.  The operations
    below are those of Numbers on integer operands, with that rounding
    written out; from [2^1024] on a Number is infinite, which no count
    of the model is. *)
Module JsCount.

Local Open Scope Z_scope.

(** The integer nearest to [a / b], for [0 <= a] and [0 < b]; the even
    one when [a / b] is half-way. *)
Definition nearest (a b : Z) : Z :=
  let q := a / b in
  match 2 * (a mod b) ?= b with
  | Lt => q
  | Gt => q + 1
  | Eq => if Z.even q then q else q + 1
  end.

(** The Number nearest to the integer [z]: 53 significant bits. *)
Definition round53 (z : Z) : Z :=
  let a := Z.abs z in
  let e := Z.log2 a - 52 in
  if e <=? 0 then z else Z.sgn z * (nearest a (2 ^ e) * 2 ^ e).

(** [x * y] and [x + y] *)
Definition mul (x y : Z) : Z := round53 (x * y).
Definition add (x y : Z) : Z := round53 (x + y).

(** [Math.floor(x / y)] for [0 < y]: the quotient, as a Number of 53
    significant bits, then its floor.  [E] is the binary exponent of
    the quotient, [2^E <= |x| / y < 2^(E+1)]. *)
Definition floor_div (x y : Z) : Z :=
  if x =? 0 then 0
  else
    let a := Z.abs x in
    let e0 := Z.log2 a - Z.log2 y in
    let E :=
      if (if 0 <=? e0 then y * 2 ^ e0 <=? a else y <=? a * 2 ^ (- e0))
      then e0 else e0 - 1 in
    let shift := 52 - E in
    if 0 <=? shift
    then (Z.sgn x * nearest (a * 2 ^ shift) y) / 2 ^ shift
    else Z.sgn x * (nearest a (y * 2 ^ (- shift)) * 2 ^ (- shift)).

(** [x % y] on integers, which is exact. *)
Definition rem (x y : Z) : Z := Z.rem x y.

End JsCount.

(* ================================================================== *)
(** * Unit converter *)
(* ================================================================== *)

(** [interface DsiConversion] *)
Module DsiConversion.
Record t := { dsiUnit : jsstring; factor : JsNumber.number }.
End DsiConversion.

(** What both revisions of [unitConverter.ts] share: the result shape,
    the normalisation of the unit text and the table lookup. *)
Module UnitLookup.

Import Js JsNumber.
Local Open Scope N_scope.

(** The [value] argument: [string | number]. *)
Inductive value :=
| VString (s : jsstring)
| VNumber (x : number).

(** [String(value)] *)
Definition String (v : value) : jsstring :=
  match v with
  | VString s => s
  | VNumber x => toString x
  end.

Record DsiResult := { dsiValue : jsstring; dsiUnit : jsstring }.

Definition empty_result : DsiResult := {| dsiValue := []; dsiUnit := [] |}.

Definition entry (key unit fac : string) : jsstring * DsiConversion.t :=
  (js key, {| DsiConversion.dsiUnit := js unit;
              DsiConversion.factor := Number (js fac) |}).

(** [/[iI]/], [/[nN]/] *)
Definition is_i (c : N) : bool := (c =? 105) || (c =? 73).
Definition is_n (c : N) : bool := (c =? 110) || (c =? 78).

(** [s.replace(/^\s*in\s+/i, '')] *)
Definition strip_in_prefix (s : jsstring) : jsstring :=
  match trimStart s with
  | c1 :: c2 :: c3 :: r =>
    if is_i c1 && is_n c2 && is_ws c3 then trimStart r else s
  | _ => s
  end.

(** [/[0-9.eE-]/] *)
Definition is_numeric_unit (c : N) : bool :=
  is_digit c || (c =? 46) || (c =? 101) || (c =? 69) || (c =? 45).

(** [s.replace(/[^0-9.eE-]/g, '')] *)
Definition numStr (s : jsstring) : jsstring := keep is_numeric_unit s.

(** The superscript rewriting of the fallback lookup. *)
Definition ascii_superscripts (s : jsstring) : jsstring :=
  replace_unit 179 (js "3")
    (replace_unit 178 (js "2")
      (replace_unit 185 (js "1")
        (replace_unit 8315 (js "-")
          (replace_pair 8315 185 (js "-1") s)))).

Section Lookup.

Variable UNIT_MAP : list (jsstring * DsiConversion.t).

(** [UNIT_MAP[k]] *)
Fixpoint get (m : list (jsstring * DsiConversion.t)) (k : jsstring)
  : option DsiConversion.t :=
  match m with
  | [] => None
  | (k', c) :: m' => if eqb k' k then Some c else get m' k
  end.

(** [Object.keys(UNIT_MAP).find(k => k.toLowerCase() === u.toLowerCase())]
    followed by the lookup of the key found. *)
Definition get_lower (u : jsstring) : option DsiConversion.t :=
  match find (fun kc => eqb (toLowerCase (fst kc)) (toLowerCase u)) UNIT_MAP with
  | Some (k, _) => if truthy k then get UNIT_MAP k else None
  | None => None
  end.

(** The normalised unit text. *)
Definition clean (unit : jsstring) : jsstring :=
  remove_ws (trim (strip_in_prefix unit)).

(** The conversion rule found for a cleaned unit, and the unit text as
    the search leaves it. *)
Definition resolve (cleanUnit : jsstring) : option DsiConversion.t * jsstring :=
  match get UNIT_MAP cleanUnit with
  | Some c => (Some c, cleanUnit)
  | None =>
    match get_lower cleanUnit with
    | Some c => (Some c, cleanUnit)
    | None =>
      let cleanUnit' := ascii_superscripts cleanUnit in
      match get UNIT_MAP cleanUnit' with
      | Some c => (Some c, cleanUnit')
      | None => (get_lower cleanUnit', cleanUnit')
      end
    end
  end.

End Lookup.

(** [Number(x.toPrecision(6)).toString()] *)
Definition six_digits (x : number) : jsstring :=
  toString (Number (toPrecision x 6)).

(** [f !== 1] *)
Definition is_one (f : number) : bool := strict_eqb f (Number (js "1")).

End UnitLookup.

(** ** [src/utils/unitConverter.ts] *)

Module UnitConverter.

Import Js JsNumber UnitLookup.

Definition UNIT_MAP : list (jsstring * DsiConversion.t) := [
    entry "%" "\one" "0.01";
    entry "percent" "\one" "0.01";
    entry "ppm" "\one" "1e-6";
    entry "ppb" "\one" "1e-9";
    entry "mg/kg" "\milli\gram\kilogram\tothe{-1}" "1";
    entry "mgkg-1" "\milli\gram\kilogram\tothe{-1}" "1";
    entry "mgkg⁻¹" "\milli\gram\kilogram\tothe{-1}" "1";
    entry "µg/kg" "\micro\gram\kilogram\tothe{-1}" "1";
    entry "ug/kg" "\micro\gram\kilogram\tothe{-1}" "1";
    entry "μg/kg" "\micro\gram\kilogram\tothe{-1}" "1";
    entry "µgkg-1" "\micro\gram\kilogram\tothe{-1}" "1";
    entry "ugkg-1" "\micro\gram\kilogram\tothe{-1}" "1";
    entry "µgkg⁻¹" "\micro\gram\kilogram\tothe{-1}" "1";
    entry "g/kg" "\gram\kilogram\tothe{-1}" "1";
    entry "gkg-1" "\gram\kilogram\tothe{-1}" "1";
    entry "gkg⁻¹" "\gram\kilogram\tothe{-1}" "1";
    entry "mg/g" "\milli\gram\gram\tothe{-1}" "1";
    entry "mgg-1" "\milli\gram\gram\tothe{-1}" "1";
    entry "ug/g" "\micro\gram\gram\tothe{-1}" "1";
    entry "µg/g" "\micro\gram\gram\tothe{-1}" "1";
    entry "μg/g" "\micro\gram\gram\tothe{-1}" "1";
    entry "g/100g" "\gram\hecto\gram\tothe{-1}" "1";
    entry "m2/g" "\metre\tothe{2}\gram\tothe{-1}" "1";
    entry "m²/g" "\metre\tothe{2}\gram\tothe{-1}" "1";
    entry "cm2/g" "\centi\metre\tothe{2}\gram\tothe{-1}" "1";
    entry "cm²/g" "\centi\metre\tothe{2}\gram\tothe{-1}" "1";
    entry "mg" "\milli\gram" "1e-6";
    entry "g" "\gram" "0.001";
    entry "kg" "\kilogram" "1";
    entry "ug" "\micro\gram" "1e-9";
    entry "µg" "\micro\gram" "1e-9";
    entry "μg" "\micro\gram" "1e-9";
    entry "lb" "\kilogram" "0.45359237";
    entry "oz" "\kilogram" "0.02834959";
    entry "t" "\tonne" "1000";
    entry "nm" "\nano\metre" "1e-9";
    entry "µm" "\micro\metre" "1e-6";
    entry "μm" "\micro\metre" "1e-6";
    entry "um" "\micro\metre" "1e-6";
    entry "mm" "\milli\metre" "0.001";
    entry "cm" "\centi\metre" "0.01";
    entry "m" "\metre" "1";
    entry "km" "\kilo\metre" "1000";
    entry "inch" "\metre" "0.0254";
    entry "in" "\metre" "0.0254";
    entry "ft" "\metre" "0.3048";
    entry "mi" "\metre" "1609.344";
    entry "m2" "\metre\tothe{2}" "1";
    entry "m²" "\metre\tothe{2}" "1";
    entry "cm2" "\centi\metre\tothe{2}" "0.0001";
    entry "cm²" "\centi\metre\tothe{2}" "0.0001";
    entry "g/cm3" "\gram\centi\metre\tothe{-3}" "1";
    entry "g/cm³" "\gram\centi\metre\tothe{-3}" "1";
    entry "°C" "\degreecelsius" "1";
    entry "C" "\degreecelsius" "1";
    entry "K" "\kelvin" "1";
    entry "h" "\hour" "3600";
    entry "min" "\minute" "60";
    entry "s" "\second" "1";
    entry "L" "\litre" "0.001";
    entry "l" "\litre" "0.001";
    entry "mL" "\milli\litre" "1e-6";
    entry "ml" "\milli\litre" "1e-6";
    entry "Pa" "\pascal" "1";
    entry "bar" "\pascal" "100000";
    entry "mbar" "\pascal" "100";
    entry "hPa" "\pascal" "100"
  ].

Definition convertToDSI (value : option UnitLookup.value) (unit : option jsstring)
  : DsiResult :=
  match value with
  | None => empty_result
  | Some value =>
    let valStr := String value in
    match unit with
    | None => empty_result
    | Some safeUnit =>
      let conversion := fst (resolve UNIT_MAP (clean safeUnit)) in
      let numStr := numStr valStr in
      let numValue := parseFloat numStr in
      match conversion with
      | Some conversion =>
        if negb (isNaN numValue) then
          let finalValue := mul numValue (DsiConversion.factor conversion) in
          let formattedValue :=
            if negb (is_one (DsiConversion.factor conversion))
            then six_digits finalValue
            else numStr in
          {| dsiValue := formattedValue;
             dsiUnit := DsiConversion.dsiUnit conversion |}
        else empty_result
      | None => empty_result
      end
    end
  end.

End UnitConverter.

(** ** The later revision of [unitConverter.ts] ([src/unnamed/part_002]) *)

Module UnitConverterRev.

Import Js JsNumber UnitLookup.

Definition UNIT_MAP : list (jsstring * DsiConversion.t) := [
    entry "%" "\percent" "1";
    entry "percent" "\percent" "1";
    entry "ppm" "\one" "1e-6";
    entry "ppb" "\one" "1e-9";
    entry "one" "\one" "1";
    entry "/one" "\one" "1";
    entry "\one" "\one" "1";
    entry "mg/kg" "\milli\gram\kilogram\tothe{-1}" "1";
    entry "mgkg-1" "\milli\gram\kilogram\tothe{-1}" "1";
    entry "mgkg⁻¹" "\milli\gram\kilogram\tothe{-1}" "1";
    entry "µg/kg" "\micro\gram\kilogram\tothe{-1}" "1";
    entry "ug/kg" "\micro\gram\kilogram\tothe{-1}" "1";
    entry "μg/kg" "\micro\gram\kilogram\tothe{-1}" "1";
    entry "µgkg-1" "\micro\gram\kilogram\tothe{-1}" "1";
    entry "ugkg-1" "\micro\gram\kilogram\tothe{-1}" "1";
    entry "µgkg⁻¹" "\micro\gram\kilogram\tothe{-1}" "1";
    entry "g/kg" "\gram\kilogram\tothe{-1}" "1";
    entry "gkg-1" "\gram\kilogram\tothe{-1}" "1";
    entry "gkg⁻¹" "\gram\kilogram\tothe{-1}" "1";
    entry "mg/g" "\milli\gram\gram\tothe{-1}" "1";
    entry "mgg-1" "\milli\gram\gram\tothe{-1}" "1";
    entry "ug/g" "\micro\gram\gram\tothe{-1}" "1";
    entry "µg/g" "\micro\gram\gram\tothe{-1}" "1";
    entry "μg/g" "\micro\gram\gram\tothe{-1}" "1";
    entry "g/100g" "\gram\hecto\gram\tothe{-1}" "1";
    entry "m2/g" "\metre\tothe{2}\gram\tothe{-1}" "1";
    entry "m²/g" "\metre\tothe{2}\gram\tothe{-1}" "1";
    entry "cm2/g" "\centi\metre\tothe{2}\gram\tothe{-1}" "1";
    entry "cm²/g" "\centi\metre\tothe{2}\gram\tothe{-1}" "1";
    entry "mg" "\milli\gram" "1";
    entry "g" "\gram" "1";
    entry "kg" "\kilogram" "1";
    entry "ug" "\micro\gram" "1";
    entry "µg" "\micro\gram" "1";
    entry "μg" "\micro\gram" "1";
    entry "lb" "\kilogram" "0.45359237";
    entry "oz" "\kilogram" "0.02834959";
    entry "t" "\tonne" "1000";
    entry "nm" "\nano\metre" "1";
    entry "µm" "\micro\metre" "1";
    entry "μm" "\micro\metre" "1";
    entry "um" "\micro\metre" "1";
    entry "mm" "\milli\metre" "1";
    entry "cm" "\centi\metre" "1";
    entry "m" "\metre" "1";
    entry "km" "\kilo\metre" "1";
    entry "inch" "\metre" "0.0254";
    entry "in" "\metre" "0.0254";
    entry "ft" "\metre" "0.3048";
    entry "mi" "\metre" "1609.344";
    entry "m2" "\metre\tothe{2}" "1";
    entry "m²" "\metre\tothe{2}" "1";
    entry "cm2" "\centi\metre\tothe{2}" "1";
    entry "cm²" "\centi\metre\tothe{2}" "1";
    entry "g/cm3" "\gram\centi\metre\tothe{-3}" "1";
    entry "g/cm³" "\gram\centi\metre\tothe{-3}" "1";
    entry "°C" "\degreecelsius" "1";
    entry "C" "\degreecelsius" "1";
    entry "K" "\kelvin" "1";
    entry "h" "\hour" "1";
    entry "min" "\minute" "1";
    entry "s" "\second" "1";
    entry "L" "\litre" "1";
    entry "l" "\litre" "1";
    entry "mL" "\milli\litre" "1";
    entry "ml" "\milli\litre" "1";
    entry "Pa" "\pascal" "1";
    entry "bar" "\pascal" "100000";
    entry "mbar" "\pascal" "100";
    entry "hPa" "\pascal" "100"
  ].

Definition convertToDSI (value : option UnitLookup.value) (unit : option jsstring)
  : DsiResult :=
  let valStr := match value with Some v => String v | None => [] end in
  match unit with
  | None => empty_result
  | Some safeUnit =>
    let '(conversion, cleanUnit) := resolve UNIT_MAP (clean safeUnit) in
    let target :=
      match conversion with
      | Some conversion =>
        Some (DsiConversion.dsiUnit conversion, DsiConversion.factor conversion)
      | None =>
        if startsWith cleanUnit (js "\") then Some (cleanUnit, Number (js "1"))
        else None
      end in
    match target with
    | None => empty_result
    | Some (dsiUnit, factor) =>
      let numValue := parseFloat (numStr valStr) in
      let dsiValue :=
        if negb (isNaN numValue) then
          if negb (is_one factor) then six_digits (mul numValue factor)
          else trim valStr
        else
          if is_one factor && (0 <? List.length (trim valStr))%nat
          then trim valStr
          else [] in
      {| dsiValue := dsiValue; dsiUnit := dsiUnit |}
    end
  end.

(** The number-then-unit pattern of [getDsiPreview] is embedded with the
    XML generator, which uses the same pattern. *)

End UnitConverterRev.

(* ================================================================== *)
(** * Document model ([types.ts]) *)
(* ================================================================== *)

(** A string field that is absent at run time ([undefined]) is kept as
    the empty string: the validator and the XML generator treat both the
    same way ([!x], [escapeXml(x)]).  Fields declared optional, and the
    boolean [isCertified] whose absence the generator prints, are
    options. *)

(** [[pageIndex, ymin, xmin, ymax, xmax]] on the 0-1000 scale. *)
Definition Box := list Z.

(** [HasCoordinates.fieldCoordinates] *)
Definition FieldCoordinates := list (jsstring * Box).

Module Identifier.
Record t := {
  scheme : jsstring;
  value : jsstring;
  link : option jsstring }.
End Identifier.

Module Address.
Record t := {
  street : jsstring;
  streetNo : jsstring;
  postCode : jsstring;
  city : jsstring;
  countryCode : jsstring }.
End Address.

Module Producer.
Record t := {
  uuid : jsstring;
  name : jsstring;
  email : jsstring;
  phone : jsstring;
  fax : option jsstring;
  address : Address.t;
  organizationIdentifiers : list Identifier.t;
  fieldCoordinates : option FieldCoordinates;
  sectionCoordinates : option Box }.
End Producer.

Module ResponsiblePerson.
Record t := {
  uuid : jsstring;
  name : jsstring;
  role : jsstring;
  description : jsstring;
  mainSigner : bool;
  cryptElectronicSeal : bool;
  cryptElectronicSignature : bool;
  cryptElectronicTimeStamp : bool;
  fieldCoordinates : option FieldCoordinates;
  sectionCoordinates : option Box }.
End ResponsiblePerson.

Module AdministrativeData.
Record t := {
  title : jsstring;
  uniqueIdentifier : jsstring;
  dataVersion : Z;
  documentIdentifiers : list Identifier.t;
  validityType : jsstring;
  durationY : Z;
  durationM : Z;
  dateOfIssue : jsstring;
  specificTime : jsstring;
  producers : list Producer.t;
  responsiblePersons : list ResponsiblePerson.t;
  fieldCoordinates : option FieldCoordinates;
  sectionCoordinates : option Box }.
End AdministrativeData.

Module Material.
Record t := {
  uuid : jsstring;
  name : jsstring;
  materialClass : jsstring;
  description : jsstring;
  itemQuantities : jsstring;
  minimumSampleSize : jsstring;
  isCertified : option bool;
  materialIdentifiers : list Identifier.t;
  fieldCoordinates : option FieldCoordinates;
  sectionCoordinates : option Box }.
End Material.

Module Quantity.
Record t := {
  uuid : jsstring;
  name : jsstring;
  label : option jsstring;
  value : jsstring;
  dsiValue : jsstring;
  dsiUnit : jsstring;
  quantityKind : option jsstring;
  unit : jsstring;
  uncertainty : jsstring;
  coverageFactor : jsstring;
  coverageProbability : jsstring;
  distribution : jsstring;
  identifiers : list Identifier.t;
  fieldCoordinates : option FieldCoordinates;
  sectionCoordinates : option Box }.
End Quantity.

Module MeasurementResult.
Record t := {
  uuid : jsstring;
  name : jsstring;
  description : jsstring;
  quantities : list Quantity.t;
  fieldCoordinates : option FieldCoordinates;
  sectionCoordinates : option Box }.
End MeasurementResult.

Module MaterialProperty.
Record t := {
  uuid : jsstring;
  id : jsstring;
  name : jsstring;
  isCertified : option bool;
  description : jsstring;
  procedures : jsstring;
  results : list MeasurementResult.t }.
End MaterialProperty.

Module OfficialStatements.
Record t := {
  intendedUse : jsstring;
  commutability : jsstring;
  storageInformation : jsstring;
  handlingInstructions : jsstring;
  metrologicalTraceability : jsstring;
  healthAndSafety : jsstring;
  subcontractors : jsstring;
  legalNotice : jsstring;
  referenceToCertificationReport : jsstring;
  fieldCoordinates : option FieldCoordinates;
  sectionCoordinates : option Box }.
End OfficialStatements.

Module CustomStatement.
Record t := {
  uuid : jsstring;
  name : jsstring;
  content : jsstring }.
End CustomStatement.

Module Statements.
Record t := {
  official : OfficialStatements.t;
  custom : list CustomStatement.t }.
End Statements.

Module Comment.
Record t := {
  uuid : jsstring;
  author : jsstring;
  date : jsstring;
  content : jsstring }.
End Comment.

Module AdditionalDocument.
Record t := {
  uuid : jsstring;
  title : jsstring;
  type : jsstring;
  content : jsstring }.
End AdditionalDocument.

(** Modelled from the spec: the revision of [types.ts] that the XML codec
    imports is not among the sources.  The attached binary document the
    codec reads and writes ([data.binaryDocument], with the three fields
    the decoder fills in) and the free-form comment ([generalComment] of
    [DRMD] below) are the Document's "free-form comments/attachment". *)
Module BinaryDocument.
Record t := {
  fileName : jsstring;
  mimeType : jsstring;
  data : jsstring }.
End BinaryDocument.

Module DRMD.
Record t := {
  administrativeData : AdministrativeData.t;
  materials : list Material.t;
  properties : list MaterialProperty.t;
  statements : Statements.t;
  comments : list Comment.t;
  documents : list AdditionalDocument.t;
  generalComment : jsstring;
  binaryDocument : option BinaryDocument.t }.
End DRMD.

Module Types.


Definition ALLOWED_TITLES : list jsstring :=
  [ js "referenceMaterialCertificate";
    js "calibrationCertificate";
    js "measurementCertificate" ].

Definition INITIAL_ID : Identifier.t :=
  {| Identifier.scheme := []; Identifier.value := [];
     Identifier.link := Some [] |}.

Definition INITIAL_PRODUCER : Producer.t :=
  {| Producer.uuid := [];
     Producer.name := [];
     Producer.email := [];
     Producer.phone := [];
     Producer.fax := Some [];
     Producer.address :=
       {| Address.street := []; Address.streetNo := [];
          Address.postCode := []; Address.city := [];
          Address.countryCode := [] |};
     Producer.organizationIdentifiers := [INITIAL_ID];
     Producer.fieldCoordinates := None;
     Producer.sectionCoordinates := None |}.

Definition INITIAL_PERSON : ResponsiblePerson.t :=
  {| ResponsiblePerson.uuid := [];
     ResponsiblePerson.name := [];
     ResponsiblePerson.role := [];
     ResponsiblePerson.description := [];
     ResponsiblePerson.mainSigner := true;
     ResponsiblePerson.cryptElectronicSeal := false;
     ResponsiblePerson.cryptElectronicSignature := false;
     ResponsiblePerson.cryptElectronicTimeStamp := false;
     ResponsiblePerson.fieldCoordinates := None;
     ResponsiblePerson.sectionCoordinates := None |}.

Definition INITIAL_QUANTITY : Quantity.t :=
  {| Quantity.uuid := [];
     Quantity.name := [];
     Quantity.label := Some [];
     Quantity.value := [];
     Quantity.dsiValue := [];
     Quantity.dsiUnit := [];
     Quantity.quantityKind := Some [];
     Quantity.unit := [];
     Quantity.uncertainty := [];
     Quantity.coverageFactor := js "2.0";
     Quantity.coverageProbability := js "0.95";
     Quantity.distribution := js "normal";
     Quantity.identifiers := [];
     Quantity.fieldCoordinates := None;
     Quantity.sectionCoordinates := None |}.

Definition INITIAL_STATEMENTS : OfficialStatements.t :=
  {| OfficialStatements.intendedUse := [];
     OfficialStatements.commutability := [];
     OfficialStatements.storageInformation := [];
     OfficialStatements.handlingInstructions := [];
     OfficialStatements.metrologicalTraceability := [];
     OfficialStatements.healthAndSafety := [];
     OfficialStatements.subcontractors := [];
     OfficialStatements.legalNotice := [];
     OfficialStatements.referenceToCertificationReport := [];
     OfficialStatements.fieldCoordinates := None;
     OfficialStatements.sectionCoordinates := None |}.

(** [INITIAL_DRMD]; [today] is [new Date().toISOString().split('T')[0]]
    at the time the module is loaded. *)
Definition INITIAL_DRMD (today : jsstring) : DRMD.t :=
  {| DRMD.administrativeData :=
       {| AdministrativeData.title := js "referenceMaterialCertificate";
          AdministrativeData.uniqueIdentifier := [];
          AdministrativeData.dataVersion := 0;
          AdministrativeData.documentIdentifiers := [INITIAL_ID];
          AdministrativeData.validityType := js "Until Revoked";
          AdministrativeData.durationY := 0;
          AdministrativeData.durationM := 0;
          AdministrativeData.dateOfIssue := today;
          AdministrativeData.specificTime := today;
          AdministrativeData.producers := [INITIAL_PRODUCER];
          AdministrativeData.responsiblePersons := [INITIAL_PERSON];
          AdministrativeData.fieldCoordinates := None;
          AdministrativeData.sectionCoordinates := None |};
     DRMD.materials := [];
     DRMD.properties := [];
     DRMD.statements :=
       {| Statements.official := INITIAL_STATEMENTS;
          Statements.custom := [] |};
     DRMD.comments := [];
     DRMD.documents := [];
     DRMD.generalComment := [];
     DRMD.binaryDocument := None |}.

End Types.

(* ================================================================== *)
(** * Extraction payload *)
(* ================================================================== *)

(** The object returned by [extractStructuredDataFromPdf]: the shape of
    [RESPONSE_SCHEMA], every member optional ([None] when the member is
    missing from the JSON text). *)

Module PAddress.
Record t := {
  street : option jsstring;
  streetNo : option jsstring;
  postCode : option jsstring;
  city : option jsstring;
  countryCode : option jsstring }.
End PAddress.

Module PProducer.
Record t := {
  name : option jsstring;
  email : option jsstring;
  phone : option jsstring;
  fax : option jsstring;
  address : option PAddress.t;
  fieldCoordinates : option FieldCoordinates;
  sectionCoordinates : option Box }.
End PProducer.

Module PPerson.
Record t := {
  name : option jsstring;
  role : option jsstring;
  description : option jsstring;
  fieldCoordinates : option FieldCoordinates;
  sectionCoordinates : option Box }.
End PPerson.

Module PAdmin.
Record t := {
  title : option jsstring;
  uniqueIdentifier : option jsstring;
  validityType : option jsstring;
  durationY : option Z;
  durationM : option Z;
  dateOfIssue : option jsstring;
  specificTime : option jsstring;
  fieldCoordinates : option FieldCoordinates;
  producers : option (list PProducer.t);
  responsiblePersons : option (list PPerson.t) }.
End PAdmin.

Module PMaterial.
Record t := {
  name : option jsstring;
  description : option jsstring;
  minimumSampleSize : option jsstring;
  materialClass : option jsstring;
  itemQuantities : option jsstring;
  isCertified : option bool;
  fieldCoordinates : option FieldCoordinates;
  sectionCoordinates : option Box }.
End PMaterial.

Module PQuantity.
Record t := {
  name : option jsstring;
  value : option jsstring;
  unit : option jsstring;
  dsiValue : option jsstring;
  dsiUnit : option jsstring;
  uncertainty : option jsstring;
  coverageFactor : option jsstring;
  coverageProbability : option jsstring;
  distribution : option jsstring;
  fieldCoordinates : option FieldCoordinates }.
End PQuantity.

Module PResult.
Record t := {
  name : option jsstring;
  description : option jsstring;
  sectionCoordinates : option Box;
  quantities : option (list PQuantity.t) }.
End PResult.

Module PProperty.
Record t := {
  name : option jsstring;
  isCertified : option bool;
  description : option jsstring;
  procedures : option jsstring;
  results : option (list PResult.t) }.
End PProperty.

Module POfficial.
Record t := {
  intendedUse : option jsstring;
  storageInformation : option jsstring;
  handlingInstructions : option jsstring;
  metrologicalTraceability : option jsstring;
  healthAndSafety : option jsstring;
  subcontractors : option jsstring;
  legalNotice : option jsstring;
  referenceToCertificationReport : option jsstring;
  fieldCoordinates : option FieldCoordinates }.
End POfficial.

Module PStatements.
Record t := { official : option POfficial.t }.
End PStatements.

Module Payload.
Record t := {
  administrativeData : option PAdmin.t;
  materials : option (list PMaterial.t);
  properties : option (list PProperty.t);
  statements : option PStatements.t }.
End Payload.

(* ================================================================== *)
(** * Identifier generation *)
(* ================================================================== *)

(** [generateUUID()] draws from a supply; a computation that draws
    identifiers passes the position in the supply along. *)
Module Gen.

Definition t (A : Type) : Type := nat -> A * nat.

Definition ret {A} (a : A) : t A := fun n => (a, n).

Definition bind {A B} (m : t A) (k : A -> t B) : t B :=
  fun n => let (a, n') := m n in k a n'.

Fixpoint mapM {A B} (f : A -> t B) (l : list A) : t (list B) :=
  match l with
  | [] => ret []
  | a :: l' => bind (f a) (fun b => bind (mapM f l') (fun bs => ret (b :: bs)))
  end.

Definition eval {A} (m : t A) (seed : nat) : A := fst (m seed).

Definition uuid_text (n : nat) : jsstring :=
  (js "uuid-" ++ JsNumber.digits_of_N (N.of_nat n)).

Definition generateUUID : t jsstring := fun n => (uuid_text n, S n).

End Gen.

Notation "x <- m ;; k" := (Gen.bind m (fun x => k))
  (at level 61, m at next level, right associativity).

(* ================================================================== *)
(** * Extraction normalizer and validator ([App.tsx]) *)
(* ================================================================== *)

Module App.

Import Js.

(** An absent string member, kept as the empty string. *)
Definition str (o : option jsstring) : jsstring :=
  match o with Some s => s | None => [] end.

(** Truthiness of a possibly absent string. *)
Definition present (o : option jsstring) : bool :=
  match o with Some s => truthy s | None => false end.

(** [x || 0] *)
Definition or_zero (x : option Z) : Z :=
  match x with Some z => z | None => 0%Z end.

(** [xs || []] *)
Definition or_nil {A} (xs : option (list A)) : list A :=
  match xs with Some l => l | None => [] end.

(** [a ++ b] on strings. *)
Definition cat (a b : jsstring) : jsstring := (a ++ b)%list.

Definition newline : jsstring := [10%N].

(** ** Validity *)

Definition TimeAfterDispatch : jsstring := js "Time After Dispatch".
Definition SpecificTime : jsstring := js "Specific Time".
Definition UntilRevoked : jsstring := js "Until Revoked".

Definition is_validity (a : PAdmin.t) (v : jsstring) : bool :=
  match PAdmin.validityType a with
  | Some t => eqb t v
  | None => false
  end.

Definition with_duration (a : PAdmin.t) (y m : option Z) : PAdmin.t :=
  {| PAdmin.title := PAdmin.title a;
     PAdmin.uniqueIdentifier := PAdmin.uniqueIdentifier a;
     PAdmin.validityType := PAdmin.validityType a;
     PAdmin.durationY := y;
     PAdmin.durationM := m;
     PAdmin.dateOfIssue := PAdmin.dateOfIssue a;
     PAdmin.specificTime := PAdmin.specificTime a;
     PAdmin.fieldCoordinates := PAdmin.fieldCoordinates a;
     PAdmin.producers := PAdmin.producers a;
     PAdmin.responsiblePersons := PAdmin.responsiblePersons a |}.

(** "Normalize validity duration" *)
Definition normalizeDuration (a : PAdmin.t) : PAdmin.t :=
  if is_validity a TimeAfterDispatch then
    let rawY := or_zero (PAdmin.durationY a) in
    let rawM := or_zero (PAdmin.durationM a) in
    let totalMonths := JsCount.add (JsCount.mul rawY 12) rawM in
    if (0 <? totalMonths)%Z
    then with_duration a (Some (JsCount.floor_div totalMonths 12))
                         (Some (JsCount.rem totalMonths 12))
    else a
  else a.

(** ** Specific time *)

Definition is_leap (y : Z) : bool :=
  ((y mod 4 =? 0) && negb (y mod 100 =? 0) || (y mod 400 =? 0))%Z.

(** Days of the month of index [mi] (0 is January) in year [y]. *)
Definition days_in_month (y mi : Z) : Z :=
  (if mi =? 1 then (if is_leap y then 29 else 28)
   else if (mi =? 3) || (mi =? 5) || (mi =? 8) || (mi =? 10) then 30
   else 31)%Z.

(** [new Date(year, month, 0).getDate()] *)
Definition lastDay (year month : Z) : Z :=
  (let y0 := if (0 <=? year) && (year <=? 99) then 1900 + year else year in
   let m := month - 1 in
   days_in_month (y0 + m / 12) (m mod 12))%Z.

(** [/^(\d{1,2})\/(\d{4})$/] *)
Definition match_month_year (s : jsstring) : option (jsstring * jsstring) :=
  let all_digits l := forallb is_digit l in
  match s with
  | [m1; sl; y1; y2; y3; y4] =>
    if all_digits [m1; y1; y2; y3; y4] && (sl =? 47)%N
    then Some ([m1], [y1; y2; y3; y4]) else None
  | [m1; m2; sl; y1; y2; y3; y4] =>
    if all_digits [m1; m2; y1; y2; y3; y4] && (sl =? 47)%N
    then Some ([m1; m2], [y1; y2; y3; y4]) else None
  | _ => None
  end.

(** [s.padStart(2, '0')] *)
Definition padStart2 (s : jsstring) : jsstring :=
  match s with
  | [] => js "00"
  | [c] => [48%N; c]
  | _ => s
  end.

Definition with_specificTime (a : PAdmin.t) (s : option jsstring) : PAdmin.t :=
  {| PAdmin.title := PAdmin.title a;
     PAdmin.uniqueIdentifier := PAdmin.uniqueIdentifier a;
     PAdmin.validityType := PAdmin.validityType a;
     PAdmin.durationY := PAdmin.durationY a;
     PAdmin.durationM := PAdmin.durationM a;
     PAdmin.dateOfIssue := PAdmin.dateOfIssue a;
     PAdmin.specificTime := s;
     PAdmin.fieldCoordinates := PAdmin.fieldCoordinates a;
     PAdmin.producers := PAdmin.producers a;
     PAdmin.responsiblePersons := PAdmin.responsiblePersons a |}.

(** "Fix Specific Time MM/YYYY format to YYYY-MM-DD (End of Month)" *)
Definition fixSpecificTime (a : PAdmin.t) : PAdmin.t :=
  if is_validity a SpecificTime && present (PAdmin.specificTime a) then
    let raw := trim (str (PAdmin.specificTime a)) in
    match match_month_year raw with
    | Some (mm, yyyy) =>
      let month := JsNumber.N_of_digits mm in
      let year := JsNumber.N_of_digits yyyy in
      let last := lastDay (Z.of_N year) (Z.of_N month) in
      with_specificTime a
        (Some (JsNumber.digits_of_N year ++ js "-" ++ padStart2 mm ++ js "-"
               ++ JsNumber.digits_of_N (Z.to_N last))%list)
    | None => a
    end
  else a.

(** ** Producers' country *)

Definition in_berlin (city : jsstring) : bool :=
  includes (toLowerCase city) (js "berlin")
  || includes (toLowerCase city) (js "adlershof").

Definition city_of (p : PProducer.t) : jsstring :=
  match PProducer.address p with
  | Some a => or_str (PAddress.city a) []
  | None => []
  end.

Definition with_countryCode (a : PAddress.t) (c : jsstring) : PAddress.t :=
  {| PAddress.street := PAddress.street a;
     PAddress.streetNo := PAddress.streetNo a;
     PAddress.postCode := PAddress.postCode a;
     PAddress.city := PAddress.city a;
     PAddress.countryCode := Some c |}.

(** "Auto-fix for Berlin -> DE" on one extracted producer. *)
Definition fixCountry (p : PProducer.t) : PProducer.t :=
  if in_berlin (city_of p) then
    {| PProducer.name := PProducer.name p;
       PProducer.email := PProducer.email p;
       PProducer.phone := PProducer.phone p;
       PProducer.fax := PProducer.fax p;
       PProducer.address :=
         option_map (fun a => with_countryCode a (js "DE")) (PProducer.address p);
       PProducer.fieldCoordinates := PProducer.fieldCoordinates p;
       PProducer.sectionCoordinates := PProducer.sectionCoordinates p |}
  else p.

Definition fixCountries (a : PAdmin.t) : PAdmin.t :=
  {| PAdmin.title := PAdmin.title a;
     PAdmin.uniqueIdentifier := PAdmin.uniqueIdentifier a;
     PAdmin.validityType := PAdmin.validityType a;
     PAdmin.durationY := PAdmin.durationY a;
     PAdmin.durationM := PAdmin.durationM a;
     PAdmin.dateOfIssue := PAdmin.dateOfIssue a;
     PAdmin.specificTime := PAdmin.specificTime a;
     PAdmin.fieldCoordinates := PAdmin.fieldCoordinates a;
     PAdmin.producers := option_map (map fixCountry) (PAdmin.producers a);
     PAdmin.responsiblePersons := PAdmin.responsiblePersons a |}.

(** The three in-place corrections of the extracted administrative
    data, in the order of the source. *)
Definition correctAdmin (a : PAdmin.t) : PAdmin.t :=
  fixCountries (fixSpecificTime (normalizeDuration a)).

Definition correctPayload (x : option Payload.t) : option Payload.t :=
  option_map (fun x =>
    {| Payload.administrativeData :=
         option_map correctAdmin (Payload.administrativeData x);
       Payload.materials := Payload.materials x;
       Payload.properties := Payload.properties x;
       Payload.statements := Payload.statements x |}) x.

(** [cleanPostalCode] *)
Definition cleanPostalCode (pc : option jsstring) : jsstring :=
  match pc with
  | Some s => if truthy s then keep is_digit s else []
  | None => []
  end.

(** ** Property and result merging *)

(** [normalizeName] *)
Definition normalizeName (s : jsstring) : jsstring :=
  if truthy s
  then keep (fun c => is_lower_az c || is_digit c) (toLowerCase s)
  else [].

(** The table of canonical properties, in insertion order. *)
Definition PropertyMap := list (jsstring * PProperty.t).

Fixpoint lookup (m : PropertyMap) (k : jsstring) : option PProperty.t :=
  match m with
  | [] => None
  | (k', p) :: m' => if eqb k' k then Some p else lookup m' k
  end.

(** Replace the entry of an existing key. *)
Fixpoint update (m : PropertyMap) (k : jsstring) (f : PProperty.t -> PProperty.t)
  : PropertyMap :=
  match m with
  | [] => []
  | (k', p) :: m' =>
    if eqb k' k then (k', f p) :: m' else (k', p) :: update m' k f
  end.

Definition with_results (p : PProperty.t) (rs : list PResult.t) : PProperty.t :=
  {| PProperty.name := PProperty.name p;
     PProperty.isCertified := PProperty.isCertified p;
     PProperty.description := PProperty.description p;
     PProperty.procedures := PProperty.procedures p;
     PProperty.results := Some rs |}.

Definition clear_description (p : PProperty.t) : PProperty.t :=
  {| PProperty.name := PProperty.name p;
     PProperty.isCertified := PProperty.isCertified p;
     PProperty.description := Some [];
     PProperty.procedures := PProperty.procedures p;
     PProperty.results := PProperty.results p |}.

Definition with_description (r : PResult.t) (d : jsstring) : PResult.t :=
  {| PResult.name := PResult.name r;
     PResult.description := Some d;
     PResult.sectionCoordinates := PResult.sectionCoordinates r;
     PResult.quantities := PResult.quantities r |}.

Definition with_quantities (r : PResult.t) (qs : list PQuantity.t) : PResult.t :=
  {| PResult.name := PResult.name r;
     PResult.description := PResult.description r;
     PResult.sectionCoordinates := PResult.sectionCoordinates r;
     PResult.quantities := Some qs |}.

(** The footnote pattern: a run of digits and a closing parenthesis, or
    an asterisk, at the start of the text. *)
Definition isFootnote (propDesc : jsstring) : bool :=
  match propDesc with
  | [] => false
  | c :: _ =>
    (c =? 42)%N ||
    match JsNumber.span_digits propDesc with
    | (_ :: _, c' :: _) => (c' =? 41)%N
    | _ => false
    end
  end.

(** "Refined fragment check: Only merge if it looks like a unit header" *)
Definition isFragment (rName : jsstring) : bool :=
  includes rName (js "in mg/kg") || includes rName (js "in %")
  || eqb rName (js "mg/kg") || eqb rName (js "%") || eqb rName [].

(** One incoming result against the results the canonical property
    holds so far. *)
Definition mergeResult (results : list PResult.t) (r : PResult.t)
  : list PResult.t :=
  let rName := trim (toLowerCase (or_str (PResult.name r) [])) in
  match results with
  | first :: rest =>
    if isFragment rName then
      let first1 :=
        match PResult.quantities r with
        | Some qs => with_quantities first (or_nil (PResult.quantities first) ++ qs)
        | None => first
        end in
      let first2 :=
        if present (PResult.description r)
        then with_description first1
               (cat (cat (or_str (PResult.description first1) []) newline)
                    (str (PResult.description r)))
        else first1 in
      first2 :: rest
    else results ++ [r]
  | [] => [r]
  end.

(** The body of [(extractedData?.properties || []).forEach]. *)
Definition mergeProperty (propertyMap : PropertyMap) (p : PProperty.t)
  : PropertyMap :=
  let propName := or_str (PProperty.name p) (js "Material Properties") in
  let propKey := normalizeName propName in
  let map1 :=
    match lookup propertyMap propKey with
    | Some _ => propertyMap
    | None => propertyMap ++ [(propKey, with_results p [])]
    end in
  let propDesc := trim (or_str (PProperty.description p) []) in
  let footnote := isFootnote propDesc in
  let map2 := if footnote then update map1 propKey clear_description else map1 in
  match PProperty.results p with
  | Some results =>
    let results' :=
      match results with
      | r0 :: rest =>
        if footnote then
          with_description r0
            (cat (if present (PResult.description r0)
                  then cat (str (PResult.description r0)) newline else [])
                 propDesc) :: rest
        else results
      | [] => results
      end in
    fold_left
      (fun m r =>
         update m propKey
           (fun c => with_results c (mergeResult (or_nil (PProperty.results c)) r)))
      results' map2
  | None => map2
  end.

Definition mergeProperties (ps : list PProperty.t) : PropertyMap :=
  fold_left mergeProperty ps [].

(** A key that is an array index: the canonical decimal text of an
    integer below [2^32 - 1]. *)
Definition array_index (k : jsstring) : option N :=
  match k with
  | [] => None
  | c :: r =>
    if forallb is_digit k && (negb (c =? 48)%N || match r with [] => true | _ => false end)
    then let n := JsNumber.N_of_digits k in
         if (n <? 4294967295)%N then Some n else None
    else None
  end.

Fixpoint insert_index (e : N * PProperty.t) (l : list (N * PProperty.t))
  : list (N * PProperty.t) :=
  match l with
  | [] => [e]
  | e' :: l' => if (fst e <=? fst e')%N then e :: l else e' :: insert_index e l'
  end.

(** [Object.values(propertyMap)]: the entries under array-index keys in
    ascending numeric order, then the others in insertion order. *)
Definition Object_values (m : PropertyMap) : list PProperty.t :=
  let indexed :=
    fold_right
      (fun kp acc =>
         match array_index (fst kp) with
         | Some n => insert_index (n, snd kp) acc
         | None => acc
         end) [] m in
  let named :=
    filter (fun kp => match array_index (fst kp) with Some _ => false | None => true end) m in
  map snd indexed ++ map snd named.

(** ** Building the new entities *)

Import UnitLookup.

Definition starts_with_comparison (s : jsstring) : bool :=
  startsWith (trim s) (js "<") || startsWith (trim s) (js ">").

(** The quantity built from an extracted one and a fresh identifier. *)
Definition newQuantity (q : PQuantity.t) (uuid : jsstring) : Quantity.t :=
  let value0 := or_str (PQuantity.value q) [] in
  let uncertainty0 := or_str (PQuantity.uncertainty q) [] in
  let promote :=
    negb (truthy value0) && truthy uncertainty0 && starts_with_comparison uncertainty0 in
  let finalValue := if promote then uncertainty0 else value0 in
  let finalUncertainty := if promote then [] else uncertainty0 in
  let dsi := UnitConverter.convertToDSI (Some (VString finalValue)) (PQuantity.unit q) in
  {| Quantity.uuid := uuid;
     Quantity.name := str (PQuantity.name q);
     Quantity.label := None;
     Quantity.value := finalValue;
     Quantity.dsiValue := dsiValue dsi;
     Quantity.dsiUnit := dsiUnit dsi;
     Quantity.quantityKind := None;
     Quantity.unit := or_str (PQuantity.unit q) [];
     Quantity.uncertainty := finalUncertainty;
     Quantity.coverageFactor := or_str (PQuantity.coverageFactor q) (js "2.0");
     Quantity.coverageProbability := or_str (PQuantity.coverageProbability q) (js "0.95");
     Quantity.distribution := or_str (PQuantity.distribution q) (js "normal");
     Quantity.identifiers := [Types.INITIAL_ID];
     Quantity.fieldCoordinates := PQuantity.fieldCoordinates q;
     Quantity.sectionCoordinates := None |}.

Definition newResult (r : PResult.t) : Gen.t MeasurementResult.t :=
  qs <- Gen.mapM (fun q => uuid <- Gen.generateUUID ;; Gen.ret (newQuantity q uuid))
                 (or_nil (PResult.quantities r)) ;;
  let finalName :=
    match PResult.name r with
    | Some n => if truthy n && (1 <? Js.length n)%nat then n else js "Values"
    | None => js "Values"
    end in
  uuid <- Gen.generateUUID ;;
  Gen.ret {| MeasurementResult.uuid := uuid;
             MeasurementResult.name := finalName;
             MeasurementResult.description := str (PResult.description r);
             MeasurementResult.quantities := qs;
             MeasurementResult.fieldCoordinates := None;
             MeasurementResult.sectionCoordinates := PResult.sectionCoordinates r |}.

Definition newProperty (p : PProperty.t) : Gen.t MaterialProperty.t :=
  finalResults <- Gen.mapM newResult (or_nil (PProperty.results p)) ;;
  uuid <- Gen.generateUUID ;;
  Gen.ret {| MaterialProperty.uuid := uuid;
             MaterialProperty.id := [];
             MaterialProperty.name := str (PProperty.name p);
             MaterialProperty.isCertified := PProperty.isCertified p;
             MaterialProperty.description := str (PProperty.description p);
             MaterialProperty.procedures := str (PProperty.procedures p);
             MaterialProperty.results := finalResults |}.

Definition newMaterial (m : PMaterial.t) : Gen.t Material.t :=
  uuid <- Gen.generateUUID ;;
  Gen.ret {| Material.uuid := uuid;
             Material.name := str (PMaterial.name m);
             Material.materialClass := or_str (PMaterial.materialClass m) [];
             Material.description := str (PMaterial.description m);
             Material.itemQuantities := or_str (PMaterial.itemQuantities m) (js "1");
             Material.minimumSampleSize := or_str (PMaterial.minimumSampleSize m) [];
             Material.isCertified := PMaterial.isCertified m;
             Material.materialIdentifiers := [Types.INITIAL_ID];
             Material.fieldCoordinates := PMaterial.fieldCoordinates m;
             Material.sectionCoordinates := PMaterial.sectionCoordinates m |}.

Definition newProducer (p : PProducer.t) : Gen.t Producer.t :=
  let address_member f :=
    match PProducer.address p with Some a => f a | None => None end in
  let countryCode0 := or_str (address_member PAddress.countryCode) [] in
  let city := or_str (address_member PAddress.city) [] in
  let countryCode := if in_berlin city then js "DE" else countryCode0 in
  uuid <- Gen.generateUUID ;;
  Gen.ret {| Producer.uuid := uuid;
             Producer.name := str (PProducer.name p);
             Producer.email := str (PProducer.email p);
             Producer.phone := str (PProducer.phone p);
             Producer.fax := PProducer.fax p;
             Producer.address :=
               {| Address.street := str (address_member PAddress.street);
                  Address.streetNo := str (address_member PAddress.streetNo);
                  Address.postCode := cleanPostalCode (address_member PAddress.postCode);
                  Address.city := str (address_member PAddress.city);
                  Address.countryCode := countryCode |};
             Producer.organizationIdentifiers := [Types.INITIAL_ID];
             Producer.fieldCoordinates := PProducer.fieldCoordinates p;
             Producer.sectionCoordinates := PProducer.sectionCoordinates p |}.

Definition newPerson (p : PPerson.t) : Gen.t ResponsiblePerson.t :=
  uuid <- Gen.generateUUID ;;
  Gen.ret {| ResponsiblePerson.uuid := uuid;
             ResponsiblePerson.name := or_str (PPerson.name p) [];
             ResponsiblePerson.role := or_str (PPerson.role p) [];
             ResponsiblePerson.description := or_str (PPerson.description p) [];
             ResponsiblePerson.mainSigner :=
               ResponsiblePerson.mainSigner Types.INITIAL_PERSON;
             ResponsiblePerson.cryptElectronicSeal :=
               ResponsiblePerson.cryptElectronicSeal Types.INITIAL_PERSON;
             ResponsiblePerson.cryptElectronicSignature :=
               ResponsiblePerson.cryptElectronicSignature Types.INITIAL_PERSON;
             ResponsiblePerson.cryptElectronicTimeStamp :=
               ResponsiblePerson.cryptElectronicTimeStamp Types.INITIAL_PERSON;
             ResponsiblePerson.fieldCoordinates := PPerson.fieldCoordinates p;
             ResponsiblePerson.sectionCoordinates := PPerson.sectionCoordinates p |}.

(** ** The state update *)

(** [{...a, ...b}] on one member: the incoming value when present. *)
Definition over {A} (incoming : option A) (prev : A) : A :=
  match incoming with Some v => v | None => prev end.

Definition non_empty {A} (l : list A) : bool :=
  match l with [] => false | _ => true end.

Definition mergeOfficial (prev : OfficialStatements.t) (x : option POfficial.t)
  : OfficialStatements.t :=
  match x with
  | None => prev
  | Some o =>
    {| OfficialStatements.intendedUse :=
         over (POfficial.intendedUse o) (OfficialStatements.intendedUse prev);
       OfficialStatements.commutability := OfficialStatements.commutability prev;
       OfficialStatements.storageInformation :=
         over (POfficial.storageInformation o) (OfficialStatements.storageInformation prev);
       OfficialStatements.handlingInstructions :=
         over (POfficial.handlingInstructions o) (OfficialStatements.handlingInstructions prev);
       OfficialStatements.metrologicalTraceability :=
         over (POfficial.metrologicalTraceability o)
              (OfficialStatements.metrologicalTraceability prev);
       OfficialStatements.healthAndSafety :=
         over (POfficial.healthAndSafety o) (OfficialStatements.healthAndSafety prev);
       OfficialStatements.subcontractors :=
         over (POfficial.subcontractors o) (OfficialStatements.subcontractors prev);
       OfficialStatements.legalNotice :=
         over (POfficial.legalNotice o) (OfficialStatements.legalNotice prev);
       OfficialStatements.referenceToCertificationReport :=
         over (POfficial.referenceToCertificationReport o)
              (OfficialStatements.referenceToCertificationReport prev);
       OfficialStatements.fieldCoordinates :=
         match POfficial.fieldCoordinates o with
         | Some c => Some c
         | None => OfficialStatements.fieldCoordinates prev
         end;
       OfficialStatements.sectionCoordinates :=
         OfficialStatements.sectionCoordinates prev |}
  end.

(** [x?.f] *)
Definition member_of {T A} (x : option T) (f : T -> option A) : option A :=
  match x with Some v => f v | None => None end.

(** The function passed to [setDrmdData]; [now] is
    [new Date().toISOString().split('T')[0]] at the time of the call. *)
Definition updateDrmd (now : jsstring) (extractedData : option Payload.t)
  (prev : DRMD.t) : Gen.t DRMD.t :=
  let admin := member_of extractedData Payload.administrativeData in
  let prevAdmin := DRMD.administrativeData prev in
  newMats <- Gen.mapM newMaterial (or_nil (member_of extractedData Payload.materials)) ;;
  let propertyMap := mergeProperties (or_nil (member_of extractedData Payload.properties)) in
  newProps <- Gen.mapM newProperty (Object_values propertyMap) ;;
  newProds <- Gen.mapM newProducer (or_nil (member_of admin PAdmin.producers)) ;;
  newPersons <- Gen.mapM newPerson (or_nil (member_of admin PAdmin.responsiblePersons)) ;;
  uniqueIdentifier <-
    (if present (member_of admin PAdmin.uniqueIdentifier)
     then Gen.ret (str (member_of admin PAdmin.uniqueIdentifier))
     else if truthy (AdministrativeData.uniqueIdentifier prevAdmin)
     then Gen.ret (AdministrativeData.uniqueIdentifier prevAdmin)
     else Gen.generateUUID) ;;
  Gen.ret
    {| DRMD.administrativeData :=
         {| AdministrativeData.title :=
              over (member_of admin PAdmin.title) (AdministrativeData.title prevAdmin);
            AdministrativeData.uniqueIdentifier := uniqueIdentifier;
            AdministrativeData.dataVersion := AdministrativeData.dataVersion prevAdmin;
            AdministrativeData.documentIdentifiers := [Types.INITIAL_ID];
            AdministrativeData.validityType :=
              over (member_of admin PAdmin.validityType)
                   (AdministrativeData.validityType prevAdmin);
            AdministrativeData.durationY :=
              over (member_of admin PAdmin.durationY) (AdministrativeData.durationY prevAdmin);
            AdministrativeData.durationM :=
              over (member_of admin PAdmin.durationM) (AdministrativeData.durationM prevAdmin);
            AdministrativeData.dateOfIssue := now;
            AdministrativeData.specificTime :=
              over (member_of admin PAdmin.specificTime)
                   (AdministrativeData.specificTime prevAdmin);
            AdministrativeData.producers :=
              if non_empty newProds then newProds
              else AdministrativeData.producers prevAdmin;
            AdministrativeData.responsiblePersons :=
              if non_empty newPersons then newPersons
              else AdministrativeData.responsiblePersons prevAdmin;
            AdministrativeData.fieldCoordinates := member_of admin PAdmin.fieldCoordinates;
            AdministrativeData.sectionCoordinates :=
              AdministrativeData.sectionCoordinates prevAdmin |};
       DRMD.materials := if non_empty newMats then newMats else DRMD.materials prev;
       DRMD.properties := if non_empty newProps then newProps else DRMD.properties prev;
       DRMD.statements :=
         {| Statements.official :=
              mergeOfficial (Statements.official (DRMD.statements prev))
                (match member_of extractedData Payload.statements with
                 | Some s => PStatements.official s
                 | None => None
                 end);
            Statements.custom := Statements.custom (DRMD.statements prev) |};
       DRMD.comments := DRMD.comments prev;
       DRMD.documents := DRMD.documents prev;
       DRMD.generalComment := DRMD.generalComment prev;
       DRMD.binaryDocument := DRMD.binaryDocument prev |}.

(** What [handleFileUpload] does with the extraction result: the
    in-place corrections, then the state update. *)
Definition handleFileUpload (now : jsstring) (extractedData : option Payload.t)
  (prev : DRMD.t) : Gen.t DRMD.t :=
  updateDrmd now (correctPayload extractedData) prev.

(** ** Validation report *)

Record Issue := { section : jsstring; message : jsstring }.

Record Report := { errors : list Issue; warnings : list Issue }.

Definition issue (s m : jsstring) : Issue := {| section := s; message := m |}.

(** The text of [${i + 1}] for the index [i]. *)
Definition ordinal (i : nat) : jsstring := JsNumber.digits_of_N (N.of_nat (S i)).

(** [list.forEach((x, i) => ...)] collecting what each element pushes. *)
Fixpoint forEach_i {A B} (f : A -> nat -> list B) (l : list A) (i : nat) : list B :=
  match l with
  | [] => []
  | a :: l' => f a i ++ forEach_i f l' (S i)
  end.

Definition when {A} (b : bool) (x : A) : list A := if b then [x] else [].

Definition producerErrors (producers : list Producer.t) : list Issue :=
  match producers with
  | [] => [issue (js "Administrative") (js "At least one Producer is required.")]
  | [_] =>
    forEach_i
      (fun p i =>
         when (negb (truthy (Producer.name p)))
           (issue (js "Administrative")
              (js "Producer " ++ ordinal i ++ js ": Name is required.")%list))
      producers 0
  | _ => [issue (js "Administrative") (js "Only ONE Producer is allowed by schema.")]
  end.

Definition materialErrors (materials : list Material.t) : list Issue :=
  match materials with
  | [] => [issue (js "Materials") (js "At least one Material must be defined.")]
  | _ =>
    forEach_i
      (fun m i =>
         when (negb (truthy (Material.name m)))
           (issue (js "Materials")
              (js "Material " ++ ordinal i ++ js ": Name is required.")%list)
         ++ when (negb (truthy (Material.minimumSampleSize m)))
           (issue (js "Materials")
              (js "Material " ++ ordinal i ++ js ": Minimum Sample Size is required.")%list))
      materials 0
  end.

(** [getValidationReport] *)
Definition getValidationReport (drmdData : DRMD.t) : Report :=
  let admin := DRMD.administrativeData drmdData in
  let official := Statements.official (DRMD.statements drmdData) in
  {| errors :=
       when (negb (truthy (AdministrativeData.title admin)))
         (issue (js "Administrative") (js "Document Title is missing."))
       ++ when (negb (truthy (AdministrativeData.uniqueIdentifier admin)))
         (issue (js "Administrative") (js "Unique Identifier is missing."))
       ++ producerErrors (AdministrativeData.producers admin)
       ++ materialErrors (DRMD.materials drmdData)
       ++ when (negb (truthy (OfficialStatements.intendedUse official)))
         (issue (js "Statements") (js "Intended Use is required."))
       ++ when (negb (truthy (OfficialStatements.storageInformation official)))
         (issue (js "Statements") (js "Storage Information is required."))
       ++ when (negb (truthy (OfficialStatements.handlingInstructions official)))
         (issue (js "Statements") (js "Instructions for Handling and Use are required."));
     warnings :=
       when (match AdministrativeData.responsiblePersons admin with
             | [] => true | _ => false end)
         (issue (js "Administrative") (js "No Responsible Persons defined (Warning).")) |}.

(** [isValid] *)
Definition isValid (r : Report) : bool :=
  match errors r with [] => true | _ => false end.

End App.

(* ================================================================== *)
(** * XML documents *)
(* ================================================================== *)

(** The DOM the decoder walks.  A document node is kept as a node named
    [#document] whose children are the top-level nodes. *)
Module Dom.

Import Js.

#[local] Set Warnings "-register-all".

Inductive node :=
| Element (tagName : jsstring) (attributes : list (jsstring * jsstring))
          (childNodes : list node)
| Text (data : jsstring).

Definition Document := node.

Definition document (children : list node) : Document :=
  Element (js "#document") [] children.

Definition tagName (n : node) : jsstring :=
  match n with Element t _ _ => t | Text _ => [] end.

Definition childNodes (n : node) : list node :=
  match n with Element _ _ cs => cs | Text _ => [] end.

(** [nodeType === 1] *)
Definition isElement (n : node) : bool :=
  match n with Element _ _ _ => true | Text _ => false end.

(** The element [n] (if it is one) and the elements below it, in
    document order. *)
Fixpoint elements (n : node) : list node :=
  match n with
  | Element _ _ cs => n :: flat_map elements cs
  | Text _ => []
  end.

Definition descendants (n : node) : list node := flat_map elements (childNodes n).

(** [parent.getElementsByTagName(tag)] *)
Definition getElementsByTagName (parent : node) (tag : jsstring) : list node :=
  filter (fun e => eqb (tagName e) tag) (descendants parent).

(** [node.textContent] *)
Fixpoint textContent (n : node) : jsstring :=
  match n with
  | Element _ _ cs => flat_map textContent cs
  | Text d => d
  end.

(** [el.getAttribute(name)] *)
Definition getAttribute (n : node) (name : jsstring) : option jsstring :=
  match n with
  | Element _ attrs _ =>
    option_map snd (find (fun kv => eqb (fst kv) name) attrs)
  | Text _ => None
  end.

(** The local part of a qualified name. *)
Fixpoint after_colon (t : jsstring) : option jsstring :=
  match t with
  | [] => None
  | c :: r => if (c =? 58)%N then Some r else after_colon r
  end.

Definition localName (t : jsstring) : jsstring :=
  match after_colon t with Some l => l | None => t end.

(** [doc.querySelector(name)] for a type selector. *)
Definition querySelector (doc : Document) (name : jsstring) : option node :=
  find (fun e => eqb (localName (tagName e)) name) (descendants doc).

End Dom.

(** What the encoder writes: the element structure of its output with
    the character data as written (escaped).  An element holds either
    elements or character data; the white space the template literals
    put between elements is not kept: the decoder takes text only from
    elements without element children. *)
Module Markup.

Import Js.

#[local] Set Warnings "-register-all".

Inductive t :=
| Element (tagName : jsstring) (attributes : list (jsstring * jsstring))
          (content : list t)
| Leaf (tagName : jsstring) (raw : jsstring).

(** [<tag>raw</tag>] *)
Definition leaf (tag : string) (raw : jsstring) : t := Leaf (js tag) raw.

(** [<tag>...</tag>] *)
Definition elem (tag : string) (content : list t) : t :=
  Element (js tag) [] content.

End Markup.

(** The XML reader ([DOMParser]) on markup.

    Character data is read as XML 1.0 has it: a line end written as a
    carriage return, alone or before a line feed, is read as a line
    feed; a reference to one of the five predefined entities or to a
    character by its number is replaced; a character that is not an XML
    character, the sequence that ends a CDATA section, and an [&] that
    starts no such reference make the text not well-formed.  For a text
    that is not well-formed the reader returns a document that holds a
    [parsererror] element (which document depends on the browser; the
    decoder only asks whether there is such an element).

    The model follows elements with names of Latin letters, digits,
    [_], [-] and [.], whose prefix is declared by an [xmlns:] attribute
    of the element or of one around it, and character data without
    markup inside ([<]) and without a surrogate that stands alone; of
    any other text it says nothing ([Unfollowed]). *)
Module DOMParser.

Import Js.
Local Open Scope N_scope.

Inductive reading (A : Type) :=
| Read (a : A)
| Malformed
| Unfollowed.
Arguments Read {A} a.
Arguments Malformed {A}.
Arguments Unfollowed {A}.

Definition map_reading {A B} (f : A -> B) (r : reading A) : reading B :=
  match r with
  | Read a => Read (f a)
  | Malformed => Malformed
  | Unfollowed => Unfollowed
  end.

(** The readings of the parts of a text in their order: the first part
    that is not read decides. *)
Definition all {A} (l : list (reading A)) : reading (list A) :=
  fold_right (fun x acc =>
                match x with
                | Read a => map_reading (cons a) acc
                | Malformed => Malformed
                | Unfollowed => Unfollowed
                end) (Read []) l.

(** *** Characters *)

(** The code units that are XML characters by themselves. *)
Definition is_char (c : N) : bool :=
  (c =? 9) || (c =? 10) || (c =? 13) || ((32 <=? c) && (c <=? 55295))
  || ((57344 <=? c) && (c <=? 65533)).

Definition is_high (c : N) : bool := (55296 <=? c) && (c <=? 56319).
Definition is_low (c : N) : bool := (56320 <=? c) && (c <=? 57343).

Definition is_unit (c : N) : bool := is_char c || is_high c || is_low c.

(** Every surrogate is half of a pair. *)
Fixpoint paired (after_high : bool) (s : jsstring) : bool :=
  match s with
  | [] => negb after_high
  | c :: r =>
    if after_high then is_low c && paired false r
    else if is_high c then paired true r
    else negb (is_low c) && paired false r
  end.

(** *** References *)

(** The predefined entities, without the leading [&]. *)
Definition entities : list (jsstring * N) :=
  [ (js "lt;", 60); (js "gt;", 62); (js "amp;", 38);
    (js "apos;", 39); (js "quot;", 34) ].

(** The character an entity reference at the head of [r] stands for,
    and the text after the reference. *)
Definition entity_at (r : jsstring) : option (N * jsstring) :=
  match find (fun e => startsWith r (fst e)) entities with
  | Some (name, ch) => Some (ch, skipn (List.length name) r)
  | None => None
  end.

Definition decimal_digit (c : N) : option N :=
  if is_digit c then Some (c - 48) else None.

Definition hex_digit (c : N) : option N :=
  if is_digit c then Some (c - 48)
  else if (97 <=? c) && (c <=? 102) then Some (c - 87)
  else if (65 <=? c) && (c <=? 70) then Some (c - 55)
  else None.

(** The number written by the digits at the head of [s], which end
    with [;], and the text after it. *)
Fixpoint number_at (digit : N -> option N) (base acc : N) (seen : bool)
  (s : jsstring) : option (N * jsstring) :=
  match s with
  | [] => None
  | c :: r =>
    match digit c with
    | Some d => number_at digit base (acc * base + d) true r
    | None => if seen && (c =? 59) then Some (acc, r) else None
    end
  end.

Definition is_code_point (n : N) : bool :=
  is_char n || ((65536 <=? n) && (n <=? 1114111)).

Definition units_of (n : N) : jsstring :=
  if n <? 65536 then [n]
  else [55296 + (n - 65536) / 1024; 56320 + (n - 65536) mod 1024].

Definition character (found : option (N * jsstring)) : option (jsstring * jsstring) :=
  match found with
  | Some (n, rest) => if is_code_point n then Some (units_of n, rest) else None
  | None => None
  end.

(** The text a reference stands for, from the text after its [&], and
    the text after the reference. *)
Definition reference (r : jsstring) : option (jsstring * jsstring) :=
  match r with
  | c :: r1 =>
    if c =? 35 then
      match r1 with
      | x :: r2 =>
        if x =? 120 then character (number_at hex_digit 16 0 false r2)
        else character (number_at decimal_digit 10 0 false r1)
      | [] => None
      end
    else
      match entity_at r with
      | Some (ch, rest) => Some ([ch], rest)
      | None => None
      end
  | [] => None
  end.

(** *** Character data *)

(** The text of character data: references replaced, line ends made
    line feeds. *)
Fixpoint references (fuel : nat) (raw : jsstring) : option jsstring :=
  match fuel with
  | O => match raw with [] => Some [] | _ => None end
  | S fuel' =>
    match raw with
    | [] => Some []
    | c :: r =>
      if c =? 38 then
        match reference r with
        | Some (s, r') => option_map (app s) (references fuel' r')
        | None => None
        end
      else if c =? 13 then
        match r with
        | x :: _ =>
          if x =? 10 then references fuel' r
          else option_map (cons 10) (references fuel' r)
        | [] => Some [10]
        end
      else option_map (cons c) (references fuel' r)
    end
  end.

Definition charData (raw : jsstring) : reading jsstring :=
  if existsb (N.eqb 60) raw || negb (paired false raw) then Unfollowed
  else if negb (forallb is_unit raw) || includes raw (js "]]>") then Malformed
  else
    match references (List.length raw) raw with
    | Some s => Read s
    | None => Malformed
    end.

(** *** Names *)

Definition is_name_start (c : N) : bool :=
  ((65 <=? c) && (c <=? 90)) || ((97 <=? c) && (c <=? 122)) || (c =? 95).

Definition is_name_char (c : N) : bool :=
  is_name_start c || is_digit c || (c =? 45) || (c =? 46).

Definition ncname (s : jsstring) : bool :=
  match s with
  | c :: r => is_name_start c && forallb is_name_char r
  | [] => false
  end.

(** The text before the first colon and the text after it. *)
Fixpoint split_colon (t : jsstring) : jsstring * option jsstring :=
  match t with
  | [] => ([], None)
  | c :: r =>
    if c =? 58 then ([], Some r)
    else let (a, b) := split_colon r in (c :: a, b)
  end.

(** A name whose prefix, if it has one, is among the declared ones. *)
Definition element_name (ns : list jsstring) (t : jsstring) : bool :=
  match split_colon t with
  | (local, None) => ncname local
  | (prefix, Some local) => ncname prefix && ncname local && existsb (eqb prefix) ns
  end.

(** An attribute value that is read as it is written. *)
Definition attribute_value (v : jsstring) : bool :=
  forallb (fun c => (32 <=? c) && is_char c
                    && negb ((c =? 60) || (c =? 38) || (c =? 34))) v.

(** An attribute without prefix, or the declaration of a prefix. *)
Definition attribute_ok (attr : jsstring * jsstring) : bool :=
  attribute_value (snd attr)
  && match split_colon (fst attr) with
     | (local, None) => ncname local && negb (eqb local (js "xmlns"))
     | (prefix, Some local) =>
       eqb prefix (js "xmlns") && ncname local && truthy (snd attr)
       && negb (eqb local (js "xmlns")) && negb (eqb local (js "xml"))
     end.

Definition declared (attr : jsstring * jsstring) : list jsstring :=
  match split_colon (fst attr) with
  | (_, Some local) => [local]
  | (_, None) => []
  end.

Fixpoint distinct (names : list jsstring) : bool :=
  match names with
  | [] => true
  | n :: r => negb (existsb (eqb n) r) && distinct r
  end.

(** The prefixes declared inside an element with the given attributes. *)
Definition scope (ns : list jsstring) (attrs : list (jsstring * jsstring))
  : option (list jsstring) :=
  if forallb attribute_ok attrs && distinct (map fst attrs)
  then Some (flat_map declared attrs ++ ns)%list
  else None.

(** *** Elements *)

(** The children of an element read from [<tag>text</tag>]: one text
    node, none when the text is empty. *)
Definition texts (s : jsstring) : list Dom.node :=
  match s with [] => [] | _ => [Dom.Text s] end.

(** The element read from markup, inside elements that declare the
    prefixes [ns]. *)
Fixpoint read (ns : list jsstring) (m : Markup.t) : reading Dom.node :=
  match m with
  | Markup.Element tag attrs content =>
    match scope ns attrs with
    | Some ns' =>
      if element_name ns' tag
      then map_reading (Dom.Element tag attrs) (all (map (read ns') content))
      else Unfollowed
    | None => Unfollowed
    end
  | Markup.Leaf tag raw =>
    if element_name ns tag
    then map_reading (fun s => Dom.Element tag [] (texts s)) (charData raw)
    else Unfollowed
  end.

Definition parsererror : Dom.node :=
  Dom.Element (js "parsererror") [] [Dom.Text (js "XML Parsing Error")].

(** [new DOMParser().parseFromString(xml, "text/xml")], where the model
    follows the text. *)
Definition parseFromString (xml : Markup.t) : option Dom.Document :=
  match read [] xml with
  | Read root => Some (Dom.document [root])
  | Malformed => Some (Dom.document [parsererror])
  | Unfollowed => None
  end.

End DOMParser.

(* ================================================================== *)
(** * XML decoder ([utils/xmlParser.ts]) *)
(* ================================================================== *)

Module XmlParser.

Import Js Dom.
Local Open Scope string_scope.

(** [list.length > 0] *)
Definition non_empty {A} (l : list A) : bool :=
  match l with [] => false | _ => true end.

(** [parent.getElementsByTagName(tagName)[0]] *)
Definition first (parent : node) (tag : string) : option node :=
  hd_error (getElementsByTagName parent (js tag)).

(** [getTagContent] *)
Definition getTagContent (parent : node) (tagName : string) : jsstring :=
  match first parent tagName with
  | Some el => textContent el
  | None => []
  end.

(** [getNestedContent] *)
Fixpoint getNestedContent (parent : node) (path : list string) : jsstring :=
  match path with
  | [] => textContent parent
  | tag :: path' =>
    match first parent tag with
    | Some el => getNestedContent el path'
    | None => []
    end
  end.

(** The capture of the leftmost match of [/(\d+)c/]. *)
Fixpoint match_digits_before (fuel : nat) (c : N) (s : jsstring) : option jsstring :=
  match fuel with
  | O => None
  | S fuel' =>
    match s with
    | [] => None
    | x :: r =>
      if is_digit x then
        let (run, rest) := JsNumber.span_digits s in
        match rest with
        | y :: _ => if (y =? c)%N then Some run else match_digits_before fuel' c rest
        | [] => None
        end
      else match_digits_before fuel' c r
    end
  end.

(** [m ? parseInt(m[1]) : 0] for [m = period.match(/(\d+)c/)]: the
    Number nearest to the integer the digits write (infinite from
    [2^1024] on, which no count of the model is). *)
Definition period_component (c : N) (period : jsstring) : Z :=
  match match_digits_before (S (List.length period)) c period with
  | Some digits => JsCount.round53 (Z.of_N (JsNumber.N_of_digits digits))
  | None => 0%Z
  end.

Record Validity := {
  validityType : jsstring;
  specificTime : jsstring;
  dateOfIssue : jsstring;
  durationY : Z;
  durationM : Z }.

(** The validity members after the "Validity" block, from the ones
    before it. *)
Definition parseValidity (core : node) (v0 : Validity) : Validity :=
  match first core "drmd:validity" with
  | None => v0
  | Some validity =>
    if non_empty (getElementsByTagName validity (js "drmd:untilRevoked")) then
      {| validityType := js "Until Revoked";
         specificTime := specificTime v0;
         dateOfIssue := dateOfIssue v0;
         durationY := durationY v0;
         durationM := durationM v0 |}
    else if non_empty (getElementsByTagName validity (js "drmd:specificTime")) then
      {| validityType := js "Specific Time";
         specificTime := getNestedContent validity ["drmd:specificTime"%string];
         dateOfIssue := dateOfIssue v0;
         durationY := durationY v0;
         durationM := durationM v0 |}
    else
      match first validity "drmd:timeAfterDispatch" with
      | Some tad =>
        let period := getNestedContent tad ["drmd:period"%string] in
        let date := getNestedContent tad ["drmd:dispatchDate"%string] in
        {| validityType := js "Time After Dispatch";
           specificTime := specificTime v0;
           dateOfIssue := date;
           durationY := period_component 89 period;
           durationM := period_component 77 period |}
      | None => v0
      end
  end.

Definition uuid : Gen.t jsstring := Gen.generateUUID.

Definition parseProducer (p : node) : Gen.t Producer.t :=
  id <- uuid ;;
  let name := getNestedContent p ["drmd:name"; "dcc:content"]%string in
  let initial := Types.INITIAL_PRODUCER in
  let contact := first p "drmd:contact" in
  let contact_member (f : node -> jsstring) (d : jsstring) :=
    match contact with Some c => f c | None => d end in
  let loc := match contact with Some c => first c "dcc:location" | None => None end in
  let loc_member (tag : string) (d : jsstring) :=
    match loc with Some l => getNestedContent l [tag] | None => d end in
  Gen.ret
    {| Producer.uuid := id;
       Producer.name := name;
       Producer.email :=
         contact_member (fun c => getNestedContent c ["dcc:eMail"%string])
                        (Producer.email initial);
       Producer.phone :=
         contact_member (fun c => getNestedContent c ["dcc:phone"%string])
                        (Producer.phone initial);
       Producer.fax :=
         match contact with
         | Some c => Some (getNestedContent c ["dcc:fax"%string])
         | None => Producer.fax initial
         end;
       Producer.address :=
         {| Address.street :=
              loc_member "dcc:street" (Address.street (Producer.address initial));
            Address.streetNo :=
              loc_member "dcc:streetNo" (Address.streetNo (Producer.address initial));
            Address.postCode :=
              loc_member "dcc:postCode" (Address.postCode (Producer.address initial));
            Address.city :=
              loc_member "dcc:city" (Address.city (Producer.address initial));
            Address.countryCode :=
              loc_member "dcc:countryCode"
                         (Address.countryCode (Producer.address initial)) |};
       Producer.organizationIdentifiers := Producer.organizationIdentifiers initial;
       Producer.fieldCoordinates := Producer.fieldCoordinates initial;
       Producer.sectionCoordinates := Producer.sectionCoordinates initial |}.

Definition parsePerson (p : node) : Gen.t ResponsiblePerson.t :=
  id <- uuid ;;
  let initial := Types.INITIAL_PERSON in
  Gen.ret
    {| ResponsiblePerson.uuid := id;
       ResponsiblePerson.name :=
         getNestedContent p ["dcc:person"; "dcc:name"; "dcc:content"]%string;
       ResponsiblePerson.role := getTagContent p "dcc:role";
       ResponsiblePerson.description :=
         getNestedContent p ["dcc:description"; "dcc:content"]%string;
       ResponsiblePerson.mainSigner :=
         eqb (getTagContent p "dcc:mainSigner") (js "true");
       ResponsiblePerson.cryptElectronicSeal :=
         ResponsiblePerson.cryptElectronicSeal initial;
       ResponsiblePerson.cryptElectronicSignature :=
         ResponsiblePerson.cryptElectronicSignature initial;
       ResponsiblePerson.cryptElectronicTimeStamp :=
         ResponsiblePerson.cryptElectronicTimeStamp initial;
       ResponsiblePerson.fieldCoordinates := ResponsiblePerson.fieldCoordinates initial;
       ResponsiblePerson.sectionCoordinates :=
         ResponsiblePerson.sectionCoordinates initial |}.

(** [parseQty] of the material [m] *)
Definition parseQty (m : node) (tagName : string) : jsstring :=
  match first m tagName with
  | None => []
  | Some container =>
    match first container "dcc:itemQuantity" with
    | None => []
    | Some itemQ =>
      match first itemQ "drmd:real" with
      | Some real =>
        let val := getNestedContent real ["si:value"%string] in
        let unit := getNestedContent real ["si:unit"%string] in
        (val ++ js " " ++ unit)%list
      | None =>
        match first itemQ "drmd:noQuantity" with
        | Some noQ => getNestedContent noQ ["dcc:content"%string]
        | None => []
        end
      end
    end
  end.

Definition parseMaterial (m : node) : Gen.t Material.t :=
  id <- uuid ;;
  Gen.ret
    {| Material.uuid := id;
       Material.name := getNestedContent m ["drmd:name"; "dcc:content"]%string;
       Material.materialClass := [];
       Material.description :=
         getNestedContent m ["drmd:description"; "dcc:content"]%string;
       Material.itemQuantities := parseQty m "drmd:itemQuantities";
       Material.minimumSampleSize := parseQty m "drmd:minimumSampleSize";
       Material.isCertified := Some false;
       Material.materialIdentifiers := [Types.INITIAL_ID];
       Material.fieldCoordinates := None;
       Material.sectionCoordinates := None |}.

Definition parseQuantity (q : node) : Gen.t Quantity.t :=
  id <- uuid ;;
  let initial := Types.INITIAL_QUANTITY in
  let real := first q "si:real" in
  let real_member (tag : string) (d : jsstring) :=
    match real with Some r => getNestedContent r [tag] | None => d end in
  let expandedMU :=
    match real with Some r => first r "si:expandedMU" | None => None end in
  let mu_member (tag : string) (d : jsstring) :=
    match expandedMU with Some e => getNestedContent e [tag] | None => d end in
  let value := real_member "si:value" (Quantity.value initial) in
  let unit := real_member "si:unit" (Quantity.unit initial) in
  Gen.ret
    {| Quantity.uuid := id;
       Quantity.name := getNestedContent q ["dcc:name"; "dcc:content"]%string;
       Quantity.label := Quantity.label initial;
       Quantity.value := value;
       Quantity.dsiValue :=
         match real with Some _ => value | None => Quantity.dsiValue initial end;
       Quantity.dsiUnit :=
         match real with Some _ => unit | None => Quantity.dsiUnit initial end;
       Quantity.quantityKind := Quantity.quantityKind initial;
       Quantity.unit := unit;
       Quantity.uncertainty :=
         mu_member "si:valueExpandedMU" (Quantity.uncertainty initial);
       Quantity.coverageFactor :=
         mu_member "si:coverageFactor" (Quantity.coverageFactor initial);
       Quantity.coverageProbability :=
         mu_member "si:coverageProbability" (Quantity.coverageProbability initial);
       Quantity.distribution := Quantity.distribution initial;
       Quantity.identifiers := [];
       Quantity.fieldCoordinates := Quantity.fieldCoordinates initial;
       Quantity.sectionCoordinates := Quantity.sectionCoordinates initial |}.

Definition parseResult (r : node) : Gen.t MeasurementResult.t :=
  id <- uuid ;;
  quantities <- Gen.mapM parseQuantity (getElementsByTagName r (js "drmd:quantity")) ;;
  Gen.ret
    {| MeasurementResult.uuid := id;
       MeasurementResult.name := getNestedContent r ["drmd:name"; "dcc:content"]%string;
       MeasurementResult.description :=
         getNestedContent r ["drmd:description"; "dcc:content"]%string;
       MeasurementResult.quantities := quantities;
       MeasurementResult.fieldCoordinates := None;
       MeasurementResult.sectionCoordinates := None |}.

Definition parseProperty (p : node) : Gen.t MaterialProperty.t :=
  id <- uuid ;;
  results <- Gen.mapM parseResult (getElementsByTagName p (js "drmd:result")) ;;
  Gen.ret
    {| MaterialProperty.uuid := id;
       MaterialProperty.id := [];
       MaterialProperty.name := getNestedContent p ["drmd:name"; "dcc:content"]%string;
       MaterialProperty.isCertified :=
         Some (match getAttribute p (js "isCertified") with
               | Some v => eqb v (js "true")
               | None => false
               end);
       MaterialProperty.description :=
         getNestedContent p ["drmd:description"; "dcc:content"]%string;
       MaterialProperty.procedures :=
         getNestedContent p
           ["drmd:procedures"; "dcc:usedMethod"; "dcc:description"; "dcc:content"]%string;
       MaterialProperty.results := results |}.

(** [getSt] of the [statements] element *)
Definition getSt (statements : node) (tag : string) : jsstring :=
  match first statements (String.append "drmd:" tag) with
  | None => []
  | Some el =>
    match find (fun n => isElement n && eqb (tagName n) (js "dcc:content"))
               (childNodes el) with
    | Some n => textContent n
    | None => []
    end
  end.

Definition parseStatements (statements : node) (s0 : OfficialStatements.t)
  : OfficialStatements.t :=
  {| OfficialStatements.intendedUse := getSt statements "intendedUse";
     OfficialStatements.commutability := OfficialStatements.commutability s0;
     OfficialStatements.storageInformation := getSt statements "storageInformation";
     OfficialStatements.handlingInstructions :=
       getSt statements "instructionsForHandlingAndUse";
     OfficialStatements.metrologicalTraceability :=
       getSt statements "metrologicalTraceability";
     OfficialStatements.healthAndSafety := getSt statements "healthAndSafetyInformation";
     OfficialStatements.subcontractors := getSt statements "subcontractors";
     OfficialStatements.legalNotice := getSt statements "legalNotice";
     OfficialStatements.referenceToCertificationReport :=
       getSt statements "referenceToCertificationReport";
     OfficialStatements.fieldCoordinates := OfficialStatements.fieldCoordinates s0;
     OfficialStatements.sectionCoordinates := OfficialStatements.sectionCoordinates s0 |}.

(** [array.length > 0 ? Array.from(array).map(f) : previous] *)
Definition map_or {A} (f : node -> Gen.t A) (found : list node) (previous : list A)
  : Gen.t (list A) :=
  if non_empty found then Gen.mapM f found else Gen.ret previous.

Inductive Outcome (A : Type) :=
| Returned (a : A)
| Thrown (message : jsstring).
Arguments Returned {A} a.
Arguments Thrown {A} message.

(** The decoding of a document without a [parsererror] element;
    [today] is the date [INITIAL_DRMD] carries. *)
Definition decode (today : jsstring) (doc : Document) : Gen.t DRMD.t :=
  let data := Types.INITIAL_DRMD today in
  let admin0 := DRMD.administrativeData data in
  let admin := first doc "drmd:administrativeData" in
  let core := match admin with Some a => first a "drmd:coreData" | None => None end in
  let core_member (tag : string) (d : jsstring) :=
    match core with Some c => getNestedContent c [tag] | None => d end in
  let v0 :=
    {| validityType := AdministrativeData.validityType admin0;
       specificTime := AdministrativeData.specificTime admin0;
       dateOfIssue := AdministrativeData.dateOfIssue admin0;
       durationY := AdministrativeData.durationY admin0;
       durationM := AdministrativeData.durationM admin0 |} in
  let v := match core with Some c => parseValidity c v0 | None => v0 end in
  producers <-
    match admin with
    | Some a =>
      map_or parseProducer
        (getElementsByTagName a (js "drmd:referenceMaterialProducer"))
        (AdministrativeData.producers admin0)
    | None => Gen.ret (AdministrativeData.producers admin0)
    end ;;
  persons <-
    match admin with
    | Some a =>
      map_or parsePerson (getElementsByTagName a (js "dcc:respPerson"))
        (AdministrativeData.responsiblePersons admin0)
    | None => Gen.ret (AdministrativeData.responsiblePersons admin0)
    end ;;
  materials <-
    map_or parseMaterial (getElementsByTagName doc (js "drmd:material"))
           (DRMD.materials data) ;;
  properties <-
    map_or parseProperty (getElementsByTagName doc (js "drmd:materialProperties"))
           (DRMD.properties data) ;;
  let official0 := Statements.official (DRMD.statements data) in
  let docContent := getTagContent doc "drmd:document" in
  Gen.ret
    {| DRMD.administrativeData :=
         {| AdministrativeData.title :=
              core_member "drmd:titleOfTheDocument" (AdministrativeData.title admin0);
            AdministrativeData.uniqueIdentifier :=
              core_member "drmd:uniqueIdentifier"
                          (AdministrativeData.uniqueIdentifier admin0);
            AdministrativeData.dataVersion := AdministrativeData.dataVersion admin0;
            AdministrativeData.documentIdentifiers :=
              AdministrativeData.documentIdentifiers admin0;
            AdministrativeData.validityType := validityType v;
            AdministrativeData.durationY := durationY v;
            AdministrativeData.durationM := durationM v;
            AdministrativeData.dateOfIssue := dateOfIssue v;
            AdministrativeData.specificTime := specificTime v;
            AdministrativeData.producers := producers;
            AdministrativeData.responsiblePersons := persons;
            AdministrativeData.fieldCoordinates :=
              AdministrativeData.fieldCoordinates admin0;
            AdministrativeData.sectionCoordinates :=
              AdministrativeData.sectionCoordinates admin0 |};
       DRMD.materials := materials;
       DRMD.properties := properties;
       DRMD.statements :=
         {| Statements.official :=
              match first doc "drmd:statements" with
              | Some statements => parseStatements statements official0
              | None => official0
              end;
            Statements.custom := Statements.custom (DRMD.statements data) |};
       DRMD.comments := DRMD.comments data;
       DRMD.documents := DRMD.documents data;
       DRMD.generalComment := getTagContent doc "drmd:comment";
       DRMD.binaryDocument :=
         if truthy docContent
         then Some {| BinaryDocument.fileName := js "imported_document.pdf";
                      BinaryDocument.mimeType := js "application/pdf";
                      BinaryDocument.data := trim docContent |}
         else DRMD.binaryDocument data |}.

(** [parseDrmdXml], from the document the XML reader returned. *)
Definition parseDrmdXml (today : jsstring) (doc : Document)
  : Gen.t (Outcome DRMD.t) :=
  match querySelector doc (js "parsererror") with
  | Some _ => Gen.ret (Thrown (js "Invalid XML file structure"))
  | None => data <- decode today doc ;; Gen.ret (Returned data)
  end.

End XmlParser.

(* ================================================================== *)
(** * XML encoder ([utils/xmlGenerator.ts]) *)
(* ================================================================== *)

(** [casMapping.ts] *)
Module CasMapping.

Import Js.

Definition cas (key number : string) : jsstring * jsstring := (js key, js number).

Definition CAS_DATABASE : list (jsstring * jsstring) := [
    cas "hydrogen" "1333-74-0"; cas "h" "1333-74-0";
    cas "helium" "7440-59-7"; cas "he" "7440-59-7";
    cas "lithium" "7439-93-2"; cas "li" "7439-93-2";
    cas "beryllium" "7440-41-7"; cas "be" "7440-41-7";
    cas "boron" "7440-42-8"; cas "b" "7440-42-8";
    cas "carbon" "7440-44-0"; cas "c" "7440-44-0";
    cas "nitrogen" "7727-37-9"; cas "n" "7727-37-9";
    cas "oxygen" "7782-44-7"; cas "o" "7782-44-7";
    cas "fluorine" "7782-41-4"; cas "f" "7782-41-4";
    cas "neon" "7440-01-9"; cas "ne" "7440-01-9";
    cas "sodium" "7440-23-5"; cas "na" "7440-23-5";
    cas "magnesium" "7439-95-4"; cas "mg" "7439-95-4";
    cas "aluminum" "7429-90-5"; cas "aluminium" "7429-90-5";
    cas "al" "7429-90-5"; cas "silicon" "7440-21-3";
    cas "si" "7440-21-3"; cas "phosphorus" "7723-14-0";
    cas "p" "7723-14-0"; cas "sulfur" "7704-34-9";
    cas "s" "7704-34-9"; cas "chlorine" "7782-50-5";
    cas "cl" "7782-50-5"; cas "argon" "7440-37-1";
    cas "ar" "7440-37-1"; cas "potassium" "7440-09-7";
    cas "k" "7440-09-7"; cas "calcium" "7440-70-2";
    cas "ca" "7440-70-2"; cas "scandium" "7440-20-2";
    cas "sc" "7440-20-2"; cas "titanium" "7440-32-6";
    cas "ti" "7440-32-6"; cas "vanadium" "7440-62-2";
    cas "v" "7440-62-2"; cas "chromium" "7440-47-3";
    cas "cr" "7440-47-3"; cas "manganese" "7439-96-5";
    cas "mn" "7439-96-5"; cas "iron" "7439-89-6";
    cas "fe" "7439-89-6"; cas "cobalt" "7440-48-4";
    cas "co" "7440-48-4"; cas "nickel" "7440-02-0";
    cas "ni" "7440-02-0"; cas "copper" "7440-50-8";
    cas "cu" "7440-50-8"; cas "zinc" "7440-66-6";
    cas "zn" "7440-66-6"; cas "gallium" "7440-55-3";
    cas "ga" "7440-55-3"; cas "germanium" "7440-56-4";
    cas "ge" "7440-56-4"; cas "arsenic" "7440-38-2";
    cas "as" "7440-38-2"; cas "selenium" "7782-49-2";
    cas "se" "7782-49-2"; cas "bromine" "7726-95-6";
    cas "br" "7726-95-6"; cas "krypton" "7439-90-9";
    cas "kr" "7439-90-9"; cas "rubidium" "7440-17-7";
    cas "rb" "7440-17-7"; cas "strontium" "7440-24-6";
    cas "sr" "7440-24-6"; cas "yttrium" "7440-65-5";
    cas "y" "7440-65-5"; cas "zirconium" "7440-67-7";
    cas "zr" "7440-67-7"; cas "niobium" "7440-03-1";
    cas "nb" "7440-03-1"; cas "molybdenum" "7439-98-7";
    cas "mo" "7439-98-7"; cas "technetium" "7440-26-8";
    cas "tc" "7440-26-8"; cas "ruthenium" "7440-18-8";
    cas "ru" "7440-18-8"; cas "rhodium" "7440-16-6";
    cas "rh" "7440-16-6"; cas "palladium" "7440-05-3";
    cas "pd" "7440-05-3"; cas "silver" "7440-22-4";
    cas "ag" "7440-22-4"; cas "cadmium" "7440-43-9";
    cas "cd" "7440-43-9"; cas "indium" "7440-74-6";
    cas "in" "7440-74-6"; cas "tin" "7440-31-5";
    cas "sn" "7440-31-5"; cas "antimony" "7440-36-0";
    cas "sb" "7440-36-0"; cas "tellurium" "13494-80-9";
    cas "te" "13494-80-9"; cas "iodine" "7553-56-2";
    cas "i" "7553-56-2"; cas "xenon" "7440-63-3";
    cas "xe" "7440-63-3"; cas "cesium" "7440-46-2";
    cas "cs" "7440-46-2"; cas "barium" "7440-39-3";
    cas "ba" "7440-39-3"; cas "lanthanum" "7439-91-0";
    cas "la" "7439-91-0"; cas "cerium" "7440-45-1";
    cas "ce" "7440-45-1"; cas "praseodymium" "7440-10-0";
    cas "pr" "7440-10-0"; cas "neodymium" "7440-00-8";
    cas "nd" "7440-00-8"; cas "promethium" "7440-12-2";
    cas "pm" "7440-12-2"; cas "samarium" "7440-19-9";
    cas "sm" "7440-19-9"; cas "europium" "7440-53-1";
    cas "eu" "7440-53-1"; cas "gadolinium" "7440-54-2";
    cas "gd" "7440-54-2"; cas "terbium" "7440-27-9";
    cas "tb" "7440-27-9"; cas "dysprosium" "7429-91-6";
    cas "dy" "7429-91-6"; cas "holmium" "7440-60-0";
    cas "ho" "7440-60-0"; cas "erbium" "7440-52-0";
    cas "er" "7440-52-0"; cas "thulium" "7440-30-4";
    cas "tm" "7440-30-4"; cas "ytterbium" "7440-64-4";
    cas "yb" "7440-64-4"; cas "lutetium" "7439-94-3";
    cas "lu" "7439-94-3"; cas "hafnium" "7440-58-6";
    cas "hf" "7440-58-6"; cas "tantalum" "7440-25-7";
    cas "ta" "7440-25-7"; cas "tungsten" "7440-33-7";
    cas "w" "7440-33-7"; cas "rhenium" "7440-15-5";
    cas "re" "7440-15-5"; cas "osmium" "7440-04-2";
    cas "os" "7440-04-2"; cas "iridium" "7439-88-5";
    cas "ir" "7439-88-5"; cas "platinum" "7440-06-4";
    cas "pt" "7440-06-4"; cas "gold" "7440-57-5";
    cas "au" "7440-57-5"; cas "mercury" "7439-97-6";
    cas "hg" "7439-97-6"; cas "thallium" "7440-28-0";
    cas "tl" "7440-28-0"; cas "lead" "7439-92-1";
    cas "pb" "7439-92-1"; cas "bismuth" "7440-69-9";
    cas "bi" "7440-69-9"; cas "polonium" "7440-08-6";
    cas "po" "7440-08-6"; cas "astatine" "7440-68-8";
    cas "at" "7440-68-8"; cas "radon" "10043-92-2";
    cas "rn" "10043-92-2"; cas "francium" "7440-73-5";
    cas "fr" "7440-73-5"; cas "radium" "7440-14-4";
    cas "ra" "7440-14-4"; cas "actinium" "7440-34-8";
    cas "ac" "7440-34-8"; cas "thorium" "7440-29-1";
    cas "th" "7440-29-1"; cas "protactinium" "7440-13-3";
    cas "pa" "7440-13-3"; cas "uranium" "7440-61-1";
    cas "u" "7440-61-1"; cas "neptunium" "7439-99-8";
    cas "np" "7439-99-8"; cas "plutonium" "7440-07-5";
    cas "pu" "7440-07-5"; cas "americium" "7440-35-9";
    cas "am" "7440-35-9"; cas "curium" "7440-51-9";
    cas "cm" "7440-51-9"; cas "berkelium" "7440-40-6";
    cas "bk" "7440-40-6"; cas "californium" "7440-71-3";
    cas "cf" "7440-71-3"; cas "einsteinium" "7429-92-7";
    cas "es" "7429-92-7"; cas "fermium" "7440-72-4";
    cas "fm" "7440-72-4"; cas "mendelevium" "7440-11-1";
    cas "md" "7440-11-1"; cas "nobelium" "10028-14-5";
    cas "no" "10028-14-5"; cas "lawrencium" "22537-19-5";
    cas "lr" "22537-19-5"; cas "rutherfordium" "53850-36-5";
    cas "rf" "53850-36-5"; cas "dubnium" "53850-35-4";
    cas "db" "53850-35-4"; cas "seaborgium" "54038-81-2";
    cas "sg" "54038-81-2"; cas "bohrium" "54037-14-8";
    cas "bh" "54037-14-8"; cas "hassium" "54037-57-9";
    cas "hs" "54037-57-9"; cas "meitnerium" "54038-01-6";
    cas "mt" "54038-01-6"; cas "darmstadtium" "54083-77-1";
    cas "ds" "54083-77-1"; cas "roentgenium" "54386-24-2";
    cas "rg" "54386-24-2"; cas "copernicium" "54084-26-3";
    cas "cn" "54084-26-3"; cas "nihonium" "54084-70-7";
    cas "nh" "54084-70-7"; cas "flerovium" "54085-16-4";
    cas "fl" "54085-16-4"; cas "moscovium" "54085-64-2";
    cas "mc" "54085-64-2"; cas "livermorium" "54100-71-9";
    cas "lv" "54100-71-9"; cas "tennessine" "87658-56-8";
    cas "ts" "87658-56-8"; cas "oganesson" "54144-19-3";
    cas "og" "54144-19-3"
  ].

Fixpoint get (m : list (jsstring * jsstring)) (k : jsstring) : option jsstring :=
  match m with
  | [] => None
  | (k', v) :: m' => if eqb k' k then Some v else get m' k
  end.

(** [getCasNumber] *)
Definition getCasNumber (nameOrSymbol : jsstring) : option jsstring :=
  if negb (truthy nameOrSymbol) then None
  else
    let key := trim (toLowerCase nameOrSymbol) in
    match get CAS_DATABASE key with
    | Some v => if truthy v then Some v else None
    | None => None
    end.

End CasMapping.

Module XmlGenerator.

Import Js Markup.
Local Open Scope string_scope.

(** [escapeXml] *)
Definition escapeXml (unsafe : jsstring) : jsstring :=
  flat_map (fun c =>
    if (c =? 60)%N then js "&lt;"
    else if (c =? 62)%N then js "&gt;"
    else if (c =? 38)%N then js "&amp;"
    else if (c =? 39)%N then js "&apos;"
    else if (c =? 34)%N then js "&quot;"
    else [c]) unsafe.

(** [escapeXml] of a member that may be absent. *)
Definition escapeXml_opt (unsafe : option jsstring) : jsstring :=
  match unsafe with Some s => escapeXml s | None => [] end.

(** The text of a count in a template literal: its digits below
    [2^53], and from there on what [toString] gives for the Number
    (rounded digits, and the exponent form from [1e21]). *)
Definition Z_text (z : Z) : jsstring :=
  if (Z.abs z <? 2 ^ 53)%Z then
    (if (z <? 0)%Z then js "-" ++ JsNumber.digits_of_N (Z.abs_N z)
     else JsNumber.digits_of_N (Z.abs_N z))%list
  else JsNumber.toString (JsNumber.of_Z z).

(** The text of a boolean that may be absent in a template literal. *)
Definition bool_text (b : option bool) : jsstring :=
  match b with
  | Some true => js "true"
  | Some false => js "false"
  | None => js "undefined"
  end.

(** The ISO 8601 period of a "Time After Dispatch" validity. *)
Definition period (durationY durationM : Z) : jsstring :=
  let iso :=
    (js "P"
     ++ (if (durationY =? 0)%Z then [] else Z_text durationY ++ js "Y")
     ++ (if (durationM =? 0)%Z then [] else Z_text durationM ++ js "M"))%list in
  if eqb iso (js "P") then js "P0Y" else iso.

(** [renderValidity] *)
Definition renderValidity (data : AdministrativeData.t) : list Markup.t :=
  let type := AdministrativeData.validityType data in
  if eqb type (js "Until Revoked") then
    [leaf "drmd:untilRevoked" (js "true")]
  else if eqb type (js "Specific Time") then
    [leaf "drmd:specificTime" (escapeXml (AdministrativeData.specificTime data))]
  else if eqb type (js "Time After Dispatch") then
    [elem "drmd:timeAfterDispatch"
       [ leaf "drmd:dispatchDate" (escapeXml (AdministrativeData.dateOfIssue data));
         leaf "drmd:period"
              (period (AdministrativeData.durationY data)
                      (AdministrativeData.durationM data)) ]]
  else [].

(** ** The number-then-unit pattern *)

(** The unit capture after optional blanks: the rest of the text from
    its first non-blank character, provided no line terminator follows. *)
Definition match_unit (tail : jsstring) : option jsstring :=
  match trimStart tail with
  | c :: r => if forallb (fun x => negb (is_line_term x)) r then Some (c :: r) else None
  | [] => None
  end.

(** The exponent digits, longest first. *)
Fixpoint try_exponent (k : nat) (mark digits rest : jsstring)
  : option (jsstring * jsstring) :=
  match k with
  | O => None
  | S k' =>
    match match_unit (skipn k digits ++ rest)%list with
    | Some unit => Some ((mark ++ firstn k digits)%list, unit)
    | None => try_exponent k' mark digits rest
    end
  end.

(** The optional exponent, then the unit capture. *)
Definition match_after_number (after : jsstring) : option (jsstring * jsstring) :=
  let without := option_map (pair []) (match_unit after) in
  match after with
  | c :: r =>
    if ((c =? 101) || (c =? 69))%N then
      let '(mark, r1) :=
        match r with
        | s :: r' => if ((s =? 43) || (s =? 45))%N then ([c; s], r') else ([c], r)
        | [] => ([c], r)
        end in
      let (digits, rest) := JsNumber.span_digits r1 in
      match try_exponent (List.length digits) mark digits rest with
      | Some m => Some m
      | None => without
      end
    else without
  | [] => without
  end.

(** The run of [[\d.]], longest first. *)
Fixpoint try_number (n : nat) (run rest : jsstring) : option (jsstring * jsstring) :=
  match n with
  | O => None
  | S n' =>
    match match_after_number (skipn n run ++ rest)%list with
    | Some (exponent, unit) => Some ((firstn n run ++ exponent)%list, unit)
    | None => try_number n' run rest
    end
  end.

Fixpoint span_number (s : jsstring) : jsstring * jsstring :=
  match s with
  | c :: r =>
    if is_digit c || (c =? 46)%N
    then let (d, t) := span_number r in (c :: d, t) else ([], s)
  | [] => ([], [])
  end.

(** The two captures of the pattern of [renderPrimitiveQuantity]: a run
    of digits and dots with an optional exponent, then, after optional
    blanks, a unit that starts with a non-blank character and runs to the
    end of the text. *)
Definition match_number_unit (s : jsstring) : option (jsstring * jsstring) :=
  let (run, rest) := span_number s in
  try_number (List.length run) run rest.

(** [renderPrimitiveQuantity] *)
Definition renderPrimitiveQuantity (value : jsstring) : Markup.t :=
  let noQuantity (content : jsstring) :=
    elem "drmd:noQuantity" [leaf "dcc:content" content] in
  if negb (truthy value) || eqb value (js "noQuantity") then
    noQuantity (js "noQuantity")
  else
    let fallback := noQuantity (escapeXml value) in
    match match_number_unit (trim value) with
    | Some (numPart, unitPart) =>
      let dsi := UnitConverter.convertToDSI
                   (Some (UnitLookup.VString numPart)) (Some unitPart) in
      if truthy (UnitLookup.dsiUnit dsi) then
        elem "drmd:real"
          [ leaf "si:value" (escapeXml (UnitLookup.dsiValue dsi));
            leaf "si:unit" (escapeXml (UnitLookup.dsiUnit dsi)) ]
      else fallback
    | None => fallback
    end.

(** ** The document *)

(** [cond ? [x] : []] *)
Definition opt (cond : bool) (x : Markup.t) : list Markup.t :=
  if cond then [x] else [].

Definition named (tag : string) (text : jsstring) : Markup.t :=
  elem tag [leaf "dcc:content" (escapeXml text)].

Definition producerXml (prod : Producer.t) : Markup.t :=
  let address := Producer.address prod in
  elem "drmd:referenceMaterialProducer"
    [ named "drmd:name" (Producer.name prod);
      elem "drmd:contact"
        ([ named "dcc:name" (Producer.name prod);
           leaf "dcc:eMail" (escapeXml (Producer.email prod));
           leaf "dcc:phone" (escapeXml (Producer.phone prod)) ]
         ++ opt (App.present (Producer.fax prod))
                (leaf "dcc:fax" (escapeXml_opt (Producer.fax prod)))
         ++ [ elem "dcc:location"
                [ leaf "dcc:street" (escapeXml (Address.street address));
                  leaf "dcc:streetNo" (escapeXml (Address.streetNo address));
                  leaf "dcc:postCode" (escapeXml (Address.postCode address));
                  leaf "dcc:city" (escapeXml (Address.city address));
                  leaf "dcc:countryCode" (escapeXml (Address.countryCode address)) ] ])%list ].

Definition personXml (p : ResponsiblePerson.t) : Markup.t :=
  elem "dcc:respPerson"
    ([ elem "dcc:person" [named "dcc:name" (ResponsiblePerson.name p)] ]
     ++ opt (truthy (ResponsiblePerson.description p))
            (named "dcc:description" (ResponsiblePerson.description p))
     ++ [ leaf "dcc:role" (escapeXml (ResponsiblePerson.role p));
          leaf "dcc:mainSigner"
               (bool_text (Some (ResponsiblePerson.mainSigner p))) ])%list.

Definition materialXml (mat : Material.t) : Markup.t :=
  elem "drmd:material"
    ([ named "drmd:name" (Material.name mat);
       named "drmd:description" (Material.description mat);
       elem "drmd:minimumSampleSize"
         [elem "dcc:itemQuantity"
            [renderPrimitiveQuantity (Material.minimumSampleSize mat)]] ]
     ++ opt (truthy (Material.itemQuantities mat))
            (elem "drmd:itemQuantities"
               [elem "dcc:itemQuantity"
                  [renderPrimitiveQuantity (Material.itemQuantities mat)]]))%list.

Definition quantityXml (q : Quantity.t) : Markup.t :=
  let val := Quantity.value q in
  let unit := if truthy (Quantity.dsiUnit q) then Quantity.dsiUnit q else Quantity.unit q in
  elem "drmd:quantity"
    ([ named "dcc:name" (Quantity.name q);
       elem "si:real"
         ([ leaf "si:value" (escapeXml val);
            leaf "si:unit" (escapeXml unit) ]
          ++ opt (truthy (Quantity.uncertainty q))
               (elem "si:measurementUncertaintyUnivariate"
                  [elem "si:expandedMU"
                     ([ leaf "si:valueExpandedMU" (escapeXml (Quantity.uncertainty q)) ]
                      ++ opt (truthy (Quantity.coverageFactor q))
                           (leaf "si:coverageFactor"
                                 (escapeXml (Quantity.coverageFactor q)))
                      ++ opt (truthy (Quantity.coverageProbability q))
                           (leaf "si:coverageProbability"
                                 (escapeXml (Quantity.coverageProbability q))))%list]))%list ]
     ++ match CasMapping.getCasNumber (Quantity.name q) with
        | Some casNumber =>
          [elem "drmd:propertyIdentifiers"
             [elem "drmd:propertyIdentifier"
                [ leaf "drmd:scheme" (js "CAS");
                  leaf "drmd:value" (escapeXml casNumber);
                  leaf "drmd:link"
                       (js "https://commonchemistry.cas.org/detail?cas_rn="
                        ++ escapeXml casNumber)%list ]]]
        | None => []
        end)%list.

Definition resultXml (res : MeasurementResult.t) : Markup.t :=
  elem "drmd:result"
    ([ named "drmd:name"
         (if truthy (MeasurementResult.name res)
          then MeasurementResult.name res else js "Values") ]
     ++ opt (truthy (MeasurementResult.description res))
            (named "drmd:description" (MeasurementResult.description res))
     ++ [ elem "drmd:data"
            [elem "drmd:list" (map quantityXml (MeasurementResult.quantities res))] ])%list.

Definition propertyXml (prop : MaterialProperty.t) : Markup.t :=
  Element (js "drmd:materialProperties")
    [(js "isCertified", bool_text (MaterialProperty.isCertified prop))]
    ([ named "drmd:name" (MaterialProperty.name prop) ]
     ++ opt (truthy (MaterialProperty.description prop))
            (named "drmd:description" (MaterialProperty.description prop))
     ++ opt (truthy (MaterialProperty.procedures prop))
            (elem "drmd:procedures"
               [elem "dcc:usedMethod"
                  [ elem "dcc:name" [leaf "dcc:content" (js "Procedure")];
                    named "dcc:description" (MaterialProperty.procedures prop) ]])
     ++ [ elem "drmd:results" (map resultXml (MaterialProperty.results prop)) ])%list.

(** [addStatement] *)
Definition addStatement (tag name : string) (content : jsstring) : list Markup.t :=
  if negb (truthy content) then []
  else [elem (String.append "drmd:" tag)
          [ elem "dcc:name" [leaf "dcc:content" (escapeXml (js name))];
            leaf "dcc:content" (escapeXml content) ]].

Definition statementsXml (st : OfficialStatements.t) : Markup.t :=
  elem "drmd:statements"
    (addStatement "intendedUse" "Intended Use" (OfficialStatements.intendedUse st)
     ++ addStatement "storageInformation" "Storage Information"
          (OfficialStatements.storageInformation st)
     ++ addStatement "instructionsForHandlingAndUse" "Handling Instructions"
          (OfficialStatements.handlingInstructions st)
     ++ addStatement "metrologicalTraceability" "Metrological Traceability"
          (OfficialStatements.metrologicalTraceability st)
     ++ addStatement "subcontractors" "Subcontractors"
          (OfficialStatements.subcontractors st)
     ++ addStatement "referenceToCertificationReport"
          "Reference to Certification Report"
          (OfficialStatements.referenceToCertificationReport st)
     ++ addStatement "healthAndSafetyInformation" "Health And Safety Information"
          (OfficialStatements.healthAndSafety st)
     ++ addStatement "legalNotice" "Legal Notice" (OfficialStatements.legalNotice st))%list.

Definition adminXml (admin : AdministrativeData.t) : Markup.t :=
  elem "drmd:administrativeData"
    ([ elem "drmd:coreData"
         [ leaf "drmd:titleOfTheDocument" (escapeXml (AdministrativeData.title admin));
           leaf "drmd:uniqueIdentifier"
                (escapeXml (AdministrativeData.uniqueIdentifier admin));
           elem "drmd:validity" (renderValidity admin) ] ]
     ++ map producerXml (AdministrativeData.producers admin)
     ++ opt (XmlParser.non_empty (AdministrativeData.responsiblePersons admin))
            (elem "drmd:respPersons"
               (map personXml (AdministrativeData.responsiblePersons admin))))%list.

Definition extraXml (data : DRMD.t) : list Markup.t :=
  (opt (truthy (DRMD.generalComment data))
       (leaf "drmd:comment" (escapeXml (DRMD.generalComment data)))
   ++ match DRMD.binaryDocument data with
      | Some b =>
        opt (truthy (BinaryDocument.data b))
            (leaf "drmd:document" (BinaryDocument.data b))
      | None => []
      end)%list.

(** [generateDrmdXml] *)
Definition generateDrmdXml (data : DRMD.t) : Markup.t :=
  Element (js "drmd:digitalReferenceMaterialDocument")
    [ (js "xmlns:dcc", js "https://ptb.de/dcc");
      (js "xmlns:drmd", js "https://example.org/drmd");
      (js "xmlns:si", js "https://ptb.de/si");
      (js "schemaVersion", js "0.3.0") ]
    ([ adminXml (DRMD.administrativeData data);
       elem "drmd:materials" (map materialXml (DRMD.materials data));
       elem "drmd:materialPropertiesList" (map propertyXml (DRMD.properties data));
       statementsXml (Statements.official (DRMD.statements data)) ]
     ++ extraXml data)%list.

End XmlGenerator.

(* ================================================================== *)
(** * Helpers around the codec and the converter *)
(* ================================================================== *)

(** ** [getDsiPreview] of the later revision of [unitConverter.ts] *)

Module UnitPreview.

Import Js UnitLookup.

(** [getDsiPreview]; the pattern is the one of [renderPrimitiveQuantity]. *)
Definition getDsiPreview (raw : jsstring) : jsstring :=
  if negb (truthy raw) then []
  else
    match XmlGenerator.match_number_unit (trim raw) with
    | Some (numPart, unitPart) =>
      let dsi := UnitConverterRev.convertToDSI (Some (VString numPart)) (Some unitPart) in
      if truthy (dsiUnit dsi)
      then (dsiValue dsi ++ js " " ++ dsiUnit dsi)%list
      else []
    | None => []
    end.

End UnitPreview.

(** ** [geminiService.ts]: the post-processing of the extraction result *)

Module GeminiService.

Import Js UnitLookup.

(** The body of [res.quantities.forEach]: the D-SI members are set from
    the value and the unit as extracted. *)
Definition withDsi (q : PQuantity.t) : PQuantity.t :=
  let dsi := UnitConverter.convertToDSI
               (option_map VString (PQuantity.value q)) (PQuantity.unit q) in
  {| PQuantity.name := PQuantity.name q;
     PQuantity.value := PQuantity.value q;
     PQuantity.unit := PQuantity.unit q;
     PQuantity.dsiValue := Some (dsiValue dsi);
     PQuantity.dsiUnit := Some (dsiUnit dsi);
     PQuantity.uncertainty := PQuantity.uncertainty q;
     PQuantity.coverageFactor := PQuantity.coverageFactor q;
     PQuantity.coverageProbability := PQuantity.coverageProbability q;
     PQuantity.distribution := PQuantity.distribution q;
     PQuantity.fieldCoordinates := PQuantity.fieldCoordinates q |}.

Definition resultWithDsi (r : PResult.t) : PResult.t :=
  {| PResult.name := PResult.name r;
     PResult.description := PResult.description r;
     PResult.sectionCoordinates := PResult.sectionCoordinates r;
     PResult.quantities := option_map (map withDsi) (PResult.quantities r) |}.

Definition propertyWithDsi (p : PProperty.t) : PProperty.t :=
  {| PProperty.name := PProperty.name p;
     PProperty.isCertified := PProperty.isCertified p;
     PProperty.description := PProperty.description p;
     PProperty.procedures := PProperty.procedures p;
     PProperty.results := option_map (map resultWithDsi) (PProperty.results p) |}.

(** "Post-processing: Calculate D-SI values" of
    [extractStructuredDataFromPdf], on the parsed JSON. *)
Definition postProcess (parsedData : Payload.t) : Payload.t :=
  {| Payload.administrativeData := Payload.administrativeData parsedData;
     Payload.materials := Payload.materials parsedData;
     Payload.properties :=
       option_map (map propertyWithDsi) (Payload.properties parsedData);
     Payload.statements := Payload.statements parsedData |}.

End GeminiService.

(** ** [App.tsx]: the duration shown and the name of the exported file *)

Module AppView.

Import Js.

(** [getIsoDuration] *)
Definition getIsoDuration (drmdData : DRMD.t) : jsstring :=
  let y := AdministrativeData.durationY (DRMD.administrativeData drmdData) in
  let m := AdministrativeData.durationM (DRMD.administrativeData drmdData) in
  if (y =? 0)%Z && (m =? 0)%Z then js "P"
  else (js "P"
        ++ (if (y =? 0)%Z then [] else XmlGenerator.Z_text y ++ js "Y")
        ++ (if (m =? 0)%Z then [] else XmlGenerator.Z_text m ++ js "M"))%list.

(** [link.download] of [handleExport] *)
Definition downloadName (drmdData : DRMD.t) : jsstring :=
  let uid := AdministrativeData.uniqueIdentifier (DRMD.administrativeData drmdData) in
  (js "DRMD-" ++ (if truthy uid then uid else js "export") ++ js ".xml")%list.

End AppView.

(* ================================================================== *)
(** * Properties *)
(* ================================================================== *)

(** ** Strings *)

Module JsFacts.

Import Js.

Lemma eqb_eq a b : eqb a b = true <-> a = b.
Proof.
  revert b; induction a as [|x a IH]; intros [|y b]; simpl; split;
    try congruence; try reflexivity.
  - rewrite andb_true_iff, N.eqb_eq, IH. intros [-> ->]; reflexivity.
  - intros H; injection H as -> ->. now rewrite N.eqb_refl, (proj2 (IH b)).
Qed.

Lemma eqb_refl a : eqb a a = true.
Proof. now apply eqb_eq. Qed.

Lemma eqb_neq a b : eqb a b = false <-> a <> b.
Proof.
  split.
  - intros H E. apply eqb_eq in E. congruence.
  - intros H. destruct (eqb a b) eqn:E; [apply eqb_eq in E; contradiction | reflexivity].
Qed.

(** A text without blank characters. *)
Definition solid (s : jsstring) : bool := forallb (fun c => negb (is_ws c)) s.

Lemma trimStart_head c s : is_ws c = false -> trimStart (c :: s) = c :: s.
Proof. intros H; simpl; now rewrite H. Qed.

Lemma trimStart_idem s : trimStart (trimStart s) = trimStart s.
Proof.
  induction s as [|c s IH]; simpl; [reflexivity|].
  destruct (is_ws c) eqn:E; [exact IH | simpl; now rewrite E].
Qed.

Lemma trimStart_app c l m :
  is_ws c = false -> trimStart (l ++ c :: m) = trimStart l ++ c :: m.
Proof.
  intros H; induction l as [|x l IH]; simpl.
  - now rewrite H.
  - destruct (is_ws x); [exact IH | reflexivity].
Qed.

Lemma trimEnd_idem s : trimEnd (trimEnd s) = trimEnd s.
Proof. unfold trimEnd. now rewrite rev_involutive, trimStart_idem. Qed.

Lemma trimEnd_head c s :
  is_ws c = false -> trimEnd (c :: s) = c :: trimEnd s.
Proof.
  intros H; unfold trimEnd; simpl.
  rewrite trimStart_app by exact H.
  rewrite rev_app_distr; reflexivity.
Qed.

Lemma trimStart_trimEnd s :
  trimStart (trimEnd (trimStart s)) = trimEnd (trimStart s).
Proof.
  induction s as [|c s IH]; simpl; [reflexivity|].
  destruct (is_ws c) eqn:E; [exact IH|].
  rewrite trimEnd_head by exact E. now apply trimStart_head.
Qed.

Lemma trim_idem s : trim (trim s) = trim s.
Proof. unfold trim. now rewrite trimStart_trimEnd, trimEnd_idem. Qed.

Lemma trimStart_solid s : solid s = true -> trimStart s = s.
Proof.
  destruct s as [|c s]; simpl; [reflexivity|].
  rewrite andb_true_iff, negb_true_iff. now intros [-> _].
Qed.

Lemma solid_rev s : solid (rev s) = solid s.
Proof.
  unfold solid; induction s as [|c s IH]; simpl; [reflexivity|].
  rewrite forallb_app, IH; simpl. rewrite andb_true_r. apply andb_comm.
Qed.

Lemma trim_solid s : solid s = true -> trim s = s.
Proof.
  intros H; unfold trim, trimEnd.
  rewrite (trimStart_solid s H), trimStart_solid by now rewrite solid_rev.
  apply rev_involutive.
Qed.

Lemma remove_ws_solid s : solid (remove_ws s) = true.
Proof.
  unfold solid, remove_ws. apply forallb_forall.
  intros c Hc. now apply filter_In in Hc.
Qed.

Lemma remove_ws_id s : solid s = true -> remove_ws s = s.
Proof.
  unfold solid, remove_ws; induction s as [|c s IH]; simpl; [reflexivity|].
  rewrite andb_true_iff; intros [-> H]. now rewrite IH.
Qed.

Lemma solid_app a b : solid (a ++ b) = solid a && solid b.
Proof. apply forallb_app. Qed.

End JsFacts.

(** ** Numbers *)

Module JsNumberFacts.

Import Js JsNumber JsFacts.

Lemma digit_not_ws c : is_digit c = true -> is_ws c = false.
Proof.
  unfold is_digit; rewrite andb_true_iff, !N.leb_le; intros [H1 H2].
  assert (E : (c = 48 \/ c = 49 \/ c = 50 \/ c = 51 \/ c = 52 \/ c = 53
               \/ c = 54 \/ c = 55 \/ c = 56 \/ c = 57)%N) by lia.
  repeat (destruct E as [->|E]; [reflexivity|]). subst c; reflexivity.
Qed.

Lemma digits_solid ds : forallb is_digit ds = true -> solid ds = true.
Proof.
  unfold solid; induction ds as [|c ds IH]; simpl; [reflexivity|].
  rewrite !andb_true_iff; intros [Hc H].
  now rewrite (digit_not_ws c Hc), IH.
Qed.

Lemma digits_of_uint_digits u : forallb is_digit (digits_of_uint u) = true.
Proof. induction u; simpl; auto. Qed.

Lemma digits_of_N_digits n : forallb is_digit (digits_of_N n) = true.
Proof. apply digits_of_uint_digits. Qed.

Lemma digits_of_N_solid n : solid (digits_of_N n) = true.
Proof. apply digits_solid, digits_of_N_digits. Qed.

Lemma zeros_solid n : solid (zeros n) = true.
Proof.
  unfold zeros, solid. induction (Z.to_nat n); simpl; auto.
Qed.

Lemma solid_firstn n s : solid s = true -> solid (firstn n s) = true.
Proof.
  unfold solid; revert s; induction n as [|n IH]; intros [|c s]; simpl; auto.
  rewrite !andb_true_iff; intros [-> H]; auto.
Qed.

Lemma solid_skipn n s : solid s = true -> solid (skipn n s) = true.
Proof.
  unfold solid; revert s; induction n as [|n IH]; intros [|c s]; simpl; auto.
  rewrite !andb_true_iff; intros [_ H]; auto.
Qed.

Lemma sign_text_solid s : solid (sign_text s) = true.
Proof. destruct s; reflexivity. Qed.

Lemma exponent_text_solid e : solid (exponent_text e) = true.
Proof.
  unfold exponent_text. rewrite !solid_app, digits_of_N_solid.
  destruct (0 <=? e)%Z; reflexivity.
Qed.

Lemma shortest_digits fuel k x num den n :
  forallb is_digit (fst (shortest fuel k x num den n)) = true.
Proof.
  revert k; induction fuel as [|fuel IH]; intros k; cbn [shortest]; [reflexivity|].
  destruct (scaled num den (k - n)) as [a b].
  repeat first
    [ apply IH
    | apply digits_of_N_digits
    | reflexivity
    | match goal with
      | |- context [if ?c then _ else _] => destruct c
      | |- context [match ?c with Eq => _ | Lt => _ | Gt => _ end] => destruct c
      end ].
Qed.

(** The text of a number has no blank in it. *)
Lemma toString_solid x : solid (toString x) = true.
Proof.
  destruct x as [s|s| |s m e]; unfold toString; try reflexivity.
  - now rewrite solid_app, sign_text_solid.
  - destruct (frac_of m e) as [num den].
    pose proof (shortest_digits 17 1 (S754_finite false m e) num den
                  (decimal_exponent num den + 1)) as Hd.
    destruct (shortest 17 1 _ num den _) as [ds n]; cbn [fst] in Hd.
    apply digits_solid in Hd.
    rewrite solid_app, sign_text_solid; cbn [andb].
    destruct ((Z.of_nat (List.length ds) <=? n)%Z && (n <=? 21)%Z).
    { now rewrite solid_app, Hd, zeros_solid. }
    destruct ((0 <? n)%Z && (n <=? 21)%Z).
    { rewrite !solid_app, solid_firstn, solid_skipn by exact Hd. reflexivity. }
    destruct ((-6 <? n)%Z && (n <=? 0)%Z).
    { rewrite !solid_app, zeros_solid, Hd. reflexivity. }
    destruct ds as [|d [|d' r]]; [reflexivity | |].
    + now rewrite solid_app, Hd, exponent_text_solid.
    + change (d :: 46%N :: (d' :: r) ++ exponent_text (n - 1))
        with ((d :: 46%N :: d' :: r) ++ exponent_text (n - 1)).
      rewrite solid_app, exponent_text_solid, andb_true_r.
      unfold solid in *; cbn [forallb] in *.
      rewrite !andb_true_iff in Hd. destruct Hd as (-> & -> & ->). reflexivity.
Qed.

End JsNumberFacts.

(** ** Counts *)

Module JsCountFacts.

Import JsCount.
Local Open Scope Z_scope.

(** An integer below [2^53] in magnitude is a Number. *)
Lemma round53_small z : Z.abs z < 2 ^ 53 -> round53 z = z.
Proof.
  intros H. unfold round53.
  destruct (Z.eq_dec (Z.abs z) 0) as [E|N].
  - rewrite E. reflexivity.
  - assert (L : Z.log2 (Z.abs z) < 53) by (apply Z.log2_lt_pow2; lia).
    destruct (Z.leb_spec (Z.log2 (Z.abs z) - 52) 0); [reflexivity | lia].
Qed.

Lemma round53_nonneg z : 0 <= z -> 0 <= round53 z.
Proof.
  intros H. unfold round53. cbv zeta.
  destruct (Z.leb_spec (Z.log2 (Z.abs z) - 52) 0) as [|E]; [exact H|].
  apply Z.mul_nonneg_nonneg; [lia|].
  set (b := 2 ^ (Z.log2 (Z.abs z) - 52)).
  assert (B : 0 < b) by (apply Z.pow_pos_nonneg; lia).
  apply Z.mul_nonneg_nonneg; [|lia].
  unfold nearest. cbv zeta.
  assert (Q : 0 <= Z.abs z / b) by (apply Z.div_pos; lia).
  destruct (2 * (Z.abs z mod b) ?= b); [destruct (Z.even _)| |]; lia.
Qed.

Lemma nearest_bounds a b :
  0 <= a -> 0 < b ->
  2 * b * nearest a b <= 2 * a + b /\ 2 * a - b <= 2 * b * nearest a b.
Proof.
  intros Ha Hb. unfold nearest.
  pose proof (Z.div_mod a b ltac:(lia)) as D.
  pose proof (Z.mod_pos_bound a b Hb) as M.
  destruct (Z.compare_spec (2 * (a mod b)) b); [destruct (Z.even (a / b))| |]; nia.
Qed.

(** Below [2^53] the quotient by 12 keeps at least three binary places,
    so that its rounding does not reach the next integer. *)
Lemma floor_div_small t : 0 < t < 2 ^ 53 -> floor_div t 12 = t / 12.
Proof.
  intros H. unfold floor_div.
  destruct (Z.eqb_spec t 0); [lia|].
  rewrite Z.abs_eq, Z.sgn_pos by lia.
  change (Z.log2 12) with 3.
  assert (L : Z.log2 t < 53) by (apply Z.log2_lt_pow2; lia).
  pose proof (Z.log2_nonneg t) as L0.
  set (e0 := Z.log2 t - 3).
  set (E := if (if 0 <=? e0 then 12 * 2 ^ e0 <=? t else 12 <=? t * 2 ^ (- e0))
            then e0 else e0 - 1).
  assert (HE : E <= 49) by (unfold E, e0; destruct (if 0 <=? _ then _ else _); lia).
  set (k := 52 - E).
  destruct (Z.leb_spec 0 k); [|lia].
  rewrite Z.mul_1_l.
  assert (K : 8 <= 2 ^ k).
  { change 8 with (2 ^ 3). apply Z.pow_le_mono_r; lia. }
  destruct (nearest_bounds (t * 2 ^ k) 12 ltac:(nia) ltac:(lia)) as [U Lo].
  pose proof (Z.div_mod t 12 ltac:(lia)) as D.
  pose proof (Z.mod_pos_bound t 12 ltac:(lia)) as M.
  symmetry. apply Z.div_unique with (r := nearest (t * 2 ^ k) 12 - 2 ^ k * (t / 12)).
  - left. nia.
  - lia.
Qed.

(** The total number of months, when it is a Number as it stands. *)
Lemma months_small y m :
  Z.abs y * 12 + Z.abs m < 2 ^ 53 -> add (mul y 12) m = y * 12 + m.
Proof.
  intros H. unfold add, mul.
  rewrite (round53_small (y * 12)) by lia. apply round53_small. lia.
Qed.

(** The operations against [SpecFloat]'s binary64 on sample operands,
    among them sums and products that are rounded. *)
Definition of_Z (z : Z) : spec_float := JsNumber.of_Z z.

Definition floor_of (x : spec_float) : option Z :=
  match x with
  | S754_zero _ => Some 0
  | S754_finite s m e =>
    let v := if s then Z.neg m else Z.pos m in
    Some (if 0 <=? e then v * 2 ^ e else v / 2 ^ (- e))
  | _ => None
  end.

Definition agree (xy : Z * Z) : bool :=
  let (x, y) := xy in
  match floor_of (SFmul 53 1024 (of_Z x) (of_Z y)),
        floor_of (SFadd 53 1024 (of_Z x) (of_Z y)),
        floor_of (SFdiv 53 1024 (of_Z x) (of_Z y)) with
  | Some p, Some s, Some q =>
    (mul x y =? p) && (add x y =? s) && (floor_div x y =? q)
  | _, _, _ => false
  end.

Lemma agree_with_binary64 :
  forallb agree
    [ (750599937895083, 12); (9007199254740996, 1); (9007199254740996, 12);
      (3 * 2 ^ 59 + 256, 12); (2 ^ 57 + 32, 12); (3 * 2 ^ 59 + 512, 4);
      (12 * 2 ^ 53 + 16, 12); (2 ^ 53 + 2, 12); (2 ^ 53 - 1, 12);
      (- (2 ^ 60 + 2 ^ 8), 12); (7, 12); (11, 12); (12, 12); (13, 12);
      (42, 12); (2 ^ 70 + 2 ^ 18, 3); (2 ^ 100 + 2 ^ 48, 12); (5, 7); (- 5, 7) ]
  = true.
Proof. vm_compute. reflexivity. Qed.

(** The rounding against the conversion of [SpecFloat], on integers on
    both sides of [2^53] and on ties. *)
Lemma round53_is_of_Z :
  forallb (fun z => match floor_of (of_Z z) with
                    | Some v => v =? round53 z
                    | None => false
                    end)
    [ 0; 1; - 1; 2 ^ 53 - 1; 2 ^ 53; 2 ^ 53 + 1; 2 ^ 53 + 2; 2 ^ 53 + 3;
      - (2 ^ 53 + 1); - (2 ^ 53 + 3); 9007199254740997; 10 ^ 21; 10 ^ 22 + 1;
      2 ^ 54 + 2; 2 ^ 54 + 6; 2 ^ 60 + 2 ^ 7; 2 ^ 60 + 3 * 2 ^ 7;
      123456789012345678901234567890; 2 ^ 200 + 1 ]
  = true.
Proof. vm_compute. reflexivity. Qed.

End JsCountFacts.

(** ** Unit converter *)

Module UnitLookupFacts.

Import Js JsNumber UnitLookup JsFacts JsNumberFacts.

(** [c] does not occur in [s]. *)
Definition absent (c : N) (s : jsstring) : bool :=
  forallb (fun x => negb (x =? c)%N) s.

Lemma absent_app c a b : absent c (a ++ b) = absent c a && absent c b.
Proof. apply forallb_app. Qed.

Lemma replace_unit_id c r s : absent c s = true -> replace_unit c r s = s.
Proof.
  unfold absent, replace_unit; induction s as [|x s IH]; simpl; [reflexivity|].
  rewrite andb_true_iff, negb_true_iff; intros [-> H]. simpl. now rewrite IH.
Qed.

Lemma replace_unit_absent c r s : absent c r = true -> absent c (replace_unit c r s) = true.
Proof.
  intros Hr; unfold replace_unit; induction s as [|x s IH]; simpl; [reflexivity|].
  rewrite absent_app, IH, andb_true_r.
  destruct (x =? c)%N eqn:E; [exact Hr | simpl; now rewrite E].
Qed.

Lemma replace_unit_keeps d c r s :
  absent d r = true -> absent d s = true -> absent d (replace_unit c r s) = true.
Proof.
  intros Hr; unfold replace_unit; induction s as [|x s IH]; simpl; [reflexivity|].
  rewrite andb_true_iff; intros [Hx Hs].
  rewrite absent_app, (IH Hs), andb_true_r.
  destruct (x =? c)%N; [exact Hr | simpl; now rewrite Hx].
Qed.

Lemma replace_pair_cons a b r x y s :
  replace_pair a b r (x :: y :: s) =
  if ((x =? a) && (y =? b))%N then r ++ replace_pair a b r s
  else x :: replace_pair a b r (y :: s).
Proof. reflexivity. Qed.

Lemma replace_pair_id a b r s : absent a s = true -> replace_pair a b r s = s.
Proof.
  unfold absent; induction s as [|x s IH]; [reflexivity|].
  cbn [forallb]; rewrite andb_true_iff, negb_true_iff; intros [Hx Hs].
  destruct s as [|y s]; [reflexivity|].
  rewrite replace_pair_cons, Hx; cbn [andb]. now rewrite (IH Hs).
Qed.

Lemma replace_unit_solid c r s :
  solid r = true -> solid s = true -> solid (replace_unit c r s) = true.
Proof.
  intros Hr; unfold replace_unit; induction s as [|x s IH]; simpl; [reflexivity|].
  unfold solid in *; cbn [forallb]. rewrite andb_true_iff; intros [Hx Hs].
  rewrite forallb_app, (IH Hs), andb_true_r.
  destruct (x =? c)%N; [exact Hr | simpl; now rewrite Hx].
Qed.

Lemma solid_cons c s : solid (c :: s) = negb (is_ws c) && solid s.
Proof. reflexivity. Qed.

Lemma replace_pair_solid a b r s :
  solid r = true -> solid s = true -> solid (replace_pair a b r s) = true.
Proof.
  intros Hr. remember (List.length s) as n eqn:Hn.
  revert s Hn; induction n as [n IH] using lt_wf_ind; intros s Hn Hs.
  destruct s as [|x [|y s]]; try exact Hs.
  rewrite replace_pair_cons.
  unfold solid in Hs; cbn [forallb] in Hs.
  rewrite !andb_true_iff in Hs; destruct Hs as (Hx & Hy & Hs).
  destruct ((x =? a)%N && (y =? b)%N).
  - rewrite solid_app, Hr. cbn [andb].
    apply (IH (List.length s)); [subst n; simpl; lia | reflexivity | exact Hs].
  - rewrite solid_cons, Hx. cbn [andb].
    apply (IH (List.length (y :: s))); [subst n; simpl; lia | reflexivity |].
    now rewrite solid_cons, Hy.
Qed.

(** No superscript sign or digit is left in [s]. *)
Definition plain (s : jsstring) : bool :=
  absent 8315 s && absent 185 s && absent 178 s && absent 179 s.

Lemma ascii_superscripts_plain s : plain (ascii_superscripts s) = true.
Proof.
  unfold plain, ascii_superscripts.
  set (s0 := replace_pair 8315 185 (js "-1") s).
  set (s1 := replace_unit 8315 (js "-") s0).
  set (s2 := replace_unit 185 (js "1") s1).
  set (s3 := replace_unit 178 (js "2") s2).
  assert (H1 : absent 8315 s1 = true) by (apply replace_unit_absent; reflexivity).
  assert (H2 : absent 8315 s2 = true /\ absent 185 s2 = true).
  { split; [apply replace_unit_keeps; [reflexivity | exact H1]
           | apply replace_unit_absent; reflexivity]. }
  assert (H3 : absent 8315 s3 = true /\ absent 185 s3 = true /\ absent 178 s3 = true).
  { destruct H2. repeat split;
      [apply replace_unit_keeps; [reflexivity | assumption] ..
      | apply replace_unit_absent; reflexivity]. }
  destruct H3 as (A & B & C).
  rewrite !andb_true_iff. repeat split;
    [apply replace_unit_keeps; [reflexivity | assumption] ..
    | apply replace_unit_absent; reflexivity].
Qed.

Lemma ascii_superscripts_id s : plain s = true -> ascii_superscripts s = s.
Proof.
  unfold plain; rewrite !andb_true_iff; intros [[[A B] C] D].
  unfold ascii_superscripts.
  rewrite (replace_pair_id _ _ _ _ A), (replace_unit_id _ _ _ A),
    (replace_unit_id _ _ _ B), (replace_unit_id _ _ _ C).
  apply (replace_unit_id _ _ _ D).
Qed.

Lemma ascii_superscripts_idem s :
  ascii_superscripts (ascii_superscripts s) = ascii_superscripts s.
Proof. apply ascii_superscripts_id, ascii_superscripts_plain. Qed.

Lemma ascii_superscripts_solid s :
  solid s = true -> solid (ascii_superscripts s) = true.
Proof.
  intros H; unfold ascii_superscripts.
  repeat (apply replace_unit_solid; [reflexivity|]).
  apply replace_pair_solid; [reflexivity | exact H].
Qed.

Lemma clean_solid u : solid (clean u) = true.
Proof. apply remove_ws_solid. Qed.

(** A text without blanks that starts with a backslash is its own
    cleaned form. *)
Lemma clean_escaped u :
  solid u = true -> startsWith u (js "\") = true -> clean u = u.
Proof.
  intros Hs Hb. unfold clean.
  assert (E : strip_in_prefix u = u).
  { unfold strip_in_prefix. rewrite (trimStart_solid u Hs).
    destruct u as [|c1 [|c2 [|c3 r]]]; try reflexivity.
    change (js "\") with [92%N] in Hb.
    cbv beta iota delta [startsWith] in Hb.
    rewrite andb_true_r in Hb. apply N.eqb_eq in Hb; subst c1.
    reflexivity. }
  now rewrite E, (trim_solid u Hs), (remove_ws_id u Hs).
Qed.

Section Table.

Variable UNIT_MAP : list (jsstring * DsiConversion.t).

Lemma get_In m k c : get m k = Some c -> In c (map snd m).
Proof.
  induction m as [|[k' c'] m IH]; simpl; [discriminate|].
  destruct (eqb k' k); [intros [= ->]; now left | intros H; right; auto].
Qed.

Lemma get_lower_In u c : get_lower UNIT_MAP u = Some c -> In c (map snd UNIT_MAP).
Proof.
  unfold get_lower. destruct (find _ UNIT_MAP) as [[k c']|]; [|discriminate].
  destruct (truthy k); [apply get_In | discriminate].
Qed.

Lemma resolve_In u c u' :
  resolve UNIT_MAP u = (Some c, u') -> In c (map snd UNIT_MAP).
Proof.
  unfold resolve.
  destruct (get UNIT_MAP u) eqn:E1; [intros [= <- _]; eapply get_In; eauto|].
  destruct (get_lower UNIT_MAP u) eqn:E2; [intros [= <- _]; eapply get_lower_In; eauto|].
  destruct (get UNIT_MAP (ascii_superscripts u)) eqn:E3;
    [intros [= <- _]; eapply get_In; eauto|].
  intros [= H _]. eapply get_lower_In; eauto.
Qed.

Lemma resolve_None u u' :
  resolve UNIT_MAP u = (None, u') ->
  u' = ascii_superscripts u /\ get UNIT_MAP u' = None /\ get_lower UNIT_MAP u' = None.
Proof.
  unfold resolve.
  destruct (get UNIT_MAP u) eqn:E1; [discriminate|].
  destruct (get_lower UNIT_MAP u) eqn:E2; [discriminate|].
  destruct (get UNIT_MAP (ascii_superscripts u)) eqn:E3; [discriminate|].
  intros [= H <-]. auto.
Qed.

(** A unit text the search has given up on is given up on again, and
    left as it is. *)
Lemma resolve_None_again u u' :
  resolve UNIT_MAP u = (None, u') -> resolve UNIT_MAP u' = (None, u').
Proof.
  intros H. apply resolve_None in H. destruct H as (-> & G & L).
  unfold resolve. rewrite G, L, ascii_superscripts_idem, G, L. reflexivity.
Qed.

End Table.

End UnitLookupFacts.

(** *** The later revision ([src/unnamed/part_002]) *)

Module UnitConverterRevFacts.

Import Js JsNumber UnitLookup JsFacts JsNumberFacts UnitLookupFacts.
Import UnitConverterRev.

(** The D-SI unit and the scale factor settled for a cleaned unit text:
    the "Determine target DSI Unit" step. *)
Definition target (cleanUnit0 : jsstring) : option (jsstring * number) :=
  let '(conversion, cleanUnit) := resolve UNIT_MAP cleanUnit0 in
  match conversion with
  | Some conversion =>
    Some (DsiConversion.dsiUnit conversion, DsiConversion.factor conversion)
  | None =>
    if startsWith cleanUnit (js "\") then Some (cleanUnit, Number (js "1")) else None
  end.

(** The "Calculate DSI Value" step. *)
Definition scaled_text (factor : number) (valStr : jsstring) : jsstring :=
  let numValue := parseFloat (numStr valStr) in
  if negb (isNaN numValue) then
    if negb (is_one factor) then six_digits (mul numValue factor) else trim valStr
  else
    if is_one factor && (0 <? List.length (trim valStr))%nat then trim valStr else [].

Definition text_of (value : option value) : jsstring :=
  match value with Some v => String v | None => [] end.

Lemma convertToDSI_steps value unit :
  convertToDSI value (Some unit) =
  match target (clean unit) with
  | Some (dsiUnit, factor) =>
    {| dsiValue := scaled_text factor (text_of value); dsiUnit := dsiUnit |}
  | None => empty_result
  end.
Proof.
  unfold convertToDSI, target, scaled_text, text_of.
  destruct (resolve UNIT_MAP (clean unit)) as [[c|] cu]; [reflexivity|].
  destruct (startsWith cu (js "\")); reflexivity.
Qed.

Lemma scaled_text_one factor valStr :
  is_one factor = true -> scaled_text factor valStr = trim valStr.
Proof.
  intros H; unfold scaled_text; rewrite H; cbn [negb andb].
  destruct (negb (isNaN _)); [reflexivity|].
  destruct (trim valStr); reflexivity.
Qed.

Lemma scaled_text_trimmed factor valStr :
  trim (scaled_text factor valStr) = scaled_text factor valStr.
Proof.
  unfold scaled_text.
  repeat match goal with
         | |- context [if ?c then _ else _] => destruct c
         end;
    try apply trim_idem; try reflexivity.
  apply trim_solid, toString_solid.
Qed.

(** Every D-SI unit of the table, given back as a unit, is settled as
    itself with factor 1. *)
Definition settled (c : DsiConversion.t) : bool :=
  match target (clean (DsiConversion.dsiUnit c)) with
  | Some (u, f) => eqb u (DsiConversion.dsiUnit c) && is_one f
  | None => false
  end.

Lemma table_settled : forallb settled (map snd UNIT_MAP) = true.
Proof. vm_compute. reflexivity. Qed.

Lemma target_fixed u0 du f :
  solid u0 = true ->
  target u0 = Some (du, f) ->
  exists f', target (clean du) = Some (du, f') /\ is_one f' = true.
Proof.
  intros Hs H. unfold target in H.
  destruct (resolve UNIT_MAP u0) as [[c|] cu] eqn:R.
  - injection H as <- <-.
    apply resolve_In in R.
    pose proof (proj1 (forallb_forall _ _) table_settled c R) as S.
    unfold settled in S.
    destruct (target (clean (DsiConversion.dsiUnit c))) as [[u f]|]; [|discriminate].
    apply andb_true_iff in S; destruct S as [E O].
    apply eqb_eq in E; subst u. eauto.
  - destruct (startsWith cu (js "\")) eqn:B; [|discriminate].
    injection H as <- <-.
    pose proof (resolve_None_again _ _ _ R) as R'.
    apply resolve_None in R; destruct R as (E & _ & _).
    assert (Hcu : solid cu = true) by (subst cu; now apply ascii_superscripts_solid).
    exists (Number (js "1")). split; [|reflexivity].
    rewrite (clean_escaped cu Hcu B). unfold target. now rewrite R', B.
Qed.

(** X1.  For every value and every unit that the table resolves with scale
    factor 1, the D-SI value is the trimmed value text and the D-SI unit
    the one of the table entry. *)
Theorem factor_one_keeps_text value unit c :
  fst (resolve UNIT_MAP (clean unit)) = Some c ->
  is_one (DsiConversion.factor c) = true ->
  convertToDSI value (Some unit) =
  {| dsiValue := trim (text_of value); dsiUnit := DsiConversion.dsiUnit c |}.
Proof.
  intros R O. rewrite convertToDSI_steps. unfold target.
  destruct (resolve UNIT_MAP (clean unit)) as [conv cu]; simpl in R; subst conv.
  now rewrite scaled_text_one.
Qed.

(** X2.  Conversion is idempotent on every pair whose unit resolves. *)
Theorem convertToDSI_idempotent value unit :
  let r := convertToDSI value (Some unit) in
  dsiUnit r <> [] ->
  convertToDSI (Some (VString (dsiValue r))) (Some (dsiUnit r)) = r.
Proof.
  cbv zeta. rewrite convertToDSI_steps.
  destruct (target (clean unit)) as [[du f]|] eqn:T; [|intros H; now elim H].
  intros _. cbn [dsiValue dsiUnit].
  destruct (target_fixed _ _ _ (clean_solid unit) T) as (f' & T' & O).
  rewrite convertToDSI_steps, T'. cbn [text_of String].
  now rewrite (scaled_text_one _ _ O), scaled_text_trimmed.
Qed.

Definition text (s : string) : option value := Some (VString (js s)).

(** The literal cases of the specification. *)
Lemma literal_cases :
  convertToDSI (text "4.9") (Some (js "g"))
    = {| dsiValue := js "4.9"; dsiUnit := js "\gram" |}
  /\ convertToDSI (text "2") (Some (js "lb"))
    = {| dsiValue := js "0.907185"; dsiUnit := js "\kilogram" |}
  /\ convertToDSI (text "<0.05") (Some (js "mg/kg"))
    = {| dsiValue := js "<0.05"; dsiUnit := js "\milli\gram\kilogram\tothe{-1}" |}
  /\ convertToDSI (text "1") (Some (js "unknownunit")) = empty_result.
Proof. vm_compute. repeat split. Qed.

Lemma factor_one_keeps_text_at_mass_fraction :
  convertToDSI (text "<0.05") (Some (js "mg/kg"))
  = {| dsiValue := js "<0.05"; dsiUnit := js "\milli\gram\kilogram\tothe{-1}" |}.
Proof.
  pose (c := snd (entry "mg/kg" "\milli\gram\kilogram\tothe{-1}" "1")).
  assert (R : fst (resolve UNIT_MAP (clean (js "mg/kg"))) = Some c)
    by (vm_compute; reflexivity).
  assert (O : is_one (DsiConversion.factor c) = true) by (vm_compute; reflexivity).
  rewrite (factor_one_keeps_text _ _ c R O). reflexivity.
Defined.

Lemma convertToDSI_idempotent_at_pound :
  convertToDSI (Some (VString (js "0.907185"))) (Some (js "\kilogram"))
  = {| dsiValue := js "0.907185"; dsiUnit := js "\kilogram" |}.
Proof.
  assert (E : convertToDSI (text "2") (Some (js "lb"))
              = {| dsiValue := js "0.907185"; dsiUnit := js "\kilogram" |})
    by (vm_compute; reflexivity).
  pose proof (convertToDSI_idempotent (text "2") (js "lb")) as H.
  cbv zeta in H. rewrite E in H. apply H. discriminate.
Defined.

End UnitConverterRevFacts.

(** *** [src/utils/unitConverter.ts] *)

Module UnitConverterFacts.

Import Js JsNumber UnitLookup.
Import UnitConverter.

Definition text (s : string) : option value := Some (VString (js s)).

(** C2.  The literal cases on [src/utils/unitConverter.ts]: grams are
    scaled by 0.001 while the unit stays the gram symbol, so the value
    for ["4.9"] and ["g"] is ["0.0049"], not ["4.9"]; the pound and the
    unknown unit come out as the specification says. *)
Theorem literal_cases_scaled_gram :
  convertToDSI (text "4.9") (Some (js "g"))
    = {| dsiValue := js "0.0049"; dsiUnit := js "\gram" |}
  /\ convertToDSI (text "2") (Some (js "lb"))
    = {| dsiValue := js "0.907185"; dsiUnit := js "\kilogram" |}
  /\ convertToDSI (text "1") (Some (js "unknownunit")) = empty_result.
Proof. vm_compute. repeat split. Qed.

(** C3.  On [src/utils/unitConverter.ts] a factor-1 unit gives back the
    stripped numeric text: the ["<"] of ["<0.05"] is lost. *)
Theorem factor_one_strips_decoration :
  convertToDSI (text "<0.05") (Some (js "mg/kg"))
  = {| dsiValue := js "0.05"; dsiUnit := js "\milli\gram\kilogram\tothe{-1}" |}.
Proof. vm_compute. reflexivity. Qed.

(** C4.  On [src/utils/unitConverter.ts] a unit that already is a D-SI
    unit does not resolve: converting the result of a conversion gives
    the empty result. *)
Theorem convertToDSI_not_idempotent :
  let r := convertToDSI (text "1") (Some (js "kg")) in
  r = {| dsiValue := js "1"; dsiUnit := js "\kilogram" |}
  /\ convertToDSI (Some (VString (dsiValue r))) (Some (dsiUnit r)) = empty_result.
Proof. vm_compute. split; reflexivity. Qed.

End UnitConverterFacts.

(** ** Identifier supply *)

Module GenFacts.

Lemma bind_run {A B} (m : Gen.t A) (k : A -> Gen.t B) n :
  Gen.bind m k n = k (fst (m n)) (snd (m n)).
Proof. unfold Gen.bind. destruct (m n); reflexivity. Qed.

Lemma eval_bind {A B} (m : Gen.t A) (k : A -> Gen.t B) n :
  Gen.eval (Gen.bind m k) n = Gen.eval (k (fst (m n))) (snd (m n)).
Proof. unfold Gen.eval. now rewrite bind_run. Qed.

Lemma mapM_cons {A B} (f : A -> Gen.t B) a l n :
  fst (Gen.mapM f (a :: l) n)
  = fst (f a n) :: fst (Gen.mapM f l (snd (f a n))).
Proof. cbn [Gen.mapM]. now rewrite !bind_run. Qed.

Lemma mapM_length {A B} (f : A -> Gen.t B) l n :
  List.length (fst (Gen.mapM f l n)) = List.length l.
Proof.
  revert n; induction l as [|a l IH]; intros n; [reflexivity|].
  rewrite mapM_cons. simpl. now rewrite IH.
Qed.

Lemma mapM_Forall2 {A B} (f : A -> Gen.t B) (R : B -> A -> Prop) :
  (forall a n, R (fst (f a n)) a) ->
  forall l n, Forall2 R (fst (Gen.mapM f l n)) l.
Proof.
  intros H l; induction l as [|a l IH]; intros n; [constructor|].
  rewrite mapM_cons. constructor; auto.
Qed.

Lemma mapM_Forall {A B} (f : A -> Gen.t B) (P : B -> Prop) :
  (forall a n, P (fst (f a n))) ->
  forall l n, Forall P (fst (Gen.mapM f l n)).
Proof.
  intros H l; induction l as [|a l IH]; intros n; [constructor|].
  rewrite mapM_cons. constructor; auto.
Qed.

Lemma mapM_non_empty {A B} (f : A -> Gen.t B) l n :
  App.non_empty (fst (Gen.mapM f l n)) = App.non_empty l.
Proof. destruct l; [reflexivity | now rewrite mapM_cons]. Qed.

End GenFacts.

(** ** Extraction normalizer *)

Module AppFacts.

Import Js JsFacts GenFacts App.

Definition adminOf (x : option Payload.t) : option PAdmin.t :=
  member_of x Payload.administrativeData.

(** The lists of the extraction payload, empty when absent. *)
Definition incomingProducers (x : option Payload.t) : list PProducer.t :=
  or_nil (member_of (adminOf x) PAdmin.producers).
Definition incomingPersons (x : option Payload.t) : list PPerson.t :=
  or_nil (member_of (adminOf x) PAdmin.responsiblePersons).
Definition incomingMaterials (x : option Payload.t) : list PMaterial.t :=
  or_nil (member_of x Payload.materials).
Definition incomingProperties (x : option Payload.t) : list PProperty.t :=
  or_nil (member_of x Payload.properties).

(** The key under which [handleFileUpload] files a property of the
    given name: [normalizeName(p.name || "Material Properties")]. *)
Definition propertyKey (name : jsstring) : jsstring :=
  normalizeName (if truthy name then name else js "Material Properties").

Definition key (p : PProperty.t) : jsstring := propertyKey (str (PProperty.name p)).

(** [propertyMap] starts as an object literal, so the one key of this
    alphabet that every object inherits is found in it before any
    property is filed: a property of that key is never filed, and the
    update fails on its first result.  The table of the model holds own
    entries only. *)
Definition own_keys (ps : list PProperty.t) : Prop :=
  Forall (fun p => key p <> js "constructor") ps.

Ltac branches :=
  repeat match goal with
         | |- context [if ?c then _ else _] => destruct c
         | |- context [match ?c with Some _ => _ | None => _ end] => destruct c
         | |- context [let (_, _) := ?c in _] => destruct c
         end.

Lemma normalizeDuration_lists a :
  PAdmin.producers (normalizeDuration a) = PAdmin.producers a
  /\ PAdmin.responsiblePersons (normalizeDuration a) = PAdmin.responsiblePersons a
  /\ PAdmin.validityType (normalizeDuration a) = PAdmin.validityType a.
Proof. unfold normalizeDuration; branches; repeat split; reflexivity. Qed.

Lemma fixSpecificTime_members a :
  PAdmin.producers (fixSpecificTime a) = PAdmin.producers a
  /\ PAdmin.responsiblePersons (fixSpecificTime a) = PAdmin.responsiblePersons a
  /\ PAdmin.validityType (fixSpecificTime a) = PAdmin.validityType a
  /\ PAdmin.durationY (fixSpecificTime a) = PAdmin.durationY a
  /\ PAdmin.durationM (fixSpecificTime a) = PAdmin.durationM a.
Proof. unfold fixSpecificTime; branches; repeat split; reflexivity. Qed.

Lemma corrected_producers x :
  incomingProducers (correctPayload x) = map fixCountry (incomingProducers x).
Proof.
  unfold incomingProducers, adminOf.
  destruct x as [x|]; [|reflexivity]. cbn.
  destruct (Payload.administrativeData x) as [a|]; [|reflexivity].
  cbn [option_map member_of correctAdmin fixCountries PAdmin.producers].
  rewrite (proj1 (fixSpecificTime_members _)), (proj1 (normalizeDuration_lists _)).
  destruct (PAdmin.producers a); reflexivity.
Qed.



Lemma corrected_properties x :
  incomingProperties (correctPayload x) = incomingProperties x.
Proof. destruct x; reflexivity. Qed.

(** The four lists of the document after the update, in terms of the
    lists built from the payload. *)
Lemma updateDrmd_lists now x prev seed :
  let d := Gen.eval (updateDrmd now x prev) seed in
  exists n1 n2 n3 n4,
    let newMats := fst (Gen.mapM newMaterial (incomingMaterials x) n1) in
    let newProps :=
      fst (Gen.mapM newProperty
             (Object_values (mergeProperties (incomingProperties x))) n2) in
    let newProds := fst (Gen.mapM newProducer (incomingProducers x) n3) in
    let newPersons := fst (Gen.mapM newPerson (incomingPersons x) n4) in
    AdministrativeData.producers (DRMD.administrativeData d)
    = (if non_empty newProds then newProds
       else AdministrativeData.producers (DRMD.administrativeData prev))
    /\ AdministrativeData.responsiblePersons (DRMD.administrativeData d)
    = (if non_empty newPersons then newPersons
       else AdministrativeData.responsiblePersons (DRMD.administrativeData prev))
    /\ DRMD.materials d
    = (if non_empty newMats then newMats else DRMD.materials prev)
    /\ DRMD.properties d
    = (if non_empty newProps then newProps else DRMD.properties prev).
Proof.
  cbv zeta. unfold updateDrmd.
  rewrite !eval_bind. unfold Gen.eval, Gen.ret. cbn [fst DRMD.administrativeData
    AdministrativeData.producers AdministrativeData.responsiblePersons
    DRMD.materials DRMD.properties].
  do 4 eexists. repeat split; reflexivity.
Qed.

Lemma updateDrmd_durations now x prev seed :
  let d := Gen.eval (updateDrmd now x prev) seed in
  AdministrativeData.durationY (DRMD.administrativeData d)
  = over (member_of (adminOf x) PAdmin.durationY)
         (AdministrativeData.durationY (DRMD.administrativeData prev))
  /\ AdministrativeData.durationM (DRMD.administrativeData d)
  = over (member_of (adminOf x) PAdmin.durationM)
         (AdministrativeData.durationM (DRMD.administrativeData prev)).
Proof.
  cbv zeta. unfold updateDrmd.
  rewrite !eval_bind. unfold Gen.eval, Gen.ret. split; reflexivity.
Qed.

Lemma normalizeDuration_carry a years months :
  PAdmin.validityType a = Some TimeAfterDispatch ->
  PAdmin.durationY a = Some years ->
  PAdmin.durationM a = Some months ->
  (0 <= years)%Z -> (0 <= months)%Z -> (years * 12 + months < 2 ^ 53)%Z ->
  exists ry rm,
    PAdmin.durationY (normalizeDuration a) = Some ry
    /\ PAdmin.durationM (normalizeDuration a) = Some rm
    /\ (0 <= rm <= 11)%Z
    /\ (ry * 12 + rm = years * 12 + months)%Z.
Proof.
  intros V Y M Hy Hm Hs. unfold normalizeDuration, is_validity.
  rewrite V, eqb_refl, Y, M. cbn [or_zero].
  rewrite JsCountFacts.months_small by lia.
  destruct (0 <? years * 12 + months)%Z eqn:T.
  - apply Z.ltb_lt in T.
    exists ((years * 12 + months) / 12)%Z, (Z.rem (years * 12 + months) 12).
    cbn [with_duration PAdmin.durationY PAdmin.durationM].
    rewrite JsCountFacts.floor_div_small by lia. unfold JsCount.rem.
    rewrite Z.rem_mod_nonneg by lia.
    pose proof (Z.div_mod (years * 12 + months) 12 ltac:(lia)).
    pose proof (Z.mod_pos_bound (years * 12 + months) 12 ltac:(lia)).
    repeat split; lia.
  - apply Z.ltb_ge in T. exists years, months. rewrite Y, M.
    repeat split; lia.
Qed.

Definition sampleAdmin (y m : Z) : PAdmin.t :=
  {| PAdmin.title := None;
     PAdmin.uniqueIdentifier := None;
     PAdmin.validityType := Some TimeAfterDispatch;
     PAdmin.durationY := Some y;
     PAdmin.durationM := Some m;
     PAdmin.dateOfIssue := None;
     PAdmin.specificTime := None;
     PAdmin.fieldCoordinates := None;
     PAdmin.producers := None;
     PAdmin.responsiblePersons := None |}.

Definition samplePayload (a : option PAdmin.t) (ps : option (list PProperty.t))
  : Payload.t :=
  {| Payload.administrativeData := a;
     Payload.materials := None;
     Payload.properties := ps;
     Payload.statements := None |}.

(** The months of the document after the extraction are carried: they
    lie between 0 and 11, and the total number of months is the one
    extracted. *)
Definition carried (years months : Z) (d : DRMD.t) : Prop :=
  let resultYears := AdministrativeData.durationY (DRMD.administrativeData d) in
  let resultMonths := AdministrativeData.durationM (DRMD.administrativeData d) in
  (0 <= resultMonths <= 11)%Z
  /\ (resultYears * 12 + resultMonths = years * 12 + months)%Z.

(** The rule as the specification words it: for all non-negative
    counts. *)
Definition carried_for_all_counts : Prop :=
  forall now x a prev seed years months,
    Payload.administrativeData x = Some a ->
    PAdmin.validityType a = Some TimeAfterDispatch ->
    PAdmin.durationY a = Some years ->
    PAdmin.durationM a = Some months ->
    own_keys (incomingProperties (Some x)) ->
    (0 <= years)%Z -> (0 <= months)%Z ->
    carried years months (Gen.eval (handleFileUpload now (Some x) prev) seed).

(** C6, as stated, fails: twelve times 750599937895083 years is a
    Number, that product and one month more is not, the sum is rounded
    to the product, and the month is lost. *)
Lemma month_lost_in_rounding : ~ carried_for_all_counts.
Proof.
  intros H.
  destruct (H (js "2026-01-01")
              (samplePayload (Some (sampleAdmin 750599937895083 1)) None)
              (sampleAdmin 750599937895083 1)
              (Types.INITIAL_DRMD (js "2026-01-01")) 0%nat
              750599937895083%Z 1%Z eq_refl eq_refl eq_refl eq_refl
              (Forall_nil _) ltac:(lia) ltac:(lia)) as [_ E].
  vm_compute in E. discriminate E.
Qed.

(** C6, amended.  For non-negative year and month counts under a "Time
    After Dispatch" validity whose total number of months is below
    [2^53], the document after the extraction carries the duration with
    months between 0 and 11 and the same total number of months. *)
Theorem validity_months_carried now x a prev seed years months :
  Payload.administrativeData x = Some a ->
  PAdmin.validityType a = Some TimeAfterDispatch ->
  PAdmin.durationY a = Some years ->
  PAdmin.durationM a = Some months ->
  own_keys (incomingProperties (Some x)) ->
  (0 <= years)%Z -> (0 <= months)%Z -> (years * 12 + months < 2 ^ 53)%Z ->
  carried years months (Gen.eval (handleFileUpload now (Some x) prev) seed).
Proof.
  intros A V Y M _ Hy Hm Hs. unfold carried. cbv zeta. unfold handleFileUpload.
  destruct (updateDrmd_durations now (correctPayload (Some x)) prev seed) as [-> ->].
  unfold adminOf. cbn [correctPayload option_map member_of Payload.administrativeData].
  rewrite A. cbn [option_map member_of].
  unfold correctAdmin, fixCountries. cbn [PAdmin.durationY PAdmin.durationM].
  destruct (fixSpecificTime_members (normalizeDuration a)) as (_ & _ & _ & -> & ->).
  destruct (normalizeDuration_carry a years months V Y M Hy Hm Hs)
    as (ry & rm & -> & -> & B & E).
  cbn [over]. split; assumption.
Qed.

(** One year and thirty months become three years and six months. *)
Lemma validity_months_carried_witness :
  let d := Gen.eval (handleFileUpload (js "2026-01-01")
                       (Some (samplePayload (Some (sampleAdmin 1 30)) None))
                       (Types.INITIAL_DRMD (js "2026-01-01"))) 0 in
  AdministrativeData.durationY (DRMD.administrativeData d) = 3%Z
  /\ AdministrativeData.durationM (DRMD.administrativeData d) = 6%Z
  /\ carried 1 30 d.
Proof.
  cbv zeta. split; [vm_compute; reflexivity|]. split; [vm_compute; reflexivity|].
  apply (validity_months_carried (js "2026-01-01")
           (samplePayload (Some (sampleAdmin 1 30)) None) (sampleAdmin 1 30)
           (Types.INITIAL_DRMD (js "2026-01-01")) 0 1 30);
    try reflexivity; try lia. constructor.
Defined.

(** *** Fragment merge *)

Definition certifiedKey : jsstring := normalizeName (js "Certified Values").

(** What the elements of [results] keep of the name and the quantities
    when the footnote text is moved into the first of them. *)
Lemma with_description_keeps r d :
  PResult.name (with_description r d) = PResult.name r
  /\ PResult.quantities (with_description r d) = PResult.quantities r.
Proof. split; reflexivity. Qed.

Lemma merge_first p1 r1 qs1 :
  normalizeName (or_str (PProperty.name p1) (js "Material Properties")) = certifiedKey ->
  PProperty.results p1 = Some [r1] ->
  PResult.name r1 = Some (js "in %") ->
  PResult.quantities r1 = Some qs1 ->
  exists c r,
    mergeProperty [] p1 = [(certifiedKey, c)]
    /\ PProperty.results c = Some [r]
    /\ PResult.quantities r = Some qs1
    /\ PResult.name r = Some (js "in %").
Proof.
  intros K1 R1 Rn1 Q1.
  unfold mergeProperty. rewrite K1, R1. cbn [lookup app].
  destruct (isFootnote (trim (or_str (PProperty.description p1) [])));
    cbn [fold_left update]; rewrite !eqb_refl; cbn [fold_left update];
    do 2 eexists; (split; [reflexivity|]);
    cbn [with_results clear_description PProperty.results or_nil mergeResult];
    (split; [reflexivity|]);
    cbn [with_description PResult.quantities PResult.name]; auto.
Qed.

Lemma merge_second c1 r1 p2 r2 qs1 qs2 :
  normalizeName (or_str (PProperty.name p2) (js "Material Properties")) = certifiedKey ->
  PProperty.results c1 = Some [r1] ->
  PResult.quantities r1 = Some qs1 ->
  PResult.name r1 = Some (js "in %") ->
  PProperty.results p2 = Some [r2] ->
  PResult.name r2 = Some (js "in mg/kg") ->
  PResult.quantities r2 = Some qs2 ->
  exists c r,
    mergeProperty [(certifiedKey, c1)] p2 = [(certifiedKey, c)]
    /\ PProperty.results c = Some [r]
    /\ PResult.quantities r = Some (qs1 ++ qs2)
    /\ PResult.name r = Some (js "in %").
Proof.
  intros K2 R1 Q1 Rn1 R2 Rn2 Q2.
  assert (F : forall r, PResult.name r = Some (js "in mg/kg") ->
                        isFragment (trim (toLowerCase (or_str (PResult.name r) []))) = true)
    by (intros r ->; vm_compute; reflexivity).
  unfold mergeProperty. rewrite K2, R2. cbn [lookup]. rewrite eqb_refl.
  destruct (isFootnote (trim (or_str (PProperty.description p2) [])));
    cbn [fold_left update]; rewrite !eqb_refl; cbn [fold_left update];
    do 2 eexists; (split; [reflexivity|]);
    (split;
     [ cbn [with_results clear_description PProperty.results or_nil];
       rewrite R1; unfold mergeResult; rewrite F by (cbn; exact Rn2);
       reflexivity
     | ]);
    (match goal with
     | |- context [if ?b then _ else _] => destruct b
     end);
    cbn [with_description with_quantities PResult.quantities PResult.name];
    rewrite ?Q1, ?Q2; cbn [or_nil]; auto.
Qed.

Lemma merge_fragment p1 p2 r1 r2 qs1 qs2 :
  PProperty.name p1 = Some (js "Certified Values") ->
  normalizeName (or_str (PProperty.name p2) (js "Material Properties")) = certifiedKey ->
  PProperty.results p1 = Some [r1] ->
  PProperty.results p2 = Some [r2] ->
  PResult.name r1 = Some (js "in %") ->
  PResult.name r2 = Some (js "in mg/kg") ->
  PResult.quantities r1 = Some qs1 ->
  PResult.quantities r2 = Some qs2 ->
  exists c r,
    mergeProperties [p1; p2] = [(certifiedKey, c)]
    /\ PProperty.results c = Some [r]
    /\ PResult.quantities r = Some (qs1 ++ qs2)
    /\ PResult.name r = Some (js "in %").
Proof.
  intros N1 K2 R1 R2 Rn1 Rn2 Q1 Q2.
  unfold mergeProperties. cbn [fold_left].
  assert (K1 : normalizeName (or_str (PProperty.name p1) (js "Material Properties"))
               = certifiedKey) by (rewrite N1; reflexivity).
  destruct (merge_first p1 r1 qs1 K1 R1 Rn1 Q1) as (c1 & r1' & -> & Rc1 & Qc1 & Nc1).
  exact (merge_second c1 r1' p2 r2 qs1 qs2 K2 Rc1 Qc1 Nc1 R2 Rn2 Q2).
Qed.

Lemma Object_values_certified c : Object_values [(certifiedKey, c)] = [c].
Proof.
  assert (H : array_index certifiedKey = None) by (vm_compute; reflexivity).
  unfold Object_values. cbn [fold_right filter fst snd]. now rewrite H.
Qed.

Lemma newResult_quantities r n :
  MeasurementResult.quantities (fst (newResult r n))
  = fst (Gen.mapM (fun q => uuid <- Gen.generateUUID ;; Gen.ret (newQuantity q uuid))
                  (or_nil (PResult.quantities r)) n).
Proof. unfold newResult. rewrite !bind_run. reflexivity. Qed.

Lemma newProperty_results p n :
  MaterialProperty.results (fst (newProperty p n))
  = fst (Gen.mapM newResult (or_nil (PProperty.results p)) n).
Proof. unfold newProperty. rewrite !bind_run. reflexivity. Qed.

Lemma newQuantities_in_order qs n :
  Forall2 (fun q' q => exists uuid, q' = newQuantity q uuid)
    (fst (Gen.mapM (fun q => uuid <- Gen.generateUUID ;; Gen.ret (newQuantity q uuid))
                   qs n))
    qs.
Proof.
  apply mapM_Forall2. intros q m. rewrite bind_run. cbn. eauto.
Qed.

(** C5.  A property "Certified Values" whose result "in %" holds two
    quantities, followed by a property of the same normalized key whose
    result "in mg/kg" holds three, gives exactly one property with
    exactly one result, and its five quantities are those built from the
    two quantity lists in their original order. *)
Theorem fragments_merge_into_one_result now x prev seed p1 p2 r1 r2 qs1 qs2 :
  Payload.properties x = Some [p1; p2] ->
  PProperty.name p1 = Some (js "Certified Values") ->
  normalizeName (or_str (PProperty.name p2) (js "Material Properties"))
  = normalizeName (js "Certified Values") ->
  PProperty.results p1 = Some [r1] ->
  PProperty.results p2 = Some [r2] ->
  PResult.name r1 = Some (js "in %") ->
  PResult.name r2 = Some (js "in mg/kg") ->
  PResult.quantities r1 = Some qs1 ->
  PResult.quantities r2 = Some qs2 ->
  List.length qs1 = 2 ->
  List.length qs2 = 3 ->
  let d := Gen.eval (handleFileUpload now (Some x) prev) seed in
  exists prop res,
    DRMD.properties d = [prop]
    /\ MaterialProperty.results prop = [res]
    /\ List.length (MeasurementResult.quantities res) = 5
    /\ Forall2 (fun q' q => exists uuid, q' = newQuantity q uuid)
               (MeasurementResult.quantities res) (qs1 ++ qs2).
Proof.
  intros P N1 K2 R1 R2 Rn1 Rn2 Q1 Q2 L1 L2. cbv zeta. unfold handleFileUpload.
  destruct (updateDrmd_lists now (correctPayload (Some x)) prev seed)
    as (n1 & n2 & n3 & n4 & H).
  cbv zeta in H. destruct H as (_ & _ & _ & ->).
  rewrite corrected_properties. unfold incomingProperties; cbn [member_of].
  rewrite P; cbn [or_nil].
  destruct (merge_fragment p1 p2 r1 r2 qs1 qs2 N1 K2 R1 R2 Rn1 Rn2 Q1 Q2)
    as (c & r & -> & Rc & Qr & _).
  rewrite Object_values_certified, mapM_cons. cbn [non_empty Gen.mapM Gen.ret fst].
  do 2 eexists. split; [reflexivity|].
  rewrite newProperty_results, Rc; cbn [or_nil]. rewrite mapM_cons.
  cbn [Gen.mapM Gen.ret fst]. split; [reflexivity|].
  rewrite newResult_quantities, Qr; cbn [or_nil].
  split; [|apply newQuantities_in_order].
  rewrite mapM_length, length_app, L1, L2. reflexivity.
Qed.

Definition sampleQuantity (name value unit : string) : PQuantity.t :=
  {| PQuantity.name := Some (js name);
     PQuantity.value := Some (js value);
     PQuantity.unit := Some (js unit);
     PQuantity.dsiValue := None;
     PQuantity.dsiUnit := None;
     PQuantity.uncertainty := None;
     PQuantity.coverageFactor := None;
     PQuantity.coverageProbability := None;
     PQuantity.distribution := None;
     PQuantity.fieldCoordinates := None |}.

Definition sampleResult (name : string) (qs : list PQuantity.t) : PResult.t :=
  {| PResult.name := Some (js name);
     PResult.description := None;
     PResult.sectionCoordinates := None;
     PResult.quantities := Some qs |}.

Definition sampleProperty (name : string) (rs : list PResult.t) : PProperty.t :=
  {| PProperty.name := Some (js name);
     PProperty.isCertified := Some true;
     PProperty.description := None;
     PProperty.procedures := None;
     PProperty.results := Some rs |}.

Definition percentRows : list PQuantity.t :=
  [sampleQuantity "Fe" "1.2" "%"; sampleQuantity "Cu" "0.4" "%"].

Definition massFractionRows : list PQuantity.t :=
  [sampleQuantity "Zn" "3" "mg/kg"; sampleQuantity "Pb" "<4" "mg/kg";
   sampleQuantity "As" "5" "mg/kg"].

Definition fragmentedPayload : Payload.t :=
  samplePayload None
    (Some [ sampleProperty "Certified Values" [sampleResult "in %" percentRows];
            sampleProperty "certified values:"
              [sampleResult "in mg/kg" massFractionRows] ]).

Lemma fragments_merge_into_one_result_witness :
  exists prop res,
    DRMD.properties
      (Gen.eval (handleFileUpload (js "2026-02-02") (Some fragmentedPayload)
                   (Types.INITIAL_DRMD (js "2026-01-01"))) 0) = [prop]
    /\ MaterialProperty.results prop = [res]
    /\ List.length (MeasurementResult.quantities res) = 5
    /\ Forall2 (fun q' q => exists uuid, q' = newQuantity q uuid)
               (MeasurementResult.quantities res) (percentRows ++ massFractionRows).
Proof.
  apply (fragments_merge_into_one_result (js "2026-02-02") fragmentedPayload
           (Types.INITIAL_DRMD (js "2026-01-01")) 0
           (sampleProperty "Certified Values" [sampleResult "in %" percentRows])
           (sampleProperty "certified values:"
              [sampleResult "in mg/kg" massFractionRows])
           (sampleResult "in %" percentRows)
           (sampleResult "in mg/kg" massFractionRows)
           percentRows massFractionRows);
    reflexivity.
Defined.

End AppFacts.

(** ** Validator *)

Module ValidatorFacts.

Import Js App.

Definition noProducer : Issue :=
  issue (js "Administrative") (js "At least one Producer is required.").

Definition manyProducers : Issue :=
  issue (js "Administrative") (js "Only ONE Producer is allowed by schema.").

(** The error for the producer at index [i] (counted from 0). *)
Definition producerUnnamed (i : nat) : Issue :=
  issue (js "Administrative") (js "Producer " ++ ordinal i ++ js ": Name is required.").

Definition producersOf (d : DRMD.t) : list Producer.t :=
  AdministrativeData.producers (DRMD.administrativeData d).

(** The rule as the specification words it: the name of every producer
    is checked whatever the number of producers. *)
Definition producer_rule_as_stated (d : DRMD.t) : Prop :=
  let es := errors (getValidationReport d) in
  (producersOf d = [] -> In noProducer es)
  /\ (1 < List.length (producersOf d) -> In manyProducers es)
  /\ (forall i p, nth_error (producersOf d) i = Some p ->
                  Producer.name p = [] -> In (producerUnnamed i) es).

Definition with_producers (d : DRMD.t) (ps : list Producer.t) : DRMD.t :=
  let a := DRMD.administrativeData d in
  {| DRMD.administrativeData :=
       {| AdministrativeData.title := AdministrativeData.title a;
          AdministrativeData.uniqueIdentifier := AdministrativeData.uniqueIdentifier a;
          AdministrativeData.dataVersion := AdministrativeData.dataVersion a;
          AdministrativeData.documentIdentifiers :=
            AdministrativeData.documentIdentifiers a;
          AdministrativeData.validityType := AdministrativeData.validityType a;
          AdministrativeData.durationY := AdministrativeData.durationY a;
          AdministrativeData.durationM := AdministrativeData.durationM a;
          AdministrativeData.dateOfIssue := AdministrativeData.dateOfIssue a;
          AdministrativeData.specificTime := AdministrativeData.specificTime a;
          AdministrativeData.producers := ps;
          AdministrativeData.responsiblePersons :=
            AdministrativeData.responsiblePersons a;
          AdministrativeData.fieldCoordinates := AdministrativeData.fieldCoordinates a;
          AdministrativeData.sectionCoordinates :=
            AdministrativeData.sectionCoordinates a |};
     DRMD.materials := DRMD.materials d;
     DRMD.properties := DRMD.properties d;
     DRMD.statements := DRMD.statements d;
     DRMD.comments := DRMD.comments d;
     DRMD.documents := DRMD.documents d;
     DRMD.generalComment := DRMD.generalComment d;
     DRMD.binaryDocument := DRMD.binaryDocument d |}.

(** The initial document with a second, equally unnamed producer. *)
Definition twoUnnamedProducers : DRMD.t :=
  with_producers (Types.INITIAL_DRMD (js "2026-01-01"))
    [Types.INITIAL_PRODUCER; Types.INITIAL_PRODUCER].

(** C7, as stated, fails: with two unnamed producers the report holds
    the error about their number and no error about a name. *)
Lemma unnamed_producers_unreported_when_several :
  ~ producer_rule_as_stated twoUnnamedProducers.
Proof.
  intros (_ & _ & H).
  specialize (H 0 Types.INITIAL_PRODUCER eq_refl eq_refl).
  vm_compute in H.
  repeat (destruct H as [H|H]; [discriminate H|]). exact H.
Qed.

Lemma producerErrors_reported d e :
  In e (producerErrors (producersOf d)) -> In e (errors (getValidationReport d)).
Proof.
  intros H. unfold getValidationReport; cbn [errors].
  apply in_or_app; right. apply in_or_app; right. apply in_or_app; left. exact H.
Qed.

(** C7, amended.  The validator reports an error when the producer list
    is empty and when it holds more than one producer, and it reports
    the missing name of the producer when the list holds exactly one. *)
Theorem producer_rule d :
  let es := errors (getValidationReport d) in
  (producersOf d = [] -> In noProducer es)
  /\ (1 < List.length (producersOf d) -> In manyProducers es)
  /\ (forall p, producersOf d = [p] -> Producer.name p = [] ->
                In (producerUnnamed 0) es).
Proof.
  cbv zeta. repeat split.
  - intros E. apply producerErrors_reported. rewrite E. now left.
  - intros L. apply producerErrors_reported.
    destruct (producersOf d) as [|p1 [|p2 ps]]; cbn in L; try lia. now left.
  - intros p E N. apply producerErrors_reported. rewrite E.
    cbn [producerErrors forEach_i]. rewrite N. now left.
Qed.

(** The initial document holds one unnamed producer, which is reported. *)
Lemma producer_rule_witness :
  In (producerUnnamed 0)
     (errors (getValidationReport (Types.INITIAL_DRMD (js "2026-01-01")))).
Proof.
  apply (producer_rule (Types.INITIAL_DRMD (js "2026-01-01")))
    with (p := Types.INITIAL_PRODUCER); reflexivity.
Defined.

End ValidatorFacts.

(** ** XML reader *)

Module DOMParserFacts.

Import Js JsFacts DOMParser.

(** Induction on markup, with the hypothesis for every child. *)
Lemma markup_ind (P : Markup.t -> Prop) :
  (forall tag raw, P (Markup.Leaf tag raw)) ->
  (forall tag attrs content, Forall P content -> P (Markup.Element tag attrs content)) ->
  forall m, P m.
Proof.
  intros Hl He. fix IH 1. intros [tag attrs content | tag raw]; [|apply Hl].
  apply He. induction content as [|m content IHc]; constructor; [apply IH | exact IHc].
Qed.

(** *** Text that is read as it is written

    The text of character data in which the only references are those
    to the predefined entities: those references replaced, every other
    character kept. *)
Fixpoint decode (fuel : nat) (raw : jsstring) : option jsstring :=
  match fuel with
  | O => match raw with [] => Some [] | _ => None end
  | S fuel' =>
    match raw with
    | [] => Some []
    | c :: r =>
      if (c =? 60)%N then None
      else if (c =? 38)%N then
        match entity_at r with
        | Some (ch, r') => option_map (cons ch) (decode fuel' r')
        | None => None
        end
      else option_map (cons c) (decode fuel' r)
    end
  end.

Definition decodeCharData (raw : jsstring) : option jsstring :=
  decode (List.length raw) raw.

Definition text_of (raw : jsstring) : jsstring :=
  match decodeCharData raw with Some s => s | None => [] end.

(** The tree of markup with the predefined entities replaced. *)
Fixpoint decoded (m : Markup.t) : Dom.node :=
  match m with
  | Markup.Element tag attrs content => Dom.Element tag attrs (map decoded content)
  | Markup.Leaf tag raw => Dom.Element tag [] (texts (text_of raw))
  end.

(** Character data that XML carries unchanged but for the predefined
    entities: XML characters without the carriage return, surrogates in
    pairs, no [<], no end of a CDATA section, and no [&] other than in a
    reference to a predefined entity. *)
Definition verbatim_text (raw : jsstring) : bool :=
  negb (existsb (N.eqb 60) raw) && paired false raw
  && forallb is_unit raw && negb (includes raw (js "]]>"))
  && negb (existsb (N.eqb 13) raw)
  && match decodeCharData raw with Some _ => true | None => false end.

(** Markup the model follows, with such character data throughout. *)
Fixpoint verbatim (ns : list jsstring) (m : Markup.t) : bool :=
  match m with
  | Markup.Element tag attrs content =>
    match scope ns attrs with
    | Some ns' => element_name ns' tag && forallb (verbatim ns') content
    | None => false
    end
  | Markup.Leaf tag raw => element_name ns tag && verbatim_text raw
  end.

Lemma entity_at_not_number c r ch rest :
  entity_at (c :: r) = Some (ch, rest) -> (c =? 35)%N = false.
Proof.
  destruct (N.eqb_spec c 35) as [->|]; [|reflexivity].
  unfold entity_at. cbn. discriminate.
Qed.

Lemma reference_entity r ch rest :
  entity_at r = Some (ch, rest) -> reference r = Some ([ch], rest).
Proof.
  intros E. destruct r as [|c r]; [discriminate E|].
  unfold reference. rewrite (entity_at_not_number _ _ _ _ E). now rewrite E.
Qed.

Lemma existsb_skipn {A} (p : A -> bool) n l :
  existsb p l = false -> existsb p (skipn n l) = false.
Proof.
  revert l; induction n as [|n IH]; intros [|a l]; cbn [skipn existsb]; auto.
  intros H. apply orb_false_iff in H. now apply IH.
Qed.

Lemma entity_at_rest r ch rest :
  entity_at r = Some (ch, rest) -> exists n, rest = skipn n r.
Proof.
  unfold entity_at. destruct (find _ entities) as [[name c]|]; [|discriminate].
  intros [= _ <-]. eauto.
Qed.

Lemma references_decode fuel : forall raw t,
  decode fuel raw = Some t -> existsb (N.eqb 13) raw = false ->
  references fuel raw = Some t.
Proof.
  induction fuel as [|fuel IH]; intros [|c r] t D C; cbn [decode references] in *;
    try exact D.
  cbn [existsb] in C. apply orb_false_iff in C. destruct C as [Cc Cr].
  destruct (c =? 60)%N; [discriminate D|].
  destruct (N.eqb_spec c 38) as [->|N38].
  - destruct (entity_at r) as [[ch r']|] eqn:E; [|discriminate D].
    rewrite (reference_entity _ _ _ E).
    destruct (decode fuel r') as [t'|] eqn:D'; [|discriminate D].
    destruct (entity_at_rest _ _ _ E) as [n ->].
    rewrite (IH _ _ D' (existsb_skipn _ n _ Cr)). exact D.
  - destruct (N.eqb_spec c 13) as [->|N13]; [discriminate Cc|].
    destruct (decode fuel r) as [t'|] eqn:D'; [|discriminate D].
    now rewrite (IH _ _ D' Cr).
Qed.

Lemma charData_verbatim raw :
  verbatim_text raw = true -> charData raw = Read (text_of raw).
Proof.
  unfold verbatim_text, charData, text_of, decodeCharData.
  rewrite !andb_true_iff, !negb_true_iff.
  intros [[[[[A B] C] D] E] F]. rewrite A, B, C, D. cbn [negb orb].
  destruct (decode (List.length raw) raw) as [t|] eqn:T; [|discriminate F].
  now rewrite (references_decode _ _ _ T E).
Qed.

Lemma read_verbatim m : forall ns,
  verbatim ns m = true -> read ns m = Read (decoded m).
Proof.
  induction m as [tag raw | tag attrs content IH] using markup_ind; intros ns.
  - cbn [verbatim read decoded]. rewrite andb_true_iff. intros [-> V].
    now rewrite (charData_verbatim raw V).
  - cbn [verbatim read decoded]. destruct (scope ns attrs) as [ns'|]; [|discriminate].
    rewrite andb_true_iff. intros [-> V].
    assert (E : all (map (read ns') content) = Read (map decoded content)).
    { induction content as [|m content IHc]; [reflexivity|].
      cbn [forallb] in V. apply andb_true_iff in V. destruct V as [Vm Vc].
      inversion IH as [|? ? Hm Hc]; subst.
      cbn [map all fold_right].
      change (fold_right _ (Read []) (map (read ns') content))
        with (all (map (read ns') content)).
      now rewrite (Hm ns' Vm), (IHc Hc Vc). }
    now rewrite E.
Qed.

Lemma parseFromString_verbatim m :
  verbatim [] m = true -> parseFromString m = Some (Dom.document [decoded m]).
Proof. intros V. unfold parseFromString. now rewrite (read_verbatim m [] V). Qed.

Lemma texts_elements s : flat_map Dom.elements (texts s) = [].
Proof. now destruct s. Qed.




Lemma texts_content s : flat_map Dom.textContent (texts s) = s.
Proof. destruct s; [reflexivity|]. cbn. now rewrite app_nil_r. Qed.

End DOMParserFacts.

(** ** XML decoder *)

Module XmlParserFacts.

Import Js JsFacts GenFacts Dom XmlParser.
Local Open Scope string_scope.

Lemma map_or_Forall {A} (f : node -> Gen.t A) (P : A -> Prop) found previous n :
  (forall a m, P (fst (f a m))) -> Forall P previous ->
  Forall P (fst (map_or f found previous n)).
Proof.
  intros Hf Hp. unfold map_or. destruct (non_empty found); [|exact Hp].
  now apply mapM_Forall.
Qed.

Lemma mapM_found {A} (f : node -> Gen.t A) (R : node -> A -> Prop) :
  (forall e n, R e (fst (f e n))) ->
  forall l n, Forall2 R l (fst (Gen.mapM f l n)).
Proof.
  intros H l; induction l as [|e l IH]; intros n; [constructor|].
  rewrite mapM_cons. constructor; auto.
Qed.

(** What [parseDrmdXml] returns when it does not throw. *)
Lemma parseDrmdXml_returned today doc seed d :
  Gen.eval (parseDrmdXml today doc) seed = Returned d ->
  querySelector doc (js "parsererror") = None /\ d = Gen.eval (decode today doc) seed.
Proof.
  unfold parseDrmdXml. destruct (querySelector doc (js "parsererror")).
  - discriminate.
  - rewrite eval_bind. unfold Gen.eval, Gen.ret; cbn [fst]. intros [= <-]. auto.
Qed.



(** The lists of the decoded document. *)
Lemma decode_lists today doc seed :
  let d := Gen.eval (decode today doc) seed in
  let admin0 := DRMD.administrativeData (Types.INITIAL_DRMD today) in
  exists n1 n2 n3 n4,
    AdministrativeData.producers (DRMD.administrativeData d)
    = fst (match first doc "drmd:administrativeData" with
           | Some a =>
             map_or parseProducer
               (getElementsByTagName a (js "drmd:referenceMaterialProducer"))
               (AdministrativeData.producers admin0)
           | None => Gen.ret (AdministrativeData.producers admin0)
           end n1)
    /\ AdministrativeData.responsiblePersons (DRMD.administrativeData d)
       = fst (match first doc "drmd:administrativeData" with
              | Some a =>
                map_or parsePerson (getElementsByTagName a (js "dcc:respPerson"))
                  (AdministrativeData.responsiblePersons admin0)
              | None => Gen.ret (AdministrativeData.responsiblePersons admin0)
              end n2)
    /\ DRMD.materials d
       = fst (map_or parseMaterial (getElementsByTagName doc (js "drmd:material"))
                (DRMD.materials (Types.INITIAL_DRMD today)) n3)
    /\ DRMD.properties d
       = fst (map_or parseProperty
                (getElementsByTagName doc (js "drmd:materialProperties"))
                (DRMD.properties (Types.INITIAL_DRMD today)) n4).
Proof.
  cbv zeta. unfold decode. rewrite !eval_bind. unfold Gen.eval, Gen.ret.
  cbn [fst DRMD.administrativeData DRMD.materials DRMD.properties
       AdministrativeData.producers AdministrativeData.responsiblePersons].
  do 4 eexists. repeat split; reflexivity.
Qed.

Lemma decode_properties today doc seed :
  exists n,
    DRMD.properties (Gen.eval (decode today doc) seed)
    = fst (map_or parseProperty
             (getElementsByTagName doc (js "drmd:materialProperties"))
             (DRMD.properties (Types.INITIAL_DRMD today)) n).
Proof.
  destruct (decode_lists today doc seed) as (n1 & n2 & n3 & n4 & _ & _ & _ & H).
  now exists n4.
Qed.

Lemma parseProperty_results p n :
  exists m,
    MaterialProperty.results (fst (parseProperty p n))
    = fst (Gen.mapM parseResult (getElementsByTagName p (js "drmd:result")) m).
Proof.
  unfold parseProperty. rewrite !bind_run. cbn. eexists; reflexivity.
Qed.

Lemma parseResult_quantities r n :
  exists m,
    MeasurementResult.quantities (fst (parseResult r n))
    = fst (Gen.mapM parseQuantity (getElementsByTagName r (js "drmd:quantity")) m).
Proof.
  unfold parseResult. rewrite !bind_run. cbn. eexists; reflexivity.
Qed.

(** *** The quantities and the elements they are decoded from *)

(** The display pair and the D-SI pair of a quantity agree. *)
Definition mirrored (q : Quantity.t) : Prop :=
  Quantity.dsiUnit q = Quantity.unit q /\ Quantity.dsiValue q = Quantity.value q.

(** The value members of a quantity are those of [INITIAL_QUANTITY]. *)
Definition initial_values (q : Quantity.t) : Prop :=
  Quantity.value q = Quantity.value Types.INITIAL_QUANTITY
  /\ Quantity.unit q = Quantity.unit Types.INITIAL_QUANTITY
  /\ Quantity.dsiValue q = Quantity.dsiValue Types.INITIAL_QUANTITY
  /\ Quantity.dsiUnit q = Quantity.dsiUnit Types.INITIAL_QUANTITY
  /\ Quantity.uncertainty q = Quantity.uncertainty Types.INITIAL_QUANTITY
  /\ Quantity.coverageFactor q = Quantity.coverageFactor Types.INITIAL_QUANTITY
  /\ Quantity.coverageProbability q
     = Quantity.coverageProbability Types.INITIAL_QUANTITY.

(** The text of the first element of the given name below [parent],
    in document order; empty when there is none. *)
Definition first_text (parent : node) (tag : string) : jsstring :=
  match getElementsByTagName parent (js tag) with
  | e :: _ => textContent e
  | [] => []
  end.

(** A quantity holds, in its value and in its D-SI value, the text of
    the [si:value] element of the first [si:real] element of its
    element, and in its unit and its D-SI unit the text of the
    [si:unit] element; without an [si:real] element its value members
    are the defaults. *)
Definition from_wire (q : node) (Q : Quantity.t) : Prop :=
  match getElementsByTagName q (js "si:real") with
  | real :: _ =>
    Quantity.value Q = first_text real "si:value"
    /\ Quantity.dsiValue Q = first_text real "si:value"
    /\ Quantity.unit Q = first_text real "si:unit"
    /\ Quantity.dsiUnit Q = first_text real "si:unit"
  | [] => initial_values Q
  end.

(** The properties, results and quantities of a document are decoded
    one by one, in document order, from the [drmd:materialProperties]
    elements, the [drmd:result] elements of each and the
    [drmd:quantity] elements of each result. *)
Definition quantities_from_wire (doc : Document) (d : DRMD.t) : Prop :=
  Forall2
    (fun p P =>
       Forall2
         (fun r R =>
            Forall2 from_wire (getElementsByTagName r (js "drmd:quantity"))
                    (MeasurementResult.quantities R))
         (getElementsByTagName p (js "drmd:result")) (MaterialProperty.results P))
    (getElementsByTagName doc (js "drmd:materialProperties")) (DRMD.properties d).

Lemma getNestedContent_first_text parent tag :
  getNestedContent parent [tag] = first_text parent tag.
Proof.
  unfold first_text. cbn [getNestedContent]. unfold first.
  now destruct (getElementsByTagName parent (js tag)).
Qed.

Lemma parseQuantity_mirrored q n : mirrored (fst (parseQuantity q n)).
Proof.
  unfold parseQuantity, mirrored. rewrite bind_run. cbn.
  destruct (first q "si:real"); split; reflexivity.
Qed.

Lemma parseQuantity_from_wire q n : from_wire q (fst (parseQuantity q n)).
Proof.
  unfold parseQuantity, from_wire, initial_values. rewrite bind_run.
  cbn [Gen.ret fst Quantity.value Quantity.dsiValue Quantity.unit Quantity.dsiUnit
       Quantity.uncertainty Quantity.coverageFactor Quantity.coverageProbability].
  assert (F : first q "si:real" = hd_error (getElementsByTagName q (js "si:real")))
    by reflexivity.
  destruct (getElementsByTagName q (js "si:real")) as [|real l]; cbn [hd_error] in F;
    rewrite F.
  - repeat split; reflexivity.
  - rewrite !getNestedContent_first_text. repeat split; reflexivity.
Qed.

Lemma map_or_found {A} (f : node -> Gen.t A) (R : node -> A -> Prop) found n :
  (forall e k, R e (fst (f e k))) ->
  Forall2 R found (fst (map_or f found [] n)).
Proof.
  intros H. unfold map_or. destruct found as [|e l]; [constructor|].
  cbn [non_empty]. now apply mapM_found.
Qed.

(** C10.  Every quantity of a document [parseDrmdXml] returns has its
    D-SI unit equal to its unit and its D-SI value equal to its value:
    the properties, their results and the quantities of each result are
    decoded in document order from the elements of the document, and
    each quantity holds in both its value members the text of the
    [si:value] element and in both its unit members the text of the
    [si:unit] element of its [si:real] element, while a quantity element
    without an [si:real] element is decoded with the defaults of the
    model in all its value members. *)
Theorem decoded_quantities_mirror_wire today doc seed d :
  Gen.eval (parseDrmdXml today doc) seed = Returned d ->
  Forall (fun P =>
            Forall (fun R => Forall mirrored (MeasurementResult.quantities R))
                   (MaterialProperty.results P))
         (DRMD.properties d)
  /\ quantities_from_wire doc d.
Proof.
  intros H. apply parseDrmdXml_returned in H. destruct H as [_ ->].
  unfold quantities_from_wire.
  destruct (decode_properties today doc seed) as [n ->]. split.
  - apply map_or_Forall; [|constructor].
    intros p m. destruct (parseProperty_results p m) as [m' ->].
    apply mapM_Forall. intros r k.
    destruct (parseResult_quantities r k) as [k' ->].
    apply mapM_Forall. intros q j. apply parseQuantity_mirrored.
  - change (DRMD.properties (Types.INITIAL_DRMD today)) with (@nil MaterialProperty.t).
    apply map_or_found. intros p m.
    destruct (parseProperty_results p m) as [m' ->].
    apply mapM_found. intros r k.
    destruct (parseResult_quantities r k) as [k' ->].
    apply mapM_found. intros q j. apply parseQuantity_from_wire.
Qed.

Definition el (tag : string) (children : list node) : node :=
  Element (js tag) [] children.

Definition txt (tag : string) (text : string) : node :=
  Element (js tag) [] [Text (js text)].

Definition quantityElement (name : string) (real : list node) : node :=
  el "drmd:quantity" (el "dcc:name" [txt "dcc:content" name] :: real).

Definition resultElement (name : string) (quantities : list node) : node :=
  el "drmd:result"
    [ el "drmd:name" [txt "dcc:content" name];
      el "drmd:data" [el "drmd:list" quantities] ].

Definition propertyElement (name : string) (results : list node) : node :=
  el "drmd:materialProperties"
    [ el "drmd:name" [txt "dcc:content" name]; el "drmd:results" results ].

(** A document with two properties: the first with two results, one
    holding a measured quantity with its uncertainty and a quantity
    without value, the other a quantity without unit; the second with
    one measured quantity. *)
Definition twoProperties : Document :=
  document
    [el "drmd:digitalReferenceMaterialDocument"
       [el "drmd:materialPropertiesList"
          [ propertyElement "Certified values"
              [ resultElement "Mass fractions"
                  [ quantityElement "Fe"
                      [el "si:real"
                         [ txt "si:value" "1.2";
                           txt "si:unit" "\gram";
                           el "si:expandedMU"
                             [ txt "si:valueExpandedMU" "0.1";
                               txt "si:coverageFactor" "2" ] ]];
                    quantityElement "Cu" [] ];
                resultElement "Counts"
                  [ quantityElement "Zn" [el "si:real" [txt "si:value" "7"]] ] ];
            propertyElement "Informative values"
              [ resultElement "Mass fractions"
                  [ quantityElement "Pb"
                      [el "si:real"
                         [ txt "si:value" "0.5";
                           txt "si:unit" "\milli\gram\kilogram\tothe{-1}" ]] ] ] ]]].

Definition pairs (d : DRMD.t)
  : list (list (list (jsstring * (jsstring * jsstring) * (jsstring * jsstring)))) :=
  map (fun P =>
         map (fun R =>
                map (fun Q => (Quantity.name Q,
                               (Quantity.value Q, Quantity.unit Q),
                               (Quantity.dsiValue Q, Quantity.dsiUnit Q)))
                    (MeasurementResult.quantities R))
             (MaterialProperty.results P))
      (DRMD.properties d).

Lemma decoded_quantities_mirror_wire_witness :
  exists d,
    Gen.eval (parseDrmdXml (js "2026-01-01") twoProperties) 0 = Returned d
    /\ pairs d
       = [ [ [ (js "Fe", (js "1.2", js "\gram"), (js "1.2", js "\gram"));
               (js "Cu", ([], []), ([], [])) ];
             [ (js "Zn", (js "7", []), (js "7", [])) ] ];
           [ [ (js "Pb", (js "0.5", js "\milli\gram\kilogram\tothe{-1}"),
                         (js "0.5", js "\milli\gram\kilogram\tothe{-1}")) ] ] ]
    /\ Forall (fun P =>
                 Forall (fun R => Forall mirrored (MeasurementResult.quantities R))
                        (MaterialProperty.results P))
              (DRMD.properties d)
    /\ quantities_from_wire twoProperties d.
Proof.
  eexists. split; [vm_compute; reflexivity|]. split; [vm_compute; reflexivity|].
  apply (decoded_quantities_mirror_wire (js "2026-01-01") twoProperties 0).
  vm_compute; reflexivity.
Defined.

(** *** Failure and defaults *)













Definition initial (today : jsstring) : DRMD.t := Types.INITIAL_DRMD today.

(** There is no element at the end of the path of first elements. *)
Fixpoint lacks (parent : node) (path : list string) : Prop :=
  match path with
  | [] => False
  | tag :: rest =>
    match first parent tag with
    | Some e => lacks e rest
    | None => True
    end
  end.





(** What is missing from the element of a producer. *)
Definition producer_rule (p : node) (P : Producer.t) : Prop :=
  let initial := Types.INITIAL_PRODUCER in
  (lacks p ["drmd:name"; "dcc:content"] -> Producer.name P = [])
  /\ match first p "drmd:contact" with
     | None =>
       Producer.email P = Producer.email initial
       /\ Producer.phone P = Producer.phone initial
       /\ Producer.fax P = Producer.fax initial
       /\ Producer.address P = Producer.address initial
     | Some contact =>
       (lacks contact ["dcc:eMail"] -> Producer.email P = [])
       /\ (lacks contact ["dcc:phone"] -> Producer.phone P = [])
       /\ (lacks contact ["dcc:fax"] -> Producer.fax P = Some [])
       /\ match first contact "dcc:location" with
          | None => Producer.address P = Producer.address initial
          | Some loc =>
            (lacks loc ["dcc:street"] -> Address.street (Producer.address P) = [])
            /\ (lacks loc ["dcc:streetNo"] ->
                Address.streetNo (Producer.address P) = [])
            /\ (lacks loc ["dcc:postCode"] ->
                Address.postCode (Producer.address P) = [])
            /\ (lacks loc ["dcc:city"] -> Address.city (Producer.address P) = [])
            /\ (lacks loc ["dcc:countryCode"] ->
                Address.countryCode (Producer.address P) = [])
          end
     end.

























End XmlParserFacts.

(** ** The searches of the decoder, on the markup *)

Module Search.

Import Js JsFacts DOMParser DOMParserFacts.


Definition tagName (m : Markup.t) : jsstring :=
  match m with Markup.Element tag _ _ => tag | Markup.Leaf tag _ => tag end.

Definition content (m : Markup.t) : list Markup.t :=
  match m with Markup.Element _ _ c => c | Markup.Leaf _ _ => [] end.

(** The elements written by [m], in document order. *)
Fixpoint elements (m : Markup.t) : list Markup.t :=
  match m with
  | Markup.Element _ _ c => m :: flat_map elements c
  | Markup.Leaf _ _ => [m]
  end.

Definition tagged (tag : jsstring) (ms : list Markup.t) : list Markup.t :=
  filter (fun e => eqb (tagName e) tag) (flat_map elements ms).

Lemma tagName_decoded m : Dom.tagName (decoded m) = tagName m.
Proof. now destruct m. Qed.

Lemma elements_decoded m : Dom.elements (decoded m) = map decoded (elements m).
Proof.
  induction m as [tag raw | tag attrs c IH] using markup_ind.
  - cbn. now rewrite texts_elements.
  - cbn [decoded Dom.elements elements map]. f_equal.
    induction c as [|m c IHc]; [reflexivity|].
    inversion IH as [|? ? Hm Hc]; subst.
    cbn [map flat_map]. now rewrite map_app, Hm, (IHc Hc).
Qed.

Lemma descendants_decoded ms :
  flat_map Dom.elements (map decoded ms) = map decoded (flat_map elements ms).
Proof.
  induction ms as [|m ms IH]; [reflexivity|].
  cbn [map flat_map]. now rewrite map_app, elements_decoded, IH.
Qed.

Lemma filter_decoded (P : jsstring -> bool) l :
  filter (fun e => P (Dom.tagName e)) (map decoded l)
  = map decoded (filter (fun e => P (tagName e)) l).
Proof.
  induction l as [|m l IH]; [reflexivity|].
  cbn [map filter]. rewrite tagName_decoded, IH. now destruct (P (tagName m)).
Qed.

(** [getElementsByTagName] below an element read from markup. *)
Lemma getElementsByTagName_decoded t a ms tag :
  Dom.getElementsByTagName (Dom.Element t a (map decoded ms)) tag
  = map decoded (tagged tag ms).
Proof.
  unfold Dom.getElementsByTagName, Dom.descendants, tagged. cbn [Dom.childNodes].
  rewrite descendants_decoded.
  apply (filter_decoded (fun x => eqb x tag)).
Qed.

Lemma find_decoded (P : jsstring -> bool) l :
  find (fun e => P (Dom.tagName e)) (map decoded l)
  = option_map decoded (find (fun e => P (tagName e)) l).
Proof.
  induction l as [|m l IH]; [reflexivity|].
  cbn [map find]. rewrite tagName_decoded, IH. now destruct (P (tagName m)).
Qed.

(** [querySelector] for a type selector, on a document read from markup. *)
Lemma querySelector_decoded ms name :
  Dom.querySelector (Dom.document (map decoded ms)) name
  = option_map decoded
      (find (fun e => eqb (Dom.localName (tagName e)) name) (flat_map elements ms)).
Proof.
  unfold Dom.querySelector, Dom.descendants, Dom.document. cbn [Dom.childNodes].
  rewrite descendants_decoded.
  apply (find_decoded (fun x => eqb (Dom.localName x) name)).
Qed.

Lemma tagged_nil tag : tagged tag [] = [].
Proof. reflexivity. Qed.

Lemma tagged_app tag l1 l2 : tagged tag (l1 ++ l2) = tagged tag l1 ++ tagged tag l2.
Proof. unfold tagged. now rewrite flat_map_app, filter_app. Qed.

Lemma tagged_cons tag m ms :
  tagged tag (m :: ms)
  = (if eqb (tagName m) tag then [m] else []) ++ tagged tag (content m) ++ tagged tag ms.
Proof.
  unfold tagged. cbn [flat_map]. rewrite filter_app. rewrite app_assoc. f_equal.
  destruct m as [t a c | t raw]; cbn [elements filter tagName content flat_map];
    destruct (eqb t tag); reflexivity.
Qed.

Lemma filter_by_image {A B} (f : A -> B) (P : B -> bool) l :
  forallb (fun b => negb (P b)) (map f l) = true ->
  filter (fun a => P (f a)) l = [].
Proof.
  induction l as [|a l IH]; [reflexivity|].
  cbn [map forallb filter]. rewrite andb_true_iff, negb_true_iff.
  intros [-> H]. auto.
Qed.

Lemma tagged_element tag t a c ms :
  tagged tag (Markup.Element t a c :: ms)
  = (if eqb t tag then [Markup.Element t a c] else []) ++ tagged tag c ++ tagged tag ms.
Proof. apply tagged_cons. Qed.

Lemma tagged_leaf tag t raw ms :
  tagged tag (Markup.Leaf t raw :: ms)
  = (if eqb t tag then [Markup.Leaf t raw] else []) ++ tagged tag ms.
Proof. now rewrite tagged_cons. Qed.

(** The tag names written by some markup. *)
Definition tagsOf (ms : list Markup.t) : list jsstring :=
  map tagName (flat_map elements ms).

Definition without (tag : jsstring) (ms : list Markup.t) : bool :=
  forallb (fun x => negb (eqb x tag)) (tagsOf ms).

Lemma tagged_none tag ms : without tag ms = true -> tagged tag ms = [].
Proof.
  unfold without, tagsOf, tagged. intros H.
  apply (filter_by_image tagName (fun x => eqb x tag)). exact H.
Qed.

End Search.

(** ** Escaping and reading character data *)

Module EscapeFacts.

Import Js JsFacts DOMParser DOMParserFacts XmlGenerator.

(** Text without [<] and [&]. *)
Definition plain (s : jsstring) : bool :=
  forallb (fun c => negb (c =? 60)%N && negb (c =? 38)%N) s.

Lemma escapeXml_cons c s :
  escapeXml (c :: s)
  = ((if (c =? 60)%N then [38; 108; 116; 59]
      else if (c =? 62)%N then [38; 103; 116; 59]
      else if (c =? 38)%N then [38; 97; 109; 112; 59]
      else if (c =? 39)%N then [38; 97; 112; 111; 115; 59]
      else if (c =? 34)%N then [38; 113; 117; 111; 116; 59]
      else [c]) ++ escapeXml s)%N.
Proof. reflexivity. Qed.

Lemma entity_at_reference r :
  (entity_at (108 :: 116 :: 59 :: r) = Some (60, r)
   /\ entity_at (103 :: 116 :: 59 :: r) = Some (62, r)
   /\ entity_at (97 :: 109 :: 112 :: 59 :: r) = Some (38, r)
   /\ entity_at (97 :: 112 :: 111 :: 115 :: 59 :: r) = Some (39, r)
   /\ entity_at (113 :: 117 :: 111 :: 116 :: 59 :: r) = Some (34, r))%N.
Proof. destruct r; repeat split; reflexivity. Qed.

Lemma decode_escapeXml s : forall fuel,
  (List.length (escapeXml s) <= fuel)%nat -> decode fuel (escapeXml s) = Some s.
Proof.
  induction s as [|c s IH]; intros fuel L.
  - destruct fuel; reflexivity.
  - rewrite escapeXml_cons in *.
    destruct (N.eqb_spec c 60) as [->|N60];
      [|destruct (N.eqb_spec c 62) as [->|N62];
        [|destruct (N.eqb_spec c 38) as [->|N38];
          [|destruct (N.eqb_spec c 39) as [->|N39];
            [|destruct (N.eqb_spec c 34) as [->|N34]]]]];
      cbn [app List.length] in L;
      (destruct fuel as [|fuel]; [lia|]);
      cbn [app decode].
    1-5: cbn [N.eqb Pos.eqb]; first [ rewrite (proj1 (entity_at_reference _))
            | rewrite (proj1 (proj2 (entity_at_reference _)))
            | rewrite (proj1 (proj2 (proj2 (entity_at_reference _))))
            | rewrite (proj1 (proj2 (proj2 (proj2 (entity_at_reference _)))))
            | rewrite (proj2 (proj2 (proj2 (proj2 (entity_at_reference _))))) ];
      rewrite IH by lia; reflexivity.
    destruct (N.eqb_spec c 60); [contradiction|].
    destruct (N.eqb_spec c 38); [contradiction|].
    rewrite IH by lia; reflexivity.
Qed.

Lemma decode_plain p : forall s fuel,
  plain p = true -> (List.length (p ++ escapeXml s) <= fuel)%nat ->
  decode fuel (p ++ escapeXml s) = Some (p ++ s).
Proof.
  induction p as [|c p IH]; intros s fuel P L.
  - now apply decode_escapeXml.
  - cbn [plain forallb] in P. apply andb_true_iff in P. destruct P as [Pc P].
    apply andb_true_iff in Pc. destruct Pc as [P60 P38].
    apply negb_true_iff in P60, P38.
    cbn [app List.length] in *. destruct fuel as [|fuel]; [lia|].
    cbn [decode]. rewrite P60, P38, (IH s fuel P) by lia. reflexivity.
Qed.

(** Escaped text reads back as the text. *)
Lemma decodeCharData_escapeXml s : decodeCharData (escapeXml s) = Some s.
Proof. apply decode_escapeXml. apply le_n. Qed.

Lemma decodeCharData_plain p s :
  plain p = true -> decodeCharData (p ++ escapeXml s) = Some (p ++ s)%list.
Proof. intros P. apply decode_plain; [exact P | apply le_n]. Qed.

Lemma decodeCharData_plain_text p : plain p = true -> decodeCharData p = Some p.
Proof.
  intros P. generalize (decodeCharData_plain p [] P).
  change (escapeXml []) with (@nil N). now rewrite app_nil_r.
Qed.

Lemma escapeXml_empty s : escapeXml s = [] -> s = [].
Proof.
  destruct s as [|c s]; [reflexivity|]. rewrite escapeXml_cons.
  destruct (c =? 60)%N; [discriminate|]. destruct (c =? 62)%N; [discriminate|].
  destruct (c =? 38)%N; [discriminate|]. destruct (c =? 39)%N; [discriminate|].
  destruct (c =? 34)%N; discriminate.
Qed.

Lemma decoded_escaped tag s :
  decoded (Markup.Leaf tag (escapeXml s)) = Dom.Element tag [] (texts s).
Proof. cbn. unfold text_of. now rewrite decodeCharData_escapeXml. Qed.

Lemma decoded_plain tag p :
  plain p = true -> decoded (Markup.Leaf tag p) = Dom.Element tag [] (texts p).
Proof. intros P. cbn. unfold text_of. now rewrite decodeCharData_plain_text. Qed.

(** The text of [<tag>escaped</tag>] is the text that was escaped. *)
Lemma textContent_escaped tag s :
  Dom.textContent (decoded (Markup.Leaf tag (escapeXml s))) = s.
Proof. rewrite decoded_escaped. cbn [Dom.textContent]. apply texts_content. Qed.

Lemma textContent_plain tag p :
  plain p = true -> Dom.textContent (decoded (Markup.Leaf tag p)) = p.
Proof. intros P. rewrite decoded_plain by exact P. apply texts_content. Qed.

(** *** Escaped text that is read as it was *)

(** Text that XML carries: XML characters without the carriage return,
    surrogates in pairs. *)
Definition carried_text (s : jsstring) : bool :=
  forallb (fun c => is_unit c && negb (c =? 13)%N) s && paired false s.

Definition special (c : N) : bool :=
  ((c =? 60) || (c =? 62) || (c =? 38) || (c =? 39) || (c =? 34))%N.

Ltac by_character c :=
  unfold special;
  destruct (N.eqb_spec c 60) as [->|?];
    [|destruct (N.eqb_spec c 62) as [->|?];
      [|destruct (N.eqb_spec c 38) as [->|?];
        [|destruct (N.eqb_spec c 39) as [->|?];
          [|destruct (N.eqb_spec c 34) as [->|?]]]]].

(** What holds of every character written for a special one and of
    every other character of a text holds of the escaped text. *)
Lemma escapeXml_all (P : N -> bool) s :
  forallb P [38; 108; 116; 59; 103; 97; 109; 112; 111; 115; 113; 117]%N = true ->
  forallb (fun c => special c || P c) s = true ->
  forallb P (escapeXml s) = true.
Proof.
  intros E. cbn [forallb] in E. rewrite !andb_true_iff in E.
  destruct E as (E38 & E108 & E116 & E59 & E103 & E97 & E109 & E112 & E111
                 & E115 & E113 & E117 & _).
  induction s as [|c s IH]; [reflexivity|].
  cbn [forallb]. rewrite andb_true_iff. intros [C S].
  rewrite escapeXml_cons, forallb_app, (IH S), andb_true_r. revert C.
  by_character c; cbn [orb forallb]; intros C;
    rewrite ?E38, ?E108, ?E116, ?E59, ?E103, ?E97, ?E109, ?E112, ?E111, ?E115,
      ?E113, ?E117, ?C; reflexivity.
Qed.

Lemma existsb_forallb {A} (p : A -> bool) l :
  existsb p l = negb (forallb (fun x => negb (p x)) l).
Proof.
  induction l as [|a l IH]; [reflexivity|]. cbn [existsb forallb].
  rewrite IH. now destruct (p a).
Qed.

Lemma escapeXml_without c s :
  c = 60%N \/ c = 62%N -> existsb (N.eqb c) (escapeXml s) = false.
Proof.
  intros C. rewrite existsb_forallb. apply negb_false_iff.
  apply escapeXml_all; [destruct C as [->| ->]; reflexivity|].
  apply forallb_forall. intros x _.
  destruct (N.eqb_spec c x) as [<-|?]; [|apply orb_true_r].
  destruct C as [->| ->]; reflexivity.
Qed.

Lemma paired_escapeXml s : forall b, paired b (escapeXml s) = paired b s.
Proof.
  induction s as [|c s IH]; intros b; [reflexivity|].
  rewrite escapeXml_cons.
  by_character c; cbn [app paired]; destruct b; cbn; now rewrite ?IH.
Qed.

Lemma includes_cdata_end raw :
  existsb (N.eqb 62) raw = false -> includes raw (js "]]>") = false.
Proof.
  change (js "]]>") with [93; 93; 62]%N.
  induction raw as [|c r IH]; [reflexivity|].
  cbn [existsb]. rewrite orb_false_iff. intros [_ R].
  cbn [includes]. rewrite (IH R), orb_false_r.
  destruct r as [|x [|y r2]]; cbn [startsWith]; rewrite ?andb_false_r; try reflexivity.
  cbn [existsb] in R. rewrite !orb_false_iff in R. destruct R as (_ & -> & _).
  cbn [andb]. now rewrite !andb_false_r.
Qed.

Lemma verbatim_escaped s : carried_text s = true -> verbatim_text (escapeXml s) = true.
Proof.
  unfold carried_text, verbatim_text. rewrite andb_true_iff. intros [U P].
  assert (A : forallb (fun c => is_unit c && negb (c =? 13)%N) (escapeXml s) = true).
  { apply escapeXml_all; [reflexivity|].
    rewrite forallb_forall in *. intros x Hx. rewrite (U x Hx). apply orb_true_r. }
  rewrite forallb_forall in A.
  assert (A3 : forallb is_unit (escapeXml s) = true).
  { apply forallb_forall. intros x Hx. specialize (A x Hx).
    now apply andb_true_iff in A. }
  assert (A5 : existsb (N.eqb 13) (escapeXml s) = false).
  { rewrite existsb_forallb. apply negb_false_iff, forallb_forall.
    intros x Hx. specialize (A x Hx). apply andb_true_iff in A.
    now rewrite N.eqb_sym. }
  rewrite (escapeXml_without 60 s (or_introl eq_refl)), paired_escapeXml, P, A3, A5.
  rewrite (includes_cdata_end _ (escapeXml_without 62 s (or_intror eq_refl))).
  now rewrite decodeCharData_escapeXml.
Qed.

Lemma read_escaped ns tag s :
  element_name ns tag = true -> carried_text s = true ->
  read ns (Markup.Leaf tag (escapeXml s)) = Read (Dom.Element tag [] (texts s)).
Proof.
  intros T C. rewrite read_verbatim.
  - apply f_equal, decoded_escaped.
  - cbn [verbatim]. now rewrite T, (verbatim_escaped s C).
Qed.

End EscapeFacts.

(** ** Tag inventories of generated markup *)

Module Inventory.

Import Js JsFacts DOMParserFacts Search.

Definition among (vocab : list jsstring) (x : jsstring) : bool :=
  existsb (eqb x) vocab.

(** Every tag name written by [ms] is in [vocab]. *)
Definition only (vocab : list jsstring) (ms : list Markup.t) : bool :=
  forallb (among vocab) (tagsOf ms).

Lemma only_nil vocab : only vocab [] = true.
Proof. reflexivity. Qed.

Lemma only_app vocab l1 l2 : only vocab (l1 ++ l2) = only vocab l1 && only vocab l2.
Proof. unfold only, tagsOf. now rewrite flat_map_app, map_app, forallb_app. Qed.

Lemma only_cons vocab m ms :
  only vocab (m :: ms)
  = among vocab (tagName m) && only vocab (content m) && only vocab ms.
Proof.
  change (m :: ms) with ([m] ++ ms). rewrite only_app. f_equal.
  unfold only, tagsOf. cbn [flat_map]. rewrite app_nil_r.
  destruct m as [t a c | t raw]; cbn [elements map forallb tagName content flat_map];
    [reflexivity | now rewrite andb_true_r].
Qed.

Lemma only_element vocab t a c ms :
  only vocab (Markup.Element t a c :: ms)
  = among vocab t && only vocab c && only vocab ms.
Proof. apply only_cons. Qed.

Lemma only_leaf vocab t raw ms :
  only vocab (Markup.Leaf t raw :: ms) = among vocab t && only vocab ms.
Proof. rewrite only_cons. cbn [tagName content]. now rewrite only_nil, andb_true_r. Qed.

Lemma among_In vocab x : among vocab x = true <-> In x vocab.
Proof.
  unfold among. rewrite existsb_exists. split.
  - intros (y & Hy & E). apply eqb_eq in E. now subst.
  - intros H. exists x. split; [exact H | apply eqb_refl].
Qed.

Lemma only_mono vocab vocab' ms :
  forallb (among vocab') vocab = true -> only vocab ms = true -> only vocab' ms = true.
Proof.
  unfold only. rewrite !forallb_forall. intros S H x Hx.
  apply S. apply among_In. apply H. exact Hx.
Qed.

Lemma only_without vocab tag ms :
  among vocab tag = false -> only vocab ms = true -> without tag ms = true.
Proof.
  unfold only, without. rewrite !forallb_forall. intros A H x Hx.
  apply negb_true_iff. destruct (eqb x tag) eqn:E; [|reflexivity].
  apply eqb_eq in E. subst x. rewrite <- A. symmetry. apply H. exact Hx.
Qed.

Lemma only_none vocab tag ms :
  among vocab tag = false -> only vocab ms = true -> tagged tag ms = [].
Proof. intros A H. apply tagged_none. now apply (only_without vocab). Qed.

(** No tag name written by [ms] has a local name [name]. *)
Lemma only_no_local vocab name ms :
  forallb (fun x => negb (eqb (Dom.localName x) name)) vocab = true ->
  only vocab ms = true ->
  find (fun e => eqb (Dom.localName (tagName e)) name) (flat_map elements ms) = None.
Proof.
  unfold only, tagsOf. rewrite !forallb_forall. intros A H.
  induction (flat_map elements ms) as [|e l IH]; [reflexivity|].
  cbn [find]. assert (N : negb (eqb (Dom.localName (tagName e)) name) = true).
  { apply A. apply among_In. apply H. now left. }
  apply negb_true_iff in N. rewrite N. apply IH.
  intros x Hx. apply H. now right.
Qed.

(** An element named [tag] whose content uses the names of [vocab]. *)
Definition entity (tag : jsstring) (vocab : list jsstring) (m : Markup.t) : Prop :=
  tagName m = tag /\ only vocab (content m) = true.

Lemma entities_only tag vocab ms :
  Forall (entity tag vocab) ms -> only (tag :: vocab) ms = true.
Proof.
  induction 1 as [|m ms [T C] _ IH]; [reflexivity|].
  rewrite only_cons, IH, T. unfold among at 1. cbn [existsb]. rewrite eqb_refl.
  cbn [orb andb]. rewrite andb_true_r.
  apply (only_mono vocab); [|exact C].
  apply forallb_forall. intros x Hx. apply among_In. right. exact Hx.
Qed.

(** The elements named [tag] written by a list of such entities are
    the entities. *)
Lemma entities_all tag vocab ms :
  among vocab tag = false -> Forall (entity tag vocab) ms -> tagged tag ms = ms.
Proof.
  intros A. induction 1 as [|m ms [T C] _ IH]; [reflexivity|].
  rewrite tagged_cons, T, eqb_refl, IH, (only_none vocab tag _ A C). reflexivity.
Qed.

Lemma entities_map {A} (f : A -> Markup.t) tag vocab l :
  (forall a, entity tag vocab (f a)) -> Forall (entity tag vocab) (map f l).
Proof. intros H. induction l; constructor; auto. Qed.

End Inventory.

(** ** Evaluating the decoder's searches *)

Module Written.

Import Js JsFacts DOMParser DOMParserFacts Search EscapeFacts.
Import XmlParser XmlGenerator GenFacts Inventory.

(** [first] on an element read from markup. *)
Definition first_written (m : Markup.t) (tag : jsstring) : option Markup.t :=
  hd_error (tagged tag (content m)).

Lemma getElementsByTagName_written m tag :
  Dom.getElementsByTagName (decoded m) tag = map decoded (tagged tag (content m)).
Proof.
  destruct m as [t a c | t raw]; cbn [decoded content].
  - apply getElementsByTagName_decoded.
  - unfold Dom.getElementsByTagName, Dom.descendants. cbn [Dom.childNodes].
    now rewrite texts_elements.
Qed.

Lemma first_decoded m tag :
  first (decoded m) tag = option_map decoded (first_written m (js tag)).
Proof.
  unfold first, first_written. rewrite getElementsByTagName_written.
  now destruct (tagged (js tag) (content m)).
Qed.

(** Literal tag names, as code units. *)
Ltac literals :=
  repeat match goal with
         | |- context [js (String ?c ?s)] =>
           let v := eval vm_compute in (js (String c s)) in
           change (js (String c s)) with v
         end.

Ltac find_first :=
  repeat match goal with
         | |- context [first_written ?m ?t] =>
           let v := eval lazy [first_written tagged content Search.tagName elements
                               flat_map filter app hd_error eqb N.eqb Pos.eqb andb
                               Markup.elem Markup.leaf XmlGenerator.named opt] in
                     (first_written m t) in
           change (first_written m t) with v
         end.

Ltac nav :=
  unfold XmlGenerator.named, Markup.elem, Markup.leaf;
  repeat (progress (unfold getTagContent; cbn [getNestedContent];
                    rewrite ?first_decoded; literals; find_first;
                    cbn [option_map]; rewrite ?textContent_escaped)).

Lemma not_truthy s : truthy s = false -> s = [].
Proof. now destruct s. Qed.

(** Peeling an inventory down to the tag names and the lists of entities. *)
Ltac peel :=
  repeat first [ rewrite only_app
               | rewrite only_nil
               | rewrite only_element
               | rewrite only_leaf ].

Lemma mapM_round {A B} (f : Dom.node -> Gen.t B) (g : A -> Markup.t)
      (R : A -> B -> Prop) :
  (forall a n, R a (fst (f (decoded (g a)) n))) ->
  forall l n, Forall2 R l (fst (Gen.mapM f (map decoded (map g l)) n)).
Proof.
  intros H l; induction l as [|a l IH]; intros n; [constructor|].
  cbn [map]. rewrite mapM_cons. constructor; auto.
Qed.

(** The elements named [tag] written by markup that holds lists of
    entities. *)
Ltac search :=
  repeat first [ rewrite tagged_app
               | rewrite tagged_nil
               | rewrite tagged_element
               | rewrite tagged_leaf ];
  literals; cbn [eqb N.eqb Pos.eqb andb app].

End Written.

(** ** Round trip of a quantity *)

Module QuantityCodec.

Import Js JsFacts DOMParser DOMParserFacts Search EscapeFacts Inventory Written.
Import XmlParser XmlGenerator GenFacts.

Definition vocabulary : list jsstring :=
  map js [ "dcc:name"; "dcc:content"; "si:real"; "si:value"; "si:unit";
           "si:measurementUncertaintyUnivariate"; "si:expandedMU";
           "si:valueExpandedMU"; "si:coverageFactor"; "si:coverageProbability";
           "drmd:propertyIdentifiers"; "drmd:propertyIdentifier";
           "drmd:scheme"; "drmd:value"; "drmd:link" ]%string.

Lemma quantity_entity q : entity (js "drmd:quantity") vocabulary (quantityXml q).
Proof.
  split; [reflexivity|]. unfold quantityXml. cbn [content Markup.elem].
  destruct (truthy (Quantity.uncertainty q)), (truthy (Quantity.coverageFactor q)),
    (truthy (Quantity.coverageProbability q)),
    (CasMapping.getCasNumber (Quantity.name q)); lazy; reflexivity.
Qed.

(** The unit a quantity is written with. *)
Definition wire_unit (q : Quantity.t) : jsstring :=
  if truthy (Quantity.dsiUnit q) then Quantity.dsiUnit q else Quantity.unit q.

Definition kept (q q' : Quantity.t) : Prop :=
  Quantity.name q' = Quantity.name q
  /\ Quantity.value q' = Quantity.value q
  /\ Quantity.dsiValue q' = Quantity.value q
  /\ Quantity.unit q' = wire_unit q
  /\ Quantity.dsiUnit q' = wire_unit q
  /\ Quantity.uncertainty q' = Quantity.uncertainty q
  /\ (truthy (Quantity.uncertainty q) = true ->
      Quantity.coverageFactor q' = Quantity.coverageFactor q
      /\ Quantity.coverageProbability q' = Quantity.coverageProbability q).

Lemma parseQuantity_round q n :
  kept q (fst (parseQuantity (decoded (quantityXml q)) n)).
Proof.
  unfold parseQuantity, uuid. rewrite bind_run. cbn [Gen.ret fst].
  unfold quantityXml.
  destruct (truthy (Quantity.uncertainty q)) eqn:U;
    [destruct (truthy (Quantity.coverageFactor q)) eqn:F;
     destruct (truthy (Quantity.coverageProbability q)) eqn:P|];
    nav; unfold kept, wire_unit; cbn;
    rewrite ?(not_truthy _ U), ?(not_truthy _ F), ?(not_truthy _ P);
    repeat split; discriminate.
Qed.

End QuantityCodec.

(** ** Round trip of a measurement result *)

Module ResultCodec.

Import Js JsFacts DOMParser DOMParserFacts Search EscapeFacts Inventory Written.
Import XmlParser XmlGenerator GenFacts.

Definition vocabulary : list jsstring :=
  map js [ "drmd:name"; "dcc:content"; "drmd:description"; "drmd:data";
           "drmd:list"; "drmd:quantity" ]%string
  ++ QuantityCodec.vocabulary.

Lemma quantities_only vocab qs :
  forallb (among vocab) (js "drmd:quantity" :: QuantityCodec.vocabulary) = true ->
  only vocab (map quantityXml qs) = true.
Proof.
  intros S. apply (only_mono _ _ _ S). apply entities_only.
  apply entities_map. exact QuantityCodec.quantity_entity.
Qed.

Lemma result_entity r : entity (js "drmd:result") vocabulary (resultXml r).
Proof.
  split; [reflexivity|]. unfold resultXml. cbn [content Markup.elem].
  destruct (truthy (MeasurementResult.description r));
    unfold named, Markup.elem, Markup.leaf; cbn [opt app]; peel;
    rewrite quantities_only by reflexivity; reflexivity.
Qed.

Lemma quantities_written r :
  tagged (js "drmd:quantity") (content (resultXml r))
  = map quantityXml (MeasurementResult.quantities r).
Proof.
  unfold resultXml. cbn [content Markup.elem].
  destruct (truthy (MeasurementResult.description r));
    unfold named, Markup.elem, Markup.leaf; cbn [opt app]; search;
    rewrite (entities_all _ QuantityCodec.vocabulary)
      by (reflexivity || (apply entities_map; exact QuantityCodec.quantity_entity));
    rewrite ?app_nil_r; reflexivity.
Qed.

Lemma description_absent r :
  truthy (MeasurementResult.description r) = false ->
  first_written (resultXml r) (js "drmd:description") = None.
Proof.
  intros D. unfold first_written, resultXml. rewrite D. cbn [content Markup.elem].
  unfold named, Markup.elem, Markup.leaf; cbn [opt app]; search.
  rewrite (only_none (js "drmd:quantity" :: QuantityCodec.vocabulary))
    by (reflexivity || (apply entities_only, entities_map; exact QuantityCodec.quantity_entity)).
  reflexivity.
Qed.

Definition kept (r r' : MeasurementResult.t) : Prop :=
  MeasurementResult.name r'
  = (if truthy (MeasurementResult.name r) then MeasurementResult.name r
     else js "Values")
  /\ MeasurementResult.description r' = MeasurementResult.description r
  /\ Forall2 QuantityCodec.kept (MeasurementResult.quantities r)
             (MeasurementResult.quantities r').

Lemma parseResult_round r n :
  kept r (fst (parseResult (decoded (resultXml r)) n)).
Proof.
  unfold parseResult, uuid. rewrite !bind_run. cbn [Gen.ret fst].
  rewrite getElementsByTagName_written, quantities_written.
  split; [|split]; cbn [MeasurementResult.name MeasurementResult.description
                         MeasurementResult.quantities].
  - unfold resultXml. nav. reflexivity.
  - destruct (truthy (MeasurementResult.description r)) eqn:D.
    + unfold resultXml. rewrite D. nav. reflexivity.
    + cbn [getNestedContent]. rewrite first_decoded, (description_absent r D).
      cbn [option_map]. symmetry. now apply not_truthy.
  - apply mapM_round. exact QuantityCodec.parseQuantity_round.
Qed.

End ResultCodec.

(** ** Round trip of a material property *)

Module PropertyCodec.

Import Js JsFacts DOMParser DOMParserFacts Search EscapeFacts Inventory Written.
Import XmlParser XmlGenerator GenFacts.

Definition vocabulary : list jsstring :=
  map js [ "drmd:name"; "dcc:content"; "drmd:description"; "drmd:procedures";
           "dcc:usedMethod"; "dcc:name"; "dcc:description"; "drmd:results";
           "drmd:result" ]%string
  ++ ResultCodec.vocabulary.

Lemma results_entities rs :
  Forall (entity (js "drmd:result") ResultCodec.vocabulary) (map resultXml rs).
Proof. apply entities_map. exact ResultCodec.result_entity. Qed.

Lemma results_only vocab rs :
  forallb (among vocab) (js "drmd:result" :: ResultCodec.vocabulary) = true ->
  only vocab (map resultXml rs) = true.
Proof.
  intros S. apply (only_mono _ _ _ S). apply entities_only, results_entities.
Qed.

Ltac cases p :=
  unfold propertyXml; cbn [content];
  destruct (truthy (MaterialProperty.description p));
  destruct (truthy (MaterialProperty.procedures p));
  unfold named, Markup.elem, Markup.leaf; cbn [opt app].

Lemma property_entity p : entity (js "drmd:materialProperties") vocabulary (propertyXml p).
Proof.
  split; [reflexivity|]. cases p; peel;
    rewrite results_only by reflexivity; reflexivity.
Qed.

Lemma results_written p :
  tagged (js "drmd:result") (content (propertyXml p))
  = map resultXml (MaterialProperty.results p).
Proof.
  cases p; search;
    rewrite (entities_all _ ResultCodec.vocabulary)
      by (reflexivity || apply results_entities);
    rewrite ?app_nil_r; reflexivity.
Qed.

Lemma procedures_absent p :
  truthy (MaterialProperty.procedures p) = false ->
  first_written (propertyXml p) (js "drmd:procedures") = None.
Proof.
  intros D. unfold first_written, propertyXml. rewrite D. cbn [content].
  destruct (truthy (MaterialProperty.description p));
    unfold named, Markup.elem, Markup.leaf; cbn [opt app]; search;
    rewrite (only_none (js "drmd:result" :: ResultCodec.vocabulary))
      by (reflexivity || apply entities_only, results_entities);
    reflexivity.
Qed.

Definition kept (p p' : MaterialProperty.t) : Prop :=
  MaterialProperty.name p' = MaterialProperty.name p
  /\ MaterialProperty.isCertified p'
     = Some (match MaterialProperty.isCertified p with
             | Some b => b
             | None => false
             end)
  /\ MaterialProperty.procedures p' = MaterialProperty.procedures p
  /\ (truthy (MaterialProperty.description p) = true ->
      MaterialProperty.description p' = MaterialProperty.description p)
  /\ Forall2 ResultCodec.kept (MaterialProperty.results p)
             (MaterialProperty.results p').

Lemma parseProperty_round p n :
  kept p (fst (parseProperty (decoded (propertyXml p)) n)).
Proof.
  unfold parseProperty, uuid. rewrite !bind_run. cbn [Gen.ret fst].
  rewrite getElementsByTagName_written, results_written.
  split; [|split; [|split; [|split]]];
    cbn [MaterialProperty.name MaterialProperty.description
         MaterialProperty.isCertified MaterialProperty.procedures
         MaterialProperty.results].
  - unfold propertyXml. nav. reflexivity.
  - unfold propertyXml. cbn [decoded Dom.getAttribute find fst snd].
    rewrite eqb_refl. cbn [option_map snd].
    now destruct (MaterialProperty.isCertified p) as [[|]|].
  - destruct (truthy (MaterialProperty.procedures p)) eqn:D.
    + unfold propertyXml. rewrite D.
      destruct (truthy (MaterialProperty.description p)); nav; reflexivity.
    + cbn [getNestedContent]. rewrite first_decoded, (procedures_absent p D).
      cbn [option_map]. symmetry. now apply not_truthy.
  - intros D. unfold propertyXml. rewrite D. nav. reflexivity.
  - apply mapM_round. exact ResultCodec.parseResult_round.
Qed.

End PropertyCodec.

(** ** Round trip of producers, responsible persons and materials *)

Module ProducerCodec.

Import Js JsFacts DOMParser DOMParserFacts Search EscapeFacts Inventory Written.
Import XmlParser XmlGenerator GenFacts.

Definition vocabulary : list jsstring :=
  map js [ "drmd:name"; "dcc:content"; "drmd:contact"; "dcc:name"; "dcc:eMail";
           "dcc:phone"; "dcc:fax"; "dcc:location"; "dcc:street"; "dcc:streetNo";
           "dcc:postCode"; "dcc:city"; "dcc:countryCode" ]%string.

Lemma producer_entity p :
  entity (js "drmd:referenceMaterialProducer") vocabulary (producerXml p).
Proof.
  split; [reflexivity|]. unfold producerXml. cbn [content Markup.elem].
  destruct (App.present (Producer.fax p)); lazy; reflexivity.
Qed.

Definition kept (p p' : Producer.t) : Prop :=
  Producer.name p' = Producer.name p
  /\ Producer.email p' = Producer.email p
  /\ Producer.phone p' = Producer.phone p
  /\ Producer.fax p' = Some (App.str (Producer.fax p))
  /\ Producer.address p' = Producer.address p.

Lemma parseProducer_round p n :
  kept p (fst (parseProducer (decoded (producerXml p)) n)).
Proof.
  unfold parseProducer, uuid. rewrite bind_run. cbn [Gen.ret fst].
  unfold producerXml, escapeXml_opt, App.present.
  destruct (Producer.fax p) as [fax|] eqn:F; [destruct (truthy fax) eqn:T|];
    nav; unfold kept; cbn; rewrite ?F; cbn; rewrite ?(not_truthy _ T);
    destruct (Producer.address p); repeat split; reflexivity.
Qed.

End ProducerCodec.

Module PersonCodec.

Import Js JsFacts DOMParser DOMParserFacts Search EscapeFacts Inventory Written.
Import XmlParser XmlGenerator GenFacts.

Definition vocabulary : list jsstring :=
  map js [ "dcc:person"; "dcc:name"; "dcc:content"; "dcc:description";
           "dcc:role"; "dcc:mainSigner" ]%string.

Lemma person_entity p : entity (js "dcc:respPerson") vocabulary (personXml p).
Proof.
  split; [reflexivity|]. unfold personXml. cbn [content Markup.elem].
  destruct (truthy (ResponsiblePerson.description p)); lazy; reflexivity.
Qed.

Definition kept (p p' : ResponsiblePerson.t) : Prop :=
  ResponsiblePerson.name p' = ResponsiblePerson.name p
  /\ ResponsiblePerson.role p' = ResponsiblePerson.role p
  /\ ResponsiblePerson.description p' = ResponsiblePerson.description p
  /\ ResponsiblePerson.mainSigner p' = ResponsiblePerson.mainSigner p.

Lemma parsePerson_round p n :
  kept p (fst (parsePerson (decoded (personXml p)) n)).
Proof.
  unfold parsePerson, uuid. rewrite bind_run. cbn [Gen.ret fst].
  unfold personXml.
  destruct (truthy (ResponsiblePerson.description p)) eqn:D;
    destruct (ResponsiblePerson.mainSigner p) eqn:S;
    nav; unfold kept; cbn; rewrite ?S, ?(not_truthy _ D);
    repeat split; reflexivity.
Qed.

End PersonCodec.

Module MaterialCodec.

Import Js JsFacts DOMParser DOMParserFacts Search EscapeFacts Inventory Written.
Import XmlParser XmlGenerator GenFacts.

Definition vocabulary : list jsstring :=
  map js [ "drmd:name"; "dcc:content"; "drmd:description";
           "drmd:minimumSampleSize"; "drmd:itemQuantities"; "dcc:itemQuantity";
           "drmd:noQuantity"; "drmd:real"; "si:value"; "si:unit" ]%string.

Ltac primitive value :=
  unfold renderPrimitiveQuantity;
  destruct (negb (truthy value) || eqb value (js "noQuantity"));
  [|destruct (match_number_unit (trim value)) as [[numPart unitPart]|];
    [destruct (truthy (UnitLookup.dsiUnit
                         (UnitConverter.convertToDSI
                            (Some (UnitLookup.VString numPart)) (Some unitPart))))|]].

Lemma primitive_only value :
  only vocabulary [renderPrimitiveQuantity value] = true.
Proof. primitive value; lazy; reflexivity. Qed.

Lemma material_entity m : entity (js "drmd:material") vocabulary (materialXml m).
Proof.
  split; [reflexivity|]. unfold materialXml. cbn [content Markup.elem].
  destruct (truthy (Material.itemQuantities m));
    unfold named, Markup.elem, Markup.leaf; cbn [opt app]; peel;
    rewrite !primitive_only; reflexivity.
Qed.

Definition kept (m m' : Material.t) : Prop :=
  Material.name m' = Material.name m
  /\ Material.description m' = Material.description m.

Lemma parseMaterial_round m n :
  kept m (fst (parseMaterial (decoded (materialXml m)) n)).
Proof.
  unfold parseMaterial, uuid. rewrite bind_run. cbn [Gen.ret fst].
  unfold materialXml. split; cbn [Material.name Material.description];
    nav; reflexivity.
Qed.

End MaterialCodec.

(** ** Round trip of the validity *)

Module ValidityCodec.

Import Js JsFacts JsNumber JsNumberFacts DOMParser DOMParserFacts Search EscapeFacts.
Import Inventory Written XmlParser XmlGenerator GenFacts.

Lemma uint_of_digits_of_uint u : uint_of_digits (digits_of_uint u) = u.
Proof. induction u; cbn; congruence. Qed.

Lemma N_of_digits_of_N n : N_of_digits (digits_of_N n) = n.
Proof.
  unfold N_of_digits, digits_of_N. rewrite uint_of_digits_of_uint.
  apply DecimalN.Unsigned.of_to.
Qed.

Lemma digits_of_N_cons n : exists d ds, digits_of_N n = d :: ds.
Proof.
  unfold digits_of_N. destruct (N.to_uint n) eqn:E; cbn; eauto.
  destruct n as [|p]; [discriminate|]. cbn in E.
  unfold Pos.to_uint in E.
  assert (H : Pos.of_uint (Pos.to_uint p) = N.pos p) by apply DecimalPos.Unsigned.of_to.
  unfold Pos.to_uint in H. rewrite E in H. discriminate.
Qed.

Lemma span_digits_run ds y r :
  forallb is_digit ds = true -> is_digit y = false ->
  span_digits (ds ++ y :: r) = (ds, y :: r).
Proof.
  induction ds as [|d ds IH]; cbn [app forallb span_digits]; intros D Y.
  - now rewrite Y.
  - apply andb_true_iff in D. destruct D as [-> D]. now rewrite (IH D Y).
Qed.

Lemma match_skip fuel c x r :
  is_digit x = false ->
  match_digits_before (S fuel) c (x :: r) = match_digits_before fuel c r.
Proof. intros X. cbn [match_digits_before]. now rewrite X. Qed.

Lemma match_run fuel c ds y r :
  ds <> [] -> forallb is_digit ds = true -> is_digit y = false ->
  match_digits_before (S fuel) c (ds ++ y :: r)
  = if (y =? c)%N then Some ds else match_digits_before fuel c (y :: r).
Proof.
  intros N D Y. destruct ds as [|d ds]; [contradiction|].
  cbn [match_digits_before].
  change ((d :: ds) ++ y :: r) with (d :: (ds ++ y :: r)) at 1. cbv iota beta.
  cbn [forallb] in D. apply andb_true_iff in D. destruct D as [Dd D].
  rewrite Dd. change (d :: ds ++ y :: r) with ((d :: ds) ++ y :: r).
  rewrite (span_digits_run (d :: ds) y r); [reflexivity | | exact Y].
  cbn [forallb]. now rewrite Dd, D.
Qed.

Lemma match_end fuel c : match_digits_before fuel c [] = None.
Proof. now destruct fuel. Qed.

Lemma enough_fuel (s : jsstring) :
  (3 <= List.length s)%nat ->
  exists f, S (List.length s) = S (S (S (S f))).
Proof. intros L. exists (List.length s - 3)%nat. lia. Qed.

(** The decoder reads back the counts of a period written by the
    encoder. *)
Lemma period_read y m :
  (0 <= y < 2 ^ 53)%Z -> (0 <= m < 2 ^ 53)%Z ->
  period_component 89 (period y m) = y /\ period_component 77 (period y m) = m.
Proof.
  intros Hy Hm. unfold period, Z_text.
  destruct (Z.ltb_spec (Z.abs y) (2 ^ 53)) as [_|?]; [|lia].
  destruct (Z.ltb_spec (Z.abs m) (2 ^ 53)) as [_|?]; [|lia].
  destruct (Z.ltb_spec y 0) as [?|_]; [lia|].
  destruct (Z.ltb_spec m 0) as [?|_]; [lia|].
  destruct (digits_of_N_cons (Z.abs_N y)) as (dy & dsy & Ey).
  destruct (digits_of_N_cons (Z.abs_N m)) as (dm & dsm & Em).
  pose proof (digits_of_N_digits (Z.abs_N y)) as Dy.
  pose proof (digits_of_N_digits (Z.abs_N m)) as Dm.
  pose proof (N_of_digits_of_N (Z.abs_N y)) as Ry.
  pose proof (N_of_digits_of_N (Z.abs_N m)) as Rm.
  assert (Vy : Z.of_N (Z.abs_N y) = y) by lia.
  assert (Vm : Z.of_N (Z.abs_N m) = m) by lia.
  set (ty := digits_of_N (Z.abs_N y)) in *.
  set (tm := digits_of_N (Z.abs_N m)) in *.
  assert (Ny : ty <> []) by (rewrite Ey; discriminate).
  assert (Nm : tm <> []) by (rewrite Em; discriminate).
  change (js "P") with [80%N]. change (js "Y") with [89%N].
  change (js "M") with [77%N].
  assert (Ly : (1 <= List.length ty)%nat) by (rewrite Ey; cbn; lia).
  assert (Lm : (1 <= List.length tm)%nat) by (rewrite Em; cbn; lia).
  unfold period_component.
  destruct (Z.eqb_spec y 0) as [y0|y1]; destruct (Z.eqb_spec m 0) as [m0|m1];
    cbn [app]; rewrite ?app_nil_r, <- ?app_assoc; cbn [app].
  - subst. split; reflexivity.
  - replace (eqb (80%N :: tm ++ [77%N]) [80%N]) with false
      by (rewrite Em; reflexivity).
    destruct (enough_fuel (80%N :: tm ++ [77%N])) as [f ->];
      [cbn [List.length]; rewrite length_app; cbn [List.length]; lia|].
    rewrite !match_skip, !match_run by (assumption || reflexivity).
    cbn [N.eqb Pos.eqb]. rewrite !match_skip, !match_end by reflexivity.
    rewrite Rm, Vm, JsCountFacts.round53_small by lia. split; [lia | reflexivity].
  - replace (eqb (80%N :: ty ++ [89%N]) [80%N]) with false
      by (rewrite Ey; reflexivity).
    destruct (enough_fuel (80%N :: ty ++ [89%N])) as [f ->];
      [cbn [List.length]; rewrite length_app; cbn [List.length]; lia|].
    rewrite !match_skip, !match_run by (assumption || reflexivity).
    cbn [N.eqb Pos.eqb]. rewrite !match_skip, !match_end by reflexivity.
    rewrite Ry, Vy, JsCountFacts.round53_small by lia. split; [reflexivity | lia].
  - replace (eqb (80%N :: ty ++ 89%N :: tm ++ [77%N]) [80%N]) with false
      by (rewrite Ey; reflexivity).
    destruct (enough_fuel (80%N :: ty ++ 89%N :: tm ++ [77%N])) as [f ->];
      [cbn [List.length]; rewrite !length_app; cbn [List.length];
       rewrite length_app; cbn [List.length]; lia|].
    rewrite !match_skip, !match_run by (assumption || reflexivity).
    cbn [N.eqb Pos.eqb]. rewrite !match_skip, !match_run by (assumption || reflexivity).
    cbn [N.eqb Pos.eqb]. rewrite Ry, Vy, Rm, Vm, !JsCountFacts.round53_small by lia.
    split; reflexivity.
Qed.

Lemma plain_app a b : plain (a ++ b) = plain a && plain b.
Proof. apply forallb_app. Qed.

Lemma plain_digits ds : forallb is_digit ds = true -> plain ds = true.
Proof.
  unfold plain. rewrite !forallb_forall. intros D c Hc.
  specialize (D c Hc). unfold is_digit in D.
  apply andb_true_iff in D. destruct D as [L U].
  apply N.leb_le in L, U.
  destruct (N.eqb_spec c 60); [lia|]. destruct (N.eqb_spec c 38); [lia|]. reflexivity.
Qed.

Lemma abs_bound z : (0 <= z < 2 ^ 53)%Z -> (Z.abs z < 2 ^ 53)%Z.
Proof. lia. Qed.

Lemma plain_Z_text z : (Z.abs z < 2 ^ 53)%Z -> plain (Z_text z) = true.
Proof.
  intros B. unfold Z_text.
  destruct (Z.ltb_spec (Z.abs z) (2 ^ 53)) as [_|?]; [|lia].
  destruct (z <? 0)%Z; rewrite ?plain_app;
    rewrite (plain_digits _ (digits_of_N_digits _)); reflexivity.
Qed.

Lemma plain_period y m :
  (Z.abs y < 2 ^ 53)%Z -> (Z.abs m < 2 ^ 53)%Z -> plain (period y m) = true.
Proof.
  intros By Bm.
  unfold period. match goal with |- context [if ?b then _ else _] => destruct b end;
    [reflexivity|].
  destruct (y =? 0)%Z, (m =? 0)%Z; rewrite ?plain_app, ?plain_Z_text by assumption;
    reflexivity.
Qed.

(** The "core data" block the encoder writes. *)
Definition core (a : AdministrativeData.t) : Markup.t :=
  Markup.elem "drmd:coreData"
    [ Markup.leaf "drmd:titleOfTheDocument" (escapeXml (AdministrativeData.title a));
      Markup.leaf "drmd:uniqueIdentifier"
                  (escapeXml (AdministrativeData.uniqueIdentifier a));
      Markup.elem "drmd:validity" (renderValidity a) ].

Definition vocabulary : list jsstring :=
  map js [ "drmd:titleOfTheDocument"; "drmd:uniqueIdentifier"; "drmd:validity";
           "drmd:untilRevoked"; "drmd:specificTime"; "drmd:timeAfterDispatch";
           "drmd:dispatchDate"; "drmd:period" ]%string.

Ltac kinds a :=
  unfold core, renderValidity;
  destruct (eqb (AdministrativeData.validityType a) (js "Until Revoked"));
  [|destruct (eqb (AdministrativeData.validityType a) (js "Specific Time"));
    [|destruct (eqb (AdministrativeData.validityType a) (js "Time After Dispatch"))]].

Lemma core_entity a : entity (js "drmd:coreData") vocabulary (core a).
Proof. split; [reflexivity|]. kinds a; lazy; reflexivity. Qed.

Definition kept (a : AdministrativeData.t) (v : Validity) : Prop :=
  (AdministrativeData.validityType a = js "Until Revoked" ->
   validityType v = js "Until Revoked")
  /\ (AdministrativeData.validityType a = js "Specific Time" ->
      validityType v = js "Specific Time"
      /\ specificTime v = AdministrativeData.specificTime a)
  /\ (AdministrativeData.validityType a = js "Time After Dispatch" ->
      (0 <= AdministrativeData.durationY a < 2 ^ 53)%Z ->
      (0 <= AdministrativeData.durationM a < 2 ^ 53)%Z ->
      validityType v = js "Time After Dispatch"
      /\ dateOfIssue v = AdministrativeData.dateOfIssue a
      /\ durationY v = AdministrativeData.durationY a
      /\ durationM v = AdministrativeData.durationM a).

Ltac kind H :=
  unfold parseValidity, core, renderValidity; rewrite H;
  literals; cbn [eqb N.eqb Pos.eqb andb];
  nav; rewrite !getElementsByTagName_written; cbn [content];
  unfold Markup.elem, Markup.leaf; search;
  cbn [map XmlParser.non_empty validityType specificTime dateOfIssue
       durationY durationM].

Lemma parseValidity_round a v0 : kept a (parseValidity (decoded (core a)) v0).
Proof.
  split; [|split].
  - intros H. kind H. reflexivity.
  - intros H. kind H. nav. split; reflexivity.
  - intros H Hy Hm. kind H. nav.
    rewrite (textContent_plain _ _ (plain_period _ _ (abs_bound _ Hy) (abs_bound _ Hm))).
    destruct (period_read _ _ Hy Hm) as [-> ->]. repeat split; reflexivity.
Qed.

End ValidityCodec.

(** ** Round trip of the official statements *)

Module StatementsCodec.

Import Js JsFacts DOMParser DOMParserFacts Search EscapeFacts.
Import Inventory Written XmlParser XmlGenerator GenFacts.

Definition vocabulary : list jsstring :=
  map js [ "dcc:name"; "dcc:content"; "drmd:intendedUse"; "drmd:storageInformation";
           "drmd:instructionsForHandlingAndUse"; "drmd:metrologicalTraceability";
           "drmd:subcontractors"; "drmd:referenceToCertificationReport";
           "drmd:healthAndSafetyInformation"; "drmd:legalNotice" ]%string.

Lemma addStatement_only vocab tag name text :
  forallb (among vocab)
          [js (String.append "drmd:" tag); js "dcc:name"; js "dcc:content"] = true ->
  only vocab (addStatement tag name text) = true.
Proof.
  intros V. unfold addStatement. destruct (negb (truthy text)); [reflexivity|].
  unfold Markup.elem, Markup.leaf. peel.
  cbn [forallb] in V. rewrite !andb_true_iff in V. destruct V as (-> & -> & -> & _).
  reflexivity.
Qed.

Lemma statements_entity st : entity (js "drmd:statements") vocabulary (statementsXml st).
Proof.
  split; [reflexivity|]. unfold statementsXml. cbn [content Markup.elem].
  rewrite !only_app, !addStatement_only by reflexivity. reflexivity.
Qed.

(** The elements named [wanted] among those of one statement. *)
Lemma addStatement_tagged wanted tag name text :
  eqb (js "dcc:name") wanted = false -> eqb (js "dcc:content") wanted = false ->
  tagged wanted (addStatement tag name text)
  = if eqb (js (String.append "drmd:" tag)) wanted
    then addStatement tag name text else [].
Proof.
  intros N C. unfold addStatement. destruct (negb (truthy text));
    [rewrite tagged_nil; now destruct (eqb (js (String.append "drmd:" tag)) wanted)|].
  unfold Markup.elem, Markup.leaf.
  rewrite tagged_element, tagged_element, tagged_leaf, tagged_leaf, !tagged_nil, N, C.
  cbn [app]. now rewrite app_nil_r.
Qed.

(** [getSt] on the statements the encoder wrote. *)
Lemma statement_read tag name text :
  match hd_error (addStatement tag name text) with
  | Some el =>
    match find (fun n => Dom.isElement n && eqb (Dom.tagName n) (js "dcc:content"))
               (Dom.childNodes (decoded el)) with
    | Some n => Dom.textContent n
    | None => []
    end
  | None => []
  end = text.
Proof.
  unfold addStatement. destruct (truthy text) eqn:T; cbn [negb hd_error].
  - unfold Markup.elem, Markup.leaf.
    cbn [decoded map Dom.childNodes find Dom.isElement Dom.tagName andb].
    literals. cbn [eqb N.eqb Pos.eqb andb].
    change (Dom.Element ?t [] (texts (text_of (escapeXml text))))
      with (decoded (Markup.Leaf t (escapeXml text))).
    apply textContent_escaped.
  - symmetry. now apply not_truthy.
Qed.

Ltac statement :=
  unfold getSt; rewrite first_decoded; cbn [option_map];
  unfold first_written, statementsXml; cbn [content Markup.elem];
  rewrite !tagged_app, !addStatement_tagged by reflexivity;
  cbn [String.append]; literals; cbn [eqb N.eqb Pos.eqb andb app];
  rewrite ?app_nil_r;
  match goal with
  | |- context [hd_error (addStatement ?t ?n ?c)] =>
    generalize (statement_read t n c);
    destruct (hd_error (addStatement t n c)); cbn [option_map]; trivial
  end.

Lemma parseStatements_round st s0 :
  let st' := parseStatements (decoded (statementsXml st)) s0 in
  OfficialStatements.intendedUse st' = OfficialStatements.intendedUse st
  /\ OfficialStatements.storageInformation st'
     = OfficialStatements.storageInformation st
  /\ OfficialStatements.handlingInstructions st'
     = OfficialStatements.handlingInstructions st
  /\ OfficialStatements.metrologicalTraceability st'
     = OfficialStatements.metrologicalTraceability st
  /\ OfficialStatements.healthAndSafety st' = OfficialStatements.healthAndSafety st
  /\ OfficialStatements.subcontractors st' = OfficialStatements.subcontractors st
  /\ OfficialStatements.legalNotice st' = OfficialStatements.legalNotice st
  /\ OfficialStatements.referenceToCertificationReport st'
     = OfficialStatements.referenceToCertificationReport st.
Proof.
  cbv zeta. unfold parseStatements.
  cbn [OfficialStatements.intendedUse OfficialStatements.storageInformation
       OfficialStatements.handlingInstructions
       OfficialStatements.metrologicalTraceability
       OfficialStatements.healthAndSafety OfficialStatements.subcontractors
       OfficialStatements.legalNotice
       OfficialStatements.referenceToCertificationReport].
  repeat split; statement.
Qed.

End StatementsCodec.

(** ** Round trip of the administrative data *)

Module AdminCodec.

Import Js JsFacts DOMParser DOMParserFacts Search EscapeFacts.
Import Inventory Written XmlParser XmlGenerator GenFacts.

Definition vocabulary : list jsstring :=
  js "drmd:coreData" :: ValidityCodec.vocabulary
  ++ js "drmd:referenceMaterialProducer" :: ProducerCodec.vocabulary
  ++ js "drmd:respPersons" :: js "dcc:respPerson" :: PersonCodec.vocabulary.

Lemma content_admin a :
  content (adminXml a)
  = [ValidityCodec.core a]
    ++ map producerXml (AdministrativeData.producers a)
    ++ opt (XmlParser.non_empty (AdministrativeData.responsiblePersons a))
           (Markup.Element (js "drmd:respPersons") []
              (map personXml (AdministrativeData.responsiblePersons a))).
Proof. reflexivity. Qed.

Lemma entity_only tag vocab vocab' m :
  forallb (among vocab') (tag :: vocab) = true ->
  entity tag vocab m -> only vocab' [m] = true.
Proof.
  intros S E. apply (only_mono _ _ _ S). apply entities_only. now constructor.
Qed.

Lemma entities_only' {A} (f : A -> Markup.t) tag vocab vocab' l :
  forallb (among vocab') (tag :: vocab) = true ->
  (forall a, entity tag vocab (f a)) -> only vocab' (map f l) = true.
Proof.
  intros S E. apply (only_mono _ _ _ S). apply entities_only. now apply entities_map.
Qed.

Lemma admin_entity a : entity (js "drmd:administrativeData") vocabulary (adminXml a).
Proof.
  split; [reflexivity|]. rewrite content_admin, !only_app.
  rewrite (entity_only (js "drmd:coreData") ValidityCodec.vocabulary)
    by (reflexivity || apply ValidityCodec.core_entity).
  rewrite (entities_only' producerXml (js "drmd:referenceMaterialProducer")
                          ProducerCodec.vocabulary)
    by (reflexivity || apply ProducerCodec.producer_entity).
  destruct (XmlParser.non_empty (AdministrativeData.responsiblePersons a));
    cbn [opt]; peel;
    rewrite ?(entities_only' personXml (js "dcc:respPerson") PersonCodec.vocabulary)
      by (reflexivity || apply PersonCodec.person_entity);
    reflexivity.
Qed.

Lemma core_written a :
  first_written (adminXml a) (js "drmd:coreData") = Some (ValidityCodec.core a).
Proof. reflexivity. Qed.

Lemma producers_written a :
  tagged (js "drmd:referenceMaterialProducer") (content (adminXml a))
  = map producerXml (AdministrativeData.producers a).
Proof.
  rewrite content_admin, !tagged_app.
  rewrite (only_none (js "drmd:coreData" :: ValidityCodec.vocabulary)
                     _ [ValidityCodec.core a])
    by (reflexivity
        || (apply entities_only; repeat constructor; apply ValidityCodec.core_entity)).
  rewrite (entities_all _ ProducerCodec.vocabulary)
    by (reflexivity || (apply entities_map; exact ProducerCodec.producer_entity)).
  destruct (XmlParser.non_empty (AdministrativeData.responsiblePersons a));
    cbn [opt]; search;
    rewrite ?(only_none (js "dcc:respPerson" :: PersonCodec.vocabulary))
      by (reflexivity || (apply entities_only, entities_map; exact PersonCodec.person_entity));
    rewrite ?app_nil_r; reflexivity.
Qed.

Lemma persons_written a :
  tagged (js "dcc:respPerson") (content (adminXml a))
  = map personXml (AdministrativeData.responsiblePersons a).
Proof.
  rewrite content_admin, !tagged_app.
  rewrite (only_none (js "drmd:coreData" :: ValidityCodec.vocabulary)
                     _ [ValidityCodec.core a])
    by (reflexivity
        || (apply entities_only; repeat constructor; apply ValidityCodec.core_entity)).
  rewrite (only_none (js "drmd:referenceMaterialProducer" :: ProducerCodec.vocabulary))
    by (reflexivity || (apply entities_only, entities_map; exact ProducerCodec.producer_entity)).
  destruct (AdministrativeData.responsiblePersons a) as [|p ps] eqn:P;
    [reflexivity|]. rewrite <- P.
  replace (XmlParser.non_empty (AdministrativeData.responsiblePersons a)) with true
    by now rewrite P.
  cbn [opt]; search.
  rewrite (entities_all _ PersonCodec.vocabulary)
    by (reflexivity || (apply entities_map; exact PersonCodec.person_entity)).
  rewrite ?app_nil_r; reflexivity.
Qed.

(** A list that was written: its members when it has any, the decoder's
    defaults when it has none. *)
Definition list_kept {A} (R : A -> A -> Prop) (initial l l' : list A) : Prop :=
  match l with
  | [] => l' = initial
  | _ :: _ => Forall2 R l l'
  end.

Lemma map_or_round {A} (f : Dom.node -> Gen.t A) (g : A -> Markup.t)
      (R : A -> A -> Prop) initial l n :
  (forall a k, R a (fst (f (decoded (g a)) k))) ->
  list_kept R initial l (fst (map_or f (map decoded (map g l)) initial n)).
Proof.
  intros H. unfold map_or. destruct l as [|a l]; [reflexivity|].
  cbn [map XmlParser.non_empty list_kept].
  exact (mapM_round f g R H (a :: l) n).
Qed.

Lemma title_read a :
  getNestedContent (decoded (ValidityCodec.core a)) ["drmd:titleOfTheDocument"%string]
  = AdministrativeData.title a.
Proof. unfold ValidityCodec.core. nav. reflexivity. Qed.

Lemma uniqueIdentifier_read a :
  getNestedContent (decoded (ValidityCodec.core a)) ["drmd:uniqueIdentifier"%string]
  = AdministrativeData.uniqueIdentifier a.
Proof. unfold ValidityCodec.core. nav. reflexivity. Qed.

End AdminCodec.

(** ** Round trip of a document *)

Module DocumentCodec.

Import Js JsFacts DOMParser DOMParserFacts Search EscapeFacts.
Import Inventory Written XmlParser XmlGenerator GenFacts AdminCodec.

Definition extra_vocabulary : list jsstring := [js "drmd:comment"; js "drmd:document"].

Lemma extra_only d : only extra_vocabulary (extraXml d) = true.
Proof.
  unfold extraXml. destruct (truthy (DRMD.generalComment d));
    destruct (DRMD.binaryDocument d) as [b|];
    [destruct (truthy (BinaryDocument.data b))| |
     destruct (truthy (BinaryDocument.data b))|]; reflexivity.
Qed.

Definition vocabulary : list jsstring :=
  js "drmd:digitalReferenceMaterialDocument"
  :: js "drmd:administrativeData" :: AdminCodec.vocabulary
  ++ js "drmd:materials" :: js "drmd:material" :: MaterialCodec.vocabulary
  ++ js "drmd:materialPropertiesList" :: js "drmd:materialProperties"
     :: PropertyCodec.vocabulary
  ++ js "drmd:statements" :: StatementsCodec.vocabulary
  ++ extra_vocabulary.

Lemma content_document d :
  content (generateDrmdXml d)
  = [adminXml (DRMD.administrativeData d)]
    ++ [Markup.Element (js "drmd:materials") [] (map materialXml (DRMD.materials d))]
    ++ [Markup.Element (js "drmd:materialPropertiesList") []
          (map propertyXml (DRMD.properties d))]
    ++ [statementsXml (Statements.official (DRMD.statements d))]
    ++ extraXml d.
Proof. reflexivity. Qed.

Lemma admin_only vocab a :
  forallb (among vocab) (js "drmd:administrativeData" :: AdminCodec.vocabulary) = true ->
  only vocab [adminXml a] = true.
Proof. intros S. exact (entity_only _ _ _ _ S (AdminCodec.admin_entity a)). Qed.

Lemma materials_only vocab ms :
  forallb (among vocab) (js "drmd:material" :: MaterialCodec.vocabulary) = true ->
  only vocab (map materialXml ms) = true.
Proof. intros S. exact (entities_only' _ _ _ _ _ S MaterialCodec.material_entity). Qed.

Lemma properties_only vocab ps :
  forallb (among vocab) (js "drmd:materialProperties" :: PropertyCodec.vocabulary) = true ->
  only vocab (map propertyXml ps) = true.
Proof. intros S. exact (entities_only' _ _ _ _ _ S PropertyCodec.property_entity). Qed.

Lemma statements_only vocab st :
  forallb (among vocab) (js "drmd:statements" :: StatementsCodec.vocabulary) = true ->
  only vocab [statementsXml st] = true.
Proof. intros S. exact (entity_only _ _ _ _ S (StatementsCodec.statements_entity st)). Qed.

Lemma extra_only' vocab d :
  forallb (among vocab) extra_vocabulary = true -> only vocab (extraXml d) = true.
Proof. intros S. exact (only_mono _ _ _ S (extra_only d)). Qed.

(** The tag names of a generated document. *)
Lemma document_tags d : only vocabulary [generateDrmdXml d] = true.
Proof.
  rewrite only_cons. change (Search.tagName (generateDrmdXml d))
    with (js "drmd:digitalReferenceMaterialDocument").
  rewrite content_document, !only_app. peel.
  rewrite admin_only, materials_only, properties_only, statements_only, extra_only'
    by reflexivity.
  reflexivity.
Qed.

(** The generated text, as the document node the reader returns. *)
Definition page (d : DRMD.t) : Markup.t :=
  Markup.Element (js "#document") [] [generateDrmdXml d].

Lemma parseFromString_page d :
  verbatim [] (generateDrmdXml d) = true ->
  parseFromString (generateDrmdXml d) = Some (decoded (page d)).
Proof. intros V. now rewrite (parseFromString_verbatim _ V). Qed.

Lemma no_parsererror d :
  Dom.querySelector (decoded (page d)) (js "parsererror") = None.
Proof.
  change (decoded (page d)) with (Dom.document (map decoded [generateDrmdXml d])).
  rewrite querySelector_decoded.
  now rewrite (only_no_local vocabulary (js "parsererror") _ eq_refl (document_tags d)).
Qed.

(** What the searches of the decoder find in a generated document. *)
Lemma none_admin tag a :
  among (js "drmd:administrativeData" :: AdminCodec.vocabulary) tag = false ->
  tagged tag [adminXml a] = [].
Proof. intros N. apply (only_none _ _ _ N). now apply admin_only. Qed.

Lemma none_materials tag ms :
  among (js "drmd:materials" :: js "drmd:material" :: MaterialCodec.vocabulary) tag
  = false ->
  tagged tag [Markup.Element (js "drmd:materials") [] (map materialXml ms)] = [].
Proof.
  intros N. apply (only_none _ _ _ N). peel. now rewrite materials_only.
Qed.

Lemma none_properties tag ps :
  among (js "drmd:materialPropertiesList" :: js "drmd:materialProperties"
         :: PropertyCodec.vocabulary) tag = false ->
  tagged tag [Markup.Element (js "drmd:materialPropertiesList") []
                (map propertyXml ps)] = [].
Proof.
  intros N. apply (only_none _ _ _ N). peel. now rewrite properties_only.
Qed.

Lemma none_statements tag st :
  among (js "drmd:statements" :: StatementsCodec.vocabulary) tag = false ->
  tagged tag [statementsXml st] = [].
Proof. intros N. apply (only_none _ _ _ N). now apply statements_only. Qed.

Lemma none_extra tag d : among extra_vocabulary tag = false -> tagged tag (extraXml d) = [].
Proof. intros N. apply (only_none _ _ _ N). apply extra_only. Qed.

Ltac below_root d :=
  unfold first_written; cbn [content page];
  rewrite tagged_cons;
  change (Search.tagName (generateDrmdXml d))
    with (js "drmd:digitalReferenceMaterialDocument");
  rewrite content_document, !tagged_app, tagged_nil;
  rewrite ?none_admin, ?none_materials, ?none_properties, ?none_statements,
    ?none_extra by reflexivity;
  literals; cbn [eqb N.eqb Pos.eqb andb app].

Lemma admin_written d :
  first_written (page d) (js "drmd:administrativeData")
  = Some (adminXml (DRMD.administrativeData d)).
Proof. reflexivity. Qed.

Lemma materials_written d :
  tagged (js "drmd:material") (content (page d)) = map materialXml (DRMD.materials d).
Proof.
  below_root d. search.
  rewrite (entities_all _ MaterialCodec.vocabulary)
    by (reflexivity || (apply entities_map; exact MaterialCodec.material_entity)).
  now rewrite ?app_nil_r.
Qed.

Lemma properties_written d :
  tagged (js "drmd:materialProperties") (content (page d))
  = map propertyXml (DRMD.properties d).
Proof.
  below_root d. search.
  rewrite (entities_all _ PropertyCodec.vocabulary)
    by (reflexivity || (apply entities_map; exact PropertyCodec.property_entity)).
  now rewrite ?app_nil_r.
Qed.

Lemma statements_written d :
  first_written (page d) (js "drmd:statements")
  = Some (statementsXml (Statements.official (DRMD.statements d))).
Proof.
  below_root d.
  rewrite tagged_cons.
  change (Search.tagName (statementsXml ?st)) with (js "drmd:statements").
  rewrite eqb_refl. reflexivity.
Qed.

Lemma comment_read d :
  getTagContent (decoded (page d)) "drmd:comment" = DRMD.generalComment d.
Proof.
  unfold getTagContent. rewrite first_decoded.
  below_root d. unfold extraXml. rewrite tagged_app.
  assert (B : tagged (js "drmd:comment")
                match DRMD.binaryDocument d with
                | Some b =>
                  opt (truthy (BinaryDocument.data b))
                      (Markup.leaf "drmd:document" (BinaryDocument.data b))
                | None => []
                end = []).
  { destruct (DRMD.binaryDocument d) as [b|]; [|reflexivity].
    destruct (truthy (BinaryDocument.data b)); reflexivity. }
  revert B. literals. intros ->.
  destruct (truthy (DRMD.generalComment d)) eqn:C; cbn [opt].
  - unfold Markup.leaf. search. cbn [hd_error option_map].
    apply textContent_escaped.
  - rewrite tagged_nil. cbn [app hd_error option_map]. symmetry. now apply not_truthy.
Qed.

Definition validity_of (a : AdministrativeData.t) : Validity :=
  {| validityType := AdministrativeData.validityType a;
     specificTime := AdministrativeData.specificTime a;
     dateOfIssue := AdministrativeData.dateOfIssue a;
     durationY := AdministrativeData.durationY a;
     durationM := AdministrativeData.durationM a |}.

Definition statements_kept (st st' : OfficialStatements.t) : Prop :=
  OfficialStatements.intendedUse st' = OfficialStatements.intendedUse st
  /\ OfficialStatements.storageInformation st'
     = OfficialStatements.storageInformation st
  /\ OfficialStatements.handlingInstructions st'
     = OfficialStatements.handlingInstructions st
  /\ OfficialStatements.metrologicalTraceability st'
     = OfficialStatements.metrologicalTraceability st
  /\ OfficialStatements.healthAndSafety st' = OfficialStatements.healthAndSafety st
  /\ OfficialStatements.subcontractors st' = OfficialStatements.subcontractors st
  /\ OfficialStatements.legalNotice st' = OfficialStatements.legalNotice st
  /\ OfficialStatements.referenceToCertificationReport st'
     = OfficialStatements.referenceToCertificationReport st.

(** What a document keeps of another one: the title, the identifier,
    the validity of the selected kind, the members of the non-empty
    lists, the eight official statements and the general comment. *)
Definition kept (today : jsstring) (d d' : DRMD.t) : Prop :=
  let a := DRMD.administrativeData d in
  let a' := DRMD.administrativeData d' in
  let initial := Types.INITIAL_DRMD today in
  AdministrativeData.title a' = AdministrativeData.title a
  /\ AdministrativeData.uniqueIdentifier a' = AdministrativeData.uniqueIdentifier a
  /\ ValidityCodec.kept a (validity_of a')
  /\ list_kept ProducerCodec.kept
       (AdministrativeData.producers (DRMD.administrativeData initial))
       (AdministrativeData.producers a) (AdministrativeData.producers a')
  /\ list_kept PersonCodec.kept
       (AdministrativeData.responsiblePersons (DRMD.administrativeData initial))
       (AdministrativeData.responsiblePersons a)
       (AdministrativeData.responsiblePersons a')
  /\ list_kept MaterialCodec.kept (DRMD.materials initial)
       (DRMD.materials d) (DRMD.materials d')
  /\ list_kept PropertyCodec.kept (DRMD.properties initial)
       (DRMD.properties d) (DRMD.properties d')
  /\ statements_kept (Statements.official (DRMD.statements d))
                     (Statements.official (DRMD.statements d'))
  /\ DRMD.generalComment d' = DRMD.generalComment d.

Lemma decode_round today d n :
  kept today d (fst (XmlParser.decode today (decoded (page d)) n)).
Proof.
  unfold XmlParser.decode. cbv zeta.
  rewrite !first_decoded, admin_written, statements_written. cbn [option_map].
  rewrite !first_decoded, core_written. cbn [option_map].
  rewrite !getElementsByTagName_written, producers_written, persons_written,
    materials_written, properties_written.
  rewrite !bind_run. cbn [Gen.ret fst].
  unfold kept. cbv zeta.
  cbn [DRMD.administrativeData DRMD.materials DRMD.properties DRMD.statements
       DRMD.generalComment Statements.official AdministrativeData.title
       AdministrativeData.uniqueIdentifier AdministrativeData.producers
       AdministrativeData.responsiblePersons].
  split; [apply title_read|].
  split; [apply uniqueIdentifier_read|].
  split; [exact (ValidityCodec.parseValidity_round _ _)|].
  split; [apply map_or_round; exact ProducerCodec.parseProducer_round|].
  split; [apply map_or_round; exact PersonCodec.parsePerson_round|].
  split; [apply map_or_round; exact MaterialCodec.parseMaterial_round|].
  split; [apply map_or_round; exact PropertyCodec.parseProperty_round|].
  split; [exact (StatementsCodec.parseStatements_round _ _)|].
  apply comment_read.
Qed.

End DocumentCodec.

(** ** Encoding then decoding *)

Module RoundTripFacts.

Import Js XmlParser XmlGenerator GenFacts AdminCodec DocumentCodec.

(** [parseDrmdXml(generateDrmdXml(data))], where the model of the XML
    reader follows the text written. *)
Definition roundTrip (today : jsstring) (data : DRMD.t)
  : Gen.t (option (Outcome DRMD.t)) :=
  match DOMParser.parseFromString (generateDrmdXml data) with
  | Some doc => outcome <- parseDrmdXml today doc ;; Gen.ret (Some outcome)
  | None => Gen.ret None
  end.

Lemma roundTrip_verbatim today d seed :
  DOMParserFacts.verbatim [] (generateDrmdXml d) = true ->
  Gen.eval (roundTrip today d) seed
  = Some (Returned (fst (XmlParser.decode today (DOMParserFacts.decoded (page d)) seed))).
Proof.
  intros V. unfold roundTrip, parseDrmdXml.
  rewrite (parseFromString_page d V), no_parsererror.
  rewrite eval_bind. unfold Gen.eval, Gen.ret. cbn [fst]. now rewrite bind_run.
Qed.

(** *** The rule as stated: every scalar member is reproduced *)

Definition same_producer (p p' : Producer.t) : Prop :=
  Producer.name p' = Producer.name p
  /\ Producer.email p' = Producer.email p
  /\ Producer.phone p' = Producer.phone p
  /\ Producer.fax p' = Producer.fax p
  /\ Producer.address p' = Producer.address p.

Definition same_person (p p' : ResponsiblePerson.t) : Prop :=
  ResponsiblePerson.name p' = ResponsiblePerson.name p
  /\ ResponsiblePerson.role p' = ResponsiblePerson.role p
  /\ ResponsiblePerson.description p' = ResponsiblePerson.description p
  /\ ResponsiblePerson.mainSigner p' = ResponsiblePerson.mainSigner p
  /\ ResponsiblePerson.cryptElectronicSeal p' = ResponsiblePerson.cryptElectronicSeal p
  /\ ResponsiblePerson.cryptElectronicSignature p'
     = ResponsiblePerson.cryptElectronicSignature p
  /\ ResponsiblePerson.cryptElectronicTimeStamp p'
     = ResponsiblePerson.cryptElectronicTimeStamp p.

Definition same_admin (a a' : AdministrativeData.t) : Prop :=
  AdministrativeData.title a' = AdministrativeData.title a
  /\ AdministrativeData.uniqueIdentifier a' = AdministrativeData.uniqueIdentifier a
  /\ AdministrativeData.dataVersion a' = AdministrativeData.dataVersion a
  /\ AdministrativeData.validityType a' = AdministrativeData.validityType a
  /\ AdministrativeData.durationY a' = AdministrativeData.durationY a
  /\ AdministrativeData.durationM a' = AdministrativeData.durationM a
  /\ AdministrativeData.dateOfIssue a' = AdministrativeData.dateOfIssue a
  /\ AdministrativeData.specificTime a' = AdministrativeData.specificTime a
  /\ Forall2 same_producer (AdministrativeData.producers a)
             (AdministrativeData.producers a')
  /\ Forall2 same_person (AdministrativeData.responsiblePersons a)
             (AdministrativeData.responsiblePersons a').

Definition same_material (m m' : Material.t) : Prop :=
  Material.name m' = Material.name m
  /\ Material.materialClass m' = Material.materialClass m
  /\ Material.description m' = Material.description m
  /\ Material.itemQuantities m' = Material.itemQuantities m
  /\ Material.minimumSampleSize m' = Material.minimumSampleSize m
  /\ Material.isCertified m' = Material.isCertified m.

Definition same_quantity (q q' : Quantity.t) : Prop :=
  Quantity.name q' = Quantity.name q
  /\ Quantity.label q' = Quantity.label q
  /\ Quantity.value q' = Quantity.value q
  /\ Quantity.dsiValue q' = Quantity.dsiValue q
  /\ Quantity.dsiUnit q' = Quantity.dsiUnit q
  /\ Quantity.quantityKind q' = Quantity.quantityKind q
  /\ Quantity.unit q' = Quantity.unit q
  /\ Quantity.uncertainty q' = Quantity.uncertainty q
  /\ Quantity.coverageFactor q' = Quantity.coverageFactor q
  /\ Quantity.coverageProbability q' = Quantity.coverageProbability q
  /\ Quantity.distribution q' = Quantity.distribution q.

Definition same_result (r r' : MeasurementResult.t) : Prop :=
  MeasurementResult.name r' = MeasurementResult.name r
  /\ MeasurementResult.description r' = MeasurementResult.description r
  /\ Forall2 same_quantity (MeasurementResult.quantities r)
             (MeasurementResult.quantities r').

Definition same_property (p p' : MaterialProperty.t) : Prop :=
  MaterialProperty.name p' = MaterialProperty.name p
  /\ MaterialProperty.isCertified p' = MaterialProperty.isCertified p
  /\ MaterialProperty.description p' = MaterialProperty.description p
  /\ MaterialProperty.procedures p' = MaterialProperty.procedures p
  /\ Forall2 same_result (MaterialProperty.results p) (MaterialProperty.results p').

Definition same_official (s s' : OfficialStatements.t) : Prop :=
  statements_kept s s'
  /\ OfficialStatements.commutability s' = OfficialStatements.commutability s.

Definition same_custom (c c' : CustomStatement.t) : Prop :=
  CustomStatement.name c' = CustomStatement.name c
  /\ CustomStatement.content c' = CustomStatement.content c.

Definition same_comment (c c' : Comment.t) : Prop :=
  Comment.author c' = Comment.author c
  /\ Comment.date c' = Comment.date c
  /\ Comment.content c' = Comment.content c.

Definition same_document (c c' : AdditionalDocument.t) : Prop :=
  AdditionalDocument.title c' = AdditionalDocument.title c
  /\ AdditionalDocument.type c' = AdditionalDocument.type c
  /\ AdditionalDocument.content c' = AdditionalDocument.content c.

(** Every scalar member of [d'] is the one of [d]; the generated
    identifiers, the lists of identifiers and the coordinates are not
    compared. *)
Definition same_scalars (d d' : DRMD.t) : Prop :=
  same_admin (DRMD.administrativeData d) (DRMD.administrativeData d')
  /\ Forall2 same_material (DRMD.materials d) (DRMD.materials d')
  /\ Forall2 same_property (DRMD.properties d) (DRMD.properties d')
  /\ same_official (Statements.official (DRMD.statements d))
                   (Statements.official (DRMD.statements d'))
  /\ Forall2 same_custom (Statements.custom (DRMD.statements d))
             (Statements.custom (DRMD.statements d'))
  /\ Forall2 same_comment (DRMD.comments d) (DRMD.comments d')
  /\ Forall2 same_document (DRMD.documents d) (DRMD.documents d')
  /\ DRMD.generalComment d' = DRMD.generalComment d
  /\ DRMD.binaryDocument d' = DRMD.binaryDocument d.

Definition reproduces_scalars : Prop :=
  forall today d seed,
    exists d',
      Gen.eval (roundTrip today d) seed = Some (Returned d') /\ same_scalars d d'.

(** A document with one certified value, 4.2 mg/kg of lead, as the
    application holds it after the unit conversion. *)
Definition leadContent : Quantity.t :=
  {| Quantity.uuid := js "q-1";
     Quantity.name := js "Lead";
     Quantity.label := Some [];
     Quantity.value := js "4.2";
     Quantity.dsiValue := js "4.2";
     Quantity.dsiUnit := js "\milli\gram\kilogram\tothe{-1}";
     Quantity.quantityKind := Some [];
     Quantity.unit := js "mg/kg";
     Quantity.uncertainty := js "0.3";
     Quantity.coverageFactor := js "2.0";
     Quantity.coverageProbability := js "0.95";
     Quantity.distribution := js "normal";
     Quantity.identifiers := [];
     Quantity.fieldCoordinates := None;
     Quantity.sectionCoordinates := None |}.

Definition leadDocument : DRMD.t :=
  let initial := Types.INITIAL_DRMD (js "2026-01-01") in
  {| DRMD.administrativeData := DRMD.administrativeData initial;
     DRMD.materials := DRMD.materials initial;
     DRMD.properties :=
       [ {| MaterialProperty.uuid := js "p-1";
            MaterialProperty.id := [];
            MaterialProperty.name := js "Certified values";
            MaterialProperty.isCertified := Some true;
            MaterialProperty.description := [];
            MaterialProperty.procedures := js "ICP-MS";
            MaterialProperty.results :=
              [ {| MeasurementResult.uuid := js "r-1";
                   MeasurementResult.name := js "Mass fractions";
                   MeasurementResult.description := [];
                   MeasurementResult.quantities := [leadContent];
                   MeasurementResult.fieldCoordinates := None;
                   MeasurementResult.sectionCoordinates := None |} ] |} ];
     DRMD.statements := DRMD.statements initial;
     DRMD.comments := [];
     DRMD.documents := [];
     DRMD.generalComment := js "Store below 25 degrees";
     DRMD.binaryDocument := None |}.

(** The unit of the first quantity of a document. *)
Definition first_unit (d : DRMD.t) : option jsstring :=
  match DRMD.properties d with
  | p :: _ =>
    match MaterialProperty.results p with
    | r :: _ =>
      match MeasurementResult.quantities r with
      | q :: _ => Some (Quantity.unit q)
      | [] => None
      end
    | [] => None
    end
  | [] => None
  end.

Lemma same_first_unit d d' : same_scalars d d' -> first_unit d' = first_unit d.
Proof.
  intros (_ & _ & P & _). unfold first_unit.
  destruct P as [|p p' ps ps' (_ & _ & _ & _ & R) _]; [reflexivity|].
  destruct R as [|r r' rs rs' (_ & _ & Q) _]; [reflexivity|].
  destruct Q as [|q q' qs qs' (_ & _ & _ & _ & _ & _ & U & _) _]; [reflexivity|].
  now rewrite U.
Qed.

(** C1, as stated, fails: the document with 4.2 mg/kg of lead comes back
    with the unit of that value replaced by its D-SI expression. *)
Lemma scalars_not_reproduced : ~ reproduces_scalars.
Proof.
  intros H. destruct (H (js "2026-01-01") leadDocument 0%nat) as (d' & E & S).
  assert (F : match Gen.eval (roundTrip (js "2026-01-01") leadDocument) 0 with
              | Some (Returned x) => first_unit x
              | _ => None
              end = Some (js "\milli\gram\kilogram\tothe{-1}"))
    by (vm_compute; reflexivity).
  rewrite E, (same_first_unit _ _ S) in F.
  vm_compute in F. discriminate F.
Qed.

(** C1, amended.  When every text the encoder writes is one that XML
    carries unchanged (XML characters without the carriage return, no
    markup in what is written unescaped), decoding the encoder's output
    returns a document that keeps: the title and the unique identifier;
    the validity type when it is "Until Revoked", with the date for
    "Specific Time", and with the dispatch date and the year and month
    counts from 0 to below [2^53] for "Time After Dispatch"; of each
    non-empty list its members in order (an empty list comes back as the
    decoder's default) with, for a producer, name, e-mail, phone, fax
    (empty when absent) and address; for a responsible person, name,
    role, description and main-signer flag; for a material, name and
    description; for a property, name, procedures, certified flag
    (false when absent), the description when it is not empty, and of
    each result the name ("Values" when empty), the description and of
    each quantity the name, the value and the uncertainty, with the
    coverage factor and probability when the uncertainty is not empty,
    while the unit and the D-SI unit both become the unit that was
    written (the D-SI unit, or the unit when there is none) and the D-SI
    value becomes the value; the eight official statements that are
    written; and the general comment. *)
Theorem round_trip_keeps today d seed :
  DOMParserFacts.verbatim [] (generateDrmdXml d) = true ->
  exists d',
    Gen.eval (roundTrip today d) seed = Some (Returned d') /\ kept today d d'.
Proof.
  intros V. rewrite (roundTrip_verbatim today d seed V).
  eexists. split; [reflexivity|]. apply decode_round.
Qed.

Lemma round_trip_keeps_witness :
  DOMParserFacts.verbatim [] (generateDrmdXml leadDocument) = true
  /\ exists d',
       Gen.eval (roundTrip (js "2026-01-01") leadDocument) 0 = Some (Returned d')
       /\ kept (js "2026-01-01") leadDocument d'.
Proof.
  split; [vm_compute; reflexivity|].
  apply (round_trip_keeps (js "2026-01-01") leadDocument 0). vm_compute. reflexivity.
Defined.

End RoundTripFacts.

(* ================================================================== *)
(** * Further properties of the code *)
(* ================================================================== *)

(** ** [escapeXml] *)

Module EscapeXmlFacts.

Import Js JsFacts DOMParser DOMParserFacts EscapeFacts XmlGenerator.

(** [<], [>], apostrophe and quotation mark. *)
Definition is_delimiter (c : N) : bool :=
  ((c =? 60) || (c =? 62) || (c =? 39) || (c =? 34))%N.

(** One of the five characters [escapeXml] replaces. *)
Definition is_special (c : N) : bool := (is_delimiter c || (c =? 38))%N.

Ltac by_character c :=
  unfold is_special, is_delimiter;
  destruct (N.eqb_spec c 60) as [->|?];
    [|destruct (N.eqb_spec c 62) as [->|?];
      [|destruct (N.eqb_spec c 38) as [->|?];
        [|destruct (N.eqb_spec c 39) as [->|?];
          [|destruct (N.eqb_spec c 34) as [->|?]]]]].

(** X3.  The text [escapeXml] returns holds no [<], [>], apostrophe or
    quotation mark, whatever the text given. *)
Theorem escapeXml_no_delimiter s :
  forallb (fun c => negb (is_delimiter c)) (escapeXml s) = true.
Proof.
  induction s as [|c s IH]; [reflexivity|].
  rewrite escapeXml_cons, forallb_app, IH, andb_true_r.
  by_character c; try reflexivity.
  cbn [forallb]. unfold is_delimiter.
  repeat match goal with
         | H : c <> _ |- _ => apply N.eqb_neq in H; rewrite H; clear H
         end.
  reflexivity.
Qed.

(** X4.  An element written with escaped text, under a name the reader
    knows, is read by the XML reader as an element whose text is the
    original text, when the text holds only characters that XML
    carries: XML characters without the carriage return, surrogates in
    pairs. *)
Theorem escaped_text_read_back ns tag s :
  element_name ns (js tag) = true -> carried_text s = true ->
  map_reading Dom.textContent (read ns (Markup.leaf tag (escapeXml s))) = Read s.
Proof.
  intros T C. unfold Markup.leaf. rewrite (read_escaped ns (js tag) s T C).
  cbn [map_reading Dom.textContent]. now rewrite texts_content.
Qed.

Lemma escaped_text_read_back_witness :
  escapeXml (js "Cu & Zn < 5 %") = js "Cu &amp; Zn &lt; 5 %"
  /\ map_reading Dom.textContent
       (read [js "dcc"] (Markup.leaf "dcc:content" (escapeXml (js "Cu & Zn < 5 %"))))
     = Read (js "Cu & Zn < 5 %").
Proof.
  split; [reflexivity|].
  apply (escaped_text_read_back [js "dcc"] "dcc:content" (js "Cu & Zn < 5 %"));
    reflexivity.
Defined.

(** A carriage return is read as a line feed, and a form feed makes the
    text not well-formed. *)
Lemma control_characters_not_read_back :
  read [] (Markup.leaf "a" (escapeXml [120; 13; 121]%N))
  = Read (Dom.Element (js "a") [] [Dom.Text [120; 10; 121]%N])
  /\ read [] (Markup.leaf "a" (escapeXml [120; 12; 121]%N)) = Malformed.
Proof. split; reflexivity. Qed.

Lemma escapeXml_length s :
  (List.length s <= List.length (escapeXml s))%nat
  /\ (existsb is_special s = true ->
      (List.length s < List.length (escapeXml s))%nat).
Proof.
  induction s as [|c s [IH1 IH2]]; [split; [apply le_n | discriminate]|].
  rewrite escapeXml_cons, length_app. cbn [existsb List.length].
  by_character c; cbn [List.length orb]; (split; [lia|]);
    try (intros _; lia).
  repeat match goal with
         | H : c <> _ |- _ => apply N.eqb_neq in H; rewrite H; clear H
         end.
  cbn [orb]. intros E. specialize (IH2 E). lia.
Qed.

(** X5.  [escapeXml] returns the text unchanged exactly when it holds
    none of the five characters [<], [>], [&], apostrophe and quotation
    mark. *)
Theorem escapeXml_unchanged_iff s :
  escapeXml s = s <-> existsb is_special s = false.
Proof.
  split.
  - intros E. destruct (existsb is_special s) eqn:X; [|reflexivity].
    pose proof (proj2 (escapeXml_length s) X) as L. rewrite E in L. lia.
  - induction s as [|c s IH]; [reflexivity|].
    cbn [existsb]. rewrite orb_false_iff. intros [C X].
    rewrite escapeXml_cons, (IH X). revert C.
    by_character c; try discriminate. reflexivity.
Qed.

Lemma escapeXml_unchanged_iff_witness :
  escapeXml (js "Copper alloy") = js "Copper alloy"
  /\ escapeXml (js "Cu & Zn") <> js "Cu & Zn".
Proof.
  split.
  - apply (proj2 (escapeXml_unchanged_iff (js "Copper alloy"))). reflexivity.
  - intros E. apply (proj1 (escapeXml_unchanged_iff (js "Cu & Zn"))) in E.
    discriminate E.
Defined.

End EscapeXmlFacts.

(** ** The period of a "Time After Dispatch" validity *)

Module PeriodFacts.

Import Js JsFacts JsNumber JsNumberFacts XmlParser XmlGenerator ValidityCodec.

(** [r] is the capture of the pattern in [s], with any fuel that
    covers [s]. *)
Definition captures (c : N) (s : jsstring) (r : option jsstring) : Prop :=
  forall fuel, (List.length s < fuel)%nat -> match_digits_before fuel c s = r.

Lemma captures_nil c : captures c [] None.
Proof. intros fuel _. apply match_end. Qed.

Lemma captures_skip c x s r :
  is_digit x = false -> captures c s r -> captures c (x :: s) r.
Proof.
  intros X H [|fuel] L; cbn [List.length] in L; [lia|].
  rewrite match_skip by exact X. apply H. lia.
Qed.

Lemma captures_run c ds y s r :
  ds <> [] -> forallb is_digit ds = true -> is_digit y = false ->
  (if (y =? c)%N then r = Some ds else captures c (y :: s) r) ->
  captures c (ds ++ y :: s) r.
Proof.
  intros N D Y H [|fuel] L; [lia|].
  rewrite match_run by assumption.
  destruct (y =? c)%N; [now symmetry|].
  apply H. rewrite length_app in L. destruct ds; [contradiction|].
  cbn [List.length] in *. lia.
Qed.

Lemma captures_component c s r :
  captures c s r ->
  period_component c s
  = match r with
    | Some ds => JsCount.round53 (Z.of_N (N_of_digits ds))
    | None => 0%Z
    end.
Proof. intros H. unfold period_component. now rewrite (H _ (Nat.lt_succ_diag_r _)). Qed.

(** The text of a count below [2^53]: an optional sign, then the digits
    of its absolute value. *)
Lemma Z_text_shape z :
  (Z.abs z < 2 ^ 53)%Z ->
  exists sign ds,
    Z_text z = (sign ++ ds)%list
    /\ (sign = [] \/ sign = [45%N])
    /\ ds <> [] /\ forallb is_digit ds = true
    /\ Z.of_N (N_of_digits ds) = Z.abs z.
Proof.
  intros B. unfold Z_text.
  destruct (Z.ltb_spec (Z.abs z) (2 ^ 53)) as [_|?]; [|lia].
  destruct (digits_of_N_cons (Z.abs_N z)) as (d & ds & E).
  exists (if (z <? 0)%Z then [45%N] else []), (digits_of_N (Z.abs_N z)).
  repeat split.
  - now destruct (z <? 0)%Z.
  - destruct (z <? 0)%Z; auto.
  - rewrite E. discriminate.
  - apply digits_of_N_digits.
  - rewrite N_of_digits_of_N. lia.
Qed.

Lemma captures_signed c sign ds y s r :
  sign = [] \/ sign = [45%N] ->
  ds <> [] -> forallb is_digit ds = true -> is_digit y = false ->
  (if (y =? c)%N then r = Some ds else captures c (y :: s) r) ->
  captures c ((sign ++ ds) ++ y :: s) r.
Proof.
  intros [->| ->] N D Y H; cbn [app].
  - now apply captures_run.
  - apply captures_skip; [reflexivity|]. now apply captures_run.
Qed.

(** X6.  The decoder reads the counts of a period the encoder wrote without
    their sign, for counts below [2^53] in magnitude: a negative count
    comes back as its absolute value. *)
Theorem period_read_without_sign y m :
  (Z.abs y < 2 ^ 53)%Z -> (Z.abs m < 2 ^ 53)%Z ->
  period_component 89 (period y m) = Z.abs y
  /\ period_component 77 (period y m) = Z.abs m.
Proof.
  intros By Bm. unfold period.
  destruct (Z_text_shape y By) as (sy & ty & Ey & Sy & Ny & Dy & Vy).
  destruct (Z_text_shape m Bm) as (sm & tm & Em & Sm & Nm & Dm & Vm).
  rewrite Ey, Em. change (js "P") with [80%N]. change (js "Y") with [89%N].
  change (js "M") with [77%N].
  assert (P : forall rest : jsstring,
             (rest = [] -> False) -> eqb (80%N :: rest) [80%N] = false).
  { intros [|x rest] R; [now destruct R | reflexivity]. }
  destruct (Z.eqb_spec y 0) as [->|y1]; destruct (Z.eqb_spec m 0) as [->|m1];
    cbn [app]; rewrite ?app_nil_r.
  - split; reflexivity.
  - rewrite P by (destruct sm, tm; try discriminate; now destruct Nm).
    split; (erewrite captures_component;
            [|apply captures_skip; [reflexivity|];
              apply captures_signed; try assumption; try reflexivity;
              cbn [N.eqb Pos.eqb];
              first [reflexivity
                    | apply captures_skip; [reflexivity | apply captures_nil]]]);
      cbn iota; rewrite ?Vm, ?JsCountFacts.round53_small by lia; reflexivity.
  - rewrite P by (destruct sy, ty; try discriminate; now destruct Ny).
    split; (erewrite captures_component;
            [|apply captures_skip; [reflexivity|];
              apply captures_signed; try assumption; try reflexivity;
              cbn [N.eqb Pos.eqb];
              first [reflexivity
                    | apply captures_skip; [reflexivity | apply captures_nil]]]);
      cbn iota; rewrite ?Vy, ?JsCountFacts.round53_small by lia; reflexivity.
  - rewrite P by (destruct sy, ty; try discriminate; now destruct Ny).
    rewrite <- app_assoc. cbn [app].
    split; (erewrite captures_component;
            [|apply captures_skip; [reflexivity|];
              apply captures_signed; try assumption; try reflexivity;
              cbn [N.eqb Pos.eqb];
              first [reflexivity
                    | apply captures_skip; [reflexivity|];
                      apply captures_signed; try assumption; try reflexivity;
                      cbn [N.eqb Pos.eqb]; reflexivity]]);
      cbn iota; rewrite ?Vy, ?Vm, ?JsCountFacts.round53_small by lia; reflexivity.
Qed.

(** Below [2^53] the digits of a count are what [toString] writes for
    the Number. *)
Lemma Z_text_is_toString :
  forallb (fun z => eqb (Z_text z) (JsNumber.toString (JsNumber.of_Z z)))
    [ 0; 1; 7; 12; 120; - 5; 1000000; 123456789012; - 987654321;
      2 ^ 53 - 1; - (2 ^ 53 - 1); 9007199254740990 ]%Z
  = true.
Proof. vm_compute. reflexivity. Qed.

(** From [1e21] on a count is written with an exponent, and the decoder
    reads the exponent. *)
Lemma period_of_large_count :
  period (10 ^ 21) 0 = js "P1e+21Y"
  /\ period_component 89 (period (10 ^ 21) 0) = 21%Z.
Proof. vm_compute. split; reflexivity. Qed.

Lemma period_read_without_sign_witness :
  period (-2) 18 = js "P-2Y18M"
  /\ period_component 89 (period (-2) 18) = 2%Z
  /\ period_component 77 (period (-2) 18) = 18%Z.
Proof.
  split; [vm_compute; reflexivity|].
  apply (period_read_without_sign (-2) 18); vm_compute; reflexivity.
Defined.

(** X7.  The duration shown in the form and the period written in the XML
    are the same text, except for an empty duration: shown as [P],
    written as [P0Y]. *)
Theorem getIsoDuration_period d :
  let y := AdministrativeData.durationY (DRMD.administrativeData d) in
  let m := AdministrativeData.durationM (DRMD.administrativeData d) in
  (y = 0%Z /\ m = 0%Z
   /\ AppView.getIsoDuration d = js "P" /\ period y m = js "P0Y")
  \/ ((y <> 0%Z \/ m <> 0%Z) /\ AppView.getIsoDuration d = period y m).
Proof.
  cbv zeta. unfold AppView.getIsoDuration, period.
  assert (P : forall t : jsstring, t <> [] -> eqb (80%N :: t) [80%N] = false)
    by (intros [|x t] H; [now elim H | reflexivity]).
  assert (Q : forall (t rest : jsstring) (c : N), (t ++ [c]) ++ rest <> [])
    by (intros [|x t] rest c; discriminate).
  change (js "P") with [80%N]. change (js "Y") with [89%N].
  change (js "M") with [77%N].
  destruct (Z.eqb_spec (AdministrativeData.durationY (DRMD.administrativeData d)) 0)
    as [->|y1];
  destruct (Z.eqb_spec (AdministrativeData.durationM (DRMD.administrativeData d)) 0)
    as [->|m1]; cbn [andb app].
  - left. repeat split; reflexivity.
  - right. split; [now right|].
    rewrite P; [reflexivity|]. rewrite <- (app_nil_r (_ ++ [77%N])). apply Q.
  - right. split; [now left|]. rewrite app_nil_r.
    rewrite P; [reflexivity|]. rewrite <- (app_nil_r (_ ++ [89%N])). apply Q.
  - right. split; [now left|]. rewrite P; [reflexivity | apply Q].
Qed.

End PeriodFacts.

(** ** Validation report *)

Module ReportFacts.

Import Js JsFacts App.

Lemma truthy_iff s : truthy s = true <-> s <> [].
Proof. destruct s; split; try discriminate; try reflexivity; intros H; now destruct H. Qed.

Lemma when_nil {A} b (x : A) : when b x = [] <-> b = false.
Proof. destruct b; split; try discriminate; reflexivity. Qed.

Lemma when_missing {A} s (x : A) : when (negb (truthy s)) x = [] <-> s <> [].
Proof. rewrite when_nil, negb_false_iff. apply truthy_iff. Qed.

Lemma forEach_i_nil {A B} (f : A -> nat -> list B) (P : A -> Prop) :
  (forall a i, f a i = [] <-> P a) ->
  forall l i, forEach_i f l i = [] <-> Forall P l.
Proof.
  intros H l. induction l as [|a l IH]; intros i; cbn [forEach_i].
  - split; [constructor | reflexivity].
  - split.
    + intros E. apply app_eq_nil in E. destruct E as [E1 E2].
      constructor; [now apply (H a i) | now apply (IH (S i))].
    + intros F. inversion F; subst.
      rewrite (proj2 (H a i)), (proj2 (IH (S i))); auto.
Qed.

Definition named_producer (ps : list Producer.t) : Prop :=
  exists p, ps = [p] /\ Producer.name p <> [].

Definition usable_material (m : Material.t) : Prop :=
  Material.name m <> [] /\ Material.minimumSampleSize m <> [].

Lemma producerErrors_nil ps : producerErrors ps = [] <-> named_producer ps.
Proof.
  unfold named_producer. destruct ps as [|p [|q ps]]; cbn [producerErrors forEach_i].
  - split; [discriminate | intros (p & E & _); discriminate].
  - rewrite app_nil_r, when_missing. split.
    + intros N. now exists p.
    + intros (p' & E & N). now injection E as <-.
  - split; [discriminate | intros (p' & E & _); discriminate].
Qed.

Lemma materialErrors_nil ms :
  materialErrors ms = [] <-> ms <> [] /\ Forall usable_material ms.
Proof.
  destruct ms as [|m ms].
  - cbn. split; [discriminate | intros [N _]; now destruct N].
  - unfold materialErrors.
    rewrite (forEach_i_nil _ usable_material).
    + split; [intros F; split; [discriminate | exact F] | now intros [_ F]].
    + intros a i. unfold usable_material. split.
      * intros E. apply app_eq_nil in E. destruct E as [E1 E2].
        now apply when_missing in E1, E2.
      * intros [N1 N2].
        now rewrite (proj2 (when_missing _ _) N1), (proj2 (when_missing _ _) N2).
Qed.

(** The document has what the export requires. *)
Definition complete (d : DRMD.t) : Prop :=
  let admin := DRMD.administrativeData d in
  let official := Statements.official (DRMD.statements d) in
  AdministrativeData.title admin <> []
  /\ AdministrativeData.uniqueIdentifier admin <> []
  /\ named_producer (AdministrativeData.producers admin)
  /\ DRMD.materials d <> []
  /\ Forall usable_material (DRMD.materials d)
  /\ OfficialStatements.intendedUse official <> []
  /\ OfficialStatements.storageInformation official <> []
  /\ OfficialStatements.handlingInstructions official <> [].

Lemma isValid_nil r : isValid r = true <-> errors r = [].
Proof. unfold isValid. destruct (errors r); split; try discriminate; reflexivity. Qed.

Lemma valid_complete d : isValid (getValidationReport d) = true -> complete d.
Proof.
  rewrite isValid_nil. unfold getValidationReport, complete. cbn [errors]. intros E.
  repeat (apply app_eq_nil in E; let H := fresh "H" in destruct E as [H E]).
  apply when_missing in H, H0, H3, H4, E.
  apply producerErrors_nil in H1. apply materialErrors_nil in H2.
  destruct H2 as [N F]. repeat split; assumption.
Qed.

Lemma complete_valid d : complete d -> isValid (getValidationReport d) = true.
Proof.
  rewrite isValid_nil. unfold getValidationReport, complete. cbn [errors].
  intros (T & U & P & N & M & I & S & H).
  rewrite (proj2 (when_missing _ _) T), (proj2 (when_missing _ _) U),
    (proj2 (producerErrors_nil _) P), (proj2 (materialErrors_nil _) (conj N M)),
    (proj2 (when_missing _ _) I), (proj2 (when_missing _ _) S),
    (proj2 (when_missing _ _) H).
  reflexivity.
Qed.

(** X8.  The report has no error exactly when the document has a title, a
    unique identifier, one producer, which has a name, at least one
    material, each with a name and a minimum sample size, and the
    statements on intended use, storage and handling. *)
Theorem report_without_error_iff d :
  isValid (getValidationReport d) = true <-> complete d.
Proof. split; [apply valid_complete | apply complete_valid]. Qed.

End ReportFacts.

(** ** The quantities of a material, written and read back *)

Module MaterialQuantityFacts.

Import Js JsFacts DOMParser DOMParserFacts Search EscapeFacts Inventory Written.
Import XmlParser XmlGenerator GenFacts MaterialCodec.

(** What [parseQty] reads from what [renderPrimitiveQuantity] wrote. *)
Definition read_back (value : jsstring) : jsstring :=
  if negb (truthy value) || eqb value (js "noQuantity") then js "noQuantity"
  else
    match match_number_unit (trim value) with
    | Some (numPart, unitPart) =>
      let dsi := UnitConverter.convertToDSI
                   (Some (UnitLookup.VString numPart)) (Some unitPart) in
      if truthy (UnitLookup.dsiUnit dsi)
      then (UnitLookup.dsiValue dsi ++ js " " ++ UnitLookup.dsiUnit dsi)%list
      else value
    | None => value
    end.

Ltac branches value :=
  destruct (negb (truthy value) || eqb value (js "noQuantity"));
  [|destruct (match_number_unit (trim value)) as [[? ?]|];
    [match goal with
     | |- context [truthy (UnitLookup.dsiUnit ?dsi)] =>
       destruct (truthy (UnitLookup.dsiUnit dsi))
     end|]].

Ltac quantities m :=
  unfold parseQty, materialXml, renderPrimitiveQuantity, read_back;
  branches (Material.minimumSampleSize m);
  try branches (Material.itemQuantities m);
  destruct (truthy (Material.itemQuantities m));
  nav; rewrite ?(textContent_plain _ (js "noQuantity")) by reflexivity;
  reflexivity.

Lemma minimumSampleSize_read m :
  parseQty (decoded (materialXml m)) "drmd:minimumSampleSize"
  = read_back (Material.minimumSampleSize m).
Proof. quantities m. Qed.




Lemma read_back_truthy v : truthy (read_back v) = true.
Proof.
  unfold read_back.
  destruct (truthy v) eqn:T; [|reflexivity]. cbn [negb orb].
  destruct (eqb v (js "noQuantity")); [reflexivity|].
  destruct (match_number_unit (trim v)) as [[numPart unitPart]|]; [|exact T].
  match goal with |- context [truthy (UnitLookup.dsiUnit ?dsi)] =>
    destruct (truthy (UnitLookup.dsiUnit dsi)) eqn:U; [|exact T];
    destruct (UnitLookup.dsiValue dsi); reflexivity
  end.
Qed.





End MaterialQuantityFacts.

(** ** The attachment and the validation report across the codec *)

Module RoundTripReportFacts.

Import Js JsFacts DOMParser DOMParserFacts Search EscapeFacts Inventory Written.
Import XmlParser XmlGenerator GenFacts AdminCodec DocumentCodec.
Import App ReportFacts RoundTripFacts.

(** The attachment of a decoded document, for any document read. *)
Lemma decode_binaryDocument today doc n :
  DRMD.binaryDocument (fst (XmlParser.decode today doc n))
  = if truthy (getTagContent doc "drmd:document")
    then Some {| BinaryDocument.fileName := js "imported_document.pdf";
                 BinaryDocument.mimeType := js "application/pdf";
                 BinaryDocument.data := trim (getTagContent doc "drmd:document") |}
    else None.
Proof.
  unfold XmlParser.decode. cbv zeta. rewrite !bind_run. cbn [Gen.ret fst].
  cbn [DRMD.binaryDocument].
  destruct (truthy (getTagContent doc "drmd:document")); reflexivity.
Qed.

Lemma document_read d :
  getTagContent (decoded (page d)) "drmd:document"
  = match DRMD.binaryDocument d with
    | Some b => text_of (BinaryDocument.data b)
    | None => []
    end.
Proof.
  unfold getTagContent. rewrite first_decoded.
  below_root d. unfold extraXml. rewrite tagged_app.
  assert (C : tagged (js "drmd:document")
                (opt (truthy (DRMD.generalComment d))
                     (Markup.leaf "drmd:comment" (escapeXml (DRMD.generalComment d))))
              = []).
  { destruct (truthy (DRMD.generalComment d)); reflexivity. }
  revert C. literals. intros ->. cbn [app].
  destruct (DRMD.binaryDocument d) as [b|]; [|reflexivity].
  destruct (BinaryDocument.data b) as [|c r] eqn:D; [reflexivity|].
  cbn [truthy opt]. unfold Markup.leaf. search. cbn [hd_error option_map].
  cbn [decoded Dom.textContent]. apply texts_content.
Qed.

(** X10.  In a document whose texts XML carries unchanged, an attachment
    without [<] and [&] comes back with its data trimmed, under the name
    [imported_document.pdf] and the type [application/pdf] whatever its
    name and type were; an attachment without data does not come
    back. *)
Theorem attachment_read_back today d seed b :
  DRMD.binaryDocument d = Some b ->
  plain (BinaryDocument.data b) = true ->
  verbatim [] (generateDrmdXml d) = true ->
  exists d',
    Gen.eval (roundTrip today d) seed = Some (Returned d')
    /\ DRMD.binaryDocument d'
       = if truthy (BinaryDocument.data b)
         then Some {| BinaryDocument.fileName := js "imported_document.pdf";
                      BinaryDocument.mimeType := js "application/pdf";
                      BinaryDocument.data := trim (BinaryDocument.data b) |}
         else None.
Proof.
  intros B P V.
  eexists. split; [apply (roundTrip_verbatim today d seed V)|].
  rewrite decode_binaryDocument, document_read, B.
  unfold text_of. now rewrite (decodeCharData_plain_text _ P).
Qed.

Definition pdfDocument : DRMD.t :=
  {| DRMD.administrativeData := DRMD.administrativeData leadDocument;
     DRMD.materials := DRMD.materials leadDocument;
     DRMD.properties := DRMD.properties leadDocument;
     DRMD.statements := DRMD.statements leadDocument;
     DRMD.comments := [];
     DRMD.documents := [];
     DRMD.generalComment := [];
     DRMD.binaryDocument :=
       Some {| BinaryDocument.fileName := js "certificate.pdf";
               BinaryDocument.mimeType := js "application/pdf";
               BinaryDocument.data := js " JVBERi0xLjQK " |} |}.

Lemma attachment_read_back_witness :
  exists d',
    Gen.eval (roundTrip (js "2026-01-01") pdfDocument) 0 = Some (Returned d')
    /\ DRMD.binaryDocument d'
       = Some {| BinaryDocument.fileName := js "imported_document.pdf";
                 BinaryDocument.mimeType := js "application/pdf";
                 BinaryDocument.data := js "JVBERi0xLjQK" |}.
Proof.
  apply (attachment_read_back (js "2026-01-01") pdfDocument 0 _ eq_refl eq_refl).
  vm_compute. reflexivity.
Defined.

(** An attachment that holds the end of a CDATA section makes the text
    not well-formed, and the decoder throws. *)
Lemma attachment_with_cdata_end :
  let d := {| DRMD.administrativeData := DRMD.administrativeData pdfDocument;
              DRMD.materials := [];
              DRMD.properties := [];
              DRMD.statements := DRMD.statements pdfDocument;
              DRMD.comments := [];
              DRMD.documents := [];
              DRMD.generalComment := [];
              DRMD.binaryDocument :=
                Some {| BinaryDocument.fileName := js "a.pdf";
                        BinaryDocument.mimeType := js "application/pdf";
                        BinaryDocument.data := js "a]]>b" |} |} in
  Gen.eval (roundTrip (js "2026-01-01") d) 0
  = Some (Thrown (js "Invalid XML file structure")).
Proof. vm_compute. reflexivity. Qed.

Lemma decode_materials today d n (R : Material.t -> Material.t -> Prop) :
  (forall a k, R a (fst (parseMaterial (decoded (materialXml a)) k))) ->
  list_kept R (DRMD.materials (Types.INITIAL_DRMD today)) (DRMD.materials d)
            (DRMD.materials (fst (XmlParser.decode today (decoded (page d)) n))).
Proof.
  intros H. unfold XmlParser.decode. cbv zeta.
  rewrite !bind_run. cbn [Gen.ret fst DRMD.materials].
  rewrite getElementsByTagName_written, materials_written.
  now apply map_or_round.
Qed.

(** What the report needs of a material survives the codec. *)
Definition still_usable (m m' : Material.t) : Prop :=
  Material.name m' = Material.name m
  /\ (Material.minimumSampleSize m <> [] -> Material.minimumSampleSize m' <> []).

Lemma parseMaterial_usable m k :
  still_usable m (fst (parseMaterial (decoded (materialXml m)) k)).
Proof.
  split; [apply MaterialCodec.parseMaterial_round|].
  unfold parseMaterial, uuid. rewrite bind_run. cbn [Gen.ret fst].
  cbn [Material.minimumSampleSize].
  rewrite MaterialQuantityFacts.minimumSampleSize_read. intros _.
  apply truthy_iff, MaterialQuantityFacts.read_back_truthy.
Qed.

Lemma usable_kept ms ms' :
  Forall2 still_usable ms ms' -> Forall usable_material ms ->
  Forall usable_material ms'.
Proof.
  induction 1 as [|m m' ms ms' [N S] _ IH]; intros F; [constructor|].
  inversion F as [|? ? [Hn Hs] F']; subst.
  constructor; [|now apply IH]. split; [now rewrite N | now apply S].
Qed.

(** X11.  A document the report accepts, written in texts that XML
    carries unchanged, is still accepted after it was written and read
    back. *)
Theorem report_survives_round_trip today d seed :
  verbatim [] (generateDrmdXml d) = true ->
  isValid (getValidationReport d) = true ->
  exists d',
    Gen.eval (roundTrip today d) seed = Some (Returned d')
    /\ isValid (getValidationReport d') = true.
Proof.
  intros R V. eexists. split; [apply (roundTrip_verbatim today d seed R)|].
  apply complete_valid. apply valid_complete in V.
  destruct V as (T & U & (p & P & Np) & N & M & I & S & H).
  pose proof (decode_round today d seed) as K.
  pose proof (decode_materials today d seed still_usable parseMaterial_usable) as KM.
  set (d' := fst (XmlParser.decode today (decoded (page d)) seed)) in *.
  destruct K as (Kt & Ku & _ & Kp & _ & _ & _ & Ks & _).
  destruct Ks as (Ki & Kst & Kh & _).
  unfold complete. cbv zeta. rewrite Kt, Ku, Ki, Kst, Kh.
  repeat split; try assumption.
  - rewrite P in Kp. cbn [list_kept] in Kp.
    inversion Kp as [|? p' ? ps' Hp Hn]; subst. inversion Hn; subst.
    exists p'. split; [reflexivity|]. destruct Hp as [-> _]. exact Np.
  - destruct (DRMD.materials d) as [|m ms]; [now destruct N|].
    cbn [list_kept] in KM. inversion KM; subst. discriminate.
  - destruct (DRMD.materials d) as [|m ms]; [now destruct N|].
    cbn [list_kept] in KM. exact (usable_kept _ _ KM M).
Qed.

(** A complete document: the lead document with a material and the
    three statements the schema requires. *)
Definition completeDocument : DRMD.t :=
  {| DRMD.administrativeData :=
       {| AdministrativeData.title := js "referenceMaterialCertificate";
          AdministrativeData.uniqueIdentifier := js "BAM-M-387";
          AdministrativeData.dataVersion := 0;
          AdministrativeData.documentIdentifiers := [Types.INITIAL_ID];
          AdministrativeData.validityType := js "Time After Dispatch";
          AdministrativeData.durationY := 1;
          AdministrativeData.durationM := 6;
          AdministrativeData.dateOfIssue := js "2026-01-01";
          AdministrativeData.specificTime := [];
          AdministrativeData.producers :=
            [ {| Producer.uuid := js "org-1";
                 Producer.name := js "Bundesanstalt";
                 Producer.email := js "info@example.org";
                 Producer.phone := [];
                 Producer.fax := None;
                 Producer.address := Producer.address Types.INITIAL_PRODUCER;
                 Producer.organizationIdentifiers := [Types.INITIAL_ID];
                 Producer.fieldCoordinates := None;
                 Producer.sectionCoordinates := None |} ];
          AdministrativeData.responsiblePersons := [];
          AdministrativeData.fieldCoordinates := None;
          AdministrativeData.sectionCoordinates := None |};
     DRMD.materials :=
       [ {| Material.uuid := js "m-1";
            Material.name := js "Copper alloy";
            Material.materialClass := js "metal";
            Material.description := [];
            Material.itemQuantities := js "1";
            Material.minimumSampleSize := js "5 g";
            Material.isCertified := Some true;
            Material.materialIdentifiers := [Types.INITIAL_ID];
            Material.fieldCoordinates := None;
            Material.sectionCoordinates := None |} ];
     DRMD.properties := DRMD.properties leadDocument;
     DRMD.statements :=
       {| Statements.official :=
            {| OfficialStatements.intendedUse := js "Calibration";
               OfficialStatements.commutability := [];
               OfficialStatements.storageInformation := js "Keep dry";
               OfficialStatements.handlingInstructions := js "Wear gloves";
               OfficialStatements.metrologicalTraceability := [];
               OfficialStatements.healthAndSafety := [];
               OfficialStatements.subcontractors := [];
               OfficialStatements.legalNotice := [];
               OfficialStatements.referenceToCertificationReport := [];
               OfficialStatements.fieldCoordinates := None;
               OfficialStatements.sectionCoordinates := None |};
          Statements.custom := [] |};
     DRMD.comments := [];
     DRMD.documents := [];
     DRMD.generalComment := [];
     DRMD.binaryDocument := None |}.

Lemma report_without_error_iff_witness :
  complete completeDocument /\ ~ complete (Types.INITIAL_DRMD (js "2026-01-01")).
Proof.
  split.
  - apply (proj1 (report_without_error_iff completeDocument)). vm_compute. reflexivity.
  - intros C. apply (proj2 (report_without_error_iff _)) in C.
    vm_compute in C. discriminate C.
Defined.

Lemma report_survives_round_trip_witness :
  exists d',
    Gen.eval (roundTrip (js "2026-01-01") completeDocument) 0 = Some (Returned d')
    /\ isValid (getValidationReport d') = true.
Proof.
  apply (report_survives_round_trip (js "2026-01-01") completeDocument 0);
    vm_compute; reflexivity.
Defined.

End RoundTripReportFacts.

(** ** What the decoder returns for any document *)

Module DecoderFacts.

Import Js JsFacts GenFacts Dom XmlParser XmlParserFacts.

Lemma decode_materials_any today doc seed :
  exists n,
    DRMD.materials (Gen.eval (decode today doc) seed)
    = fst (map_or parseMaterial (getElementsByTagName doc (js "drmd:material"))
             (DRMD.materials (Types.INITIAL_DRMD today)) n).
Proof.
  unfold decode. rewrite !eval_bind. unfold Gen.eval, Gen.ret.
  cbn [fst DRMD.materials]. eexists; reflexivity.
Qed.

Lemma decode_persons_any today doc seed :
  exists found n,
    AdministrativeData.responsiblePersons
      (DRMD.administrativeData (Gen.eval (decode today doc) seed))
    = fst (map_or parsePerson found
             (AdministrativeData.responsiblePersons
                (DRMD.administrativeData (Types.INITIAL_DRMD today))) n).
Proof.
  unfold decode. rewrite !eval_bind. unfold Gen.eval, Gen.ret.
  cbn [fst DRMD.administrativeData AdministrativeData.responsiblePersons].
  destruct (first doc "drmd:administrativeData") as [a|].
  - eexists _, _. reflexivity.
  - exists [], 0%nat. reflexivity.
Qed.

(** A material as the decoder builds it: not certified, without class,
    with one blank identifier. *)
Definition bare_material (m : Material.t) : Prop :=
  Material.isCertified m = Some false
  /\ Material.materialClass m = []
  /\ Material.materialIdentifiers m = [Types.INITIAL_ID].

(** A person as the decoder builds it: without seal, signature or time
    stamp. *)
Definition unsigned_person (p : ResponsiblePerson.t) : Prop :=
  ResponsiblePerson.cryptElectronicSeal p = false
  /\ ResponsiblePerson.cryptElectronicSignature p = false
  /\ ResponsiblePerson.cryptElectronicTimeStamp p = false.

(** X12.  Whatever the document read, no decoded material is certified or
    has a material class, and no decoded person has an electronic seal,
    signature or time stamp. *)
Theorem decoded_entities_bare today doc seed d :
  Gen.eval (parseDrmdXml today doc) seed = Returned d ->
  Forall bare_material (DRMD.materials d)
  /\ Forall unsigned_person
       (AdministrativeData.responsiblePersons (DRMD.administrativeData d)).
Proof.
  intros H. apply parseDrmdXml_returned in H. destruct H as [_ ->]. split.
  - destruct (decode_materials_any today doc seed) as [n ->].
    apply map_or_Forall; [|constructor].
    intros a m. unfold parseMaterial. rewrite bind_run. repeat split.
  - destruct (decode_persons_any today doc seed) as (found & n & ->).
    apply map_or_Forall.
    + intros a m. unfold parsePerson. rewrite bind_run. repeat split.
    + repeat constructor.
Qed.

Lemma period_component_not_negative c s : (0 <= period_component c s)%Z.
Proof.
  unfold period_component.
  destruct (match_digits_before _ c s); [|apply Z.le_refl].
  apply JsCountFacts.round53_nonneg, N2Z.is_nonneg.
Qed.

Lemma parseValidity_not_negative core v0 :
  (0 <= durationY v0)%Z -> (0 <= durationM v0)%Z ->
  (0 <= durationY (parseValidity core v0))%Z
  /\ (0 <= durationM (parseValidity core v0))%Z.
Proof.
  intros Y M. unfold parseValidity.
  destruct (first core "drmd:validity") as [validity|]; [|now split].
  destruct (non_empty (getElementsByTagName validity (js "drmd:untilRevoked")));
    [now split|].
  destruct (non_empty (getElementsByTagName validity (js "drmd:specificTime")));
    [now split|].
  destruct (first validity "drmd:timeAfterDispatch"); [|now split].
  split; apply period_component_not_negative.
Qed.

(** X13.  Whatever the document read, the year and month counts of the
    decoded validity are not negative. *)
Theorem decoded_duration_not_negative today doc seed d :
  Gen.eval (parseDrmdXml today doc) seed = Returned d ->
  (0 <= AdministrativeData.durationY (DRMD.administrativeData d))%Z
  /\ (0 <= AdministrativeData.durationM (DRMD.administrativeData d))%Z.
Proof.
  intros H. apply parseDrmdXml_returned in H. destruct H as [_ ->].
  unfold decode. rewrite !eval_bind. unfold Gen.eval, Gen.ret.
  cbn [fst DRMD.administrativeData AdministrativeData.durationY
       AdministrativeData.durationM].
  destruct (first doc "drmd:administrativeData") as [a|]; [|split; discriminate].
  destruct (first a "drmd:coreData") as [c|]; [|split; discriminate].
  apply parseValidity_not_negative; discriminate.
Qed.

(** The document read from the XML of
    [RoundTripReportFacts.completeDocument]. *)
Definition completeRead : Document :=
  match DOMParser.parseFromString
          (XmlGenerator.generateDrmdXml RoundTripReportFacts.completeDocument) with
  | Some doc => doc
  | None => Dom.document []
  end.

Lemma decoded_entities_bare_witness :
  let d := Gen.eval (decode (js "2026-01-01") completeRead) 0 in
  (Forall bare_material (DRMD.materials d)
   /\ Forall unsigned_person
        (AdministrativeData.responsiblePersons (DRMD.administrativeData d)))
  /\ List.length (DRMD.materials d) = 1%nat.
Proof.
  cbv zeta. split; [|vm_compute; reflexivity].
  apply (decoded_entities_bare (js "2026-01-01") completeRead 0).
  vm_compute. reflexivity.
Defined.

Lemma decoded_duration_not_negative_witness :
  let d := Gen.eval (decode (js "2026-01-01") completeRead) 0 in
  (0 <= AdministrativeData.durationY (DRMD.administrativeData d))%Z
  /\ (0 <= AdministrativeData.durationM (DRMD.administrativeData d))%Z.
Proof.
  cbv zeta. apply (decoded_duration_not_negative (js "2026-01-01") completeRead 0).
  vm_compute. reflexivity.
Defined.

End DecoderFacts.

(** ** Unit conversion: the shape of the result and the unit text *)

Module UnitShapeFacts.

Import Js JsNumber UnitLookup JsFacts JsNumberFacts UnitLookupFacts.

(** A result without D-SI unit and value, or with a D-SI unit that
    starts with a backslash. *)
Definition well_shaped (r : DsiResult) : Prop :=
  (dsiUnit r = [] /\ dsiValue r = []) \/ startsWith (dsiUnit r) (js "\") = true.

Definition dsi_syntax (c : DsiConversion.t) : bool :=
  startsWith (DsiConversion.dsiUnit c) (js "\").

Lemma table_syntax :
  forallb dsi_syntax (map snd UnitConverter.UNIT_MAP) = true
  /\ forallb dsi_syntax (map snd UnitConverterRev.UNIT_MAP) = true.
Proof. split; vm_compute; reflexivity. Qed.

Lemma resolved_syntax table u c :
  forallb dsi_syntax (map snd table) = true ->
  fst (resolve table u) = Some c -> dsi_syntax c = true.
Proof.
  intros T R. destruct (resolve table u) as [o u'] eqn:E. cbn [fst] in R. subst o.
  apply resolve_In in E. rewrite forallb_forall in T. now apply T.
Qed.

(** X14.  For a unit whose cleaned text is not the name of a member
    every object inherits, both revisions of [convertToDSI] return
    either nothing at all or a D-SI unit that starts with a backslash; a
    D-SI value never comes without a D-SI unit. *)
Theorem converted_unit_is_dsi value unit :
  (forall u, unit = Some u -> inherited (clean u) = false) ->
  well_shaped (UnitConverter.convertToDSI value unit)
  /\ well_shaped (UnitConverterRev.convertToDSI value unit).
Proof.
  intros _. split.
  - unfold UnitConverter.convertToDSI.
    destruct value as [v|]; [|left; split; reflexivity].
    destruct unit as [u|]; [|left; split; reflexivity].
    cbv zeta.
    destruct (fst (resolve UnitConverter.UNIT_MAP (clean u))) as [c|] eqn:R;
      [|left; split; reflexivity].
    destruct (negb (isNaN (parseFloat (numStr (String v)))));
      [|left; split; reflexivity].
    right. cbn [dsiUnit].
    exact (resolved_syntax _ _ _ (proj1 table_syntax) R).
  - unfold UnitConverterRev.convertToDSI.
    destruct unit as [u|]; [|left; split; reflexivity].
    cbv zeta.
    destruct (resolve UnitConverterRev.UNIT_MAP (clean u)) as [[c|] u'] eqn:R.
    + right. cbn [dsiUnit].
      apply (resolved_syntax UnitConverterRev.UNIT_MAP (clean u)).
      * exact (proj2 table_syntax).
      * now rewrite R.
    + destruct (startsWith u' (js "\")) eqn:B; [right; exact B | left; split; reflexivity].
Qed.

Lemma converted_unit_is_dsi_witness :
  let value := Some (VString (js "4.9")) in
  let unit := Some (js "in mg/kg") in
  dsiUnit (UnitConverter.convertToDSI value unit) = js "\milli\gram\kilogram\tothe{-1}"
  /\ well_shaped (UnitConverter.convertToDSI value unit)
  /\ well_shaped (UnitConverterRev.convertToDSI value unit).
Proof.
  cbv zeta. split; [vm_compute; reflexivity|].
  apply (converted_unit_is_dsi (Some (VString (js "4.9"))) (Some (js "in mg/kg"))).
  intros u [= <-]. vm_compute. reflexivity.
Defined.

Definition blank (s : jsstring) : bool := forallb is_ws s.

Lemma strip_in_prefix_solid u : solid u = true -> strip_in_prefix u = u.
Proof.
  intros S. unfold strip_in_prefix. rewrite (trimStart_solid u S).
  destruct u as [|c1 [|c2 [|c3 r]]]; try reflexivity.
  rewrite !solid_cons, !andb_true_iff, !negb_true_iff in S.
  destruct S as (_ & _ & -> & _). now rewrite !andb_false_r.
Qed.

Lemma clean_solid_id u : solid u = true -> clean u = u.
Proof.
  intros S. unfold clean.
  now rewrite (strip_in_prefix_solid u S), (trim_solid u S), (remove_ws_id u S).
Qed.

Lemma trimStart_blank p s : blank p = true -> trimStart (p ++ s) = trimStart s.
Proof.
  induction p as [|c p IH]; [reflexivity|]. cbn [blank forallb app trimStart].
  rewrite andb_true_iff. intros [-> B]. now apply IH.
Qed.

Lemma trimEnd_blank s p : blank p = true -> trimEnd (s ++ p) = trimEnd s.
Proof.
  intros B. unfold trimEnd. rewrite rev_app_distr, trimStart_blank; [reflexivity|].
  unfold blank in *. rewrite forallb_forall in *. intros x Hx.
  apply B. now apply in_rev.
Qed.

Lemma trim_solid_blank u p :
  solid u = true -> u <> [] -> blank p = true -> trim (u ++ p) = u.
Proof.
  intros S N B. unfold trim.
  destruct u as [|c u']; [contradiction|].
  assert (C : is_ws c = false).
  { rewrite solid_cons, andb_true_iff, negb_true_iff in S. tauto. }
  change ((c :: u') ++ p) with (c :: (u' ++ p)).
  rewrite (trimStart_head c _ C).
  change (c :: u' ++ p) with ((c :: u') ++ p).
  rewrite (trimEnd_blank _ _ B).
  pose proof (trim_solid _ S) as T. unfold trim in T.
  now rewrite (trimStart_solid _ S) in T.
Qed.

Lemma is_i_not_blank c : is_i c = true -> is_ws c = false.
Proof.
  unfold is_i. rewrite orb_true_iff, !N.eqb_eq. intros [-> | ->]; reflexivity.
Qed.

(** The unit text left of a table header such as [in mg/kg]. *)
Lemma clean_header p i n w u p' :
  blank p = true -> is_i i = true -> is_n n = true ->
  blank w = true -> w <> [] -> solid u = true -> u <> [] -> blank p' = true ->
  clean (p ++ i :: n :: w ++ u ++ p') = u.
Proof.
  intros Bp Hi Hn Bw Nw Su Nu Bp'. unfold clean, strip_in_prefix.
  rewrite (trimStart_blank _ _ Bp), (trimStart_head i _ (is_i_not_blank i Hi)).
  destruct w as [|w0 w']; [contradiction|].
  cbn [blank forallb] in Bw. apply andb_true_iff in Bw. destruct Bw as [B0 Bw'].
  cbn [app]. rewrite Hi, Hn, B0. cbn [andb].
  rewrite (trimStart_blank _ _ Bw').
  assert (T : trim (trimStart (u ++ p')) = u).
  { unfold trim. rewrite trimStart_idem. now apply trim_solid_blank. }
  rewrite T. now apply remove_ws_id.
Qed.

Lemma clean_in_then_blank i n w :
  is_i i = true -> is_n n = true -> blank w = true -> w <> [] ->
  clean (i :: n :: w) = [].
Proof.
  intros Hi Hn Bw Nw. unfold clean, strip_in_prefix.
  rewrite (trimStart_head i _ (is_i_not_blank i Hi)).
  destruct w as [|w0 w']; [contradiction|].
  cbn [blank forallb] in Bw. apply andb_true_iff in Bw. destruct Bw as [B0 Bw'].
  rewrite Hi, Hn, B0. cbn [andb].
  assert (E : trimStart w' = []).
  { rewrite <- (app_nil_r w'). now rewrite trimStart_blank. }
  rewrite E. reflexivity.
Qed.

Lemma convert_by_clean value u u' :
  clean u = clean u' ->
  UnitConverter.convertToDSI value (Some u) = UnitConverter.convertToDSI value (Some u')
  /\ UnitConverterRev.convertToDSI value (Some u)
     = UnitConverterRev.convertToDSI value (Some u').
Proof.
  intros E. unfold UnitConverter.convertToDSI, UnitConverterRev.convertToDSI.
  now rewrite E.
Qed.

(** X15.  A unit given as a table header, [in] and blanks before a unit
    without blanks, with blanks around, converts as the bare unit, in
    both revisions. *)
Theorem header_prefix_ignored value p i n w u p' :
  blank p = true -> is_i i = true -> is_n n = true ->
  blank w = true -> w <> [] -> solid u = true -> u <> [] -> blank p' = true ->
  UnitConverter.convertToDSI value (Some (p ++ i :: n :: w ++ u ++ p'))
  = UnitConverter.convertToDSI value (Some u)
  /\ UnitConverterRev.convertToDSI value (Some (p ++ i :: n :: w ++ u ++ p'))
     = UnitConverterRev.convertToDSI value (Some u).
Proof.
  intros Bp Hi Hn Bw Nw Su Nu Bp'. apply convert_by_clean.
  now rewrite clean_header, clean_solid_id.
Qed.

Lemma header_prefix_ignored_witness :
  UnitConverter.convertToDSI (Some (VString (js "12"))) (Some (js " In  mg/kg "))
  = UnitConverter.convertToDSI (Some (VString (js "12"))) (Some (js "mg/kg")).
Proof.
  refine (proj1 (header_prefix_ignored (Some (VString (js "12")))
                   (js " ") 73%N 110%N (js "  ") (js "mg/kg") (js " ")
                   _ _ _ _ _ _ _ _));
    first [reflexivity | discriminate].
Defined.

(** X16.  The inch written [in] is taken for the header word when a blank
    follows it: the unit text is then empty and nothing is converted,
    in both revisions, whatever the value. *)
Theorem inch_then_blank_not_converted value i n w :
  is_i i = true -> is_n n = true -> blank w = true -> w <> [] ->
  UnitConverter.convertToDSI value (Some (i :: n :: w)) = empty_result
  /\ UnitConverterRev.convertToDSI value (Some (i :: n :: w)) = empty_result.
Proof.
  intros Hi Hn Bw Nw.
  assert (E : clean (i :: n :: w) = clean []) by now rewrite clean_in_then_blank.
  destruct (convert_by_clean value _ _ E) as [E1 E2].
  split; [etransitivity; [exact E1|] | etransitivity; [exact E2|]].
  - unfold UnitConverter.convertToDSI. destruct value; [|reflexivity].
    cbv zeta.
    replace (fst (resolve UnitConverter.UNIT_MAP (clean []))) with (@None DsiConversion.t)
      by (vm_compute; reflexivity).
    reflexivity.
  - unfold UnitConverterRev.convertToDSI.
    replace (resolve UnitConverterRev.UNIT_MAP (clean []))
      with (@None DsiConversion.t, @nil N) by (vm_compute; reflexivity).
    reflexivity.
Qed.

Lemma inch_then_blank_not_converted_witness :
  UnitConverter.convertToDSI (Some (VString (js "2"))) (Some (js "in "))
  = empty_result
  /\ UnitConverter.convertToDSI (Some (VString (js "2"))) (Some (js "in"))
     = {| dsiValue := js "0.0508"; dsiUnit := js "\metre" |}.
Proof.
  split; [|vm_compute; reflexivity].
  refine (proj1 (inch_then_blank_not_converted (Some (VString (js "2")))
                   105%N 110%N (js " ") _ _ _ _));
    first [reflexivity | discriminate].
Defined.

End UnitShapeFacts.

(** ** [getDsiPreview] *)

Module UnitPreviewFacts.

Import Js JsNumber UnitLookup JsFacts JsNumberFacts UnitLookupFacts.
Import XmlGenerator UnitPreview.

(** The text starts, after blanks, with a digit or a dot. *)
Definition numeric_start (raw : jsstring) : bool :=
  match trim raw with
  | c :: _ => is_digit c || (c =? 46)%N
  | [] => false
  end.

Lemma no_number_no_match s :
  match s with c :: _ => is_digit c || (c =? 46)%N | [] => false end = false ->
  match_number_unit s = None.
Proof.
  unfold match_number_unit. destruct s as [|c r]; [reflexivity|].
  intros W. cbn [span_number]. rewrite W. reflexivity.
Qed.

(** X17.  A text that does not start with a number has no preview. *)
Theorem preview_needs_leading_number raw :
  numeric_start raw = false -> getDsiPreview raw = [].
Proof.
  unfold numeric_start, getDsiPreview. intros W.
  destruct (truthy raw); [|reflexivity]. cbn [negb].
  now rewrite (no_number_no_match _ W).
Qed.

Lemma preview_needs_leading_number_witness :
  getDsiPreview (js "approx 5 g") = []
  /\ getDsiPreview (js "5 g") = js "5 \gram".
Proof.
  split; [|vm_compute; reflexivity].
  apply (preview_needs_leading_number (js "approx 5 g")). reflexivity.
Defined.

Lemma span_number_digits n c r :
  forallb is_digit n = true -> (is_digit c || (c =? 46)%N) = false ->
  span_number (n ++ c :: r) = (n, c :: r).
Proof.
  intros D C. induction n as [|d n IH]; cbn [app span_number].
  - now rewrite C.
  - cbn [forallb] in D. apply andb_true_iff in D. destruct D as [Dd D].
    rewrite Dd, (IH D). reflexivity.
Qed.

Lemma line_term_blank c : is_line_term c = true -> is_ws c = true.
Proof.
  unfold is_line_term. rewrite !orb_true_iff, !N.eqb_eq.
  intros [[[->| ->]| ->]| ->]; reflexivity.
Qed.

Lemma solid_no_line_term u :
  solid u = true -> forallb (fun x => negb (is_line_term x)) u = true.
Proof.
  unfold solid. rewrite !forallb_forall. intros S x Hx.
  specialize (S x Hx). apply negb_true_iff in S. apply negb_true_iff.
  destruct (is_line_term x) eqn:L; [|reflexivity].
  now rewrite (line_term_blank x L) in S.
Qed.

Lemma match_unit_after_blank u :
  solid u = true -> u <> [] -> match_unit (32%N :: u) = Some u.
Proof.
  intros S N. unfold match_unit. cbn [trimStart].
  change (is_ws 32) with true. cbv iota. rewrite (trimStart_solid u S).
  destruct u as [|c r]; [contradiction|].
  rewrite solid_cons, andb_true_iff in S. destruct S as [_ S].
  now rewrite (solid_no_line_term r S).
Qed.

(** The pattern splits digits, one blank and a unit without blanks at
    the blank. *)
Lemma match_number_unit_at_blank n u :
  forallb is_digit n = true -> n <> [] -> solid u = true -> u <> [] ->
  match_number_unit (n ++ 32%N :: u) = Some (n, u).
Proof.
  intros D Nn S Nu. unfold match_number_unit.
  rewrite (span_number_digits n 32 u D eq_refl).
  destruct (List.length n) as [|k] eqn:L;
    [destruct n; [contradiction | discriminate]|].
  cbn [try_number]. rewrite <- L, skipn_all, firstn_all. cbn [app].
  unfold match_after_number.
  change ((32 =? 101) || (32 =? 69))%N with false. cbv iota.
  rewrite (match_unit_after_blank u S Nu). cbn [option_map].
  now rewrite app_nil_r.
Qed.

Lemma trimEnd_solid_end a u :
  solid u = true -> u <> [] -> trimEnd (a ++ u) = (a ++ u)%list.
Proof.
  intros S Nu. unfold trimEnd. rewrite rev_app_distr.
  destruct (rev u) as [|c r] eqn:R.
  - apply (f_equal (@rev N)) in R. rewrite rev_involutive in R. contradiction.
  - assert (C : is_ws c = false).
    { rewrite <- solid_rev, R, solid_cons, andb_true_iff, negb_true_iff in S. tauto. }
    cbn [app]. rewrite (trimStart_head c _ C).
    change (c :: r ++ rev a) with ((c :: r) ++ rev a).
    now rewrite <- R, <- rev_app_distr, rev_involutive.
Qed.

(** X18.  The preview of digits, one blank and a unit without blanks is made
    of the conversion of the digits and the unit. *)
Theorem preview_of_number_and_unit n u :
  forallb is_digit n = true -> n <> [] -> solid u = true -> u <> [] ->
  getDsiPreview (n ++ 32%N :: u)
  = let dsi := UnitConverterRev.convertToDSI (Some (VString n)) (Some u) in
    if truthy (dsiUnit dsi)
    then (dsiValue dsi ++ js " " ++ dsiUnit dsi)%list
    else [].
Proof.
  intros D Nn S Nu. unfold getDsiPreview.
  assert (T : truthy (n ++ 32%N :: u) = true) by (destruct n; [contradiction | reflexivity]).
  rewrite T. cbn [negb].
  assert (E : trim (n ++ 32%N :: u) = (n ++ 32%N :: u)%list).
  { unfold trim. destruct n as [|d n']; [contradiction|].
    cbn [forallb] in D. apply andb_true_iff in D. destruct D as [Dd _].
    cbn [app]. rewrite (trimStart_head d _ (digit_not_ws d Dd)).
    replace (d :: n' ++ 32%N :: u)%list with ((d :: n' ++ [32%N]) ++ u)%list
      by (cbn [app]; now rewrite <- app_assoc).
    now apply trimEnd_solid_end. }
  rewrite E, (match_number_unit_at_blank n u D Nn S Nu). reflexivity.
Qed.

Lemma preview_of_number_and_unit_witness :
  getDsiPreview (js "10 ml") = js "10 \milli\litre".
Proof.
  change (js "10 ml") with (js "10" ++ 32%N :: js "ml")%list.
  rewrite (preview_of_number_and_unit (js "10") (js "ml"));
    first [vm_compute; reflexivity | discriminate].
Defined.

End UnitPreviewFacts.

(** ** CAS registry numbers *)

Module CasFacts.

Import Js JsFacts CasMapping.
Local Open Scope N_scope.

(** The parts of a text between hyphens. *)
Fixpoint fields (s : jsstring) (current : jsstring) : list jsstring :=
  match s with
  | [] => [rev current]
  | c :: r => if c =? 45 then rev current :: fields r [] else fields r (c :: current)
  end.

(** Two to seven digits, two digits and one digit, separated by
    hyphens. *)
Definition registry_format (s : jsstring) : bool :=
  match fields s [] with
  | [a; b; c] =>
    forallb is_digit (a ++ b ++ c)
    && (2 <=? N.of_nat (List.length a)) && (N.of_nat (List.length a) <=? 7)
    && (N.of_nat (List.length b) =? 2) && (N.of_nat (List.length c) =? 1)
  | _ => false
  end.

(** The sum of the digits, each multiplied by its position counted from
    the right, starting at [i]. *)
Fixpoint weighted (digits : list N) (i : N) : N :=
  match digits with
  | [] => 0
  | d :: r => d * i + weighted r (i + 1)
  end.

(** The last digit is the weighted sum of the others modulo ten. *)
Definition check_digit_ok (s : jsstring) : bool :=
  match rev (map (fun c => c - 48) (filter is_digit s)) with
  | check :: body => weighted body 1 mod 10 =? check
  | [] => false
  end.

Definition registered (v : jsstring) : bool := registry_format v && check_digit_ok v.

Lemma database_registered : forallb (fun kv => registered (snd kv)) CAS_DATABASE = true.
Proof. vm_compute. reflexivity. Qed.

Lemma database_In m k v : get m k = Some v -> In (k, v) m.
Proof.
  induction m as [|[k' v'] m IH]; cbn [get]; [discriminate|].
  destruct (eqb k' k) eqn:E.
  - intros [= ->]. apply eqb_eq in E. subst. now left.
  - intros H. right. now apply IH.
Qed.

(** X19.  Whatever the name asked for, other than the name of a member
    every object inherits, a number [getCasNumber] returns has the form
    of a CAS registry number and a correct check digit. *)
Theorem cas_number_registered name number :
  inherited (trim (toLowerCase name)) = false ->
  getCasNumber name = Some number ->
  registry_format number = true /\ check_digit_ok number = true.
Proof.
  intros _. unfold getCasNumber. destruct (negb (truthy name)); [discriminate|].
  destruct (get CAS_DATABASE (trim (toLowerCase name))) as [v|] eqn:G; [|discriminate].
  destruct (truthy v); [|discriminate]. intros [= <-].
  apply database_In in G.
  pose proof database_registered as D. rewrite forallb_forall in D.
  specialize (D _ G). cbn [snd] in D. unfold registered in D.
  now apply andb_true_iff in D.
Qed.

Lemma cas_number_registered_witness :
  getCasNumber (js " Lead ") = Some (js "7439-92-1")
  /\ registry_format (js "7439-92-1") = true
  /\ check_digit_ok (js "7439-92-1") = true.
Proof.
  split; [vm_compute; reflexivity|].
  apply (cas_number_registered (js " Lead ")); vm_compute; reflexivity.
Defined.

End CasFacts.

(** ** The document after an upload *)

Module UploadFacts.

Import Js JsFacts GenFacts App AppFacts ReportFacts.

Lemma keep_all cls s : forallb cls (keep cls s) = true.
Proof.
  unfold keep. apply forallb_forall. intros x Hx.
  now apply filter_In in Hx.
Qed.

Lemma cleanPostalCode_digits pc : forallb is_digit (cleanPostalCode pc) = true.
Proof.
  unfold cleanPostalCode. destruct pc as [s|]; [|reflexivity].
  destruct (truthy s); [apply keep_all | reflexivity].
Qed.

(** A producer as the upload builds it: a postal code of digits only,
    and the country code [DE] when the city names Berlin or Adlershof. *)
Definition tidy_producer (p : Producer.t) : Prop :=
  forallb is_digit (Address.postCode (Producer.address p)) = true
  /\ (in_berlin (Address.city (Producer.address p)) = true ->
      Address.countryCode (Producer.address p) = js "DE").

Lemma newProducer_tidy p n : tidy_producer (fst (newProducer p n)).
Proof.
  unfold newProducer. rewrite bind_run. cbn [Gen.ret fst]. split.
  - cbn [Producer.address Address.postCode]. apply cleanPostalCode_digits.
  - cbn [Producer.address Address.city Address.countryCode].
    destruct (PProducer.address p) as [a|]; [|discriminate].
    destruct (PAddress.city a) as [c|]; [|discriminate].
    cbn [str or_str]. destruct c as [|c0 c]; [discriminate|].
    cbn [truthy]. now intros ->.
Qed.

(** X20.  After an upload that brought producers, and whose property names
    are none of the members every object inherits, every producer has a
    postal code of digits only, and the country code [DE] when its city
    names Berlin or Adlershof in any letter case. *)
Theorem uploaded_producers_tidy now x prev seed :
  own_keys (incomingProperties x) ->
  incomingProducers x <> [] ->
  Forall tidy_producer
    (AdministrativeData.producers
       (DRMD.administrativeData (Gen.eval (handleFileUpload now x prev) seed))).
Proof.
  intros _ N. unfold handleFileUpload.
  destruct (updateDrmd_lists now (correctPayload x) prev seed)
    as (n1 & n2 & n3 & n4 & P & _).
  cbv zeta in P. rewrite P, corrected_producers, mapM_non_empty.
  destruct (incomingProducers x) as [|p ps]; [contradiction|].
  cbn [map non_empty]. apply mapM_Forall. exact newProducer_tidy.
Qed.

Definition berlinPayload : Payload.t :=
  samplePayload
    (Some {| PAdmin.title := None;
             PAdmin.uniqueIdentifier := None;
             PAdmin.validityType := None;
             PAdmin.durationY := None;
             PAdmin.durationM := None;
             PAdmin.dateOfIssue := None;
             PAdmin.specificTime := None;
             PAdmin.fieldCoordinates := None;
             PAdmin.producers :=
               Some [ {| PProducer.name := Some (js "BAM");
                         PProducer.email := None;
                         PProducer.phone := None;
                         PProducer.fax := None;
                         PProducer.address :=
                           Some {| PAddress.street := Some (js "Richard-Willstaetter-Str.");
                                   PAddress.streetNo := Some (js "11");
                                   PAddress.postCode := Some (js "D-12489");
                                   PAddress.city := Some (js "Berlin-Adlershof");
                                   PAddress.countryCode := None |};
                         PProducer.fieldCoordinates := None;
                         PProducer.sectionCoordinates := None |} ];
             PAdmin.responsiblePersons := None |})
    None.

Lemma uploaded_producers_tidy_witness :
  let d := Gen.eval (handleFileUpload (js "2026-02-02") (Some berlinPayload)
                       (Types.INITIAL_DRMD (js "2026-01-01"))) 0 in
  Forall tidy_producer (AdministrativeData.producers (DRMD.administrativeData d))
  /\ map (fun p => (Address.postCode (Producer.address p),
                    Address.countryCode (Producer.address p)))
         (AdministrativeData.producers (DRMD.administrativeData d))
     = [(js "12489", js "DE")].
Proof.
  cbv zeta. split; [|vm_compute; reflexivity].
  apply (uploaded_producers_tidy (js "2026-02-02") (Some berlinPayload)).
  - apply Forall_nil.
  - discriminate.
Defined.



(** *** The corrections of the extracted administrative data *)

Definition months (a : PAdmin.t) : Z :=
  (or_zero (PAdmin.durationY a) * 12 + or_zero (PAdmin.durationM a))%Z.

(** Counts of years and months whose total of months is a whole number
    that the arithmetic of the language holds exactly. *)
Definition exact_counts (a : PAdmin.t) : Prop :=
  (Z.abs (or_zero (PAdmin.durationY a)) * 12
   + Z.abs (or_zero (PAdmin.durationM a)) < 2 ^ 53)%Z.

Definition exact_payload (x : option Payload.t) : Prop :=
  match x with
  | Some x =>
      match Payload.administrativeData x with
      | Some a => exact_counts a
      | None => True
      end
  | None => True
  end.

Lemma totalMonths_exact a :
  exact_counts a ->
  JsCount.add (JsCount.mul (or_zero (PAdmin.durationY a)) 12)
              (or_zero (PAdmin.durationM a)) = months a.
Proof. intros E. now apply JsCountFacts.months_small. Qed.

Lemma months_bound a : exact_counts a -> (months a < 2 ^ 53)%Z.
Proof. unfold exact_counts, months. lia. Qed.

Lemma normalizeDuration_months a :
  is_validity a TimeAfterDispatch = true -> exact_counts a -> (0 < months a)%Z ->
  normalizeDuration a
  = with_duration a (Some (months a / 12)%Z) (Some (Z.rem (months a) 12)).
Proof.
  intros V E P. unfold normalizeDuration. rewrite V. cbv zeta.
  rewrite (totalMonths_exact a E).
  destruct (Z.ltb_spec 0 (months a)); [|lia].
  rewrite JsCountFacts.floor_div_small by (pose proof (months_bound a E); lia).
  reflexivity.
Qed.

Lemma normalizeDuration_idem a :
  exact_counts a -> normalizeDuration (normalizeDuration a) = normalizeDuration a.
Proof.
  intros X. destruct (is_validity a TimeAfterDispatch) eqn:V.
  - destruct (Z.ltb_spec 0 (months a)) as [P|P].
    + rewrite (normalizeDuration_months a V X P).
      pose proof (months_bound a X) as B.
      set (t := months a) in *.
      assert (D : (t = 12 * (t / 12) + t mod 12 /\ 0 <= t mod 12 < 12 /\ 0 <= t / 12)%Z).
      { pose proof (Z.div_mod t 12). pose proof (Z.mod_pos_bound t 12).
        pose proof (Z.div_pos t 12). lia. }
      assert (E : months (with_duration a (Some (t / 12)%Z) (Some (Z.rem t 12))) = t).
      { unfold months. cbn [with_duration PAdmin.durationY PAdmin.durationM or_zero].
        rewrite Z.rem_mod_nonneg by lia. lia. }
      assert (X' : exact_counts (with_duration a (Some (t / 12)%Z) (Some (Z.rem t 12)))).
      { unfold exact_counts.
        cbn [with_duration PAdmin.durationY PAdmin.durationM or_zero].
        rewrite Z.rem_mod_nonneg by lia. lia. }
      rewrite normalizeDuration_months; rewrite ?E;
        [reflexivity | exact V | exact X' | exact P].
    + assert (S : normalizeDuration a = a).
      { unfold normalizeDuration. rewrite V. cbv zeta.
        rewrite (totalMonths_exact a X).
        destruct (Z.ltb_spec 0 (months a)); [lia | reflexivity]. }
      now rewrite !S.
  - assert (S : normalizeDuration a = a) by (unfold normalizeDuration; now rewrite V).
    now rewrite !S.
Qed.

Lemma match_month_year_slash s mm yyyy :
  match_month_year s = Some (mm, yyyy) -> In 47%N s.
Proof.
  unfold match_month_year.
  destruct s as [|a [|b [|c [|d [|e [|f [|g [|h t]]]]]]]]; try discriminate.
  - destruct (_ && (b =? 47)%N) eqn:E; [|discriminate].
    apply andb_true_iff in E. destruct E as [_ E]. apply N.eqb_eq in E. subst.
    intros _. right. now left.
  - destruct (_ && (c =? 47)%N) eqn:E; [|discriminate].
    apply andb_true_iff in E. destruct E as [_ E]. apply N.eqb_eq in E. subst.
    intros _. right. right. now left.
Qed.

Lemma match_month_year_digits s mm yyyy :
  match_month_year s = Some (mm, yyyy) -> forallb is_digit mm = true.
Proof.
  unfold match_month_year.
  destruct s as [|a [|b [|c [|d [|e [|f [|g [|h t]]]]]]]]; try discriminate.
  - destruct (_ && (b =? 47)%N) eqn:E; [|discriminate].
    intros [= <- _]. cbn [forallb] in *.
    rewrite !andb_true_iff in E. cbn [forallb]. rewrite andb_true_r. tauto.
  - destruct (_ && (c =? 47)%N) eqn:E; [|discriminate].
    intros [= <- _]. cbn [forallb] in *.
    rewrite !andb_true_iff in E. rewrite !andb_true_iff. tauto.
Qed.

(** Digits and hyphens. *)
Definition dated (s : jsstring) : bool :=
  forallb (fun c => is_digit c || (c =? 45)%N) s.

Lemma dated_app a b : dated (a ++ b) = dated a && dated b.
Proof. apply forallb_app. Qed.

Lemma dated_digits s : forallb is_digit s = true -> dated s = true.
Proof.
  unfold dated. rewrite !forallb_forall. intros H x Hx. now rewrite (H x Hx).
Qed.

Lemma dated_fixed s : dated s = true -> trim s = s /\ match_month_year s = None.
Proof.
  intros D. split.
  - apply trim_solid. unfold solid, dated in *. rewrite forallb_forall in *.
    intros x Hx. specialize (D x Hx). apply orb_true_iff in D.
    destruct D as [D|D]; [now rewrite (JsNumberFacts.digit_not_ws x D)|].
    apply N.eqb_eq in D. now subst.
  - destruct (match_month_year s) as [[mm yyyy]|] eqn:M; [|reflexivity].
    apply match_month_year_slash in M. unfold dated in D.
    rewrite forallb_forall in D. specialize (D _ M). discriminate D.
Qed.

Lemma padStart2_digits mm : forallb is_digit mm = true -> forallb is_digit (padStart2 mm) = true.
Proof.
  destruct mm as [|a [|b r]]; cbn [padStart2]; intros D; try exact D; try reflexivity.
Qed.

Lemma fixSpecificTime_idem a : fixSpecificTime (fixSpecificTime a) = fixSpecificTime a.
Proof.
  destruct (is_validity a SpecificTime && present (PAdmin.specificTime a)) eqn:C.
  - destruct (match_month_year (trim (str (PAdmin.specificTime a))))
      as [[mm yyyy]|] eqn:M.
    + assert (S : exists t, fixSpecificTime a = with_specificTime a (Some t)
                            /\ dated t = true).
      { unfold fixSpecificTime. rewrite C, M. cbv zeta. eexists. split; [reflexivity|].
        rewrite !dated_app.
        rewrite (dated_digits _ (JsNumberFacts.digits_of_N_digits _)).
        rewrite (dated_digits _ (JsNumberFacts.digits_of_N_digits _)).
        rewrite (dated_digits _ (padStart2_digits _ (match_month_year_digits _ _ _ M))).
        reflexivity. }
      destruct S as (t & -> & D). destruct (dated_fixed _ D) as [T Nm].
      unfold fixSpecificTime. cbn [with_specificTime PAdmin.specificTime present str].
      cbv zeta. rewrite T, Nm. now destruct (_ && truthy t).
    + assert (S : fixSpecificTime a = a) by (unfold fixSpecificTime; now rewrite C, M).
      now rewrite !S.
  - assert (S : fixSpecificTime a = a) by (unfold fixSpecificTime; now rewrite C).
    now rewrite !S.
Qed.

Lemma fixCountry_idem p : fixCountry (fixCountry p) = fixCountry p.
Proof.
  unfold fixCountry at 2. destruct (in_berlin (city_of p)) eqn:B.
  - unfold fixCountry, city_of in *. cbn [PProducer.address].
    destruct (PProducer.address p) as [a|]; cbn [option_map]; [|discriminate].
    cbn [with_countryCode PAddress.city]. rewrite B. reflexivity.
  - unfold fixCountry. now rewrite B.
Qed.

Lemma fixCountries_idem a : fixCountries (fixCountries a) = fixCountries a.
Proof.
  unfold fixCountries. cbn. f_equal.
  destruct (PAdmin.producers a) as [ps|]; [|reflexivity]. cbn [option_map].
  f_equal. rewrite map_map. apply map_ext. exact fixCountry_idem.
Qed.

Lemma normalizeDuration_fixCountries a :
  normalizeDuration (fixCountries a) = fixCountries (normalizeDuration a).
Proof.
  unfold normalizeDuration, is_validity. cbn [fixCountries PAdmin.validityType
    PAdmin.durationY PAdmin.durationM].
  destruct (PAdmin.validityType a) as [t|]; [|reflexivity].
  destruct (eqb t TimeAfterDispatch); [|reflexivity].
  cbv zeta. destruct (_ <? _)%Z; reflexivity.
Qed.

Lemma normalizeDuration_fixSpecificTime a :
  normalizeDuration (fixSpecificTime a) = fixSpecificTime (normalizeDuration a).
Proof.
  unfold normalizeDuration at 2.
  destruct (fixSpecificTime_members a) as (_ & _ & V & Y & M).
  unfold normalizeDuration at 1. unfold is_validity. rewrite V, Y, M.
  fold (is_validity a TimeAfterDispatch).
  destruct (is_validity a TimeAfterDispatch); [|reflexivity].
  cbv zeta. destruct (_ <? _)%Z; [|reflexivity].
  unfold fixSpecificTime, is_validity.
  cbn [with_duration PAdmin.validityType PAdmin.specificTime].
  destruct (_ && _); [|reflexivity].
  destruct (match_month_year _) as [[mm yyyy]|]; reflexivity.
Qed.

Lemma fixSpecificTime_fixCountries a :
  fixSpecificTime (fixCountries a) = fixCountries (fixSpecificTime a).
Proof.
  unfold fixSpecificTime, is_validity.
  cbn [fixCountries PAdmin.validityType PAdmin.specificTime].
  destruct (_ && _); [|reflexivity].
  destruct (match_month_year _) as [[mm yyyy]|]; reflexivity.
Qed.

Lemma correctAdmin_idem a :
  exact_counts a -> correctAdmin (correctAdmin a) = correctAdmin a.
Proof.
  intros X. unfold correctAdmin.
  rewrite normalizeDuration_fixCountries, fixSpecificTime_fixCountries,
    fixCountries_idem, normalizeDuration_fixSpecificTime, fixSpecificTime_idem,
    (normalizeDuration_idem a X).
  reflexivity.
Qed.

(** A second pass over a total of months that was rounded can carry
    again: of [3 * 2 ^ 59 + 256] months the first pass leaves 4 and the
    second 8. *)
Lemma rounded_months_carried_twice :
  let a := {| PAdmin.title := None;
              PAdmin.uniqueIdentifier := None;
              PAdmin.validityType := Some TimeAfterDispatch;
              PAdmin.durationY := None;
              PAdmin.durationM := Some (3 * 2 ^ 59 + 256)%Z;
              PAdmin.dateOfIssue := None;
              PAdmin.specificTime := None;
              PAdmin.fieldCoordinates := None;
              PAdmin.producers := None;
              PAdmin.responsiblePersons := None |} in
  PAdmin.durationM (normalizeDuration a) = Some 4%Z
  /\ PAdmin.durationM (normalizeDuration (normalizeDuration a)) = Some 8%Z.
Proof. vm_compute. split; reflexivity. Qed.

(** X22.  The corrections applied to the extracted data (months carried into
    years, month and year turned into the last day of the month, country
    code of Berlin) change nothing when applied a second time, for counts
    of years and months whose total of months stays below [2 ^ 53]. *)
Theorem corrections_idempotent x :
  exact_payload x ->
  correctPayload (correctPayload x) = correctPayload x.
Proof.
  destruct x as [x|]; [|reflexivity]. unfold correctPayload, exact_payload.
  cbn [option_map].
  cbn [Payload.administrativeData Payload.materials Payload.properties
       Payload.statements].
  destruct (Payload.administrativeData x) as [a|]; cbn [option_map]; [|reflexivity].
  intros X. now rewrite (correctAdmin_idem a X).
Qed.

Lemma corrections_idempotent_witness :
  let x := Some (samplePayload (Some (sampleAdmin 1 30)) None) in
  correctPayload (correctPayload x) = correctPayload x
  /\ option_map (fun a => (PAdmin.durationY a, PAdmin.durationM a))
        (member_of (correctPayload x) Payload.administrativeData)
     = Some (Some 3%Z, Some 6%Z).
Proof.
  cbv zeta. split; [|vm_compute; reflexivity].
  apply corrections_idempotent. vm_compute. reflexivity.
Defined.

End UploadFacts.

(** ** The merging of the extracted properties *)

Module MergeFacts.

Import Js JsFacts GenFacts App AppFacts.

Lemma key_eq p :
  normalizeName (or_str (PProperty.name p) (js "Material Properties")) = key p.
Proof. unfold key, propertyKey, or_str, str. now destruct (PProperty.name p). Qed.

Lemma lookup_none m k : lookup m k = None <-> ~ In k (map fst m).
Proof.
  induction m as [|[k' p] m IH]; cbn [lookup map fst In]; [tauto|].
  destruct (eqb k' k) eqn:E.
  - apply eqb_eq in E. split; [discriminate | intros H; elim H; now left].
  - apply eqb_neq in E. rewrite IH. tauto.
Qed.

Lemma update_keys m k f : map fst (update m k f) = map fst m.
Proof.
  induction m as [|[k' p] m IH]; [reflexivity|]. cbn [update].
  destruct (eqb k' k); cbn [map fst]; [reflexivity | now rewrite IH].
Qed.

Lemma fold_update_keys {A} (F : A -> PProperty.t -> PProperty.t) k l m :
  map fst (fold_left (fun m r => update m k (F r)) l m) = map fst m.
Proof.
  revert m; induction l as [|r l IH]; intros m; [reflexivity|].
  cbn [fold_left]. now rewrite IH, update_keys.
Qed.

Lemma mergeProperty_keys m p :
  map fst (mergeProperty m p)
  = match lookup m (key p) with
    | Some _ => map fst m
    | None => map fst m ++ [key p]
    end.
Proof.
  unfold mergeProperty. cbv zeta. rewrite key_eq.
  set (map1 := match lookup m (key p) with Some _ => m | None => _ end).
  assert (E1 : map fst map1
               = match lookup m (key p) with
                 | Some _ => map fst m
                 | None => map fst m ++ [key p]
                 end).
  { unfold map1. destruct (lookup m (key p)); [reflexivity|].
    now rewrite map_app. }
  rewrite <- E1.
  set (map2 := if isFootnote _ then _ else map1).
  assert (E2 : map fst map2 = map fst map1).
  { unfold map2. destruct (isFootnote _); [apply update_keys | reflexivity]. }
  rewrite <- E2.
  destruct (PProperty.results p); [|reflexivity].
  apply (fold_update_keys
           (fun r c => with_results c (mergeResult (or_nil (PProperty.results c)) r))).
Qed.

Lemma mergeProperties_keys ps m :
  NoDup (map fst m) ->
  NoDup (map fst (fold_left mergeProperty ps m))
  /\ (forall k, In k (map fst (fold_left mergeProperty ps m))
                <-> In k (map fst m) \/ In k (map key ps)).
Proof.
  revert m; induction ps as [|p ps IH]; intros m D; cbn [fold_left map In].
  - split; [exact D | tauto].
  - assert (D' : NoDup (map fst (mergeProperty m p))
                 /\ forall k, In k (map fst (mergeProperty m p))
                              <-> In k (map fst m) \/ key p = k).
    { rewrite mergeProperty_keys. destruct (lookup m (key p)) eqn:L.
      - split; [exact D|]. intros k. split; [tauto|].
        intros [H | <-]; [exact H|].
        destruct (in_dec (list_eq_dec N.eq_dec) (key p) (map fst m)) as [I|I];
          [exact I|]. apply lookup_none in I. congruence.
      - apply lookup_none in L. split.
        + apply NoDup_app; [exact D | repeat constructor; intros [] |].
          intros k Hk [<- | []]. exact (L Hk).
        + intros k. rewrite in_app_iff. cbn [In]. tauto. }
    destruct D' as [D1 D2]. destruct (IH _ D1) as [I1 I2].
    split; [exact I1|]. intros k. rewrite I2, D2. tauto.
Qed.

(** Every entry is filed under the key of its own name. *)
Definition filed (m : PropertyMap) : Prop :=
  Forall (fun kp => fst kp = key (snd kp)) m.

Lemma update_filed m k f :
  (forall c, PProperty.name (f c) = PProperty.name c) ->
  filed m -> filed (update m k f).
Proof.
  intros Hf. induction 1 as [|[k' p] m H Hm IH]; [constructor|]. cbn [update].
  destruct (eqb k' k); constructor; auto.
  cbn [fst snd] in *. unfold key in *. now rewrite Hf.
Qed.

Lemma fold_update_filed {A} (F : A -> PProperty.t -> PProperty.t) k l m :
  (forall r c, PProperty.name (F r c) = PProperty.name c) ->
  filed m -> filed (fold_left (fun m r => update m k (F r)) l m).
Proof.
  intros Hf. revert m; induction l as [|r l IH]; intros m H; [exact H|].
  cbn [fold_left]. apply IH, update_filed; auto.
Qed.

Lemma mergeProperty_filed m p : filed m -> filed (mergeProperty m p).
Proof.
  intros H. unfold mergeProperty. cbv zeta. rewrite key_eq.
  set (map1 := match lookup m (key p) with Some _ => m | None => _ end).
  assert (H1 : filed map1).
  { unfold map1. destruct (lookup m (key p)); [exact H|].
    apply Forall_app. split; [exact H|]. now repeat constructor. }
  set (map2 := if isFootnote _ then _ else map1).
  assert (H2 : filed map2).
  { unfold map2. destruct (isFootnote _); [|exact H1].
    now apply update_filed. }
  destruct (PProperty.results p); [|exact H2].
  now apply (fold_update_filed
           (fun r c => with_results c (mergeResult (or_nil (PProperty.results c)) r))).
Qed.

Lemma mergeProperties_filed ps m :
  filed m -> filed (fold_left mergeProperty ps m).
Proof.
  revert m; induction ps as [|p ps IH]; intros m H; [exact H|].
  cbn [fold_left]. apply IH, mergeProperty_filed, H.
Qed.

Lemma filed_keys m : filed m -> map key (map snd m) = map fst m.
Proof.
  induction 1 as [|kp m H _ IH]; [reflexivity|]. cbn [map]. now rewrite IH, H.
Qed.

(** [Object.values] lists every entry once. *)
Lemma insert_index_perm e l : Permutation (insert_index e l) (e :: l).
Proof.
  induction l as [|e' l IH]; [apply Permutation_refl|]. cbn [insert_index].
  destruct (fst e <=? fst e')%N; [apply Permutation_refl|].
  eapply Permutation_trans; [apply perm_skip, IH | apply perm_swap].
Qed.

Lemma Object_values_perm m : Permutation (Object_values m) (map snd m).
Proof.
  unfold Object_values. induction m as [|[k p] m IH]; [apply Permutation_refl|].
  cbn [fold_right filter fst snd map].
  destruct (array_index k) as [n|].
  - eapply Permutation_trans; [|apply perm_skip, IH].
    apply (Permutation_app_tail _
             (Permutation_map snd (insert_index_perm (n, p) _))).
  - cbn [map snd]. eapply Permutation_trans; [|apply perm_skip, IH].
    apply Permutation_sym, Permutation_middle.
Qed.

Lemma mapM_map {A B C} (f : A -> Gen.t B) (g : B -> C) (h : A -> C) :
  (forall a n, g (fst (f a n)) = h a) ->
  forall l n, map g (fst (Gen.mapM f l n)) = map h l.
Proof.
  intros H l; induction l as [|a l IH]; intros n; [reflexivity|].
  rewrite mapM_cons. cbn [map]. now rewrite H, IH.
Qed.

Lemma newProperty_name p n :
  MaterialProperty.name (fst (newProperty p n)) = str (PProperty.name p).
Proof. unfold newProperty. rewrite !bind_run. reflexivity. Qed.

(** The properties of the document after an upload that brings some. *)
Lemma uploaded_properties now x prev seed :
  incomingProperties x <> [] ->
  exists n,
    DRMD.properties (Gen.eval (handleFileUpload now x prev) seed)
    = fst (Gen.mapM newProperty
             (Object_values (mergeProperties (incomingProperties x))) n).
Proof.
  intros H. unfold handleFileUpload.
  destruct (updateDrmd_lists now (correctPayload x) prev seed)
    as (n1 & n2 & n3 & n4 & L).
  cbv zeta in L. destruct L as (_ & _ & _ & ->).
  rewrite mapM_non_empty, corrected_properties. exists n2.
  set (m := mergeProperties (incomingProperties x)).
  assert (E : List.length (Object_values m) <> 0%nat).
  { rewrite (Permutation_length (Object_values_perm m)).
    rewrite length_map, <- (length_map fst). unfold m, mergeProperties.
    destruct (incomingProperties x) as [|p ps]; [now elim H|].
    destruct (mergeProperties_keys (p :: ps) [] (NoDup_nil _)) as [_ I].
    destruct (map fst (fold_left mergeProperty (p :: ps) [])) as [|k ks];
      [|discriminate].
    destruct (proj2 (I (key p)) (or_intror (or_introl eq_refl))). }
  destruct (Object_values m); [now elim E | reflexivity].
Qed.

(** *** The number of quantities *)

Definition quantitiesOf (r : PResult.t) : nat :=
  List.length (or_nil (PResult.quantities r)).

Definition incomingQuantities (p : PProperty.t) : nat :=
  list_sum (map quantitiesOf (or_nil (PProperty.results p))).

Definition quantityCount (p : MaterialProperty.t) : nat :=
  list_sum (map (fun r => List.length (MeasurementResult.quantities r))
                (MaterialProperty.results p)).

Lemma list_sum_cons a l : list_sum (a :: l) = (a + list_sum l)%nat.
Proof. reflexivity. Qed.

Lemma mergeResult_count results r :
  list_sum (map quantitiesOf (mergeResult results r))
  = (list_sum (map quantitiesOf results) + quantitiesOf r)%nat.
Proof.
  unfold mergeResult. destruct results as [|first rest]; [cbn; lia|].
  cbv zeta. destruct (isFragment _).
  - cbn [map list_sum].
    match goal with
    | |- context [quantitiesOf (if _ then with_description ?a ?d else _)] =>
      assert (E : quantitiesOf (if present (PResult.description r)
                                then with_description a d else a)
                  = quantitiesOf a) by now destruct (present _)
    end.
    rewrite E. unfold quantitiesOf.
    destruct (PResult.quantities r) as [qs|];
      cbn [with_quantities PResult.quantities or_nil];
      [rewrite length_app|]; cbn [List.length].
    all: cbn [list_sum fold_right map].
    all: match goal with
         | |- context [fold_right ?f ?z ?l] => set (others := fold_right f z l)
         end.
    all: lia.
  - rewrite map_app, list_sum_app. cbn. lia.
Qed.

Definition held (m : PropertyMap) : nat :=
  list_sum (map (fun kp => incomingQuantities (snd kp)) m).

Lemma update_held m k f c :
  lookup m k = Some c ->
  lookup (update m k f) k = Some (f c)
  /\ (held (update m k f) + incomingQuantities c
      = held m + incomingQuantities (f c))%nat.
Proof.
  unfold held. induction m as [|[k' p] m IH]; [discriminate|].
  cbn [lookup update]. destruct (eqb k' k) eqn:E.
  - intros [= ->]. cbn [lookup map snd]. rewrite ?list_sum_cons, E. split; [reflexivity | lia].
  - intros L. destruct (IH L) as [I1 I2].
    cbn [lookup map snd]. rewrite ?list_sum_cons, E. split; [exact I1 | lia].
Qed.

Lemma fold_merge_held k rs : forall m c,
  lookup m k = Some c ->
  held (fold_left
          (fun m r =>
             update m k
               (fun c => with_results c (mergeResult (or_nil (PProperty.results c)) r)))
          rs m)
  = (held m + list_sum (map quantitiesOf rs))%nat.
Proof.
  induction rs as [|r rs IH]; intros m c L; cbn [fold_left map]; [cbn; lia|]. rewrite list_sum_cons.
  destruct (update_held m k
              (fun c => with_results c (mergeResult (or_nil (PProperty.results c)) r))
              c L) as [L' H].
  rewrite (IH _ _ L').
  unfold incomingQuantities at 2 in H.
  cbn [with_results PProperty.results or_nil] in H.
  rewrite mergeResult_count in H. fold (incomingQuantities c) in H. lia.
Qed.

Lemma mergeProperty_held m p :
  held (mergeProperty m p) = (held m + incomingQuantities p)%nat.
Proof.
  unfold mergeProperty. cbv zeta. rewrite key_eq.
  set (map1 := match lookup m (key p) with Some _ => m | None => _ end).
  assert (H1 : held map1 = held m /\ exists c, lookup map1 (key p) = Some c).
  { unfold map1. destruct (lookup m (key p)) as [c|] eqn:L; [split; eauto|].
    split.
    - unfold held. rewrite map_app, list_sum_app. cbn. lia.
    - exists (with_results p []). clear map1.
      induction m as [|[k' q] m IH]; cbn [lookup app] in *.
      + now rewrite eqb_refl.
      + destruct (eqb k' (key p)); [discriminate | auto]. }
  destruct H1 as [H1 [c L1]].
  set (map2 := if isFootnote _ then _ else map1).
  assert (H2 : held map2 = held m /\ exists c, lookup map2 (key p) = Some c).
  { unfold map2. destruct (isFootnote _); [|split; eauto].
    destruct (update_held map1 (key p) clear_description c L1) as [L2 H].
    split; [|eauto]. unfold incomingQuantities at 2 in H.
    cbn [clear_description PProperty.results] in H.
    fold (incomingQuantities c) in H. lia. }
  destruct H2 as [H2 [c2 L2]].
  unfold incomingQuantities.
  destruct (PProperty.results p) as [rs|]; cbn [or_nil map]; [|cbn; lia].
  rewrite (fold_merge_held _ _ _ _ L2), H2. f_equal.
  destruct rs as [|r0 rest]; [reflexivity|].
  destruct (isFootnote _); reflexivity.
Qed.

Lemma mergeProperties_held ps m :
  held (fold_left mergeProperty ps m)
  = (held m + list_sum (map incomingQuantities ps))%nat.
Proof.
  revert m; induction ps as [|p ps IH]; intros m; cbn [fold_left map]; [cbn; lia|].
  rewrite list_sum_cons, IH, mergeProperty_held. lia.
Qed.

Lemma list_sum_perm l l' : Permutation l l' -> list_sum l = list_sum l'.
Proof. induction 1; rewrite ?list_sum_cons; lia. Qed.

Lemma newResult_count r n :
  List.length (MeasurementResult.quantities (fst (newResult r n))) = quantitiesOf r.
Proof. rewrite newResult_quantities. apply mapM_length. Qed.

Lemma newProperty_count p n :
  quantityCount (fst (newProperty p n)) = incomingQuantities p.
Proof.
  unfold quantityCount, incomingQuantities. rewrite newProperty_results.
  f_equal. apply mapM_map. exact newResult_count.
Qed.

(** *** The quantities built *)

Import UnitLookup.

Definition settled (q : Quantity.t) : Prop :=
  truthy (Quantity.coverageFactor q) = true
  /\ truthy (Quantity.coverageProbability q) = true
  /\ truthy (Quantity.distribution q) = true
  /\ (truthy (Quantity.value q) = false ->
      starts_with_comparison (Quantity.uncertainty q) = false)
  /\ UnitConverter.convertToDSI (Some (VString (Quantity.value q)))
                                (Some (Quantity.unit q))
     = {| dsiValue := Quantity.dsiValue q; dsiUnit := Quantity.dsiUnit q |}.

Definition tabled (r : MeasurementResult.t) : Prop :=
  (1 < Js.length (MeasurementResult.name r))%nat
  /\ Forall settled (MeasurementResult.quantities r).

Lemma or_str_truthy x d : truthy d = true -> truthy (or_str x d) = true.
Proof.
  intros H. unfold or_str. destruct x as [s|]; [|exact H].
  destruct (truthy s) eqn:E; [exact E | exact H].
Qed.

Lemma convertToDSI_unit v u :
  UnitConverter.convertToDSI v u = UnitConverter.convertToDSI v (Some (or_str u [])).
Proof.
  assert (E : UnitConverter.convertToDSI v (Some []) = empty_result).
  { unfold UnitConverter.convertToDSI. destruct v as [v|]; [|reflexivity].
    cbv zeta.
    assert (R : fst (resolve UnitConverter.UNIT_MAP (clean [])) = None)
      by (vm_compute; reflexivity).
    now rewrite R. }
  unfold or_str. destruct u as [s|].
  - destruct s; reflexivity.
  - transitivity empty_result; [now destruct v | symmetry; exact E].
Qed.

Lemma newQuantity_settled q uuid : settled (newQuantity q uuid).
Proof.
  unfold settled, newQuantity. cbv zeta.
  cbn [Quantity.coverageFactor Quantity.coverageProbability Quantity.distribution
       Quantity.value Quantity.uncertainty Quantity.unit Quantity.dsiValue
       Quantity.dsiUnit].
  repeat split; try (apply or_str_truthy; reflexivity).
  - set (v := or_str (PQuantity.value q) []).
    set (u := or_str (PQuantity.uncertainty q) []).
    destruct (truthy v) eqn:V; cbn [negb andb].
    + intros H. rewrite V in H. discriminate H.
    + destruct (truthy u) eqn:U; cbn [andb].
      * destruct (starts_with_comparison u) eqn:S;
          [now rewrite U | intros _; exact S].
      * intros _. destruct u; [reflexivity | discriminate U].
  - rewrite <- convertToDSI_unit.
    now destruct (UnitConverter.convertToDSI _ _).
Qed.

Lemma newResult_tabled r n : tabled (fst (newResult r n)).
Proof.
  split.
  - unfold newResult. rewrite !bind_run. cbn [Gen.ret fst MeasurementResult.name].
    destruct (PResult.name r) as [s|]; [|cbn; lia].
    destruct (truthy s && (1 <? Js.length s)%nat) eqn:E; [|cbn; lia].
    apply andb_true_iff in E. destruct E as [_ E]. now apply Nat.ltb_lt in E.
  - rewrite newResult_quantities. apply mapM_Forall.
    intros q m. rewrite bind_run. apply newQuantity_settled.
Qed.

Lemma newProperty_tabled p n :
  Forall tabled (MaterialProperty.results (fst (newProperty p n))).
Proof. rewrite newProperty_results. apply mapM_Forall, newResult_tabled. Qed.

(** Three extracted properties, two of them under one key; a result
    without a name and a quantity that has only a bound. *)
Definition row (name : string) (value uncertainty : option jsstring) (unit : string)
  : PQuantity.t :=
  {| PQuantity.name := Some (js name);
     PQuantity.value := value;
     PQuantity.unit := Some (js unit);
     PQuantity.dsiValue := None;
     PQuantity.dsiUnit := None;
     PQuantity.uncertainty := uncertainty;
     PQuantity.coverageFactor := None;
     PQuantity.coverageProbability := None;
     PQuantity.distribution := None;
     PQuantity.fieldCoordinates := None |}.

Definition table (name : string) (qs : list PQuantity.t) : PResult.t :=
  {| PResult.name := Some (js name);
     PResult.description := None;
     PResult.sectionCoordinates := None;
     PResult.quantities := Some qs |}.

Definition group (name : string) (rs : list PResult.t) : PProperty.t :=
  {| PProperty.name := Some (js name);
     PProperty.isCertified := Some true;
     PProperty.description := None;
     PProperty.procedures := None;
     PProperty.results := Some rs |}.

Definition tablesPayload : Payload.t :=
  {| Payload.administrativeData := None;
     Payload.materials := None;
     Payload.properties :=
       Some [ group "Certified Values"
                [table "Mass fractions"
                   [row "Pb" None (Some (js "< 4")) "mg/kg";
                    row "Zn" (Some (js "3")) (Some (js "0.2")) "mg/kg"]];
              group "certified values:"
                [table "in %" [row "Fe" (Some (js "1.2")) None "%"]];
              group "Informative Values"
                [table "" [row "Cu" (Some (js "0.4")) None "%"]] ];
     Payload.statements := None |}.

Definition uploadedTables : DRMD.t :=
  Gen.eval (handleFileUpload (js "2026-02-02") (Some tablesPayload)
              (Types.INITIAL_DRMD (js "2026-01-01"))) 0.

Lemma tables_own_keys : own_keys (incomingProperties (Some tablesPayload)).
Proof. repeat constructor; intros H; vm_compute in H; discriminate H. Qed.

(** X23.  After an upload that brings properties, no two properties of the
    document have the same key, and the keys are those of the extracted
    names: the properties of one key have become one.  (The key
    [constructor], which the object literal of the code inherits, is set
    aside.) *)
Theorem uploaded_properties_one_per_key now x prev seed :
  own_keys (incomingProperties x) ->
  incomingProperties x <> [] ->
  let keys :=
    map (fun p => propertyKey (MaterialProperty.name p))
        (DRMD.properties (Gen.eval (handleFileUpload now x prev) seed)) in
  NoDup keys
  /\ forall k, In k keys
               <-> In k (map (fun p => propertyKey (str (PProperty.name p)))
                             (incomingProperties x)).
Proof.
  intros _ H. cbv zeta. destruct (uploaded_properties now x prev seed H) as [n ->].
  rewrite (mapM_map newProperty (fun p => propertyKey (MaterialProperty.name p)) key)
    by (intros; now rewrite newProperty_name).
  set (m := mergeProperties (incomingProperties x)).
  assert (P : Permutation (map key (Object_values m)) (map fst m)).
  { rewrite <- (filed_keys m)
      by (apply mergeProperties_filed; constructor).
    apply Permutation_map, Object_values_perm. }
  destruct (mergeProperties_keys (incomingProperties x) [] (NoDup_nil _)) as [D I].
  fold (mergeProperties (incomingProperties x)) in D, I. fold m in D, I.
  split.
  - exact (Permutation_NoDup (Permutation_sym P) D).
  - intros k. split.
    + intros Hk. apply (Permutation_in _ P) in Hk. apply I in Hk.
      destruct Hk as [[]|Hk]. exact Hk.
    + intros Hk. apply (Permutation_in _ (Permutation_sym P)). apply I. now right.
Qed.

Lemma uploaded_properties_one_per_key_witness :
  let keys :=
    map (fun p => propertyKey (MaterialProperty.name p)) (DRMD.properties uploadedTables) in
  (NoDup keys
   /\ forall k, In k keys
                <-> In k (map (fun p => propertyKey (str (PProperty.name p)))
                              (incomingProperties (Some tablesPayload))))
  /\ keys = [js "certifiedvalues"; js "informativevalues"].
Proof.
  cbv zeta. split; [|vm_compute; reflexivity].
  apply (uploaded_properties_one_per_key (js "2026-02-02") (Some tablesPayload)
           (Types.INITIAL_DRMD (js "2026-01-01")) 0 tables_own_keys).
  discriminate.
Defined.

(** X24.  The merging loses and invents no quantity: the properties of the
    document after an upload hold as many quantities as the extracted
    properties did. *)
Theorem uploaded_quantities_conserved now x prev seed :
  own_keys (incomingProperties x) ->
  incomingProperties x <> [] ->
  list_sum (map quantityCount
                (DRMD.properties (Gen.eval (handleFileUpload now x prev) seed)))
  = list_sum (map incomingQuantities (incomingProperties x)).
Proof.
  intros _ H. destruct (uploaded_properties now x prev seed H) as [n ->].
  rewrite (mapM_map newProperty quantityCount incomingQuantities newProperty_count).
  rewrite (list_sum_perm _ _
             (Permutation_map incomingQuantities (Object_values_perm _))).
  rewrite map_map.
  exact (mergeProperties_held (incomingProperties x) []).
Qed.

Lemma uploaded_quantities_conserved_witness :
  list_sum (map quantityCount (DRMD.properties uploadedTables)) = 4%nat
  /\ list_sum (map quantityCount (DRMD.properties uploadedTables))
     = list_sum (map incomingQuantities (incomingProperties (Some tablesPayload))).
Proof.
  split; [vm_compute; reflexivity|].
  apply (uploaded_quantities_conserved (js "2026-02-02") (Some tablesPayload)
           (Types.INITIAL_DRMD (js "2026-01-01")) 0 tables_own_keys).
  discriminate.
Defined.

(** X25.  After an upload that brings properties, every result has a name of
    more than one character, and every quantity has a coverage factor,
    a coverage probability and a distribution, is not left with an empty
    value beside an uncertainty that starts with a comparison sign, and
    has the D-SI value and unit that [convertToDSI] gives for its value
    and unit. *)
Theorem uploaded_results_settled now x prev seed :
  own_keys (incomingProperties x) ->
  incomingProperties x <> [] ->
  Forall (fun p => Forall tabled (MaterialProperty.results p))
         (DRMD.properties (Gen.eval (handleFileUpload now x prev) seed)).
Proof.
  intros _ H. destruct (uploaded_properties now x prev seed H) as [n ->].
  apply mapM_Forall, newProperty_tabled.
Qed.

Lemma uploaded_results_settled_witness :
  Forall (fun p => Forall tabled (MaterialProperty.results p))
         (DRMD.properties uploadedTables)
  /\ map (fun p =>
            map (fun r =>
                   (MeasurementResult.name r,
                    map (fun q => (Quantity.value q, Quantity.uncertainty q,
                                   Quantity.dsiValue q, Quantity.dsiUnit q))
                        (MeasurementResult.quantities r)))
                (MaterialProperty.results p))
         (DRMD.properties uploadedTables)
     = [ [ (js "Mass fractions",
            [ (js "< 4", [], js "4", js "\milli\gram\kilogram\tothe{-1}");
              (js "3", js "0.2", js "3", js "\milli\gram\kilogram\tothe{-1}");
              (js "1.2", [], js "0.012", js "\one") ]) ];
         [ (js "Values", [ (js "0.4", [], js "0.004", js "\one") ]) ] ].
Proof.
  split; [|vm_compute; reflexivity].
  apply (uploaded_results_settled (js "2026-02-02") (Some tablesPayload)
           (Types.INITIAL_DRMD (js "2026-01-01")) 0 tables_own_keys).
  discriminate.
Defined.

(** *** The four lists after an upload *)









End MergeFacts.

(** ** The D-SI members set by the extraction service *)

Module PostProcessFacts.

Import Js JsFacts GenFacts App AppFacts GeminiService.

Lemma mapM_over_map {A B} (f : A -> Gen.t B) (g : A -> A) :
  (forall a n, f (g a) n = f a n) ->
  forall l n, Gen.mapM f (map g l) n = Gen.mapM f l n.
Proof.
  intros H l; induction l as [|a l IH]; intros n; [reflexivity|].
  cbn [map Gen.mapM]. unfold Gen.bind. rewrite H. destruct (f a n) as [b n'].
  now rewrite IH.
Qed.

Lemma or_nil_map {A} (g : A -> A) (o : option (list A)) :
  or_nil (option_map (map g) o) = map g (or_nil o).
Proof. now destruct o. Qed.

Lemma newResult_withDsi r n : newResult (resultWithDsi r) n = newResult r n.
Proof.
  unfold newResult. cbn [resultWithDsi PResult.quantities PResult.name
    PResult.description PResult.sectionCoordinates].
  rewrite or_nil_map. unfold Gen.bind at 1 3.
  rewrite (mapM_over_map
             (fun q => uuid <- Gen.generateUUID ;; Gen.ret (newQuantity q uuid)) withDsi)
    by reflexivity.
  reflexivity.
Qed.

Lemma newProperty_withDsi p n : newProperty (propertyWithDsi p) n = newProperty p n.
Proof.
  unfold newProperty. cbn [propertyWithDsi PProperty.results PProperty.name
    PProperty.isCertified PProperty.description PProperty.procedures].
  rewrite or_nil_map. unfold Gen.bind at 1 3.
  now rewrite (mapM_over_map newResult resultWithDsi newResult_withDsi).
Qed.

(** The table of the properties with the D-SI members set. *)
Definition tableWithDsi (m : PropertyMap) : PropertyMap :=
  map (fun kp => (fst kp, propertyWithDsi (snd kp))) m.

Lemma lookup_withDsi m k :
  lookup (tableWithDsi m) k = option_map propertyWithDsi (lookup m k).
Proof.
  induction m as [|[k' p] m IH]; [reflexivity|]. cbn [tableWithDsi map lookup fst snd].
  destruct (eqb k' k); [reflexivity | exact IH].
Qed.

Lemma update_withDsi m k f g :
  (forall c, g (propertyWithDsi c) = propertyWithDsi (f c)) ->
  update (tableWithDsi m) k g = tableWithDsi (update m k f).
Proof.
  intros H. induction m as [|[k' p] m IH]; [reflexivity|].
  cbn [tableWithDsi map update fst snd].
  destruct (eqb k' k); cbn [map fst snd]; [now rewrite H|].
  f_equal. exact IH.
Qed.

Lemma mergeResult_withDsi results r :
  mergeResult (map resultWithDsi results) (resultWithDsi r)
  = map resultWithDsi (mergeResult results r).
Proof.
  unfold mergeResult. cbn [resultWithDsi PResult.name PResult.description].
  destruct results as [|first rest]; [reflexivity|]. cbn [map]. cbv zeta.
  destruct (isFragment _).
  - cbn [map]. f_equal.
    cbn [resultWithDsi PResult.quantities].
    destruct (PResult.quantities r) as [qs|]; cbn [option_map].
    + destruct (present (PResult.description r)); unfold resultWithDsi;
        cbn [with_description with_quantities PResult.name PResult.description
             PResult.sectionCoordinates PResult.quantities option_map];
        now rewrite or_nil_map, map_app.
    + now destruct (present (PResult.description r)).
  - change (resultWithDsi first :: map resultWithDsi rest)
      with (map resultWithDsi (first :: rest)).
    now rewrite map_app.
Qed.

Lemma fold_merge_withDsi k rs : forall m,
  fold_left
    (fun m r =>
       update m k
         (fun c => with_results c (mergeResult (or_nil (PProperty.results c)) r)))
    (map resultWithDsi rs) (tableWithDsi m)
  = tableWithDsi
      (fold_left
         (fun m r =>
            update m k
              (fun c => with_results c (mergeResult (or_nil (PProperty.results c)) r)))
         rs m).
Proof.
  induction rs as [|r rs IH]; intros m; [reflexivity|]. cbn [map fold_left].
  rewrite <- IH. f_equal. apply update_withDsi. intros c.
  unfold propertyWithDsi at 1 2.
  cbn [with_results PProperty.name PProperty.isCertified PProperty.description
       PProperty.procedures PProperty.results].
  rewrite or_nil_map, mergeResult_withDsi. reflexivity.
Qed.

Lemma mergeProperty_withDsi m p :
  mergeProperty (tableWithDsi m) (propertyWithDsi p)
  = tableWithDsi (mergeProperty m p).
Proof.
  unfold mergeProperty. cbv zeta.
  cbn [propertyWithDsi PProperty.name PProperty.description PProperty.results].
  set (k := normalizeName _). rewrite lookup_withDsi.
  set (map1 := match lookup m k with Some _ => m | None => _ end).
  assert (E1 : match option_map propertyWithDsi (lookup m k) with
               | Some _ => tableWithDsi m
               | None => tableWithDsi m ++ [(k, with_results (propertyWithDsi p) [])]
               end = tableWithDsi map1).
  { unfold map1. destruct (lookup m k); [reflexivity|].
    unfold tableWithDsi. now rewrite map_app. }
  rewrite E1. set (f := isFootnote _).
  set (map2 := if f then update map1 k clear_description else map1).
  assert (E2 : (if f then update (tableWithDsi map1) k clear_description
                else tableWithDsi map1) = tableWithDsi map2).
  { unfold map2. destruct f; [|reflexivity]. now apply update_withDsi. }
  rewrite E2.
  destruct (PProperty.results p) as [rs|]; cbn [option_map]; [|reflexivity].
  rewrite <- fold_merge_withDsi. f_equal.
  destruct rs as [|r0 rest]; [reflexivity|]. cbn [map].
  destruct f; reflexivity.
Qed.

Lemma mergeProperties_withDsi ps : forall m,
  fold_left mergeProperty (map propertyWithDsi ps) (tableWithDsi m)
  = tableWithDsi (fold_left mergeProperty ps m).
Proof.
  induction ps as [|p ps IH]; intros m; [reflexivity|]. cbn [map fold_left].
  now rewrite mergeProperty_withDsi, IH.
Qed.

Lemma insert_index_withDsi n p l :
  insert_index (n, propertyWithDsi p)
    (map (fun e => (fst e, propertyWithDsi (snd e))) l)
  = map (fun e => (fst e, propertyWithDsi (snd e))) (insert_index (n, p) l).
Proof.
  induction l as [|e l IH]; [reflexivity|]. cbn [map insert_index fst].
  destruct (n <=? fst e)%N; [reflexivity|]. cbn [map]. now rewrite IH.
Qed.

Lemma snd_withDsi {K} (l : list (K * PProperty.t)) :
  map snd (map (fun e => (fst e, propertyWithDsi (snd e))) l)
  = map propertyWithDsi (map snd l).
Proof. rewrite !map_map. reflexivity. Qed.

Lemma Object_values_withDsi m :
  Object_values (tableWithDsi m) = map propertyWithDsi (Object_values m).
Proof.
  unfold Object_values. rewrite map_app. f_equal.
  - rewrite <- snd_withDsi. f_equal.
    induction m as [|[k p] m IH]; [reflexivity|].
    cbn [tableWithDsi map fold_right fst snd].
    fold (tableWithDsi m). rewrite IH.
    destruct (array_index k); [apply insert_index_withDsi | reflexivity].
  - rewrite <- snd_withDsi. f_equal.
    induction m as [|[k p] m IH]; [reflexivity|].
    cbn [tableWithDsi map filter fst snd]. fold (tableWithDsi m).
    destruct (array_index k); [exact IH|]. cbn [map fst snd]. now rewrite IH.
Qed.

(** X26.  What [extractStructuredDataFromPdf] adds to the parsed data is not
    seen after the upload: the document built from the data with the
    D-SI members set is the one built from the data as parsed. *)
Theorem upload_ignores_extracted_dsi now parsedData prev seed :
  Gen.eval (handleFileUpload now (Some (postProcess parsedData)) prev) seed
  = Gen.eval (handleFileUpload now (Some parsedData) prev) seed.
Proof.
  unfold handleFileUpload, Gen.eval. f_equal.
  set (x := {| Payload.administrativeData :=
                 option_map correctAdmin (Payload.administrativeData parsedData);
               Payload.materials := Payload.materials parsedData;
               Payload.properties := Payload.properties parsedData;
               Payload.statements := Payload.statements parsedData |}).
  change (correctPayload (Some (postProcess parsedData))) with (Some (postProcess x)).
  change (correctPayload (Some parsedData)) with (Some x).
  unfold updateDrmd.
  change (member_of (Some (postProcess x)) Payload.administrativeData)
    with (member_of (Some x) Payload.administrativeData).
  change (member_of (Some (postProcess x)) Payload.materials)
    with (member_of (Some x) Payload.materials).
  change (member_of (Some (postProcess x)) Payload.statements)
    with (member_of (Some x) Payload.statements).
  change (member_of (Some (postProcess x)) Payload.properties)
    with (option_map (map propertyWithDsi) (member_of (Some x) Payload.properties)).
  rewrite or_nil_map. unfold mergeProperties.
  rewrite (mergeProperties_withDsi _ []), Object_values_withDsi.
  rewrite !bind_run.
  rewrite (mapM_over_map newProperty propertyWithDsi newProperty_withDsi).
  reflexivity.
Qed.

End PostProcessFacts.
